(** * Reconciliation, metrics and anomaly scan of the insight engine

    A shallow embedding of [src/data_processing.py] ([process_data]) and of
    the two [_detect_anomalies] functions of [src/report_generator/], with the
    part of pandas they rely on.

    Conventions of the embedding.
    - A cell is a [value].  pandas has one notion of "missing" ([isna]): NaN
      in a float column, [None] in an object column, [NaT] in a datetime
      column.  All three are [VNull].
    - A finite float is the rational it denotes and arithmetic on finite
      numbers is exact; the two infinities are kept, because the code tests
      for them.  Rounding and overflow of binary64, and the wrap-around of
      int64, are not modelled: a theorem whose truth depends on them takes
      its inputs in a range where the code's arithmetic is that of the
      model ([moderate_inputs], [exact_counts]), and the places where a
      claim sits on a rounding or overflow boundary are re-checked on
      binary64 itself in modules [Binary64] and [Doubles].
    - A frame is a list of rows under a list of column names; a row is an
      association list from column name to cell.
    - Exceptions are values of [exn]; a computation that can raise returns a
      [result]. *)

From Stdlib Require Import String Ascii List ZArith QArith Qreduction Bool Lia.
From Stdlib Require Import Permutation DecimalString Sorted.
From Stdlib Require Floats.SpecFloat.
Import ListNotations.
Close Scope Q_scope.
Open Scope string_scope.
Open Scope list_scope.

(** ** Exceptions and results *)

Inductive exn :=
| KeyError (column : string)
| NameError (name : string)
| ValueError
| TypeError
| ZeroDivisionError
| OverflowError.

Inductive result (A : Type) :=
| Ok (a : A)
| Err (e : exn).
Arguments Ok {A} a.
Arguments Err {A} e.

Definition bind {A B} (m : result A) (k : A -> result B) : result B :=
  match m with
  | Ok a => k a
  | Err e => Err e
  end.

Notation "x <- m ;; k" := (bind m (fun x => k))
  (at level 61, m at next level, right associativity).

Fixpoint mapM {A B} (f : A -> result B) (l : list A) : result (list B) :=
  match l with
  | [] => Ok []
  | x :: xs => y <- f x ;; ys <- mapM f xs ;; Ok (y :: ys)
  end.

(** ** Cells *)

Inductive value :=
| VNull
| VStr (s : string)
| VTime (t : Z)
| VNum (q : Q)
| VInf (neg : bool).

Definition is_null (v : value) : bool :=
  match v with VNull => true | _ => false end.

Definition is_inf (v : value) : bool :=
  match v with VInf _ => true | _ => false end.

(** What a float64 or int64 column may hold. *)
Definition is_numeric (v : value) : bool :=
  match v with VNull | VNum _ | VInf _ => true | _ => false end.

(** A number that is neither missing nor infinite. *)
Definition is_finite (v : value) : bool :=
  match v with VNum _ => true | _ => false end.

(** What a measured cell of a well-formed dataset holds: a finite number
    or nothing. *)
Definition finite_or_null (v : value) : bool := is_numeric v && negb (is_inf v).

Definition null_or_finite (v : value) : Prop := v = VNull \/ exists q, v = VNum q.


Definition is_zero (v : value) : bool :=
  match v with VNum q => Qeq_bool q 0 | _ => false end.

Definition Qneg_bool (q : Q) : bool := negb (Qle_bool 0 q).

(** *** Float arithmetic (IEEE special cases, exact on finite numbers)

    The sum, product and quotient of two finite numbers are the exact
    ones: no rounding to binary64, no overflow to an infinity, no
    wrap-around of int64.  The code's results are these on whole numbers of
    magnitude at most 2^53, and they stay finite on magnitudes at most
    1e100; theorems that need either say so in their hypotheses. *)

Definition vneg (a : value) : value :=
  match a with
  | VNum x => VNum (Qred (- x))
  | VInf s => VInf (negb s)
  | _ => VNull
  end.

Definition vadd (a b : value) : value :=
  match a, b with
  | VNum x, VNum y => VNum (Qred (x + y))
  | VInf s, VNum _ => VInf s
  | VNum _, VInf s => VInf s
  | VInf s, VInf t => if Bool.eqb s t then VInf s else VNull
  | _, _ => VNull
  end.

Definition vsub (a b : value) : value := vadd a (vneg b).

Definition vmul (a b : value) : value :=
  match a, b with
  | VNum x, VNum y => VNum (Qred (x * y))
  | VInf s, VNum y => if Qeq_bool y 0 then VNull else VInf (xorb s (Qneg_bool y))
  | VNum x, VInf s => if Qeq_bool x 0 then VNull else VInf (xorb s (Qneg_bool x))
  | VInf s, VInf t => VInf (xorb s t)
  | _, _ => VNull
  end.

(** numpy's true division: a zero divisor gives an infinity, or NaN for
    0/0; nothing is raised. *)
Definition vdiv (a b : value) : value :=
  match a, b with
  | VNum x, VNum y =>
      if Qeq_bool y 0 then
        if Qeq_bool x 0 then VNull else VInf (Qneg_bool x)
      else VNum (Qred (x / y))
  | VInf s, VNum y => VInf (xorb s (Qneg_bool y))
  | VNum _, VInf _ => VNum 0
  | _, _ => VNull
  end.

(** [a <= b] on floats: false as soon as one side is NaN. *)
Definition vleb (a b : value) : bool :=
  match a, b with
  | VNum x, VNum y => Qle_bool x y
  | VInf true, (VNum _ | VInf _) => true
  | (VNum _ | VInf _), VInf false => true
  | _, _ => false
  end.

(** Truth value of a Python float: every float but zero, NaN included. *)
Definition truthy (a : value) : bool := negb (is_zero a).

(** [Series.sum()]: missing cells are skipped, the empty sum is 0. *)
Definition vsum (l : list value) : value :=
  fold_left vadd (filter (fun v => negb (is_null v)) l) (VNum 0).

(** [Series.mean()]: the mean of the cells that are not missing, NaN when
    there is none. *)
Definition vmean (l : list value) : value :=
  let xs := filter (fun v => negb (is_null v)) l in
  match xs with
  | [] => VNull
  | _ => vdiv (vsum xs) (VNum (inject_Z (Z.of_nat (length xs))))
  end.

(** [Series.replace([inf, -inf], nan)] on one cell. *)
Definition replace_inf (v : value) : value :=
  if is_inf v then VNull else v.

(** *** Equality and order of cells, as grouping and sorting use them *)

Definition value_eqb (a b : value) : bool :=
  match a, b with
  | VNull, VNull => true
  | VStr s, VStr t => String.eqb s t
  | VTime s, VTime t => Z.eqb s t
  | VNum x, VNum y => Qeq_bool x y
  | VInf s, VInf t => Bool.eqb s t
  | _, _ => false
  end.

(** Elementwise [==] of a column against a scalar: a missing side never
    compares equal. *)
Definition py_eq (a b : value) : bool :=
  negb (is_null a) && negb (is_null b) && value_eqb a b.

Definition type_rank (v : value) : Z :=
  match v with
  | VInf true => 1 | VNum _ => 2 | VInf false => 3
  | VTime _ => 4 | VStr _ => 5 | VNull => 6
  end%Z.

Definition value_compare (a b : value) : comparison :=
  match a, b with
  | VStr s, VStr t => String.compare s t
  | VTime s, VTime t => Z.compare s t
  | VNum x, VNum y => Qcompare x y
  | _, _ => Z.compare (type_rank a) (type_rank b)
  end.

Definition key := list value.

Fixpoint key_eqb (k1 k2 : key) : bool :=
  match k1, k2 with
  | [], [] => true
  | a :: k1', b :: k2' => value_eqb a b && key_eqb k1' k2'
  | _, _ => false
  end.

Fixpoint key_compare (k1 k2 : key) : comparison :=
  match k1, k2 with
  | [], [] => Eq
  | [], _ :: _ => Lt
  | _ :: _, [] => Gt
  | a :: k1', b :: k2' =>
      match value_compare a b with
      | Eq => key_compare k1' k2'
      | c => c
      end
  end.

Definition key_leb (k1 k2 : key) : bool :=
  match key_compare k1 k2 with Gt => false | _ => true end.

(** ** Frames *)

Definition row := list (string * value).

Fixpoint lookup (c : string) (r : row) : option value :=
  match r with
  | [] => None
  | (c', v) :: r' => if String.eqb c c' then Some v else lookup c r'
  end.

Definition cell (r : row) (c : string) : value :=
  match lookup c r with
  | Some v => v
  | None => VNull
  end.

(** [r[c] = v]: overwrite the cell in place, or add it at the end. *)
Fixpoint set_cell (c : string) (v : value) (r : row) : row :=
  match r with
  | [] => [(c, v)]
  | (c', v') :: r' =>
      if String.eqb c c' then (c', v) :: r' else (c', v') :: set_cell c v r'
  end.

Record DataFrame := mkDF {
  columns : list string;
  rows : list row
}.

Definition has_column (df : DataFrame) (c : string) : bool :=
  existsb (String.eqb c) (columns df).

(** [df[c]] as a list of cells. *)
Definition col (df : DataFrame) (c : string) : list value :=
  map (fun r => cell r c) (rows df).

(** [cols - set(df.columns)], listed in the order of [cols]. *)
Definition missing_columns (cols : list string) (df : DataFrame) : list string :=
  filter (fun c => negb (has_column df c)) cols.

(** [df[c] = f(row)] for every row. *)
Definition assign (c : string) (f : row -> value) (df : DataFrame) : DataFrame :=
  {| columns := if has_column df c then columns df else columns df ++ [c];
     rows := map (fun r => set_cell c (f r) r) (rows df) |}.

(** *** Sorting *)

Fixpoint insert_by {A} (leb : A -> A -> bool) (x : A) (l : list A) : list A :=
  match l with
  | [] => [x]
  | y :: l' => if leb x y then x :: y :: l' else y :: insert_by leb x l'
  end.

Definition sort_by {A} (leb : A -> A -> bool) (l : list A) : list A :=
  fold_right (insert_by leb) [] l.

Definition key_of (by_ : list string) (r : row) : key := map (cell r) by_.

(** [df.sort_values(by)].  Rows of equal key keep their order; the frames
    sorted in this program have one row per key. *)
Definition sort_values (by_ : list string) (df : DataFrame) : DataFrame :=
  {| columns := columns df;
     rows := sort_by (fun r1 r2 => key_leb (key_of by_ r1) (key_of by_ r2)) (rows df) |}.

(** *** Grouping *)

Definition has_null_key (k : key) : bool := existsb is_null k.

Fixpoint unique_keys (ks : list key) : list key :=
  match ks with
  | [] => []
  | k :: rest =>
      let u := unique_keys rest in
      if existsb (key_eqb k) u then u else k :: u
  end.

(** The groups of [df.groupby(by)]: rows with a missing key are left out
    (pandas' [dropna=True]), the group keys come sorted ([sort=True]), and
    each group keeps its rows in frame order. *)
Definition groups (by_ : list string) (rs : list row) : list (key * list row) :=
  let valid := filter (fun r => negb (has_null_key (key_of by_ r))) rs in
  map (fun k => (k, filter (fun r => key_eqb (key_of by_ r) k) valid))
      (sort_by key_leb (unique_keys (map (key_of by_) valid))).

Inductive aggfn := Sum | Mean.

Definition apply_agg (f : aggfn) (l : list value) : value :=
  match f with
  | Sum => vsum l
  | Mean => vmean l
  end.

Definition group_row (by_ : list string) (aggs : list (string * aggfn))
    (g : key * list row) : row :=
  combine by_ (fst g)
  ++ map (fun cf => (fst cf, apply_agg (snd cf) (map (fun r => cell r (fst cf)) (snd g)))) aggs.

Definition first_missing (cols : list string) (df : DataFrame) : option string :=
  match missing_columns cols df with
  | [] => None
  | c :: _ => Some c
  end.

Definition numeric_column (df : DataFrame) (c : string) : bool :=
  forallb is_numeric (col df c).

(** [df.groupby(by, as_index=False).agg({c: f, ...})].  A column that does
    not exist is a [KeyError].  The aggregated columns must be numeric
    (int64 or float64, which is how [read_csv] types a column of numbers and
    blanks); on any other column [TypeError] stands for what pandas does. *)
Definition groupby_agg (by_ : list string) (aggs : list (string * aggfn))
    (df : DataFrame) : result DataFrame :=
  match first_missing (by_ ++ map fst aggs) df with
  | Some c => Err (KeyError c)
  | None =>
      if forallb (numeric_column df) (map fst aggs) then
        Ok {| columns := by_ ++ map fst aggs;
              rows := map (group_row by_ aggs) (groups by_ (rows df)) |}
      else Err TypeError
  end.

(** *** Left join *)

Definition other_columns (on : list string) (df : DataFrame) : list string :=
  filter (fun c => negb (existsb (String.eqb c) on)) (columns df).

(** [pd.merge(left, right, on=on, how="left")]: every left row is kept, in
    order; it is paired with each right row of equal key, or padded with
    missing cells when there is none.  The frames joined in this program
    share no column besides the keys, so pandas' renaming of clashing
    columns never applies. *)
Definition merge_left (on : list string) (left right : DataFrame) : result DataFrame :=
  match first_missing on left, first_missing on right with
  | Some c, _ => Err (KeyError c)
  | None, Some c => Err (KeyError c)
  | None, None =>
      let extra := other_columns on right in
      Ok {| columns := columns left ++ extra;
            rows := flat_map (fun l =>
                      match filter (fun r => key_eqb (key_of on r) (key_of on l)) (rows right) with
                      | [] => [l ++ map (fun c => (c, VNull)) extra]
                      | ms => map (fun r => l ++ map (fun c => (c, cell r c)) extra) ms
                      end) (rows left) |}
  end.

(** *** Whole columns *)

(** [df[c] = vs]. *)
Definition set_column (c : string) (vs : list value) (df : DataFrame) : DataFrame :=
  {| columns := if has_column df c then columns df else columns df ++ [c];
     rows := map (fun rv => set_cell c (snd rv) (fst rv)) (combine (rows df) vs) |}.

(** [df[out] = df[num] / df[den]]. *)
Definition assign_ratio (out num den : string) (df : DataFrame) : result DataFrame :=
  match first_missing [num; den] df with
  | Some c => Err (KeyError c)
  | None => Ok (assign out (fun r => vdiv (cell r num) (cell r den)) df)
  end.

(** [df[c] = df[c].replace([float("inf"), float("-inf")], float("nan"))]. *)
Definition replace_inf_column (c : string) (df : DataFrame) : result DataFrame :=
  match first_missing [c] df with
  | Some c' => Err (KeyError c')
  | None => Ok (assign c (fun r => replace_inf (cell r c)) df)
  end.

(** ** Python scalars *)

(** [a / b] on Python floats raises on a zero divisor. *)
Definition py_truediv (a b : value) : result value :=
  if is_zero b then Err ZeroDivisionError else Ok (vdiv a b).

(** [int(x)] on a float: truncation towards zero; NaN and the infinities
    have no integer value. *)
Definition py_int (v : value) : result Z :=
  match v with
  | VNum q => Ok (Z.quot (Qnum q) (Zpos (Qden q)))
  | VInf _ => Err OverflowError
  | VNull => Err ValueError
  | VStr _ => Err ValueError
  | VTime _ => Err TypeError
  end.

(** The library functions whose result is text or a parsed date.  They are
    not code of this repository; the engine is written against this
    interface and [reference_builtins] below implements it for calendar dates
    and decimal notation. *)
Class Builtins := {
  (** [pd.to_datetime(series)] *)
  to_datetime : list value -> result (list value);
  to_datetime_length : forall l l', to_datetime l = Ok l' -> length l' = length l;
  to_datetime_idem : forall l l', to_datetime l = Ok l' -> to_datetime l' = Ok l';
  (** [str(x)], also what [f"{x}"] prints *)
  str_value : value -> string;
  (** [f"{x:.1f}"] for a float *)
  format_1f : value -> string;
  (** [f"{n:,}"] for an int *)
  format_commas : Z -> string;
  (** ["%d" % n] *)
  format_d : Z -> string
}.

(** ** The caller's objects *)

Inductive log_record :=
| Warning (msg : string)
| Info (msg : string).

(** [process_data] receives references to the caller's frames and writes
    to them, and it writes to the module's logger: both are threaded through
    as a store. *)
Record Store := mkStore {
  traffic_df : DataFrame;
  clicks_df : DataFrame;
  weather_df : DataFrame;
  sql_df : option DataFrame;
  log : list log_record
}.

Definition add_log (l : log_record) (st : Store) : Store :=
  {| traffic_df := traffic_df st; clicks_df := clicks_df st;
     weather_df := weather_df st; sql_df := sql_df st;
     log := log st ++ [l] |}.

Record Metrics := mkMetrics {
  overall : row;
  campaign_summary : DataFrame;
  sql_preview : option (list row)
}.

(** [s.split(sep)[0]] *)
Fixpoint split_head (sep : ascii) (s : string) : string :=
  match s with
  | EmptyString => EmptyString
  | String a s' => if Ascii.eqb a sep then EmptyString else String a (split_head sep s')
  end.

(** [eval(name)] in the scope of [process_data]. *)
Definition eval_frame (st : Store) (name : string) : result DataFrame :=
  if String.eqb name "traffic_df" then Ok (traffic_df st)
  else if String.eqb name "clicks_df" then Ok (clicks_df st)
  else if String.eqb name "weather_df" then Ok (weather_df st)
  else Err (NameError name).

Definition required_traffic_cols := ["date"; "location"; "campaign_id"; "impressions"].
Definition required_clicks_cols := ["date"; "campaign_id"; "clicks"; "conversions"; "spend"].
Definition required_weather_cols := ["date"; "location"; "temperature_c"; "rainfall_mm"].

(** The list the first loop of [process_data] runs over. *)
Definition the_specs : list (list string * string) :=
  [(required_traffic_cols, "traffic.csv");
   (required_clicks_cols, "clicks.csv");
   (required_weather_cols, "weather.csv")].

(** ** data_processing.py *)

Section Engine.

Context {B : Builtins}.

(** Lines 28-35: one warning for each dataset that lacks required columns.
    [missing] is a Python set; the model lists it in the order of the
    required columns. *)
Fixpoint warn_missing (specs : list (list string * string)) (st : Store)
    : Store * result unit :=
  match specs with
  | [] => (st, Ok tt)
  | (cols, name) :: rest =>
      let var := (split_head "_" (split_head "." name) ++ "_df")%string in
      match eval_frame st var with
      | Err e => (st, Err e)
      | Ok df =>
          match missing_columns cols df with
          | [] => warn_missing rest st
          | missing =>
              warn_missing rest
                (add_log (Warning ("Dataset " ++ name ++ " is missing columns: "
                                   ++ String.concat ", " missing)%string) st)
          end
      end
  end.

(** Lines 39-40, for one frame: [df["date"] = pd.to_datetime(df["date"])]
    when the column is there. *)
Definition convert_date (df : DataFrame) : result DataFrame :=
  if has_column df "date" then
    vs <- to_datetime (col df "date") ;;
    Ok (set_column "date" vs df)
  else Ok df.

(** Lines 38-40: the loop runs over the caller's three frames and assigns
    to each of them; a date that does not parse raises after the earlier
    frames have been written. *)
Definition convert_dates (st : Store) : Store * result unit :=
  match convert_date (traffic_df st) with
  | Err e => (st, Err e)
  | Ok t =>
      let st1 := {| traffic_df := t; clicks_df := clicks_df st;
                    weather_df := weather_df st; sql_df := sql_df st; log := log st |} in
      match convert_date (clicks_df st1) with
      | Err e => (st1, Err e)
      | Ok c =>
          let st2 := {| traffic_df := t; clicks_df := c;
                        weather_df := weather_df st1; sql_df := sql_df st1;
                        log := log st1 |} in
          match convert_date (weather_df st2) with
          | Err e => (st2, Err e)
          | Ok w =>
              ({| traffic_df := t; clicks_df := c; weather_df := w;
                  sql_df := sql_df st2; log := log st2 |}, Ok tt)
          end
      end
  end.

Definition ratio_columns := ["ctr"; "cpc"; "conversion_rate"; "cpa"].

(** Lines 83-84. *)
Fixpoint replace_inf_columns (cs : list string) (df : DataFrame) : result DataFrame :=
  match cs with
  | [] => Ok df
  | c :: rest => df' <- replace_inf_column c df ;; replace_inf_columns rest df'
  end.

(** Lines 43-84: the three aggregations, the two left joins, the four
    row ratios and their clean-up. *)
Definition unify (traffic clicks weather : DataFrame) : result DataFrame :=
  traffic_agg <- groupby_agg ["date"; "campaign_id"; "location"]
                   [("impressions", Sum)] traffic ;;
  clicks_agg <- groupby_agg ["date"; "campaign_id"]
                  [("clicks", Sum); ("conversions", Sum); ("spend", Sum)] clicks ;;
  weather_agg <- groupby_agg ["date"; "location"]
                   [("temperature_c", Mean); ("rainfall_mm", Sum)] weather ;;
  merged <- merge_left ["date"; "campaign_id"] traffic_agg clicks_agg ;;
  merged <- merge_left ["date"; "location"] merged weather_agg ;;
  merged <- assign_ratio "ctr" "clicks" "impressions" merged ;;
  merged <- assign_ratio "cpc" "spend" "clicks" merged ;;
  merged <- assign_ratio "conversion_rate" "conversions" "clicks" merged ;;
  merged <- assign_ratio "cpa" "spend" "conversions" merged ;;
  replace_inf_columns ratio_columns merged.

(** [x / y if y else 0.0] *)
Definition ratio_or_zero (x y : value) : result value :=
  if truthy y then py_truediv x y else Ok (VNum 0).

(** [float(df[c].sum())] *)
Definition column_total (c : string) (df : DataFrame) : result value :=
  match first_missing [c] df with
  | Some c' => Err (KeyError c')
  | None => Ok (vsum (col df c))
  end.

(** Lines 87-96. *)
Definition overall_metrics (merged : DataFrame) : result row :=
  total_impressions <- column_total "impressions" merged ;;
  total_clicks <- column_total "clicks" merged ;;
  total_conversions <- column_total "conversions" merged ;;
  total_spend <- column_total "spend" merged ;;
  overall_ctr <- ratio_or_zero total_clicks total_impressions ;;
  overall_cpc <- ratio_or_zero total_spend total_clicks ;;
  overall_cvr <- ratio_or_zero total_conversions total_clicks ;;
  overall_cpa <- ratio_or_zero total_spend total_conversions ;;
  Ok [("total_impressions", total_impressions);
      ("total_clicks", total_clicks);
      ("total_conversions", total_conversions);
      ("total_spend", total_spend);
      ("overall_ctr", overall_ctr);
      ("overall_cpc", overall_cpc);
      ("overall_cvr", overall_cvr);
      ("overall_cpa", overall_cpa)].

(** Lines 99-112.  The named aggregations keep the names of the columns
    they read; [reset_index] puts [campaign_id] back as the first column. *)
Definition campaign_metrics (merged : DataFrame) : result DataFrame :=
  summary <- groupby_agg ["campaign_id"]
               [("impressions", Sum); ("clicks", Sum); ("conversions", Sum); ("spend", Sum)]
               merged ;;
  summary <- assign_ratio "ctr" "clicks" "impressions" summary ;;
  summary <- assign_ratio "cpc" "spend" "clicks" summary ;;
  summary <- assign_ratio "cvr" "conversions" "clicks" summary ;;
  assign_ratio "cpa" "spend" "conversions" summary.

(** Lines 86-124, on the unified frame. *)
Definition summarize (sql : option DataFrame) (merged : DataFrame) : result Metrics :=
  o <- overall_metrics merged ;;
  cs <- campaign_metrics merged ;;
  Ok {| overall := o;
        campaign_summary := cs;
        sql_preview := match sql with
                       | Some df => Some (firstn 5 (rows df))
                       | None => None
                       end |}.

Definition process_data (st : Store) : Store * result (DataFrame * Metrics) :=
  match warn_missing the_specs st with
  | (st1, Err e) => (st1, Err e)
  | (st1, Ok _) =>
      match convert_dates st1 with
      | (st2, Err e) => (st2, Err e)
      | (st2, Ok _) =>
          match unify (traffic_df st2) (clicks_df st2) (weather_df st2) with
          | Err e => (st2, Err e)
          | Ok merged =>
              match summarize (sql_df st2) merged with
              | Err e => (st2, Err e)
              | Ok metrics =>
                  (add_log (Info ("Processing complete. Rows in merged dataset: "
                                  ++ format_d (Z.of_nat (length (rows merged))))%string) st2,
                   Ok (merged, metrics))
              end
          end
      end
  end.

End Engine.

(** ** report_generator/pdf_report.py *)

(** The default of the parameter [drop_threshold: float = 0.3]. *)
Definition default_drop_threshold : value := VNum (3 # 10).

(** [(curr - prev) / prev].  The divisor is checked, as for Python floats:
    that the scan never divides by zero is the statement that it never ends
    in [ZeroDivisionError]. *)
Definition relative_change (prev_impr curr_impr : value) : result value :=
  py_truediv (vsub curr_impr prev_impr) prev_impr.

(** [-change * 100.0] *)
Definition drop_pct_of (change : value) : value := vmul (vneg change) (VNum 100).

(** [merged_df[(merged_df["date"] == d) & (merged_df["location"] == l)]["rainfall_mm"]] *)
Definition rain_vals_at (merged_df : DataFrame) (d l : value) : list value :=
  map (fun r => cell r "rainfall_mm")
      (filter (fun r => py_eq (cell r "date") d && py_eq (cell r "location") l)
              (rows merged_df)).

Module pdf_report.
Section Scan.

Context {B : Builtins}.
Variable merged_df : DataFrame.
Variable drop_threshold : value.

(** Lines 222-246: the body of the loop over [i]. *)
Definition check_pair (has_rain : bool) (location : value) (prev_row curr_row : row)
    : result (list string) :=
  let prev_impr := cell prev_row "impressions" in
  let curr_impr := cell curr_row "impressions" in
  if vleb prev_impr (VNum 0) then Ok []
  else
    change <- relative_change prev_impr curr_impr ;;
    if vleb change (vneg drop_threshold) then
      let drop_pct := drop_pct_of change in
      let date_str := str_value (cell curr_row "date") in
      curr_int <- py_int curr_impr ;;
      prev_int <- py_int prev_impr ;;
      let msg := ("Traffic dropped " ++ format_1f drop_pct ++ "% in "
                  ++ str_value location ++ " on " ++ date_str
                  ++ " (impressions " ++ format_commas curr_int ++ " vs "
                  ++ format_commas prev_int ++ " previous day)")%string in
      msg <- (if has_rain then
                let rain_vals := rain_vals_at merged_df (cell curr_row "date") location in
                match rain_vals with
                | [] => Ok msg
                | _ =>
                    if forallb is_numeric rain_vals then
                      let rain := vmean rain_vals in
                      Ok (msg ++ ". Reported rainfall: " ++ format_1f rain ++ "mm.")%string
                    else Err TypeError
                end
              else Ok msg) ;;
      Ok [(msg ++ ".")%string]
    else Ok [].

(** Line 221: [for i in range(1, len(grp))], with [grp.iloc[i - 1]] and
    [grp.iloc[i]]. *)
Fixpoint scan_group (has_rain : bool) (location : value) (grp : list row)
    : result (list string) :=
  match grp with
  | prev_row :: ((curr_row :: _) as rest) =>
      found <- check_pair has_rain location prev_row curr_row ;;
      more <- scan_group has_rain location rest ;;
      Ok (found ++ more)
  | _ => Ok []
  end.

(** Lines 219-220: [for location, grp in daily.groupby("location")], each
    group sorted by date. *)
Fixpoint scan_groups (has_rain : bool) (gs : list (key * list row))
    : result (list string) :=
  match gs with
  | [] => Ok []
  | (k, grp) :: rest =>
      let location := hd VNull k in
      let grp := sort_by (fun r1 r2 => key_leb (key_of ["date"] r1) (key_of ["date"] r2)) grp in
      found <- scan_group has_rain location grp ;;
      more <- scan_groups has_rain rest ;;
      Ok (found ++ more)
  end.

Definition _detect_anomalies : result (list string) :=
  if negb (has_column merged_df "impressions")
     || negb (has_column merged_df "location")
     || negb (has_column merged_df "date")
  then Ok []
  else
    daily <- groupby_agg ["date"; "location"] [("impressions", Sum)] merged_df ;;
    let daily := sort_values ["location"; "date"] daily in
    let has_rain := has_column merged_df "rainfall_mm" in
    scan_groups has_rain (groups ["location"] (rows daily)).

End Scan.
End pdf_report.

(** ** report_generator/ppt_report.py *)

Module ppt_report.
Section Scan.

Context {B : Builtins}.
Variable merged_df : DataFrame.
Variable drop_threshold : value.

(** Lines 119-141: the body of the loop over [i]. *)
Definition check_pair (has_rain : bool) (location : value) (prev_row curr_row : row)
    : result (list string) :=
  let prev_impr := cell prev_row "impressions" in
  let curr_impr := cell curr_row "impressions" in
  if vleb prev_impr (VNum 0) then Ok []
  else
    change <- relative_change prev_impr curr_impr ;;
    if vleb change (vneg drop_threshold) then
      let drop_pct := drop_pct_of change in
      let date_str := str_value (cell curr_row "date") in
      curr_int <- py_int curr_impr ;;
      prev_int <- py_int prev_impr ;;
      let msg := ("Traffic dropped " ++ format_1f drop_pct ++ "% in "
                  ++ str_value location ++ " on " ++ date_str
                  ++ " (impressions " ++ format_commas curr_int ++ " vs "
                  ++ format_commas prev_int ++ " previous day)")%string in
      msg <- (if has_rain then
                let rain_vals := rain_vals_at merged_df (cell curr_row "date") location in
                match rain_vals with
                | [] => Ok msg
                | _ =>
                    if forallb is_numeric rain_vals then
                      let rain := vmean rain_vals in
                      Ok (msg ++ ". Reported rainfall: " ++ format_1f rain ++ "mm.")%string
                    else Err TypeError
                end
              else Ok msg) ;;
      Ok [(msg ++ ".")%string]
    else Ok [].

(** Line 118: [for i in range(1, len(grp))]. *)
Fixpoint scan_group (has_rain : bool) (location : value) (grp : list row)
    : result (list string) :=
  match grp with
  | prev_row :: ((curr_row :: _) as rest) =>
      found <- check_pair has_rain location prev_row curr_row ;;
      more <- scan_group has_rain location rest ;;
      Ok (found ++ more)
  | _ => Ok []
  end.

(** Lines 116-117: [for location, grp in daily.groupby("location")] and
    [grp.sort_values("date")]. *)
Fixpoint scan_groups (has_rain : bool) (gs : list (key * list row))
    : result (list string) :=
  match gs with
  | [] => Ok []
  | (k, grp) :: rest =>
      let location := hd VNull k in
      let grp := sort_by (fun r1 r2 => key_leb (key_of ["date"] r1) (key_of ["date"] r2)) grp in
      found <- scan_group has_rain location grp ;;
      more <- scan_groups has_rain rest ;;
      Ok (found ++ more)
  end.

Definition _detect_anomalies : result (list string) :=
  if negb (has_column merged_df "impressions")
     || negb (has_column merged_df "location")
     || negb (has_column merged_df "date")
  then Ok []
  else
    daily <- groupby_agg ["date"; "location"] [("impressions", Sum)] merged_df ;;
    let daily := sort_values ["location"; "date"] daily in
    let has_rain := has_column merged_df "rainfall_mm" in
    scan_groups has_rain (groups ["location"] (rows daily)).

End Scan.
End ppt_report.

(** ** A reference implementation of the builtins

    Dates are calendar days written [YYYY-MM-DD]; a timestamp counts
    nanoseconds since 1970-01-01, as pandas does.  Numbers are printed from
    their exact value. *)

Module Reference.

Definition digits (n : Z) : string := NilZero.string_of_int (Z.to_int n).

Definition pad2 (n : Z) : string :=
  if (n <? 10)%Z then ("0" ++ digits n)%string else digits n.

Definition pad4 (n : Z) : string :=
  if (n <? 10)%Z then ("000" ++ digits n)%string
  else if (n <? 100)%Z then ("00" ++ digits n)%string
  else if (n <? 1000)%Z then ("0" ++ digits n)%string
  else digits n.

(** Days since 1970-01-01 of a civil date, and back (proleptic Gregorian
    calendar). *)
Definition days_from_civil (y m d : Z) : Z :=
  let y := if (m <=? 2)%Z then (y - 1)%Z else y in
  let era := (y / 400)%Z in
  let yoe := (y - era * 400)%Z in
  let mp := if (m >? 2)%Z then (m - 3)%Z else (m + 9)%Z in
  let doy := ((153 * mp + 2) / 5 + d - 1)%Z in
  let doe := (yoe * 365 + yoe / 4 - yoe / 100 + doy)%Z in
  (era * 146097 + doe - 719468)%Z.

Definition civil_from_days (z : Z) : Z * Z * Z :=
  let z := (z + 719468)%Z in
  let era := (z / 146097)%Z in
  let doe := (z - era * 146097)%Z in
  let yoe := ((doe - doe / 1460 + doe / 36524 - doe / 146096) / 365)%Z in
  let y := (yoe + era * 400)%Z in
  let doy := (doe - (365 * yoe + yoe / 4 - yoe / 100))%Z in
  let mp := ((5 * doy + 2) / 153)%Z in
  let d := (doy - (153 * mp + 2) / 5 + 1)%Z in
  let m := if (mp <? 10)%Z then (mp + 3)%Z else (mp - 9)%Z in
  (if (m <=? 2)%Z then (y + 1)%Z else y, m, d).

Definition ns_per_day : Z := 86400000000000.

Definition digit_of (a : ascii) : option Z :=
  let n := Z.of_nat (nat_of_ascii a) in
  if ((48 <=? n) && (n <=? 57))%Z then Some (n - 48)%Z else None.

Fixpoint number_of (acc : Z) (l : list ascii) : option Z :=
  match l with
  | [] => Some acc
  | a :: l' =>
      match digit_of a with
      | Some d => number_of (acc * 10 + d)%Z l'
      | None => None
      end
  end.

Definition parse_date (s : string) : option Z :=
  match list_ascii_of_string s with
  | [y1; y2; y3; y4; "-"%char; m1; m2; "-"%char; d1; d2] =>
      match number_of 0 [y1; y2; y3; y4], number_of 0 [m1; m2], number_of 0 [d1; d2] with
      | Some y, Some m, Some d =>
          let days := days_from_civil y m d in
          match civil_from_days days with
          | (y', m', d') =>
              if ((y' =? y) && (m' =? m) && (d' =? d))%Z
              then Some (days * ns_per_day)%Z else None
          end
      | _, _, _ => None
      end
  | _ => None
  end.

Definition timestamp_str (t : Z) : string :=
  let days := (t / ns_per_day)%Z in
  let secs := ((t mod ns_per_day) / 1000000000)%Z in
  match civil_from_days days with
  | (y, m, d) =>
      (pad4 y ++ "-" ++ pad2 m ++ "-" ++ pad2 d ++ " "
       ++ pad2 (secs / 3600) ++ ":" ++ pad2 ((secs / 60) mod 60) ++ ":"
       ++ pad2 (secs mod 60))%string
  end.

Definition to_datetime_cell (v : value) : result value :=
  match v with
  | VNull => Ok VNull
  | VTime t => Ok (VTime t)
  | VStr s =>
      match parse_date s with
      | Some t => Ok (VTime t)
      | None => Err ValueError
      end
  | VNum q => Ok (VTime (Qnum q / Zpos (Qden q))%Z)
  | VInf _ => Err ValueError
  end.

(** Nearest integer, ties to the even one. *)
Definition round_half_even (q : Q) : Z :=
  let n := Qnum q in
  let d := Zpos (Qden q) in
  let f := (n / d)%Z in
  match (2 * (n mod d) ?= d)%Z with
  | Lt => f
  | Gt => (f + 1)%Z
  | Eq => if Z.even f then f else (f + 1)%Z
  end.

Definition fixed1 (v : value) : string :=
  match v with
  | VNum q =>
      let t := Z.abs (round_half_even (q * 10)) in
      ((if Qneg_bool q then "-" else "") ++ digits (t / 10) ++ "." ++ digits (t mod 10))%string
  | VInf false => "inf"
  | VInf true => "-inf"
  | _ => "nan"
  end.

Fixpoint group3 (l : list ascii) : list ascii :=
  match l with
  | a :: b :: c :: ((_ :: _) as rest) => a :: b :: c :: ","%char :: group3 rest
  | _ => l
  end.

Definition commas (n : Z) : string :=
  ((if (n <? 0)%Z then "-" else "")
   ++ string_of_list_ascii (rev (group3 (rev (list_ascii_of_string (digits (Z.abs n)))))))%string.

(** The decimal expansion of a fraction [r/d], as far as [fuel] goes. *)
Fixpoint decimals (fuel : nat) (r d : Z) : string :=
  match fuel with
  | O => ""
  | S fuel' =>
      if (r =? 0)%Z then ""
      else (digits ((r * 10) / d) ++ decimals fuel' ((r * 10) mod d) d)%string
  end.

Definition str (v : value) : string :=
  match v with
  | VStr s => s
  | VTime t => timestamp_str t
  | VNull => "nan"
  | VInf false => "inf"
  | VInf true => "-inf"
  | VNum q =>
      let n := Z.abs (Qnum q) in
      let d := Zpos (Qden q) in
      ((if Qneg_bool q then "-" else "") ++ digits (n / d)
       ++ (if (n mod d =? 0)%Z then "" else "." ++ decimals 17 (n mod d) d))%string
  end.

Definition to_datetime_series (l : list value) : result (list value) :=
  mapM to_datetime_cell l.

End Reference.

(** The reference implementation meets the two laws of the interface:
    parsing keeps the length of the column, and parsed dates parse to
    themselves. *)
#[global] Instance reference_builtins : Builtins.
Proof.
  refine {| to_datetime := Reference.to_datetime_series;
            str_value := Reference.str;
            format_1f := Reference.fixed1;
            format_commas := Reference.commas;
            format_d := Reference.digits |}.
  - unfold Reference.to_datetime_series.
    induction l as [ | v l IH]; simpl; intros l' H.
    + injection H as <-. reflexivity.
    + destruct (Reference.to_datetime_cell v) as [v' | e]; simpl in H; [ | discriminate].
      destruct (mapM Reference.to_datetime_cell l) as [vs | e]; simpl in H; [ | discriminate].
      injection H as <-. simpl. f_equal. apply IH. reflexivity.
  - assert (Hcell : forall v v', Reference.to_datetime_cell v = Ok v' ->
                                 Reference.to_datetime_cell v' = Ok v').
    { intros v v'. destruct v as [ | s | t | q | b]; simpl; try discriminate.
      - intros [= <-]. reflexivity.
      - destruct (Reference.parse_date s); [intros [= <-]; reflexivity | discriminate].
      - intros [= <-]. reflexivity.
      - intros [= <-]. reflexivity. }
    unfold Reference.to_datetime_series.
    induction l as [ | v l IH]; simpl; intros l' H.
    + injection H as <-. reflexivity.
    + destruct (Reference.to_datetime_cell v) as [v' | e] eqn:Hv; simpl in H; [ | discriminate].
      destruct (mapM Reference.to_datetime_cell l) as [vs | e]; simpl in H; [ | discriminate].
      injection H as <-. simpl.
      rewrite (Hcell _ _ Hv). simpl.
      rewrite (IH vs eq_refl). reflexivity.
Defined.

(** ** The end-to-end scenario of the specification (section 8) *)

Module Scenario.

Definition traffic : DataFrame :=
  {| columns := ["date"; "location"; "campaign_id"; "impressions"];
     rows := [ [("date", VStr "2025-01-04"); ("location", VStr "Delhi");
                ("campaign_id", VStr "CAMP01"); ("impressions", VNum 1000)];
               [("date", VStr "2025-01-05"); ("location", VStr "Delhi");
                ("campaign_id", VStr "CAMP01"); ("impressions", VNum 600)] ] |}.

Definition clicks : DataFrame :=
  {| columns := ["date"; "campaign_id"; "clicks"; "conversions"; "spend"];
     rows := [ [("date", VStr "2025-01-04"); ("campaign_id", VStr "CAMP01");
                ("clicks", VNum 50); ("conversions", VNum 5); ("spend", VNum 100)];
               [("date", VStr "2025-01-05"); ("campaign_id", VStr "CAMP01");
                ("clicks", VNum 30); ("conversions", VNum 3); ("spend", VNum 60)] ] |}.

Definition weather : DataFrame :=
  {| columns := ["date"; "location"; "temperature_c"; "rainfall_mm"];
     rows := [ [("date", VStr "2025-01-05"); ("location", VStr "Delhi");
                ("temperature_c", VNum 25); ("rainfall_mm", VNum 12)] ] |}.

Definition store : Store :=
  {| traffic_df := traffic; clicks_df := clicks; weather_df := weather;
     sql_df := None; log := [] |}.

End Scenario.

(** ** Inputs used as examples *)

Module Examples.

Definition traffic_row (d : string) (l c : value) (n : Q) : row :=
  [("date", VStr d); ("location", l); ("campaign_id", c); ("impressions", VNum n)].

Definition clicks_row (d : string) (c : value) (k v s : Q) : row :=
  [("date", VStr d); ("campaign_id", c); ("clicks", VNum k);
   ("conversions", VNum v); ("spend", VNum s)].

Definition store_of (traffic clicks weather : list row) : Store :=
  {| traffic_df := {| columns := required_traffic_cols; rows := traffic |};
     clicks_df := {| columns := required_clicks_cols; rows := clicks |};
     weather_df := {| columns := required_weather_cols; rows := weather |};
     sql_df := None;
     log := [] |}.

(** The traffic of the scenario, the location cell of its second record
    left empty in the CSV. *)
Definition null_location : Store :=
  store_of [traffic_row "2025-01-04" (VStr "Delhi") (VStr "CAMP01") 1000;
            traffic_row "2025-01-05" VNull (VStr "CAMP01") 600]
           (rows Scenario.clicks) (rows Scenario.weather).


(** A campaign that spent 100 and converted nobody. *)
Definition zero_conversions : Store :=
  store_of [traffic_row "2025-01-04" (VStr "Delhi") (VStr "CAMP01") 1000]
           [clicks_row "2025-01-04" (VStr "CAMP01") 50 0 100] (rows Scenario.weather).

(** The scenario of the specification, its one weather reading taken on
    the first day instead of the second: the day of the drop has none. *)
Definition no_weather : Store :=
  store_of (rows Scenario.traffic) (rows Scenario.clicks)
           [ [("date", VStr "2025-01-04"); ("location", VStr "Delhi");
              ("temperature_c", VNum 25); ("rainfall_mm", VNum 12)] ].

(** The traffic dataset arrives without its [location] column. *)
Definition no_location_column : Store :=
  {| traffic_df :=
       {| columns := ["date"; "campaign_id"; "impressions"];
          rows := [ [("date", VStr "2025-01-04"); ("campaign_id", VStr "CAMP01");
                     ("impressions", VNum 1000)] ] |};
     clicks_df := Scenario.clicks;
     weather_df := Scenario.weather;
     sql_df := None;
     log := [] |}.

End Examples.

(** ** Well-formed inputs *)

Definition numeric_columns_of (df : DataFrame) (cs : list string) : bool :=
  forallb (numeric_column df) cs.

Definition finite_column (df : DataFrame) (c : string) : bool :=
  forallb (fun v => negb (is_inf v)) (col df c).

Definition no_missing (cols : list string) (df : DataFrame) : bool :=
  match missing_columns cols df with [] => true | _ => false end.

Definition is_ok {A} (r : result A) : bool :=
  match r with Ok _ => true | Err _ => false end.

(** The three datasets follow the schemas of the specification: the
    required columns are there and the measured ones are numeric. *)
Definition schema_ok (st : Store) : bool :=
  no_missing required_traffic_cols (traffic_df st)
  && no_missing required_clicks_cols (clicks_df st)
  && no_missing required_weather_cols (weather_df st)
  && numeric_columns_of (traffic_df st) ["impressions"]
  && numeric_columns_of (clicks_df st) ["clicks"; "conversions"; "spend"]
  && numeric_columns_of (weather_df st) ["temperature_c"; "rainfall_mm"].

(** Every date column parses. *)
Definition dates_ok {B : Builtins} (st : Store) : bool :=
  is_ok (to_datetime (col (traffic_df st) "date"))
  && is_ok (to_datetime (col (clicks_df st) "date"))
  && is_ok (to_datetime (col (weather_df st) "date")).

(** No measured cell is an infinity. *)
Definition finite_inputs (st : Store) : bool :=
  finite_column (traffic_df st) "impressions"
  && forallb (finite_column (clicks_df st)) ["clicks"; "conversions"; "spend"]
  && forallb (finite_column (weather_df st)) ["temperature_c"; "rainfall_mm"].

(** Number of rows of a frame whose key on [by_] is [k]. *)
Definition count_key (by_ : list string) (k : key) (df : DataFrame) : nat :=
  length (filter (fun r => key_eqb (key_of by_ r) k) (rows df)).

(** ** The unified row, written out

    What the two joins and the ratio columns do to one row of the
    aggregated traffic, once the right-hand frames have one row per key. *)

Definition matching (on : list string) (right_rows : list row) (l : row) : list row :=
  filter (fun r => key_eqb (key_of on r) (key_of on l)) right_rows.

Definition pick (ms : list row) (c : string) : value :=
  match ms with
  | [] => VNull
  | r :: _ => cell r c
  end.

Definition join_row (on extra : list string) (right_rows : list row) (l : row) : row :=
  l ++ map (fun c => (c, pick (matching on right_rows l) c)) extra.

Definition with_ratio (out num den : string) (r : row) : row :=
  set_cell out (vdiv (cell r num) (cell r den)) r.

Definition with_replace (c : string) (r : row) : row :=
  set_cell c (replace_inf (cell r c)) r.

Definition ratio_row (r : row) : row :=
  with_replace "cpa" (with_replace "conversion_rate" (with_replace "cpc" (with_replace "ctr"
    (with_ratio "cpa" "spend" "conversions"
      (with_ratio "conversion_rate" "conversions" "clicks"
        (with_ratio "cpc" "spend" "clicks"
          (with_ratio "ctr" "clicks" "impressions" r))))))).

Definition traffic_agg_rows (traffic : DataFrame) : list row :=
  map (group_row ["date"; "campaign_id"; "location"] [("impressions", Sum)])
      (groups ["date"; "campaign_id"; "location"] (rows traffic)).

Definition clicks_agg_rows (clicks : DataFrame) : list row :=
  map (group_row ["date"; "campaign_id"]
         [("clicks", Sum); ("conversions", Sum); ("spend", Sum)])
      (groups ["date"; "campaign_id"] (rows clicks)).

Definition weather_agg_rows (weather : DataFrame) : list row :=
  map (group_row ["date"; "location"] [("temperature_c", Mean); ("rainfall_mm", Sum)])
      (groups ["date"; "location"] (rows weather)).

Definition unified_row (clicks weather : DataFrame) (t : row) : row :=
  ratio_row
    (join_row ["date"; "location"] ["temperature_c"; "rainfall_mm"] (weather_agg_rows weather)
       (join_row ["date"; "campaign_id"] ["clicks"; "conversions"; "spend"]
          (clicks_agg_rows clicks) t)).

Definition unified_columns : list string :=
  ["date"; "campaign_id"; "location"; "impressions"; "clicks"; "conversions"; "spend";
   "temperature_c"; "rainfall_mm"; "ctr"; "cpc"; "conversion_rate"; "cpa"].

(** One unified record, cell by cell: the key [d, c, l] of a traffic group,
    its summed impressions [imp], the aggregated click row [ms] and weather
    row [ws] of equal key, if any. *)
Definition unified_record (d c l imp : value) (ms ws : list row) : row :=
  [("date", d); ("campaign_id", c); ("location", l); ("impressions", imp);
   ("clicks", pick ms "clicks"); ("conversions", pick ms "conversions");
   ("spend", pick ms "spend");
   ("temperature_c", pick ws "temperature_c"); ("rainfall_mm", pick ws "rainfall_mm");
   ("ctr", replace_inf (vdiv (pick ms "clicks") imp));
   ("cpc", replace_inf (vdiv (pick ms "spend") (pick ms "clicks")));
   ("conversion_rate", replace_inf (vdiv (pick ms "conversions") (pick ms "clicks")));
   ("cpa", replace_inf (vdiv (pick ms "spend") (pick ms "conversions")))].


(** [x / y if y else 0.0], as a value. *)
Definition guarded_ratio (x y : value) : value :=
  if is_zero y then VNum 0 else vdiv x y.

Definition total (c : string) (df : DataFrame) : value := vsum (col df c).

(** The overall dictionary, written out. *)
Definition overall_row (merged : DataFrame) : row :=
  [("total_impressions", total "impressions" merged);
   ("total_clicks", total "clicks" merged);
   ("total_conversions", total "conversions" merged);
   ("total_spend", total "spend" merged);
   ("overall_ctr", guarded_ratio (total "clicks" merged) (total "impressions" merged));
   ("overall_cpc", guarded_ratio (total "spend" merged) (total "clicks" merged));
   ("overall_cvr", guarded_ratio (total "conversions" merged) (total "clicks" merged));
   ("overall_cpa", guarded_ratio (total "spend" merged) (total "conversions" merged))].

Definition campaign_aggs : list (string * aggfn) :=
  [("impressions", Sum); ("clicks", Sum); ("conversions", Sum); ("spend", Sum)].

(** One row of the campaign summary, from the group of its campaign. *)
Definition campaign_row (g : key * list row) : row :=
  with_ratio "cpa" "spend" "conversions"
    (with_ratio "cvr" "conversions" "clicks"
      (with_ratio "cpc" "spend" "clicks"
        (with_ratio "ctr" "clicks" "impressions"
          (group_row ["campaign_id"] campaign_aggs g)))).

Definition campaign_columns : list string :=
  ["campaign_id"; "impressions"; "clicks"; "conversions"; "spend";
   "ctr"; "cpc"; "cvr"; "cpa"].

Definition campaign_frame (merged : DataFrame) : DataFrame :=
  {| columns := campaign_columns;
     rows := map campaign_row (groups ["campaign_id"] (rows merged)) |}.

Definition unified_frame (traffic clicks weather : DataFrame) : DataFrame :=
  {| columns := unified_columns;
     rows := map (unified_row clicks weather) (traffic_agg_rows traffic) |}.

(** The store a successful call leaves, given the three converted frames. *)
Definition final_store {B : Builtins} (st : Store) (t c w : DataFrame) : Store :=
  add_log (Info ("Processing complete. Rows in merged dataset: "
                 ++ format_d (Z.of_nat (length (rows (unified_frame t c w)))))%string)
    {| traffic_df := t; clicks_df := c; weather_df := w;
       sql_df := sql_df st; log := log st |}.

Definition metrics_of (sql : option DataFrame) (merged : DataFrame) : Metrics :=
  {| overall := overall_row merged;
     campaign_summary := campaign_frame merged;
     sql_preview := match sql with
                    | Some df => Some (firstn 5 (rows df))
                    | None => None
                    end |}.

(** ** The threshold boundary on binary64

    The scan's arithmetic on IEEE 754 double precision, for the rows where
    the verdict depends on how 0.3 is rounded. *)

Module Binary64.

Definition prec : Z := 53.
Definition emax : Z := 1024.

Definition of_Z (n : Z) : SpecFloat.spec_float :=
  SpecFloat.binary_normalize prec emax n 0 false.

(** The literal [0.3]: the double nearest to 3/10. *)
Definition drop_threshold : SpecFloat.spec_float :=
  SpecFloat.SFdiv prec emax (of_Z 3) (of_Z 10).

Definition relative_change (prev_impr curr_impr : SpecFloat.spec_float) :=
  SpecFloat.SFdiv prec emax (SpecFloat.SFsub prec emax curr_impr prev_impr) prev_impr.

Definition drop_pct_of (change : SpecFloat.spec_float) :=
  SpecFloat.SFmul prec emax (SpecFloat.SFopp change) (of_Z 100).

(** [change <= -drop_threshold] *)
Definition is_drop (change : SpecFloat.spec_float) : bool :=
  SpecFloat.SFleb change (SpecFloat.SFopp drop_threshold).

End Binary64.

(** ** Frames of the boundary case *)

Module Boundary.

Definition first_day (impressions : Q) : row :=
  [("date", VTime 1735948800000000000); ("location", VStr "Delhi");
   ("impressions", VNum impressions)].

Definition second_day (impressions : Q) : row :=
  [("date", VTime 1736035200000000000); ("location", VStr "Delhi");
   ("impressions", VNum impressions)].

Definition daily (impressions : Q) : DataFrame :=
  {| columns := ["date"; "location"; "impressions"];
     rows := [first_day 100; second_day impressions] |}.

(** A location that was not served on the first day. *)
Definition from_zero : DataFrame :=
  {| columns := ["date"; "location"; "impressions"];
     rows := [first_day 0; second_day 500] |}.

End Boundary.

(** ** Sums, groups and joins, as the properties below state them *)

(** The number a cell adds to a sum: a missing cell adds nothing. *)
Definition qval (v : value) : Q := match v with VNum q => q | _ => 0%Q end.

(** The exact sum of a list of cells. *)
Definition qsum (l : list value) : Q := fold_right (fun v acc => (qval v + acc)%Q) 0%Q l.

(** The rows [groupby(by_)] keeps: no cell of the key is missing. *)
Definition complete_key (by_ : list string) (r : row) : bool :=
  negb (has_null_key (key_of by_ r)).

(** What a left join on [by_] gives the record [u] for the column [c] of a
    dataset aggregated with [f]: the aggregate of all the rows [rs] of the
    dataset that have the key of [u], nothing when there is none. *)
Definition joined (by_ : list string) (u : row) (rs : list row) (f : aggfn) (c : string)
    : value :=
  match filter (fun r => key_eqb (key_of by_ r) (key_of by_ u)) rs with
  | [] => VNull
  | ms => apply_agg f (map (fun r => cell r c) ms)
  end.

(** [l1] is [l2] with some elements left out. *)
Inductive subsequence {A} : list A -> list A -> Prop :=
| sub_nil : subsequence [] []
| sub_skip (x : A) (l1 l2 : list A) : subsequence l1 l2 -> subsequence l1 (x :: l2)
| sub_keep (x : A) (l1 l2 : list A) : subsequence l1 l2 -> subsequence (x :: l1) (x :: l2).

(** What the scan can raise: [int()] of a NaN or of an infinity, and a
    column that is not numeric. *)
Definition scan_exn (e : exn) : Prop :=
  e = TypeError \/ e = ValueError \/ e = OverflowError.


(** The scenario of the specification with one click record, dated on a day
    that does not exist. *)
Definition bad_clicks_date : Store :=
  Examples.store_of (rows Scenario.traffic)
    [Examples.clicks_row "2025-02-30" (VStr "CAMP01") 50 5 100]
    (rows Scenario.weather).

(** ** The text of the reports

    [report_generator/pdf_report.py] and [report_generator/ppt_report.py]
    build their sentences and tables from the metrics of [process_data]. *)

(** pandas raises [IndexError] for a position outside a frame; the other
    exceptions of the builders are those of [exn]. *)
Inductive raised :=
| Exn (e : exn)
| IndexError.

Inductive outcome (A : Type) :=
| Return (a : A)
| Raise (e : raised).
Arguments Return {A} a.
Arguments Raise {A} e.

Definition and_then {A C} (m : outcome A) (k : A -> outcome C) : outcome C :=
  match m with
  | Return a => k a
  | Raise e => Raise e
  end.

Notation "x <~ m ;; k" := (and_then m (fun x => k))
  (at level 61, m at next level, right associativity).

Definition lift {A} (m : result A) : outcome A :=
  match m with
  | Ok a => Return a
  | Err e => Raise (Exn e)
  end.

Fixpoint for_each {A C} (f : A -> outcome C) (l : list A) : outcome (list C) :=
  match l with
  | [] => Return []
  | x :: xs => y <~ f x ;; ys <~ for_each f xs ;; Return (y :: ys)
  end.

(** The library functions of the reports.  [sort_values] sorts with
    numpy's quicksort, which leaves equal cells in no specified order: the
    builders are written against any sort, [argsort] being what it does to
    the rows whose cell is not missing. *)
Class ReportBuiltins := {
  (** [f"{x:.2f}"] for a float *)
  format_2f : value -> string;
  (** [f"{x:.2%}"] for a float *)
  format_2pct : value -> string;
  argsort : (row -> row -> bool) -> list row -> list row;
  argsort_perm : forall leb l, Permutation (argsort leb l) l;
  argsort_sorted : forall leb l,
    (forall a b, In a l -> In b l -> leb a b = true \/ leb b a = true) ->
    (forall a b c, In a l -> In b l -> In c l ->
                   leb a b = true -> leb b c = true -> leb a c = true) ->
    StronglySorted (fun a b => leb a b = true) (argsort leb l)
}.

(** [d[k]] on a dictionary, and [row[k]] on a row of a frame. *)
Definition getitem (d : row) (k : string) : outcome value :=
  match lookup k d with
  | Some v => Return v
  | None => Raise (Exn (KeyError k))
  end.

(** [df.empty]: no row, or no column. *)
Definition empty (df : DataFrame) : bool :=
  match rows df, columns df with
  | [], _ => true
  | _, [] => true
  | _, _ => false
  end.

(** [df.iloc[0]] *)
Definition iloc0 (df : DataFrame) : outcome row :=
  match rows df with
  | r :: _ => Return r
  | [] => Raise IndexError
  end.

(** [df.head(n)] *)
Definition head (n : nat) (df : DataFrame) : DataFrame :=
  {| columns := columns df; rows := firstn n (rows df) |}.

(** The order of [sort_values(c, ascending=...)] on the cells of a float
    column that are not missing. *)
Definition float_leb (c : string) (ascending : bool) (r1 r2 : row) : bool :=
  if ascending then vleb (cell r1 c) (cell r2 c) else vleb (cell r2 c) (cell r1 c).

Definition present (c : string) (r : row) : bool := negb (is_null (cell r c)).

(** [a != b] on two scalars. *)
Definition py_ne (a b : value) : bool := negb (py_eq a b).

Section Report.

Context {B : Builtins} {R : ReportBuiltins}.

(** [df.sort_values(c, ascending=...)] on a float column: the rows whose
    cell is missing come last, in frame order ([na_position="last"]). *)
Definition sort_values_by (c : string) (ascending : bool) (df : DataFrame)
    : outcome DataFrame :=
  if has_column df c then
    Return {| columns := columns df;
              rows := argsort (float_leb c ascending) (filter (present c) (rows df))
                      ++ filter (fun r => is_null (cell r c)) (rows df) |}
  else Raise (Exn (KeyError c)).

(** [", ".join(df[c].astype(str).tolist())] *)
Definition names_of (c : string) (df : DataFrame) : outcome string :=
  if has_column df c then Return (String.concat ", " (map str_value (col df c)))
  else Raise (Exn (KeyError c)).

(** [f"{int(x):,}"] *)
Definition int_commas (x : value) : outcome string :=
  n <~ lift (py_int x) ;; Return (format_commas n).

(** [f"{int(d[k]):,}"] *)
Definition int_of (d : row) (k : string) : outcome string :=
  x <~ getitem d k ;; int_commas x.

(** [f"{d[k]:.2f}"] *)
Definition fixed_of (d : row) (k : string) : outcome string :=
  x <~ getitem d k ;; Return (format_2f x).

(** [f"{d[k]:.2%}"] *)
Definition percent_of (d : row) (k : string) : outcome string :=
  x <~ getitem d k ;; Return (format_2pct x).

(** [f"{d[k]}"], and [str(d[k])]: [str_value] is the text of the cell as
    the row holds it.  A row taken from a frame whose columns are all
    numeric holds floats, so that a whole-numbered id read from such a row
    prints with a decimal point, which it does not when read from its
    column. *)
Definition str_of (d : row) (k : string) : outcome string :=
  x <~ getitem d k ;; Return (str_value x).

End Report.

(** ** report_generator/pdf_report.py: the sentences *)

Module pdf_text.
Section Builders.

Context {B : Builtins} {R : ReportBuiltins}.

(** [df.sort_values(c, ascending=...).iloc[0]] *)
Definition first_by (c : string) (ascending : bool) (df : DataFrame) : outcome row :=
  sorted <~ sort_values_by c ascending df ;; iloc0 sorted.

(** Lines 30-34. *)
Definition volume_line (overall : row) : outcome string :=
  impressions <~ int_of overall "total_impressions" ;;
  clicks <~ int_of overall "total_clicks" ;;
  conversions <~ int_of overall "total_conversions" ;;
  Return ("Campaigns delivered " ++ impressions ++ " impressions, "
          ++ clicks ++ " clicks and " ++ conversions ++ " conversions this week.")%string.

(** Lines 35-38. *)
Definition rate_line (overall : row) : outcome string :=
  ctr <~ percent_of overall "overall_ctr" ;;
  cpc <~ fixed_of overall "overall_cpc" ;;
  cpa <~ fixed_of overall "overall_cpa" ;;
  Return ("Overall CTR was " ++ ctr ++ " with an average CPC of " ++ cpc
          ++ " and CPA of " ++ cpa ++ ".")%string.

(** Lines 42-45. *)
Definition top_converting_line (top_conv : row) : outcome string :=
  id <~ str_of top_conv "campaign_id" ;;
  conversions <~ int_of top_conv "conversions" ;;
  cpa <~ fixed_of top_conv "cpa" ;;
  Return ("Top converting campaign: " ++ id ++ " with " ++ conversions
          ++ " conversions and a CPA of " ++ cpa ++ ".")%string.

(** Lines 49-51. *)
Definition best_ctr_line (top_ctr : row) : outcome string :=
  id <~ str_of top_ctr "campaign_id" ;;
  ctr <~ percent_of top_ctr "ctr" ;;
  Return ("Best CTR: " ++ id ++ " with CTR of " ++ ctr ++ ".")%string.

(** Lines 54-56. *)
Definition cost_risk_line (worst_cpa : row) : outcome string :=
  id <~ str_of worst_cpa "campaign_id" ;;
  cpa <~ fixed_of worst_cpa "cpa" ;;
  Return ("Key cost risk: " ++ id ++ " has the highest CPA at " ++ cpa ++ ".")%string.

Definition _build_key_highlights (metrics : Metrics) : outcome (list string) :=
  let overall := overall metrics in
  let campaign_summary := campaign_summary metrics in
  line <~ volume_line overall ;;
  let highlights := [line] in
  line <~ rate_line overall ;;
  let highlights := highlights ++ [line] in
  if negb (empty campaign_summary) then
    top_conv <~ first_by "conversions" false campaign_summary ;;
    line <~ top_converting_line top_conv ;;
    let highlights := highlights ++ [line] in
    top_ctr <~ first_by "ctr" false campaign_summary ;;
    ctr_id <~ getitem top_ctr "campaign_id" ;;
    conv_id <~ getitem top_conv "campaign_id" ;;
    highlights <~ (if py_ne ctr_id conv_id then
                     line <~ best_ctr_line top_ctr ;; Return (highlights ++ [line])
                   else Return highlights) ;;
    worst_cpa <~ first_by "cpa" false campaign_summary ;;
    line <~ cost_risk_line worst_cpa ;;
    Return (highlights ++ [line])
  else Return highlights.

(** Lines 69-72. *)
Definition win_line (row : row) : outcome string :=
  id <~ str_of row "campaign_id" ;;
  conversions <~ int_of row "conversions" ;;
  cpa <~ fixed_of row "cpa" ;;
  Return (id ++ " delivered " ++ conversions ++ " conversions at a CPA of " ++ cpa
          ++ ", making it a strong driver of performance.")%string.

(** Lines 76-78. *)
Definition lowest_cpa_line (row : row) : outcome string :=
  id <~ str_of row "campaign_id" ;;
  cpa <~ fixed_of row "cpa" ;;
  Return (id ++ " achieved the lowest CPA at " ++ cpa
          ++ ", indicating high efficiency.")%string.

Definition _build_top_wins (metrics : Metrics) : outcome (list string) :=
  let campaign_summary := campaign_summary metrics in
  if empty campaign_summary then Return []
  else
    sorted <~ sort_values_by "conversions" false campaign_summary ;;
    let top_conv := head 2 sorted in
    wins <~ for_each win_line (rows top_conv) ;;
    sorted <~ sort_values_by "cpa" true campaign_summary ;;
    let low_cpa := head 1 sorted in
    row <~ iloc0 low_cpa ;;
    line <~ lowest_cpa_line row ;;
    Return (wins ++ [line]).

(** Lines 91-94. *)
Definition concern_line (row : row) : outcome string :=
  id <~ str_of row "campaign_id" ;;
  cpa <~ fixed_of row "cpa" ;;
  conversions <~ int_of row "conversions" ;;
  Return (id ++ " shows elevated CPA at " ++ cpa ++ " with " ++ conversions
          ++ " conversions, suggesting room for optimization.")%string.

(** Lines 98-101. *)
Definition lowest_volume_line (row : row) : outcome string :=
  id <~ str_of row "campaign_id" ;;
  conversions <~ int_of row "conversions" ;;
  Return (id ++ " has the lowest conversion volume (" ++ conversions
          ++ " conversions) and may require creative or targeting refresh.")%string.

Definition _build_key_concerns (metrics : Metrics) : outcome (list string) :=
  let campaign_summary := campaign_summary metrics in
  if empty campaign_summary then Return []
  else
    sorted <~ sort_values_by "cpa" false campaign_summary ;;
    let worst_cpa := head 2 sorted in
    concerns <~ for_each concern_line (rows worst_cpa) ;;
    sorted <~ sort_values_by "conversions" true campaign_summary ;;
    let low_conv := head 1 sorted in
    row <~ iloc0 low_conv ;;
    line <~ lowest_volume_line row ;;
    Return (concerns ++ [line]).

Definition _build_recommendations (metrics : Metrics) : outcome (list string) :=
  let campaign_summary := campaign_summary metrics in
  if empty campaign_summary then
    Return ["Increase data volume and tracking coverage to enable more granular optimization.";
            "Test multiple creatives per campaign to identify winning variations."]
  else
    sorted <~ sort_values_by "cvr" false campaign_summary ;;
    let top_cvr := head 2 sorted in
    sorted <~ sort_values_by "cpa" true campaign_summary ;;
    let low_cpa := head 2 sorted in
    sorted <~ sort_values_by "cpa" false campaign_summary ;;
    let worst_cpa := head 2 sorted in
    top_cvr_campaigns <~ names_of "campaign_id" top_cvr ;;
    low_cpa_campaigns <~ names_of "campaign_id" low_cpa ;;
    worst_cpa_campaigns <~ names_of "campaign_id" worst_cpa ;;
    Return [("Reallocate a portion of budget toward high-CVR campaigns ("
             ++ top_cvr_campaigns ++ ") and low-CPA campaigns (" ++ low_cpa_campaigns
             ++ ") to scale efficient volume.")%string;
            ("Audit creatives, audiences and landing pages for higher-CPA campaigns ("
             ++ worst_cpa_campaigns
             ++ ") to reduce cost and improve conversion efficiency.")%string;
            "Introduce structured A/B tests on creatives and audience segments and evaluate performance over the next 1–2 weeks before scaling further."].

Definition _build_campaign_insights (metrics : Metrics) : outcome string :=
  let campaign_summary := campaign_summary metrics in
  if empty campaign_summary then
    Return "Insufficient campaign-level data to generate detailed insights."
  else
    sorted <~ sort_values_by "conversions" false campaign_summary ;;
    let top_by_conv := head 3 sorted in
    conv_names <~ names_of "campaign_id" top_by_conv ;;
    let lines :=
      [("The highest converting campaigns this week were " ++ conv_names
        ++ ", indicating strong alignment between messaging, targeting and audience intent.")%string] in
    sorted <~ sort_values_by "spend" false campaign_summary ;;
    let top_by_spend := head 3 sorted in
    spend_names <~ names_of "campaign_id" top_by_spend ;;
    let lines :=
      lines ++ [("From a budget allocation perspective, " ++ spend_names
                 ++ " absorbed the majority of spend. Monitoring their marginal returns will help avoid diminishing performance as budgets scale.")%string] in
    Return (String.concat " " lines).

(** Lines 166-176: the cells of the table of key figures. *)
Definition _build_kpi_tile_table (overall : row) : outcome (list (list string)) :=
  impressions <~ int_of overall "total_impressions" ;;
  clicks <~ int_of overall "total_clicks" ;;
  conversions <~ int_of overall "total_conversions" ;;
  spend <~ fixed_of overall "total_spend" ;;
  ctr <~ percent_of overall "overall_ctr" ;;
  cpc <~ fixed_of overall "overall_cpc" ;;
  cvr <~ percent_of overall "overall_cvr" ;;
  cpa <~ fixed_of overall "overall_cpa" ;;
  Return [["Metric"; "Value"];
          ["Impressions"; impressions];
          ["Clicks"; clicks];
          ["Conversions"; conversions];
          ["Spend"; spend];
          ["CTR"; ctr];
          ["CPC"; cpc];
          ["CVR"; cvr];
          ["CPA"; cpa]].

End Builders.
End pdf_text.

(** ** report_generator/ppt_report.py: the sentences and the table *)

Module ppt_text.
Section Builders.

Context {B : Builtins} {R : ReportBuiltins}.

(** [df.sort_values(c, ascending=...).iloc[0]] *)
Definition first_by (c : string) (ascending : bool) (df : DataFrame) : outcome row :=
  sorted <~ sort_values_by c ascending df ;; iloc0 sorted.

(** Lines 20-24. *)
Definition volume_line (overall : row) : outcome string :=
  impressions <~ int_of overall "total_impressions" ;;
  clicks <~ int_of overall "total_clicks" ;;
  conversions <~ int_of overall "total_conversions" ;;
  Return (impressions ++ " impressions, " ++ clicks ++ " clicks and "
          ++ conversions ++ " conversions this week.")%string.

(** Lines 25-28. *)
Definition rate_line (overall : row) : outcome string :=
  ctr <~ percent_of overall "overall_ctr" ;;
  cpc <~ fixed_of overall "overall_cpc" ;;
  cpa <~ fixed_of overall "overall_cpa" ;;
  Return ("CTR held at " ++ ctr ++ " with an average CPC of " ++ cpc
          ++ " and CPA of " ++ cpa ++ ".")%string.

(** Lines 32-35. *)
Definition top_converting_line (top_conv : row) : outcome string :=
  id <~ str_of top_conv "campaign_id" ;;
  conversions <~ int_of top_conv "conversions" ;;
  Return (id ++ " was the strongest driver of conversions with " ++ conversions
          ++ " conversions.")%string.

(** Lines 38-41. *)
Definition cost_risk_line (worst_cpa : row) : outcome string :=
  id <~ str_of worst_cpa "campaign_id" ;;
  cpa <~ fixed_of worst_cpa "cpa" ;;
  Return (id ++ " shows the highest CPA at " ++ cpa
          ++ ", indicating a focus area for optimization.")%string.

Definition _build_key_highlights (metrics : Metrics) : outcome (list string) :=
  let overall := overall metrics in
  let campaign_summary := campaign_summary metrics in
  line <~ volume_line overall ;;
  let highlights := [line] in
  line <~ rate_line overall ;;
  let highlights := highlights ++ [line] in
  if negb (empty campaign_summary) then
    top_conv <~ first_by "conversions" false campaign_summary ;;
    line <~ top_converting_line top_conv ;;
    let highlights := highlights ++ [line] in
    worst_cpa <~ first_by "cpa" false campaign_summary ;;
    line <~ cost_risk_line worst_cpa ;;
    Return (highlights ++ [line])
  else Return highlights.

Definition _build_recommendations (metrics : Metrics) : outcome (list string) :=
  let campaign_summary := campaign_summary metrics in
  if empty campaign_summary then
    Return ["Increase data coverage and tracking to enable deeper optimization insights.";
            "Introduce multiple creative variants per campaign and measure performance."]
  else
    sorted <~ sort_values_by "cvr" false campaign_summary ;;
    let top_cvr := head 2 sorted in
    sorted <~ sort_values_by "cpa" true campaign_summary ;;
    let low_cpa := head 2 sorted in
    sorted <~ sort_values_by "cpa" false campaign_summary ;;
    let worst_cpa := head 2 sorted in
    top_cvr_campaigns <~ names_of "campaign_id" top_cvr ;;
    low_cpa_campaigns <~ names_of "campaign_id" low_cpa ;;
    worst_cpa_campaigns <~ names_of "campaign_id" worst_cpa ;;
    Return [("Prioritize budget allocation towards high-CVR campaigns ("
             ++ top_cvr_campaigns ++ ") and low-CPA campaigns (" ++ low_cpa_campaigns
             ++ ").")%string;
            ("Review targeting, creatives and landing pages for higher-CPA campaigns ("
             ++ worst_cpa_campaigns ++ ") to improve efficiency.")%string;
            "Plan structured A/B tests for creative and audience combinations and consolidate learnings weekly."].

Definition table_header : list string :=
  ["Campaign"; "Impr."; "Clicks"; "Conv."; "Spend"; "CTR"; "CPC"; "CPA"].

(** Lines 84-95: the cells of one campaign. *)
Definition table_line (row : row) : outcome (list string) :=
  id <~ str_of row "campaign_id" ;;
  impressions <~ int_of row "impressions" ;;
  clicks <~ int_of row "clicks" ;;
  conversions <~ int_of row "conversions" ;;
  spend <~ fixed_of row "spend" ;;
  ctr <~ percent_of row "ctr" ;;
  cpc <~ fixed_of row "cpc" ;;
  cpa <~ fixed_of row "cpa" ;;
  Return [id; impressions; clicks; conversions; spend; ctr; cpc; cpa].

Definition _build_top_campaign_rows (campaign_summary : DataFrame)
    : outcome (list (list string)) :=
  sorted <~ sort_values_by "spend" false campaign_summary ;;
  let top_campaigns := head 5 sorted in
  let rows_ := [table_header] in
  lines <~ for_each table_line (rows top_campaigns) ;;
  Return (rows_ ++ lines).

End Builders.
End ppt_text.

(** ** A reference implementation of the report builtins

    Two decimals after rounding the exact value to the nearest hundredth,
    ties to even; insertion sort, which keeps equal cells in frame order. *)

Module ReportReference.

Definition fixed2 (v : value) : string :=
  match v with
  | VNum q =>
      let t := Z.abs (Reference.round_half_even (q * 100)) in
      ((if Qneg_bool q then "-" else "") ++ Reference.digits (t / 100) ++ "."
       ++ Reference.pad2 (t mod 100))%string
  | VInf false => "inf"
  | VInf true => "-inf"
  | _ => "nan"
  end.

Definition percent2 (v : value) : string :=
  match v with
  | VNum q => (fixed2 (VNum (q * 100)) ++ "%")%string
  | _ => (fixed2 v ++ "%")%string
  end.

End ReportReference.

#[global] Instance reference_report_builtins : ReportBuiltins.
Proof.
  assert (Hins : forall (leb : row -> row -> bool) x l,
             Permutation (insert_by leb x l) (x :: l)).
  { intros leb x l. induction l as [ | y l IH]; simpl; [apply Permutation_refl | ].
    destruct (leb x y); [apply Permutation_refl | ].
    eapply perm_trans; [apply perm_skip, IH | apply perm_swap]. }
  assert (Hperm : forall (leb : row -> row -> bool) l, Permutation (sort_by leb l) l).
  { intros leb l. induction l as [ | x l IH]; simpl; [apply perm_nil | ].
    eapply perm_trans; [apply Hins | apply perm_skip, IH]. }
  refine {| format_2f := ReportReference.fixed2;
            format_2pct := ReportReference.percent2;
            argsort := fun leb l => sort_by leb l;
            argsort_perm := Hperm |}.
  intros leb l. induction l as [ | x l IH]; intros Htot Htrans; [constructor | ].
  cbn [sort_by fold_right]. fold (sort_by leb l).
  assert (Hs : StronglySorted (fun a b => leb a b = true) (sort_by leb l)).
  { apply IH.
    - intros a b Ha Hb. apply Htot; now right.
    - intros a b c Ha Hb Hc. apply Htrans; now right. }
  assert (Hin : forall y, In y (sort_by leb l) -> In y (x :: l)).
  { intros y Hy. right. exact (Permutation_in _ (Hperm leb l) Hy). }
  clear IH. induction (sort_by leb l) as [ | y s IHs]; simpl.
  - repeat constructor.
  - apply StronglySorted_inv in Hs. destruct Hs as [Hs Hall].
    assert (Hy : In y (x :: l)) by (apply Hin; now left).
    assert (Hsub : forall z, In z s -> In z (x :: l)) by (intros z Hz; apply Hin; now right).
    destruct (leb x y) eqn:Hxy.
    + constructor; [constructor; assumption | ].
      constructor; [exact Hxy | ].
      rewrite Forall_forall in *. intros z Hz.
      apply (Htrans x y z); auto. now left.
    + constructor; [apply IHs; assumption | ].
      rewrite Forall_forall in *. intros z Hz.
      apply (Permutation_in _ (Hins leb x s)) in Hz. destruct Hz as [<- | Hz].
      * destruct (Htot x y (or_introl eq_refl) Hy) as [H | H]; [congruence | exact H].
      * now apply Hall.
Defined.

(** ** What the properties of the reports speak of *)

(** No row of the frame has a larger cell in column [c] than [r]. *)
Definition largest_in (c : string) (df : DataFrame) (r : row) : Prop :=
  forall r', In r' (rows df) ->
             is_null (cell r' c) = true \/ vleb (cell r' c) (cell r c) = true.

Definition smallest_in (c : string) (df : DataFrame) (r : row) : Prop :=
  forall r', In r' (rows df) ->
             is_null (cell r' c) = true \/ vleb (cell r c) (cell r' c) = true.

Definition returns {A} (m : outcome A) : Prop := exists a, m = Return a.

(** One row of the campaign summary, cell by cell. *)
Definition summary_record (id impressions clicks conversions spend : value) : row :=
  [("campaign_id", id); ("impressions", impressions); ("clicks", clicks);
   ("conversions", conversions); ("spend", spend);
   ("ctr", vdiv clicks impressions); ("cpc", vdiv spend clicks);
   ("cvr", vdiv conversions clicks); ("cpa", vdiv spend conversions)].

(** A summary row whose counts [int()] accepts. *)
Definition printable_row (r : row) : Prop :=
  exists id qi qk qv spend,
    r = summary_record id (VNum qi) (VNum qk) (VNum qv) spend.

(** An overall dictionary whose counts [int()] accepts. *)
Definition printable_overall (o : row) : Prop :=
  exists qi qk qv spend ctr cpc cvr cpa,
    o = [("total_impressions", VNum qi); ("total_clicks", VNum qk);
         ("total_conversions", VNum qv); ("total_spend", spend);
         ("overall_ctr", ctr); ("overall_cpc", cpc);
         ("overall_cvr", cvr); ("overall_cpa", cpa)].

Definition reportable (metrics : Metrics) : Prop :=
  printable_overall (overall metrics)
  /\ columns (campaign_summary metrics) = campaign_columns
  /\ forall r, In r (rows (campaign_summary metrics)) -> printable_row r.

(** The builder does not index a frame outside its rows. *)
Definition in_bounds {A} (m : outcome A) : Prop := m <> Raise IndexError.

(** ** Metrics used as examples *)
Module ReportExamples.

Definition overall_of (impressions clicks conversions spend : Q) : row :=
  [("total_impressions", VNum impressions); ("total_clicks", VNum clicks);
   ("total_conversions", VNum conversions); ("total_spend", VNum spend);
   ("overall_ctr", guarded_ratio (VNum clicks) (VNum impressions));
   ("overall_cpc", guarded_ratio (VNum spend) (VNum clicks));
   ("overall_cvr", guarded_ratio (VNum conversions) (VNum clicks));
   ("overall_cpa", guarded_ratio (VNum spend) (VNum conversions))].

(** A campaign that converts and one that spends without converting. *)
Definition two_campaigns : Metrics :=
  {| overall := overall_of 2600 180 8 210;
     campaign_summary :=
       {| columns := campaign_columns;
          rows := [summary_record (VStr "CAMP01") (VNum 1600) (VNum 80) (VNum 8) (VNum 160);
                   summary_record (VStr "CAMP02") (VNum 1000) (VNum 100) (VNum 0) (VNum 50)] |};
     sql_preview := None |}.

Definition one_campaign : Metrics :=
  {| overall := overall_of 1600 80 8 160;
     campaign_summary :=
       {| columns := campaign_columns;
          rows := [summary_record (VStr "CAMP01") (VNum 1600) (VNum 80) (VNum 8) (VNum 160)] |};
     sql_preview := None |}.

End ReportExamples.

(** ** Text

    A [string] holds the UTF-8 encoding of a Python [str]: a character is a
    lead byte followed by its continuation bytes, the bytes 128 to 191. *)

Definition is_continuation (a : ascii) : bool :=
  let n := N_of_ascii a in ((128 <=? n) && (n <? 192))%N.

(** The characters of a text, in order. *)
Fixpoint chars_of (s : string) : list string :=
  match s with
  | EmptyString => []
  | String a rest =>
      let continued :=
        match rest with
        | String b _ => is_continuation b
        | EmptyString => false
        end in
      match chars_of rest with
      | c :: cs => if continued then String a c :: cs else String a EmptyString :: c :: cs
      | [] => [String a EmptyString]
      end
  end.

(** The characters [str.strip()] removes: U+0009 to U+000D, U+001C to
    U+0020, U+0085, U+00A0, U+1680, U+2000 to U+200A, U+2028, U+2029,
    U+202F, U+205F and U+3000. *)
Definition is_space (c : string) : bool :=
  match map N_of_ascii (list_ascii_of_string c) with
  | [n] => ((9 <=? n) && (n <=? 13)) || ((28 <=? n) && (n <=? 32))
  | [x; y] => (x =? 194) && ((y =? 133) || (y =? 160))
  | [x; y; z] =>
      ((x =? 225) && (y =? 154) && (z =? 128))
      || ((x =? 226) && (y =? 128)
          && (((128 <=? z) && (z <=? 138)) || (z =? 168) || (z =? 169) || (z =? 175)))
      || ((x =? 226) && (y =? 129) && (z =? 159))
      || ((x =? 227) && (y =? 128) && (z =? 128))
  | _ => false
  end%N.

Fixpoint drop_while {A} (p : A -> bool) (l : list A) : list A :=
  match l with
  | x :: l' => if p x then drop_while p l' else l
  | [] => []
  end.

(** [s.strip()] *)
Definition strip (s : string) : string :=
  String.concat "" (rev (drop_while is_space (rev (drop_while is_space (chars_of s))))).

(** [s[:n]]: the first [n] characters. *)
Definition prefix_of (n : nat) (s : string) : string :=
  String.concat "" (firstn n (chars_of s)).

(** ** gemini_client.py

    The client talks to the process environment, to the network and to the
    clock.  The environment is a record, the network a function from the
    number of the attempt to what [requests.post] does at that attempt, and
    what the client does to the world is the list of its requests and
    sleeps. *)

(** A value as [json] parses it; the keys of a dictionary are distinct.
    Numbers are the rationals they denote. *)
#[warnings="-register-all"]
Inductive json :=
| JNull
| JBool (b : bool)
| JNum (q : Q)
| JStr (s : string)
| JList (l : list json)
| JDict (d : list (string * json)).

(** The truth value of a Python object. *)
Definition json_truthy (j : json) : bool :=
  match j with
  | JNull => false
  | JBool b => b
  | JNum q => negb (Qeq_bool q 0)
  | JStr s => negb (String.eqb s "")
  | JList l => match l with [] => false | _ => true end
  | JDict d => match d with [] => false | _ => true end
  end.

Fixpoint json_lookup (k : string) (d : list (string * json)) : option json :=
  match d with
  | [] => None
  | (k', v) :: d' => if String.eqb k k' then Some v else json_lookup k d'
  end.

(** What the extraction of the reply can raise, all of it caught by
    [except Exception]. *)
Inductive extraction_exn :=
| NoGet (receiver : json)            (* AttributeError: no attribute 'get' *)
| NotIterable (iterated : json)      (* TypeError: object is not iterable *)
| JoinNotStr (position : nat) (item : json).  (* TypeError: sequence item *)

Inductive extraction (A : Type) :=
| Got (a : A)
| Caught (e : extraction_exn).
Arguments Got {A} a.
Arguments Caught {A} e.

Definition extraction_bind {A C} (m : extraction A) (k : A -> extraction C)
    : extraction C :=
  match m with
  | Got a => k a
  | Caught e => Caught e
  end.

Notation "x <-- m ;; k" := (extraction_bind m (fun x => k))
  (at level 61, m at next level, right associativity).

(** [obj.get(key, default)] *)
Definition json_get (obj : json) (key : string) (default : json) : extraction json :=
  match obj with
  | JDict d => Got (match json_lookup key d with Some v => v | None => default end)
  | _ => Caught (NoGet obj)
  end.

(** The items [for x in obj] runs over: the elements of a list, the keys
    of a dictionary, the characters of a string. *)
Definition json_iter (obj : json) : extraction (list json) :=
  match obj with
  | JList l => Got l
  | JDict d => Got (map (fun kv => JStr (fst kv)) d)
  | JStr s => Got (map JStr (chars_of s))
  | _ => Caught (NotIterable obj)
  end.

(** [isinstance(obj, dict) and key in obj and obj[key]], giving the value. *)
Definition truthy_entry (obj : json) (key : string) : option json :=
  match obj with
  | JDict d =>
      match json_lookup key d with
      | Some v => if json_truthy v then Some v else None
      | None => None
      end
  | _ => None
  end.

(** [sep.join(items)] *)
Fixpoint join_from (position : nat) (sep : string) (items : list json)
    : extraction string :=
  match items with
  | [] => Got ""
  | JStr s :: rest =>
      match rest with
      | [] => Got s
      | _ => t <-- join_from (S position) sep rest ;; Got (s ++ sep ++ t)%string
      end
  | item :: _ => Caught (JoinNotStr position item)
  end.

(** ["\n\n"] *)
Definition blank_line : string := String "010" (String "010" EmptyString).

(** The library functions of the client that produce text. *)
Class ClientBuiltins := {
  (** [json.dumps(obj)] *)
  json_dumps : json -> string;
  (** [str(e)] for a caught exception *)
  exn_text : extraction_exn -> string;
  (** [str(x)] for a value that is not a string *)
  str_json : json -> string
}.

(** [f"{x}"] *)
Definition text_of {C : ClientBuiltins} (x : json) : string :=
  match x with
  | JStr s => s
  | _ => str_json x
  end.

Record Environ := mkEnviron {
  GEMINI_API_KEY : option string;
  API_KEY : option string
}.

(** What one call of [requests.post] does: it raises a
    [RequestException] whose text is [e], or returns a response;
    [body] is [None] when [resp.json()] raises [ValueError]. *)
Inductive reply :=
| ConnectionFailed (e : string)
| Response (status_code : Z) (text : string) (body : option json).

Inductive event :=
| Post (payload : json)
| Sleep (seconds : Z).

Definition MODEL_NAME : string := "gemini-2.5-flash-preview-09-2025".
Definition MAX_OUTPUT_TOKENS : Z := 4096.

(** [os.environ.get("GEMINI_API_KEY") or os.environ.get("API_KEY", "")] *)
Definition get_api_key (env : Environ) : string :=
  match GEMINI_API_KEY env with
  | Some k => if String.eqb k "" then
                match API_KEY env with Some k' => k' | None => "" end
              else k
  | None => match API_KEY env with Some k' => k' | None => "" end
  end.


Section Client.

Context {B : Builtins} {C : ClientBuiltins}.

(** [json.dumps(obj)[:length]]; on a parsed reply [json.dumps] does not
    raise, so the [except] branch of the source is not reached. *)
Definition safe_json_snippet (obj : json) (length : nat) : string :=
  prefix_of length (json_dumps obj).

(** Lines 93-99, for one candidate: the texts it adds to
    [extracted_texts]. *)
Definition candidate_texts (cand : json) : extraction (list json) :=
  content <-- json_get cand "content" (JDict []) ;;
  found <-- json_get content "parts" JNull ;;
  let parts := if json_truthy found then found else JList [] in
  items <-- json_iter parts ;;
  let from_parts :=
    flat_map (fun p => match truthy_entry p "text" with
                       | Some t => [t]
                       | None => []
                       end) items in
  Got (from_parts
       ++ (if negb (json_truthy parts) then
             match truthy_entry content "text" with
             | Some t => [t]
             | None => []
             end
           else [])).

Fixpoint all_texts (candidates : list json) : extraction (list json) :=
  match candidates with
  | [] => Got []
  | cand :: rest =>
      texts <-- candidate_texts cand ;;
      more <-- all_texts rest ;;
      Got (texts ++ more)
  end.

(** Lines 104-114: the reply has no candidate text. *)
Definition fallback (result : json) : json :=
  match truthy_entry result "outputText" with
  | Some v => v
  | None =>
      match truthy_entry result "text" with
      | Some v => v
      | None =>
          JStr ("Error: Could not extract content from the API response. "
                ++ "Raw response snippet: " ++ safe_json_snippet result 500)%string
      end
  end.

(** Lines 89-114, inside the [try]. *)
Definition try_extract (result : json) : extraction json :=
  candidates <-- json_get result "candidates" (JList []) ;;
  if json_truthy candidates then
    items <-- json_iter candidates ;;
    extracted_texts <-- all_texts items ;;
    match extracted_texts with
    | [] => Got (fallback result)
    | _ => joined_text <-- join_from 0 blank_line extracted_texts ;;
           Got (JStr joined_text)
    end
  else Got (fallback result).

(** Lines 88-120. *)
Definition extract (result : json) : json :=
  match try_extract result with
  | Got v => v
  | Caught e =>
      JStr ("Error extracting model output: " ++ exn_text e ++ ". "
            ++ "Raw response snippet: " ++ safe_json_snippet result 500)%string
  end.

(** Lines 77-120: what the call returns once it has a response. *)
Definition on_response (status_code : Z) (text : string) (body : option json) : json :=
  if (status_code =? 400)%Z then
    JStr ("API Error (HTTP 400 Bad Request): " ++ prefix_of 300 text)%string
  else if (status_code =? 404)%Z then
    JStr ("API Error (HTTP 404 Not Found): Model '" ++ MODEL_NAME
          ++ "' unavailable at endpoint.")%string
  else
    match body with
    | None => JStr ("API Error: Non-JSON response: " ++ prefix_of 500 text)%string
    | Some result => extract result
    end.

(** Lines 54-58. *)
Definition payload_of (system_prompt : string) (contents : json) : json :=
  JDict [("systemInstruction", JDict [("parts", JList [JDict [("text", JStr system_prompt)]])]);
         ("contents",
          if json_truthy contents then contents
          else JList [JDict [("role", JStr "user");
                             ("parts", JList [JDict [("text", JStr "Start.")]])]]);
         ("generationConfig", JDict [("maxOutputTokens", JNum (inject_Z MAX_OUTPUT_TOKENS))])].

(** Lines 62-122: the attempts from [attempt] on, [remaining] of them. *)
Fixpoint attempts (network : Z -> reply) (payload : json) (retries : Z)
    (remaining : nat) (attempt : Z) : list event * json :=
  match remaining with
  | O => ([], JStr "API call failed after retries.")
  | S remaining' =>
      match network attempt with
      | ConnectionFailed e =>
          if (attempt =? retries)%Z then
            ([Post payload],
             JStr ("Error connecting to the model after " ++ format_d retries
                   ++ " attempts: " ++ e)%string)
          else
            let (events, returned) :=
              attempts network payload retries remaining' (attempt + 1) in
            (Post payload :: Sleep (2 ^ (attempt - 1)) :: events, returned)
      | Response status_code text body =>
          ([Post payload], on_response status_code text body)
      end
  end.

Definition call_gemini_api (env : Environ) (network : Z -> reply)
    (system_prompt : string) (contents : json) (retries : Z) : list event * json :=
  let key := get_api_key env in
  if String.eqb key "" then
    ([], JStr "FATAL ERROR: API Key is missing. Please set the 'GEMINI_API_KEY' environment variable.")
  else
    attempts network (payload_of system_prompt contents) retries (Z.to_nat retries) 1.

End Client.


(** ** insight_engine.py *)

(** [re.sub], whose patterns are matched by the library. *)
Class RegexBuiltins := {
  re_sub : forall (pattern repl : string) (multiline : bool) (text : string), string
}.

(** [s.replace(c, "")] for one character [c]. *)
Fixpoint remove_char (c : ascii) (s : string) : string :=
  match s with
  | String a s' => if Ascii.eqb a c then remove_char c s' else String a (remove_char c s')
  | EmptyString => EmptyString
  end.

(** [s.startswith(p)] *)
Definition startswith (s p : string) : bool := String.prefix p s.

Definition quote : string := String (ascii_of_nat 34) EmptyString.
Definition newline : string := String (ascii_of_nat 10) EmptyString.

(** [obj[key]] on a configuration value. *)
Definition json_item (obj : json) (key : string) : outcome json :=
  match obj with
  | JDict d =>
      match json_lookup key d with
      | Some v => Return v
      | None => Raise (Exn (KeyError key))
      end
  | _ => Raise (Exn TypeError)
  end.

(** What [generate_insights] raises. *)
Inductive insight_exn :=
| Raised (e : raised)
| AttributeError
| RuntimeError (msg : string).

Inductive insights :=
| Summary (executive_summary : string)
| Failure (e : insight_exn).

Section Insights.

Context {B : Builtins} {R : ReportBuiltins} {C : ClientBuiltins} {X : RegexBuiltins}.

Definition clean_markdown (text : string) : string :=
  if String.eqb text "" then text
  else
    let text := re_sub "^#{1,6}\s*" "" true text in
    let text := re_sub "\*\*(.*?)\*\*" "\1" false text in
    let text := re_sub "\*(.*?)\*" "\1" false text in
    let text := re_sub "_([^_]*)_" "\1" false text in
    let text := remove_char "*" text in
    let text := re_sub "\n{3,}" (newline ++ newline) false text in
    strip text.

(** [f"{int(d[k])}"] *)
Definition int_plain (d : row) (k : string) : outcome string :=
  x <~ getitem d k ;; n <~ lift (py_int x) ;; Return (format_d n).

(** Lines 50-58: the line of one campaign. *)
Definition campaign_line (row : row) : outcome string :=
  id <~ str_of row "campaign_id" ;;
  impressions <~ int_plain row "impressions" ;;
  clicks <~ int_plain row "clicks" ;;
  conversions <~ int_plain row "conversions" ;;
  ctr <~ percent_of row "ctr" ;;
  cpc <~ fixed_of row "cpc" ;;
  cpa <~ fixed_of row "cpa" ;;
  Return ("- " ++ id ++ ": " ++ impressions ++ " impressions, " ++ clicks ++ " clicks, "
          ++ conversions ++ " conversions, CTR=" ++ ctr ++ ", CPC=" ++ cpc
          ++ ", CPA=" ++ cpa)%string.

Definition _build_prompt (metrics : Metrics) (config : json) : outcome string :=
  report <~ json_item config "report" ;;
  client_name <~ json_item report "client_name" ;;
  report <~ json_item config "report" ;;
  week_start <~ json_item report "week_start" ;;
  report <~ json_item config "report" ;;
  week_end <~ json_item report "week_end" ;;
  let client_name := text_of client_name in
  let week_start := text_of week_start in
  let week_end := text_of week_end in
  let overall := overall metrics in
  let campaign_summary := campaign_summary metrics in
  campaign_lines <~ for_each campaign_line (rows campaign_summary) ;;
  let campaign_block := String.concat newline campaign_lines in
  impressions <~ int_plain overall "total_impressions" ;;
  clicks <~ int_plain overall "total_clicks" ;;
  conversions <~ int_plain overall "total_conversions" ;;
  spend <~ fixed_of overall "total_spend" ;;
  ctr <~ percent_of overall "overall_ctr" ;;
  cpc <~ fixed_of overall "overall_cpc" ;;
  cpa <~ fixed_of overall "overall_cpa" ;;
  cvr <~ percent_of overall "overall_cvr" ;;
  let prompt :=
      ("
You are a senior marketing data analyst. Your job is to explain campaign performance clearly
to a non-technical client.

IMPORTANT FORMAT RULES:
- Do NOT use markdown.
- Do NOT use headings like ##, ###, ####.
- Do NOT use bold, italics, asterisks (" ++ "*) or underscores (_).
- Write in plain English sentences only.
- Use normal paragraphs separated by blank lines.
- Do not use bullet symbols like "
       ++ quote
       ++ "-"
       ++ quote
       ++ " or "
       ++ quote
       ++ "•"
       ++ quote
       ++ " in the final answer.
- Do not include numbered lists like "
       ++ quote
       ++ "1., 2., 3."
       ++ quote
       ++ ".

Client name: "
       ++ client_name
       ++ "
Reporting period: "
       ++ week_start
       ++ " to "
       ++ week_end
       ++ "

Overall performance:
- Impressions: "
       ++ impressions
       ++ "
- Clicks: "
       ++ clicks
       ++ "
- Conversions: "
       ++ conversions
       ++ "
- Spend: "
       ++ spend
       ++ "
- CTR: "
       ++ ctr
       ++ "
- CPC: "
       ++ cpc
       ++ "
- CPA: "
       ++ cpa
       ++ "
- CVR: "
       ++ cvr
       ++ "

Campaign details:
"
       ++ campaign_block
       ++ "

TASK:
Write a concise, executive-friendly weekly performance summary in 3 short sections:

1. Overall Performance:
   Summarize how the account performed this week in 2–3 sentences.

2. Key Campaign Insights:
   Describe which campaigns did well or poorly, focusing on conversions, CTR and CPA.
   Mention them by name in sentences (for example: "
       ++ quote
       ++ "Campaign CAMP01 performed strongly..."
       ++ quote
       ++ ").

3. Recommendations:
   Suggest 1–3 clear actions the client should take next week to improve performance.

Remember:
- Plain text only.
- No markdown.
- No bullets.
- No headings.
- No emojis.
")%string in
  Return (strip prompt).

(** The default of the parameter [retries: int = 3]. *)
Definition default_retries : Z := 3.

(** Lines 143-154: what [generate_insights] makes of the returned text. *)
Definition on_text (text : json) : insights :=
  if negb (json_truthy text) then
    Failure (RuntimeError ("Gemini call failed: " ++ text_of text)%string)
  else
    match text with
    | JStr s =>
        if startswith s "Error" || startswith s "FATAL ERROR" then
          Failure (RuntimeError ("Gemini call failed: " ++ s)%string)
        else Summary (clean_markdown (strip s))
    | _ => Failure AttributeError
    end.

(** Lines 126-129. *)
Definition system_prompt : string :=
  ("You are a senior performance marketing analyst. "
   ++ "You always follow formatting instructions strictly and never return markdown.")%string.

(** Lines 133-138. *)
Definition contents_of (user_prompt : string) : json :=
  JList [JDict [("role", JStr "user");
                ("parts", JList [JDict [("text", JStr user_prompt)]])]].

Definition generate_insights (env : Environ) (network : Z -> reply)
    (metrics : Metrics) (config : json) : list event * insights :=
  match json_get config "llm" (JDict []) with
  | Caught _ => ([], Failure AttributeError)
  | Got llm_cfg =>
      match json_get llm_cfg "enabled" (JBool true) with
      | Caught _ => ([], Failure AttributeError)
      | Got enabled =>
          if negb (json_truthy enabled) then
            ([], Failure (RuntimeError
                   "LLM is disabled in config, but this project requires an active LLM."))
          else
            match _build_prompt metrics config with
            | Raise e => ([], Failure (Raised e))
            | Return user_prompt =>
                let (events, text) :=
                  call_gemini_api env network system_prompt (contents_of user_prompt)
                    default_retries in
                (events, on_text text)
            end
      end
  end.

End Insights.


(** ** What the properties of the client speak of *)

(** The number of requests in a list of events, and the seconds slept. *)
Definition posts (events : list event) : nat :=
  length (filter (fun e => match e with Post _ => true | Sleep _ => false end) events).

Definition slept (events : list event) : Z :=
  fold_right (fun e acc => match e with Sleep s => (s + acc)%Z | Post _ => acc end) 0%Z events.

(** A reply in the shape the service documents: one candidate whose
    content has these text parts. *)
Definition candidate_reply (texts : list string) : json :=
  JDict [("candidates",
          JList [JDict [("content",
                         JDict [("parts",
                                 JList (map (fun t => JDict [("text", JStr t)]) texts))])]])].

(** Every request of the list carries this payload. *)
Definition carries (payload : json) (e : event) : Prop :=
  match e with
  | Post p => p = payload
  | Sleep _ => True
  end.

(** The configuration does not switch the model off. *)
Definition llm_enabled (config : json) : Prop :=
  exists llm_cfg enabled,
    json_get config "llm" (JDict []) = Got llm_cfg
    /\ json_get llm_cfg "enabled" (JBool true) = Got enabled
    /\ json_truthy enabled = true.

(** A configuration with the report keys and the model enabled. *)
Definition config_of (client_name week_start week_end : string) : json :=
  JDict [("report", JDict [("client_name", JStr client_name);
                           ("week_start", JStr week_start);
                           ("week_end", JStr week_end)])].

(** ** A reference implementation of the text of the client

    Only what the examples evaluate: the sketches of [json.dumps] and of the
    exception texts print the kind of the value, and [re.sub] is the
    identity, which is what it is on a text none of the patterns matches. *)
Module ClientReference.

Definition kind (j : json) : string :=
  match j with
  | JNull => "NoneType"
  | JBool _ => "bool"
  | JNum _ => "float"
  | JStr _ => "str"
  | JList _ => "list"
  | JDict _ => "dict"
  end.

Definition text (e : extraction_exn) : string :=
  match e with
  | NoGet j => ("'" ++ kind j ++ "' object has no attribute 'get'")%string
  | NotIterable j => ("'" ++ kind j ++ "' object is not iterable")%string
  | JoinNotStr n j =>
      ("sequence item " ++ Reference.digits (Z.of_nat n) ++ ": expected str instance, "
       ++ kind j ++ " found")%string
  end.

End ClientReference.

#[global] Instance reference_client_builtins : ClientBuiltins :=
  {| json_dumps := ClientReference.kind; exn_text := ClientReference.text;
     str_json := ClientReference.kind |}.

#[global] Instance reference_regex_builtins : RegexBuiltins :=
  {| re_sub := fun _ _ _ text => text |}.

(** ** Environments and networks used as examples *)
Module ClientExamples.

Definition env : Environ := mkEnviron None (Some "secret").

(** Two attempts time out, the third is answered with a status the client
    does not single out and a body that is not JSON. *)
Definition slow_network (attempt : Z) : reply :=
  if (attempt <? 3)%Z then ConnectionFailed "timed out"
  else Response 503 "Service Unavailable" None.

Definition dead_network (attempt : Z) : reply := ConnectionFailed "timed out".

Definition answers : list string := ["Spend was efficient."; "Scale CAMP01."].

Definition answering_network (attempt : Z) : reply :=
  Response 200 "" (Some (candidate_reply answers)).

Definition refusing_network (attempt : Z) : reply :=
  Response 400 "API key not valid." None.

Definition config : json := config_of "Acme" "2025-01-04" "2025-01-10".

End ClientExamples.

(** ** The campaign table of the PDF report

    Lines 381-400 of [generate_pdf_report]: the rows of [campaign_data],
    which the report lays out as its table of campaigns. *)
Module pdf_table.
Section Table.

Context {B : Builtins} {R : ReportBuiltins}.

Definition table_header : list string :=
  ["Campaign"; "Impr."; "Clicks"; "Conv."; "Spend"; "CTR"; "CPC"; "CVR"; "CPA"].

(** Lines 387-400: the cells of one campaign. *)
Definition table_line (row : row) : outcome (list string) :=
  id <~ str_of row "campaign_id" ;;
  impressions <~ int_of row "impressions" ;;
  clicks <~ int_of row "clicks" ;;
  conversions <~ int_of row "conversions" ;;
  spend <~ fixed_of row "spend" ;;
  ctr <~ percent_of row "ctr" ;;
  cpc <~ fixed_of row "cpc" ;;
  cvr <~ percent_of row "cvr" ;;
  cpa <~ fixed_of row "cpa" ;;
  Return [id; impressions; clicks; conversions; spend; ctr; cpc; cvr; cpa].

Definition campaign_data (campaign_summary : DataFrame) : outcome (list (list string)) :=
  sorted <~ sort_values_by "spend" false campaign_summary ;;
  let top_campaigns := head 10 sorted in
  let campaign_data := [table_header] in
  lines <~ for_each table_line (rows top_campaigns) ;;
  Return (campaign_data ++ lines).

End Table.
End pdf_table.

(** A line of the PDF table without its CVR cell. *)
Definition without_cvr (line : list string) : list string :=
  firstn 7 line ++ skipn 8 line.

(** ** charts.py: what the charts are drawn from

    [generate_charts] hands two sets of series to the plotting library:
    the bars of the campaigns that spent most, and the daily totals.
    Each is prepared inside a [try] whose [except Exception] logs and
    goes on without the chart; the drawing itself is the library's. *)
Module charts.

Record bars := mkBars {
  labels : list string;
  impressions : list value;
  clicks : list value
}.

(** [df[c].tolist()] *)
Definition column (c : string) (df : DataFrame) : outcome (list value) :=
  if has_column df c then Return (col df c) else Raise (Exn (KeyError c)).

Section Data.

Context {B : Builtins} {R : ReportBuiltins}.

(** Lines 31-39: the bars, [None] when the summary is empty. *)
Definition campaign_bar (metrics : Metrics) : outcome (option bars) :=
  let campaign_summary := campaign_summary metrics in
  if negb (empty campaign_summary) then
    sorted <~ sort_values_by "spend" false campaign_summary ;;
    let top_campaigns := head 5 sorted in
    ids <~ column "campaign_id" top_campaigns ;;
    impressions <~ column "impressions" top_campaigns ;;
    clicks <~ column "clicks" top_campaigns ;;
    Return (Some {| labels := map str_value ids;
                    impressions := impressions;
                    clicks := clicks |})
  else Return None.

End Data.

(** Lines 72-77: the frame of the daily trend, [None] when the dataset
    has no date column. *)
Definition daily (merged_df : DataFrame) : result (option DataFrame) :=
  if has_column merged_df "date" then
    summed <- groupby_agg ["date"] [("impressions", Sum); ("clicks", Sum)] merged_df ;;
    Ok (Some (sort_values ["date"] summed))
  else Ok None.

End charts.

Module JoinExamples.

(** Traffic of two campaigns: CAMP02 has no click record, Mumbai has no
    weather reading, and one record arrived without its location. *)
Definition unmatched : Store :=
  Examples.store_of
    [Examples.traffic_row "2025-01-04" (VStr "Delhi") (VStr "CAMP01") 1000;
     Examples.traffic_row "2025-01-05" (VStr "Delhi") (VStr "CAMP01") 600;
     Examples.traffic_row "2025-01-05" (VStr "Mumbai") (VStr "CAMP02") 400;
     Examples.traffic_row "2025-01-05" VNull (VStr "CAMP02") 300]
    (rows Scenario.clicks) (rows Scenario.weather).

End JoinExamples.

(** A measured cell in the range where the quotients of the ratio columns
    stay within the doubles: missing, zero, or of magnitude between 1e-100
    and 1e100.  The sums of such cells that are not zero are no smaller than
    1e-116 and, for any number of rows a frame can hold, far below 1e200. *)
Definition moderate (v : value) : bool :=
  match v with
  | VNull => true
  | VNum q =>
      let magnitude := (Z.abs (Qnum q) # Qden q)%Q in
      Qeq_bool q 0
      || (Qle_bool (1 # 10 ^ 100) magnitude && Qle_bool magnitude (inject_Z (10 ^ 100)))
  | _ => false
  end.

Definition moderate_inputs (st : Store) : bool :=
  forallb moderate (col (traffic_df st) "impressions")
  && forallb (fun c => forallb moderate (col (clicks_df st) c))
       ["clicks"; "conversions"; "spend"].

(** ** The ratio of one record on binary64

    Lines 77-84 for one record and one ratio column, on IEEE 754 double
    precision: the quotient of the two cells, an infinity replaced by
    NaN. *)
Module Doubles.

Definition of_scaled (m e : Z) : SpecFloat.spec_float :=
  SpecFloat.binary_normalize Binary64.prec Binary64.emax m e false.

Definition ratio_cell (num den : SpecFloat.spec_float) : SpecFloat.spec_float :=
  match SpecFloat.SFdiv Binary64.prec Binary64.emax num den with
  | SpecFloat.S754_infinity _ => SpecFloat.S754_nan
  | q => q
  end.

Definition is_zero (x : SpecFloat.spec_float) : bool :=
  match x with SpecFloat.S754_zero _ => true | _ => false end.

(** A spend of 1e308 on half a click. *)
Definition large_spend : SpecFloat.spec_float := Binary64.of_Z (10 ^ 308).
Definition half_click : SpecFloat.spec_float := of_scaled 1 (-1).

End Doubles.

Module RatioExamples.

(** Four unified records: one with clicks, one whose click record counts
    no click, conversion or spend, one without a click record, and one
    that counts no impression. *)
Definition denominators : Store :=
  Examples.store_of
    [Examples.traffic_row "2025-01-04" (VStr "Delhi") (VStr "CAMP01") 1000;
     Examples.traffic_row "2025-01-04" (VStr "Mumbai") (VStr "CAMP01") 0;
     Examples.traffic_row "2025-01-05" (VStr "Delhi") (VStr "CAMP01") 600;
     Examples.traffic_row "2025-01-05" (VStr "Mumbai") (VStr "CAMP02") 400]
    [Examples.clicks_row "2025-01-04" (VStr "CAMP01") 50 5 100;
     Examples.clicks_row "2025-01-05" (VStr "CAMP01") 0 0 0]
    (rows Scenario.weather).

End RatioExamples.

(** The impressions of the records of one day, summed. *)
Definition day_total (merged_df : DataFrame) (d : value) : value :=
  vsum (map (fun r => cell r "impressions")
            (filter (fun r => value_eqb (cell r "date") d) (rows merged_df))).

(** The records of one location over two days: every record is of the
    location [name], on the day [t1] or on the day [t2], and counts a whole
    number of impressions. *)
Definition two_days (merged_df : DataFrame) (name : string) (t1 t2 : Z) : Prop :=
  forall r, In r (rows merged_df) ->
    cell r "location" = VStr name
    /\ (cell r "date" = VTime t1 \/ cell r "date" = VTime t2)
    /\ exists n : Z, (0 <= n)%Z /\ cell r "impressions" = VNum (inject_Z n).

Module TwoCampaigns.

Definition record (t : Z) (campaign : string) (impressions : Q) : row :=
  [("date", VTime t); ("location", VStr "Delhi"); ("campaign_id", VStr campaign);
   ("impressions", VNum impressions)].

(** Two campaigns in Delhi on 2025-01-04 and 2025-01-05, the records not
    in date order: 60 + 40 impressions on the first day, 50 + [rest] on
    the second. *)
Definition frame (rest : Q) : DataFrame :=
  {| columns := ["date"; "location"; "campaign_id"; "impressions"];
     rows := [record 1736035200000000000 "CAMP01" 50;
              record 1735948800000000000 "CAMP01" 60;
              record 1735948800000000000 "CAMP02" 40;
              record 1736035200000000000 "CAMP02" rest] |}.

End TwoCampaigns.

(** ** The range in which the sums of the code are exact

    pandas adds the cells of an int64 column modulo 2^64 and those of a
    float64 column with rounding.  On whole numbers whose magnitudes total
    at most 2^53 neither happens, in whatever order the cells are added:
    every partial sum is a whole number of magnitude at most 2^53, which
    both types hold exactly. *)
Definition whole (v : value) : bool :=
  match v with
  | VNull => true
  | VNum q => (Qden (Qred q) =? 1)%positive
  | _ => false
  end.

Definition magnitude_total (l : list value) : Z :=
  fold_right (fun v acc => (Z.abs (Qnum (Qred (qval v))) + acc)%Z) 0%Z l.

(** The counts of the inputs are whole numbers; the impressions total at
    most 2^53, and so do the clicks and the conversions counted once for
    every traffic record (a unified record carries the clicks of its date
    and campaign, whatever its location). *)
Definition exact_counts (st : Store) : bool :=
  forallb whole (col (traffic_df st) "impressions")
  && forallb whole (col (clicks_df st) "clicks")
  && forallb whole (col (clicks_df st) "conversions")
  && (magnitude_total (col (traffic_df st) "impressions") <=? 2 ^ 53)%Z
  && (Z.of_nat (length (rows (traffic_df st)))
      * magnitude_total (col (clicks_df st) "clicks") <=? 2 ^ 53)%Z
  && (Z.of_nat (length (rows (traffic_df st)))
      * magnitude_total (col (clicks_df st) "conversions") <=? 2 ^ 53)%Z.

(** The cells of a column are texts. *)
Definition text_column (df : DataFrame) (c : string) : bool :=
  forallb (fun v => match v with VStr _ => true | _ => false end) (col df c).

(** * Properties *)

(** ** Cells and arithmetic *)

Lemma Qeq_bool_refl (q : Q) : Qeq_bool q q = true.
Proof. apply Qeq_bool_iff. reflexivity. Qed.

Lemma Qeq_bool_sym (p q : Q) : Qeq_bool p q = Qeq_bool q p.
Proof.
  destruct (Qeq_bool p q) eqn:H; symmetry.
  - apply Qeq_bool_iff. symmetry. now apply Qeq_bool_iff.
  - destruct (Qeq_bool q p) eqn:H'; [ | reflexivity].
    apply Qeq_bool_iff in H'. symmetry in H'. apply Qeq_bool_iff in H'. congruence.
Qed.

Lemma Qeq_bool_trans (p q r : Q) :
  Qeq_bool p q = true -> Qeq_bool q r = true -> Qeq_bool p r = true.
Proof.
  rewrite !Qeq_bool_iff. intros H1 H2. now rewrite H1.
Qed.

Lemma Ok_inj {A} (a b : A) : Ok a = Ok b -> a = b.
Proof. congruence. Qed.

Lemma append_assoc (a b c : string) : ((a ++ b) ++ c = a ++ (b ++ c))%string.
Proof. induction a as [ | x a IH]; simpl; [reflexivity | now rewrite IH]. Qed.

Lemma is_zero_leb_zero (v : value) : is_zero v = true -> vleb v (VNum 0) = true.
Proof.
  destruct v as [ | s | t | q | b]; simpl; try discriminate.
  intros H. apply Qeq_bool_iff in H. apply Qle_bool_iff. rewrite H. apply Qle_refl.
Qed.

(** ** The anomaly scan *)

Section ScanFacts.

Context {B : Builtins}.
Variable merged_df : DataFrame.
Variable drop_threshold : value.

Lemma guarded_change_defined (prev_impr curr_impr : value) :
  vleb prev_impr (VNum 0) = false ->
  relative_change prev_impr curr_impr = Ok (vdiv (vsub curr_impr prev_impr) prev_impr).
Proof.
  intros H. unfold relative_change, py_truediv.
  destruct (is_zero prev_impr) eqn:Hz; [ | reflexivity].
  apply is_zero_leb_zero in Hz. congruence.
Qed.

Lemma py_int_not_zero_division (v : value) (k : Z -> result (list string)) :
  (forall n, k n <> Err ZeroDivisionError) ->
  bind (py_int v) k <> Err ZeroDivisionError.
Proof.
  intros Hk. destruct v; simpl; try discriminate. apply Hk.
Qed.

Lemma check_pair_no_zero_division has_rain location prev_row curr_row :
  pdf_report.check_pair merged_df drop_threshold has_rain location prev_row curr_row
  <> Err ZeroDivisionError.
Proof.
  unfold pdf_report.check_pair.
  destruct (vleb (cell prev_row "impressions") (VNum 0)) eqn:Hguard; [discriminate | ].
  rewrite (guarded_change_defined _ _ Hguard). simpl bind.
  match goal with |- (if ?c then _ else _) <> _ => destruct c end; [ | discriminate].
  apply py_int_not_zero_division; intros curr_int.
  apply py_int_not_zero_division; intros prev_int.
  destruct has_rain; simpl; [ | discriminate].
  destruct (rain_vals_at merged_df (cell curr_row "date") location) as [ | v vs];
    simpl; [discriminate | ].
  match goal with |- bind (if ?c then _ else _) _ <> _ => destruct c end;
    simpl; discriminate.
Qed.

Lemma scan_group_step has_rain location prev_row curr_row rest :
  pdf_report.scan_group merged_df drop_threshold has_rain location
    (prev_row :: curr_row :: rest)
  = (found <- pdf_report.check_pair merged_df drop_threshold has_rain location
               prev_row curr_row ;;
     more <- pdf_report.scan_group merged_df drop_threshold has_rain location
               (curr_row :: rest) ;;
     Ok (found ++ more)).
Proof. reflexivity. Qed.

Lemma scan_group_no_zero_division has_rain location grp :
  pdf_report.scan_group merged_df drop_threshold has_rain location grp
  <> Err ZeroDivisionError.
Proof.
  induction grp as [ | prev_row rest IH]; [discriminate | ].
  destruct rest as [ | curr_row rest']; [discriminate | ].
  rewrite scan_group_step.
  pose proof (check_pair_no_zero_division has_rain location prev_row curr_row) as Hc.
  destruct (pdf_report.check_pair _ _ _ _ _ _) as [found | e]; cbn [bind].
  - destruct (pdf_report.scan_group _ _ _ _ (curr_row :: rest')) as [more | e];
      cbn [bind]; [discriminate | exact IH].
  - exact Hc.
Qed.

Lemma scan_groups_no_zero_division has_rain gs :
  pdf_report.scan_groups merged_df drop_threshold has_rain gs
  <> Err ZeroDivisionError.
Proof.
  induction gs as [ | [k grp] rest IH]; simpl; [discriminate | ].
  match goal with
  | |- bind (pdf_report.scan_group ?a ?b ?c ?d ?g) _ <> _ =>
      pose proof (scan_group_no_zero_division c d g) as Hg;
      destruct (pdf_report.scan_group a b c d g) as [found | e]; simpl
  end.
  - destruct (pdf_report.scan_groups _ _ _ rest) as [more | e];
      simpl; [discriminate | exact IH].
  - exact Hg.
Qed.

Lemma groupby_agg_error by_ aggs df e :
  groupby_agg by_ aggs df = Err e -> e = TypeError \/ exists c, e = KeyError c.
Proof.
  unfold groupby_agg.
  destruct (first_missing _ df) as [c | ].
  - intros H. injection H as <-. right. now exists c.
  - destruct (forallb _ _); [discriminate | ]. intros H. injection H as <-. now left.
Qed.

Lemma detect_anomalies_no_zero_division :
  pdf_report._detect_anomalies merged_df drop_threshold <> Err ZeroDivisionError.
Proof.
  unfold pdf_report._detect_anomalies.
  match goal with |- (if ?c then _ else _) <> _ => destruct c end; [discriminate | ].
  destruct (groupby_agg _ _ merged_df) as [daily | e] eqn:Hd; simpl.
  - apply scan_groups_no_zero_division.
  - apply groupby_agg_error in Hd. destruct Hd as [-> | [c ->]]; discriminate.
Qed.

End ScanFacts.

(** C7. A consecutive pair whose previous-day impressions are at most 0
    yields no finding, whatever the current day holds, in whichever frame and
    location it is met; and the scan as a whole never evaluates the
    relative change with a zero divisor. *)
Theorem anomaly_zero_guard {B : Builtins} (merged_df : DataFrame) (drop_threshold : value)
    (has_rain : bool) (location : value) (prev_row curr_row : row) :
  vleb (cell prev_row "impressions") (VNum 0) = true ->
  pdf_report.check_pair merged_df drop_threshold has_rain location prev_row curr_row = Ok []
  /\ (forall rest,
        pdf_report.scan_group merged_df drop_threshold has_rain location
          (prev_row :: curr_row :: rest)
        = pdf_report.scan_group merged_df drop_threshold has_rain location
            (curr_row :: rest))
  /\ pdf_report._detect_anomalies merged_df drop_threshold <> Err ZeroDivisionError.
Proof.
  intros Hguard.
  assert (Hpair : pdf_report.check_pair merged_df drop_threshold has_rain location
                    prev_row curr_row = Ok []).
  { unfold pdf_report.check_pair. rewrite Hguard. reflexivity. }
  split; [exact Hpair | split].
  - intros rest. rewrite scan_group_step, Hpair. cbn [bind].
    destruct (pdf_report.scan_group _ _ _ _ (curr_row :: rest)); reflexivity.
  - apply detect_anomalies_no_zero_division.
Qed.

(** ** The two copies of the scan *)

Section TwoCopies.

Context {B : Builtins}.
Variable merged_df : DataFrame.
Variable drop_threshold : value.

Lemma check_pair_same has_rain location prev_row curr_row :
  pdf_report.check_pair merged_df drop_threshold has_rain location prev_row curr_row
  = ppt_report.check_pair merged_df drop_threshold has_rain location prev_row curr_row.
Proof.
  unfold pdf_report.check_pair, ppt_report.check_pair.
  destruct (vleb (cell prev_row "impressions") (VNum 0)); [reflexivity | ].
  destruct (relative_change _ _) as [change | e]; [ | reflexivity].
  cbn [bind]. destruct (vleb change (vneg drop_threshold)); reflexivity.
Qed.

Lemma scan_group_same has_rain location grp :
  pdf_report.scan_group merged_df drop_threshold has_rain location grp
  = ppt_report.scan_group merged_df drop_threshold has_rain location grp.
Proof.
  induction grp as [ | prev_row rest IH]; [reflexivity | ].
  destruct rest as [ | curr_row rest']; [reflexivity | ].
  rewrite scan_group_step.
  change (ppt_report.scan_group merged_df drop_threshold has_rain location
            (prev_row :: curr_row :: rest'))
    with (found <- ppt_report.check_pair merged_df drop_threshold has_rain location
                     prev_row curr_row ;;
          more <- ppt_report.scan_group merged_df drop_threshold has_rain location
                    (curr_row :: rest') ;;
          Ok (found ++ more)).
  now rewrite check_pair_same, IH.
Qed.

Lemma scan_groups_same has_rain gs :
  pdf_report.scan_groups merged_df drop_threshold has_rain gs
  = ppt_report.scan_groups merged_df drop_threshold has_rain gs.
Proof.
  induction gs as [ | [k grp] rest IH]; [reflexivity | ].
  cbn [pdf_report.scan_groups ppt_report.scan_groups].
  now rewrite scan_group_same, IH.
Qed.

End TwoCopies.

(** C10. The scan of the PDF report and the scan of the slide report
    return the same result on every frame and threshold: the same findings
    in the same order, or the same exception. *)
Theorem detect_anomalies_pdf_ppt {B : Builtins} (merged_df : DataFrame)
    (drop_threshold : value) :
  pdf_report._detect_anomalies merged_df drop_threshold
  = ppt_report._detect_anomalies merged_df drop_threshold.
Proof.
  unfold pdf_report._detect_anomalies, ppt_report._detect_anomalies.
  destruct (negb (has_column merged_df "impressions")
            || negb (has_column merged_df "location")
            || negb (has_column merged_df "date")); [reflexivity | ].
  destruct (groupby_agg _ _ merged_df) as [daily | e]; [ | reflexivity].
  cbn [bind]. apply scan_groups_same.
Qed.

Lemma binary64_boundary :
  Binary64.is_drop (Binary64.relative_change (Binary64.of_Z 100) (Binary64.of_Z 70)) = true
  /\ Binary64.drop_pct_of (Binary64.relative_change (Binary64.of_Z 100) (Binary64.of_Z 70))
     = Binary64.of_Z 30
  /\ Binary64.is_drop (Binary64.relative_change (Binary64.of_Z 100) (Binary64.of_Z 71)) = false.
Proof. repeat split; vm_compute; reflexivity. Qed.

Example boundary_frames :
  pdf_report._detect_anomalies (Boundary.daily 70) default_drop_threshold
  = Ok ["Traffic dropped 30.0% in Delhi on 2025-01-05 00:00:00 (impressions 70 vs 100 previous day)."]
  /\ pdf_report._detect_anomalies (Boundary.daily 71) default_drop_threshold = Ok [].
Proof. split; vm_compute; reflexivity. Qed.

(** ** Keys: equality, sorting, representatives *)

Lemma value_eqb_refl (v : value) : value_eqb v v = true.
Proof.
  destruct v as [ | s | t | q | b]; simpl.
  - reflexivity.
  - apply String.eqb_refl.
  - apply Z.eqb_refl.
  - apply Qeq_bool_refl.
  - destruct b; reflexivity.
Qed.

Lemma value_eqb_sym (a b : value) : value_eqb a b = value_eqb b a.
Proof.
  destruct a, b; simpl; try reflexivity.
  - apply String.eqb_sym.
  - apply Z.eqb_sym.
  - apply Qeq_bool_sym.
  - destruct neg, neg0; reflexivity.
Qed.

Lemma value_eqb_trans (a b c : value) :
  value_eqb a b = true -> value_eqb b c = true -> value_eqb a c = true.
Proof.
  destruct a, b; simpl; try discriminate; destruct c; simpl; try discriminate; try tauto.
  - rewrite !String.eqb_eq. congruence.
  - rewrite !Z.eqb_eq. congruence.
  - apply Qeq_bool_trans.
  - destruct neg, neg0, neg1; simpl; congruence.
Qed.

Lemma key_eqb_refl (k : key) : key_eqb k k = true.
Proof.
  induction k as [ | v k IH]; simpl; [reflexivity | ].
  now rewrite value_eqb_refl, IH.
Qed.

Lemma key_eqb_sym (k1 k2 : key) : key_eqb k1 k2 = key_eqb k2 k1.
Proof.
  revert k2. induction k1 as [ | a k1 IH]; intros [ | b k2]; simpl; try reflexivity.
  now rewrite value_eqb_sym, IH.
Qed.

Lemma key_eqb_trans (k1 k2 k3 : key) :
  key_eqb k1 k2 = true -> key_eqb k2 k3 = true -> key_eqb k1 k3 = true.
Proof.
  revert k2 k3.
  induction k1 as [ | a k1 IH]; intros [ | b k2] [ | c k3]; simpl; try discriminate; auto.
  rewrite !andb_true_iff. intros [H1 H2] [H3 H4]. split.
  - eapply value_eqb_trans; eassumption.
  - eapply IH; eassumption.
Qed.

(** Equal keys are equal to the same keys. *)
Lemma key_eqb_congr (k1 k2 k : key) :
  key_eqb k1 k2 = true -> key_eqb k1 k = key_eqb k2 k.
Proof.
  intros H. destruct (key_eqb k2 k) eqn:H2.
  - eapply key_eqb_trans; eassumption.
  - destruct (key_eqb k1 k) eqn:H1; [ | reflexivity].
    rewrite key_eqb_sym in H.
    rewrite (key_eqb_trans _ _ _ H H1) in H2. discriminate.
Qed.

Section Sorting.

Context {A : Type}.
Variable leb : A -> A -> bool.

Lemma In_insert_by (x y : A) (l : list A) :
  In y (insert_by leb x l) <-> y = x \/ In y l.
Proof.
  induction l as [ | z l IH]; simpl.
  - intuition congruence.
  - destruct (leb x z); simpl; [intuition congruence | ].
    rewrite IH. intuition congruence.
Qed.

Lemma In_sort_by (y : A) (l : list A) : In y (sort_by leb l) <-> In y l.
Proof.
  induction l as [ | x l IH]; simpl; [reflexivity | ].
  rewrite In_insert_by, IH. intuition congruence.
Qed.

Lemma filter_insert_by (p : A -> bool) (x : A) (l : list A) :
  length (filter p (insert_by leb x l)) = length (filter p (x :: l)).
Proof.
  induction l as [ | z l IH]; simpl; [reflexivity | ].
  destruct (leb x z); simpl; [reflexivity | ].
  simpl in IH. destruct (p z), (p x); simpl in *; lia.
Qed.

Lemma filter_sort_by (p : A -> bool) (l : list A) :
  length (filter p (sort_by leb l)) = length (filter p l).
Proof.
  induction l as [ | x l IH]; simpl; [reflexivity | ].
  rewrite filter_insert_by. simpl. destruct (p x); simpl; lia.
Qed.

End Sorting.

Lemma unique_keys_In (k : key) (ks : list key) : In k (unique_keys ks) -> In k ks.
Proof.
  induction ks as [ | k0 ks IH]; simpl; [tauto | ].
  destruct (existsb (key_eqb k0) (unique_keys ks)); simpl; intuition.
Qed.

Lemma filter_none {A} (p : A -> bool) (l : list A) :
  (forall x, In x l -> p x = false) -> filter p l = [].
Proof.
  induction l as [ | x l IH]; simpl; intros H; [reflexivity | ].
  rewrite (H x (or_introl eq_refl)). apply IH. intros y Hy. apply H. now right.
Qed.

(** Among the representatives at most one equals a given key... *)
Lemma unique_keys_at_most_one (k : key) (ks : list key) :
  length (filter (fun x => key_eqb x k) (unique_keys ks)) <= 1.
Proof.
  induction ks as [ | k0 ks IH]; simpl; [lia | ].
  destruct (existsb (key_eqb k0) (unique_keys ks)) eqn:Hex; [exact IH | ].
  simpl. destruct (key_eqb k0 k) eqn:Hk; [ | exact IH].
  rewrite filter_none; [simpl; lia | ].
  intros x Hx. destruct (key_eqb x k) eqn:Hxk; [ | reflexivity].
  assert (Hx0 : key_eqb k0 x = true).
  { eapply key_eqb_trans; [exact Hk | ]. now rewrite key_eqb_sym. }
  assert (existsb (key_eqb k0) (unique_keys ks) = true)
    by (apply existsb_exists; now exists x).
  congruence.
Qed.

(** ... and exactly one when the key occurs in the list. *)
Lemma unique_keys_exactly_one (k : key) (ks : list key) :
  (exists x, In x ks /\ key_eqb x k = true) ->
  length (filter (fun x => key_eqb x k) (unique_keys ks)) = 1.
Proof.
  intros Hex.
  assert (1 <= length (filter (fun x => key_eqb x k) (unique_keys ks))).
  { induction ks as [ | k0 ks IH]; simpl.
    - destruct Hex as [x [[] _]].
    - destruct Hex as [x [[<- | Hin] Hx]].
      + destruct (existsb (key_eqb k0) (unique_keys ks)) eqn:He.
        * apply existsb_exists in He. destruct He as [y [Hy Hy0]].
          apply IH. exists y. split; [now apply unique_keys_In | ].
          eapply key_eqb_trans; [ | exact Hx]. now rewrite key_eqb_sym.
        * simpl. rewrite Hx. simpl. lia.
      + assert (IH' := IH (ex_intro _ x (conj Hin Hx))).
        destruct (existsb (key_eqb k0) (unique_keys ks)); [exact IH' | ].
        simpl. destruct (key_eqb k0 k); simpl; lia. }
  pose proof (unique_keys_at_most_one k ks). lia.
Qed.

(** ** Rows *)

Lemma lookup_set_cell (c c' : string) (v : value) (r : row) :
  lookup c' (set_cell c v r) = if String.eqb c' c then Some v else lookup c' r.
Proof.
  induction r as [ | [c0 v0] r IH]; simpl.
  - destruct (String.eqb c' c); reflexivity.
  - destruct (String.eqb c c0) eqn:H0; simpl.
    + apply String.eqb_eq in H0. subst c0.
      destruct (String.eqb c' c); reflexivity.
    + destruct (String.eqb c' c0) eqn:H1.
      * apply String.eqb_eq in H1. subst c0.
        rewrite String.eqb_sym, H0. reflexivity.
      * exact IH.
Qed.

Lemma cell_set_cell (c c' : string) (v : value) (r : row) :
  cell (set_cell c v r) c' = if String.eqb c' c then v else cell r c'.
Proof.
  unfold cell. rewrite lookup_set_cell. destruct (String.eqb c' c); reflexivity.
Qed.

Lemma set_cell_twice (c : string) (v w : value) (r : row) :
  set_cell c w (set_cell c v r) = set_cell c w r.
Proof.
  induction r as [ | [c0 v0] r IH]; simpl.
  - now rewrite String.eqb_refl.
  - destruct (String.eqb c c0) eqn:H0; simpl; rewrite H0; [reflexivity | now rewrite IH].
Qed.

(** A group row carries its key. *)
Lemma key_of_combine (by_ : list string) (k : key) (rest : row) :
  NoDup by_ -> length k = length by_ ->
  key_of by_ (combine by_ k ++ rest) = k.
Proof.
  unfold key_of. revert k.
  induction by_ as [ | c by_ IH]; intros [ | v k] Hnd Hlen; simpl in *;
    try discriminate; [reflexivity | ].
  inversion Hnd as [ | ? ? Hnotin Hnd']; subst.
  unfold cell at 1. simpl. rewrite String.eqb_refl. f_equal.
  rewrite <- (IH k Hnd') at 2 by lia.
  apply map_ext_in. intros c' Hc'. unfold cell. simpl.
  destruct (String.eqb c' c) eqn:Hcc; [ | reflexivity].
  apply String.eqb_eq in Hcc. subst c'. contradiction.
Qed.

Lemma key_of_length (by_ : list string) (r : row) : length (key_of by_ r) = length by_.
Proof. apply length_map. Qed.

(** ** Groups *)

Lemma groups_keys (by_ : list string) (rs : list row) :
  map fst (groups by_ rs)
  = sort_by key_leb
      (unique_keys (map (key_of by_)
                        (filter (fun r => negb (has_null_key (key_of by_ r))) rs))).
Proof.
  unfold groups. rewrite map_map. simpl. apply map_id.
Qed.

Lemma groups_key_length (by_ : list string) (rs : list row) (g : key * list row) :
  In g (groups by_ rs) -> length (fst g) = length by_.
Proof.
  intros Hg. apply (in_map fst) in Hg. rewrite groups_keys in Hg.
  apply In_sort_by, unique_keys_In, in_map_iff in Hg.
  destruct Hg as [r [<- _]]. apply key_of_length.
Qed.

Lemma groups_key_origin (by_ : list string) (rs : list row) (g : key * list row) :
  In g (groups by_ rs) ->
  exists r, In r rs /\ has_null_key (key_of by_ r) = false /\ fst g = key_of by_ r.
Proof.
  intros Hg. apply (in_map fst) in Hg. rewrite groups_keys in Hg.
  apply In_sort_by, unique_keys_In, in_map_iff in Hg.
  destruct Hg as [r [<- Hr]]. apply filter_In in Hr. destruct Hr as [Hin Hnn].
  exists r. repeat split; [exact Hin | ]. now apply negb_true_iff.
Qed.

Lemma groups_members (by_ : list string) (rs : list row) (g : key * list row) :
  In g (groups by_ rs) ->
  forall r, In r (snd g) -> In r rs.
Proof.
  unfold groups. intros Hg r Hr. apply in_map_iff in Hg.
  destruct Hg as [k [<- _]]. simpl in Hr.
  apply filter_In in Hr. destruct Hr as [Hr _].
  apply filter_In in Hr. tauto.
Qed.

Lemma groupby_agg_ok (by_ : list string) (aggs : list (string * aggfn)) (df : DataFrame) :
  first_missing (by_ ++ map fst aggs) df = None ->
  forallb (numeric_column df) (map fst aggs) = true ->
  groupby_agg by_ aggs df
  = Ok {| columns := by_ ++ map fst aggs;
          rows := map (group_row by_ aggs) (groups by_ (rows df)) |}.
Proof.
  intros Hm Hn. unfold groupby_agg. now rewrite Hm, Hn.
Qed.

Lemma key_of_group_row (by_ : list string) (aggs : list (string * aggfn))
    (rs : list row) (g : key * list row) :
  NoDup by_ -> In g (groups by_ rs) -> key_of by_ (group_row by_ aggs g) = fst g.
Proof.
  intros Hnd Hg. unfold group_row. apply key_of_combine; [exact Hnd | ].
  eapply groups_key_length; eassumption.
Qed.

(** Rows of a grouped frame whose key equals [k]: as many as group keys
    equal to [k]. *)
Lemma filter_group_rows (by_ : list string) (aggs : list (string * aggfn))
    (rs : list row) (k : key) :
  NoDup by_ ->
  length (filter (fun r => key_eqb (key_of by_ r) k)
                 (map (group_row by_ aggs) (groups by_ rs)))
  = length (filter (fun x => key_eqb x k) (map fst (groups by_ rs))).
Proof.
  intros Hnd.
  assert (H : forall gs, (forall g, In g gs -> In g (groups by_ rs)) ->
            length (filter (fun r => key_eqb (key_of by_ r) k) (map (group_row by_ aggs) gs))
            = length (filter (fun x => key_eqb x k) (map fst gs))).
  { induction gs as [ | g gs IH]; intros Hsub; simpl; [reflexivity | ].
    rewrite (key_of_group_row by_ aggs rs g Hnd) by (apply Hsub; now left).
    destruct (key_eqb (fst g) k); simpl; rewrite IH; auto;
      intros g' Hg'; apply Hsub; now right. }
  apply H. auto.
Qed.

Lemma grouped_at_most_one (by_ : list string) (aggs : list (string * aggfn))
    (rs : list row) (k : key) :
  NoDup by_ ->
  length (filter (fun r => key_eqb (key_of by_ r) k)
                 (map (group_row by_ aggs) (groups by_ rs))) <= 1.
Proof.
  intros Hnd. rewrite filter_group_rows by exact Hnd.
  rewrite groups_keys, filter_sort_by. apply unique_keys_at_most_one.
Qed.

Lemma grouped_exactly_one (by_ : list string) (aggs : list (string * aggfn))
    (rs : list row) (r : row) :
  NoDup by_ -> In r rs -> has_null_key (key_of by_ r) = false ->
  length (filter (fun r' => key_eqb (key_of by_ r') (key_of by_ r))
                 (map (group_row by_ aggs) (groups by_ rs))) = 1.
Proof.
  intros Hnd Hin Hnn. rewrite filter_group_rows by exact Hnd.
  rewrite groups_keys, filter_sort_by. apply unique_keys_exactly_one.
  exists (key_of by_ r). split; [ | apply key_eqb_refl].
  apply in_map. apply filter_In. split; [exact Hin | ]. now rewrite Hnn.
Qed.

(** ** Joins *)

Lemma first_missing_none (cols : list string) (df : DataFrame) :
  first_missing cols df = None <-> (forall c, In c cols -> has_column df c = true).
Proof.
  unfold first_missing, missing_columns. split.
  - intros H c Hc. destruct (has_column df c) eqn:Hh; [reflexivity | ].
    assert (Hin : In c (filter (fun c => negb (has_column df c)) cols))
      by (apply filter_In; split; [exact Hc | now rewrite Hh]).
    destruct (filter _ cols); [destruct Hin | discriminate].
  - intros H. rewrite filter_none; [reflexivity | ].
    intros c Hc. now rewrite (H c Hc).
Qed.

Lemma no_missing_has (cols : list string) (df : DataFrame) :
  no_missing cols df = true -> forall c, In c cols -> has_column df c = true.
Proof.
  unfold no_missing. intros H. apply first_missing_none. unfold first_missing.
  destruct (missing_columns cols df); [reflexivity | discriminate].
Qed.

Lemma flat_map_single {A C} (f : A -> list C) (g : A -> C) (l : list A) :
  (forall x, In x l -> f x = [g x]) -> flat_map f l = map g l.
Proof.
  induction l as [ | x l IH]; intros H; simpl; [reflexivity | ].
  rewrite (H x (or_introl eq_refl)), IH; [reflexivity | ].
  intros y Hy. apply H. now right.
Qed.

Lemma merge_left_unique (on : list string) (left right : DataFrame) :
  first_missing on left = None ->
  first_missing on right = None ->
  (forall l, In l (rows left) -> length (matching on (rows right) l) <= 1) ->
  merge_left on left right
  = Ok {| columns := columns left ++ other_columns on right;
          rows := map (join_row on (other_columns on right) (rows right)) (rows left) |}.
Proof.
  intros Hl Hr Huniq. unfold merge_left. rewrite Hl, Hr. do 2 f_equal.
  apply flat_map_single. intros l Hin.
  specialize (Huniq l Hin). unfold join_row, matching in *.
  destruct (filter _ (rows right)) as [ | r [ | r' ms]]; simpl in *;
    [reflexivity | reflexivity | lia].
Qed.

Lemma clicks_agg_unique (clicks : DataFrame) (l : row) :
  length (matching ["date"; "campaign_id"] (clicks_agg_rows clicks) l) <= 1.
Proof.
  apply grouped_at_most_one. repeat constructor; simpl; intuition discriminate.
Qed.

Lemma weather_agg_unique (weather : DataFrame) (l : row) :
  length (matching ["date"; "location"] (weather_agg_rows weather) l) <= 1.
Proof.
  apply grouped_at_most_one. repeat constructor; simpl; intuition discriminate.
Qed.

Lemma assign_ratio_new (out num den : string) (cols : list string) (rs : list row) :
  existsb (String.eqb num) cols = true ->
  existsb (String.eqb den) cols = true ->
  existsb (String.eqb out) cols = false ->
  assign_ratio out num den {| columns := cols; rows := rs |}
  = Ok {| columns := cols ++ [out]; rows := map (with_ratio out num den) rs |}.
Proof.
  intros Hn Hd Ho. unfold assign_ratio, first_missing, missing_columns, has_column, assign.
  cbn [columns rows filter]. rewrite Hn, Hd. cbn [negb].
  unfold has_column. cbn [columns]. now rewrite Ho.
Qed.

Lemma replace_inf_column_ok (c : string) (cols : list string) (rs : list row) :
  existsb (String.eqb c) cols = true ->
  replace_inf_column c {| columns := cols; rows := rs |}
  = Ok {| columns := cols; rows := map (with_replace c) rs |}.
Proof.
  intros Hc. unfold replace_inf_column, first_missing, missing_columns, has_column, assign.
  cbn [columns rows filter]. rewrite Hc. cbn [negb].
  unfold has_column. cbn [columns]. now rewrite Hc.
Qed.

(** The unified frame in closed form. *)
Lemma unify_ok {B : Builtins} (traffic clicks weather : DataFrame) :
  no_missing required_traffic_cols traffic = true ->
  no_missing required_clicks_cols clicks = true ->
  no_missing required_weather_cols weather = true ->
  numeric_columns_of traffic ["impressions"] = true ->
  numeric_columns_of clicks ["clicks"; "conversions"; "spend"] = true ->
  numeric_columns_of weather ["temperature_c"; "rainfall_mm"] = true ->
  unify traffic clicks weather
  = Ok {| columns := unified_columns;
          rows := map (unified_row clicks weather) (traffic_agg_rows traffic) |}.
Proof.
  intros Ht Hc Hw Hnt Hnc Hnw. unfold unify.
  pose proof (no_missing_has _ _ Ht) as Ht'.
  pose proof (no_missing_has _ _ Hc) as Hc'.
  pose proof (no_missing_has _ _ Hw) as Hw'.
  rewrite (groupby_agg_ok _ _ traffic);
    [ | apply first_missing_none; intros c Hin; apply Ht'; simpl in *; tauto | exact Hnt].
  cbn [bind].
  rewrite (groupby_agg_ok _ _ clicks);
    [ | apply first_missing_none; intros c Hin; apply Hc'; simpl in *; tauto | exact Hnc].
  cbn [bind].
  rewrite (groupby_agg_ok _ _ weather);
    [ | apply first_missing_none; intros c Hin; apply Hw'; simpl in *; tauto | exact Hnw].
  cbn [bind].
  rewrite merge_left_unique;
    [ | reflexivity | reflexivity | intros l _; apply clicks_agg_unique].
  cbn [bind].
  rewrite merge_left_unique;
    [ | reflexivity | reflexivity | intros l _; apply weather_agg_unique].
  cbn [bind columns rows].
  do 4 (rewrite assign_ratio_new by reflexivity; cbn [bind]).
  unfold replace_inf_columns, ratio_columns.
  do 4 (rewrite replace_inf_column_ok by reflexivity; cbn [bind]).
  f_equal. f_equal.
  unfold traffic_agg_rows. rewrite !map_map.
  apply map_ext. intros g. reflexivity.
Qed.

(** ** Writing a column *)

Lemma map_fst_combine_eq {A C} (l : list A) (l' : list C) :
  length l' = length l -> map fst (combine l l') = l.
Proof.
  revert l'. induction l as [ | x l IH]; intros [ | y l'] H; simpl in *;
    try discriminate; [reflexivity | ].
  f_equal. apply IH. lia.
Qed.

Lemma map_snd_combine_eq {A C} (l : list A) (l' : list C) :
  length l' = length l -> map snd (combine l l') = l'.
Proof.
  revert l'. induction l as [ | x l IH]; intros [ | y l'] H; simpl in *;
    try discriminate; [reflexivity | ].
  f_equal. apply IH. lia.
Qed.

Lemma col_set_column_same (c : string) (vs : list value) (df : DataFrame) :
  length vs = length (rows df) -> col (set_column c vs df) c = vs.
Proof.
  intros H. unfold col, set_column. cbn [rows]. rewrite map_map.
  rewrite <- (map_snd_combine_eq (rows df) vs H) at 2.
  apply map_ext. intros [r v]. cbn [fst snd].
  now rewrite cell_set_cell, String.eqb_refl.
Qed.

Lemma col_set_column_other (c c' : string) (vs : list value) (df : DataFrame) :
  length vs = length (rows df) -> c' <> c ->
  col (set_column c vs df) c' = col df c'.
Proof.
  intros H Hne. unfold col, set_column. cbn [rows]. rewrite map_map.
  rewrite <- (map_fst_combine_eq (rows df) vs H) at 2. rewrite map_map.
  apply map_ext. intros [r v]. cbn [fst snd].
  rewrite cell_set_cell. apply String.eqb_neq in Hne. now rewrite Hne.
Qed.

Lemma set_column_again (c : string) (vs : list value) (df : DataFrame) :
  length vs = length (rows df) ->
  set_column c vs (set_column c vs df) = set_column c vs df.
Proof.
  intros H. destruct df as [cols rs]. cbn [rows] in H.
  unfold set_column, has_column. cbn [columns rows]. f_equal.
  - destruct (existsb (String.eqb c) cols) eqn:Hc; [now rewrite Hc | ].
    rewrite existsb_app. cbn [existsb]. now rewrite String.eqb_refl, orb_true_r.
  - revert vs H. induction rs as [ | r rs IH]; intros [ | v vs] H;
      simpl in *; try discriminate; [reflexivity | ].
    rewrite set_cell_twice. f_equal. apply IH. lia.
Qed.

Section DateConversion.

Context {B : Builtins}.

Lemma convert_date_columns (df df' : DataFrame) :
  convert_date df = Ok df' -> columns df' = columns df.
Proof.
  unfold convert_date. destruct (has_column df "date") eqn:Hd.
  - destruct (to_datetime (col df "date")) as [vs | e]; cbn [bind]; [ | discriminate].
    intros H. injection H as <-. unfold set_column. cbn [columns]. now rewrite Hd.
  - intros H. now injection H as <-.
Qed.

Lemma convert_date_other (df df' : DataFrame) (c : string) :
  convert_date df = Ok df' -> c <> "date" -> col df' c = col df c.
Proof.
  unfold convert_date. destruct (has_column df "date").
  - destruct (to_datetime (col df "date")) as [vs | e] eqn:Hv; cbn [bind]; [ | discriminate].
    intros H Hne. injection H as <-. apply col_set_column_other; [ | exact Hne].
    apply to_datetime_length in Hv. rewrite Hv. apply length_map.
  - intros H. now injection H as <-.
Qed.

Lemma convert_date_parsed (df df' : DataFrame) :
  has_column df "date" = true -> convert_date df = Ok df' ->
  to_datetime (col df "date") = Ok (col df' "date").
Proof.
  unfold convert_date. intros ->.
  destruct (to_datetime (col df "date")) as [vs | e] eqn:Hv; cbn [bind]; [ | discriminate].
  intros H. injection H as <-. f_equal. symmetry. apply col_set_column_same.
  apply to_datetime_length in Hv. rewrite Hv. apply length_map.
Qed.

(** Converting a converted frame changes nothing. *)
Lemma convert_date_idem (df df' : DataFrame) :
  convert_date df = Ok df' -> convert_date df' = Ok df'.
Proof.
  intros H. pose proof (convert_date_columns _ _ H) as Hcols.
  unfold convert_date in *. unfold has_column in *. rewrite Hcols.
  destruct (existsb (String.eqb "date") (columns df)) eqn:Hd; [ | reflexivity].
  destruct (to_datetime (col df "date")) as [vs | e] eqn:Hv; cbn [bind] in H; [ | discriminate].
  injection H as <-.
  assert (Hlen : length vs = length (rows df)).
  { apply to_datetime_length in Hv. rewrite Hv. apply length_map. }
  rewrite (col_set_column_same _ _ _ Hlen).
  rewrite (to_datetime_idem _ _ Hv). cbn [bind].
  now rewrite set_column_again.
Qed.

Lemma convert_dates_ok (st st' : Store) :
  convert_dates st = (st', Ok tt) <->
  exists t c w,
    convert_date (traffic_df st) = Ok t /\ convert_date (clicks_df st) = Ok c
    /\ convert_date (weather_df st) = Ok w
    /\ st' = {| traffic_df := t; clicks_df := c; weather_df := w;
                sql_df := sql_df st; log := log st |}.
Proof.
  unfold convert_dates. split.
  - destruct (convert_date (traffic_df st)) as [t | e]; [ | discriminate].
    cbn [clicks_df weather_df sql_df log].
    destruct (convert_date (clicks_df st)) as [c | e]; [ | discriminate].
    destruct (convert_date (weather_df st)) as [w | e]; [ | discriminate].
    intros H. injection H as <-. now exists t, c, w.
  - intros [t [c [w [-> [Hc [Hw ->]]]]]].
    cbn [clicks_df weather_df sql_df log]. now rewrite Hc, Hw.
Qed.

End DateConversion.

(** ** The warnings *)

Lemma warn_missing_step (cols : list string) (name : string)
    (rest : list (list string * string)) (st : Store) :
  warn_missing ((cols, name) :: rest) st
  = match eval_frame st (split_head "_" (split_head "." name) ++ "_df")%string with
    | Err e => (st, Err e)
    | Ok df =>
        match missing_columns cols df with
        | [] => warn_missing rest st
        | missing =>
            warn_missing rest
              (add_log (Warning ("Dataset " ++ name ++ " is missing columns: "
                                 ++ String.concat ", " missing)%string) st)
        end
    end.
Proof. reflexivity. Qed.

Lemma warn_missing_frames (specs : list (list string * string)) :
  forall st st1 r,
    warn_missing specs st = (st1, r) ->
    traffic_df st1 = traffic_df st /\ clicks_df st1 = clicks_df st
    /\ weather_df st1 = weather_df st /\ sql_df st1 = sql_df st
    /\ exists msgs, log st1 = log st ++ msgs.
Proof.
  induction specs as [ | [cols name] specs IH]; intros st st1 r H; simpl in H.
  - injection H as <- _. repeat split. exists []. now rewrite app_nil_r.
  - destruct (eval_frame st _) as [df | e].
    + destruct (missing_columns cols df) as [ | m ms].
      * now apply IH in H.
      * apply IH in H. cbn [add_log traffic_df clicks_df weather_df sql_df log] in H.
        destruct H as [Ht [Hc [Hw [Hs [msgs Hl]]]]]. repeat split; try assumption.
        eexists. rewrite Hl, <- app_assoc. reflexivity.
    + injection H as <- _. repeat split. exists []. now rewrite app_nil_r.
Qed.

Lemma warn_missing_succeeds (st : Store) : snd (warn_missing the_specs st) = Ok tt.
Proof.
  unfold the_specs, warn_missing.
  change (eval_frame ?s (split_head "_" (split_head "." "traffic.csv") ++ "_df"))
    with (@Ok DataFrame (traffic_df s)).
  change (eval_frame ?s (split_head "_" (split_head "." "clicks.csv") ++ "_df"))
    with (@Ok DataFrame (clicks_df s)).
  change (eval_frame ?s (split_head "_" (split_head "." "weather.csv") ++ "_df"))
    with (@Ok DataFrame (weather_df s)).
  cbv iota.
  destruct (missing_columns required_traffic_cols (traffic_df st));
    cbn [add_log traffic_df clicks_df weather_df sql_df log];
    destruct (missing_columns required_clicks_cols (clicks_df st));
    cbn [add_log traffic_df clicks_df weather_df sql_df log];
    destruct (missing_columns required_weather_cols (weather_df st));
    reflexivity.
Qed.

Lemma warn_missing_quiet (st : Store) :
  no_missing required_traffic_cols (traffic_df st) = true ->
  no_missing required_clicks_cols (clicks_df st) = true ->
  no_missing required_weather_cols (weather_df st) = true ->
  warn_missing the_specs st = (st, Ok tt).
Proof.
  unfold no_missing, the_specs, warn_missing.
  change (eval_frame ?s (split_head "_" (split_head "." "traffic.csv") ++ "_df"))
    with (@Ok DataFrame (traffic_df s)).
  change (eval_frame ?s (split_head "_" (split_head "." "clicks.csv") ++ "_df"))
    with (@Ok DataFrame (clicks_df s)).
  change (eval_frame ?s (split_head "_" (split_head "." "weather.csv") ++ "_df"))
    with (@Ok DataFrame (weather_df s)).
  cbv iota.
  destruct (missing_columns required_traffic_cols (traffic_df st)); [ | discriminate].
  destruct (missing_columns required_clicks_cols (clicks_df st)); [ | discriminate].
  destruct (missing_columns required_weather_cols (weather_df st)); [ | discriminate].
  reflexivity.
Qed.

(** ** The unified records *)

Lemma unified_row_explicit (clicks weather : DataFrame) (d c l : value) (grp : list row) :
  unified_row clicks weather
    (group_row ["date"; "campaign_id"; "location"] [("impressions", Sum)] ([d; c; l], grp))
  = unified_record d c l (vsum (map (fun r => cell r "impressions") grp))
      (filter (fun r => key_eqb (key_of ["date"; "campaign_id"] r) [d; c])
              (clicks_agg_rows clicks))
      (filter (fun r => key_eqb (key_of ["date"; "location"] r) [d; l])
              (weather_agg_rows weather)).
Proof. reflexivity. Qed.

Lemma by3_nodup : NoDup ["date"; "campaign_id"; "location"].
Proof. repeat constructor; simpl; intuition discriminate. Qed.

(** Every row of the unified frame is the record of one traffic group. *)
Lemma unified_rows_shape (traffic clicks weather : DataFrame) (r : row) :
  In r (map (unified_row clicks weather) (traffic_agg_rows traffic)) ->
  exists r0 grp,
    In r0 (rows traffic)
    /\ has_null_key (key_of ["date"; "campaign_id"; "location"] r0) = false
    /\ (forall x, In x grp -> In x (rows traffic))
    /\ r = unified_record (cell r0 "date") (cell r0 "campaign_id") (cell r0 "location")
             (vsum (map (fun x => cell x "impressions") grp))
             (filter (fun x => key_eqb (key_of ["date"; "campaign_id"] x)
                                 [cell r0 "date"; cell r0 "campaign_id"])
                     (clicks_agg_rows clicks))
             (filter (fun x => key_eqb (key_of ["date"; "location"] x)
                                 [cell r0 "date"; cell r0 "location"])
                     (weather_agg_rows weather)).
Proof.
  unfold traffic_agg_rows. rewrite map_map. intros H.
  apply in_map_iff in H. destruct H as [[k grp] [<- Hg]].
  destruct (groups_key_origin _ _ _ Hg) as [r0 [Hin [Hnn Hk]]].
  pose proof (groups_members _ _ _ Hg) as Hmem.
  cbn [fst snd] in Hk, Hmem. subst k.
  exists r0, grp. repeat split; try assumption.
Qed.

Lemma clicks_agg_cell (clicks : DataFrame) (rc : row) (c : string) :
  In rc (clicks_agg_rows clicks) ->
  In c ["clicks"; "conversions"; "spend"] ->
  exists grp, (forall x, In x grp -> In x (rows clicks))
              /\ cell rc c = vsum (map (fun r => cell r c) grp).
Proof.
  unfold clicks_agg_rows. intros H Hc.
  apply in_map_iff in H. destruct H as [[k grp] [<- Hg]].
  destruct (groups_key_origin _ _ _ Hg) as [r0 [_ [_ Hk]]].
  pose proof (groups_members _ _ _ Hg) as Hmem.
  cbn [fst snd] in Hk, Hmem. subst k.
  exists grp. split; [exact Hmem | ].
  simpl in Hc. destruct Hc as [<- | [<- | [<- | []]]]; reflexivity.
Qed.

Lemma weather_agg_cell (weather : DataFrame) (rw : row) :
  In rw (weather_agg_rows weather) ->
  exists grp, (forall x, In x grp -> In x (rows weather))
              /\ cell rw "temperature_c" = vmean (map (fun r => cell r "temperature_c") grp)
              /\ cell rw "rainfall_mm" = vsum (map (fun r => cell r "rainfall_mm") grp).
Proof.
  unfold weather_agg_rows. intros H.
  apply in_map_iff in H. destruct H as [[k grp] [<- Hg]].
  destruct (groups_key_origin _ _ _ Hg) as [r0 [_ [_ Hk]]].
  pose proof (groups_members _ _ _ Hg) as Hmem.
  cbn [fst snd] in Hk, Hmem. subst k.
  exists grp. split; [exact Hmem | split; reflexivity].
Qed.

(** ** Sums *)

Lemma vadd_numeric (a b : value) : is_numeric (vadd a b) = true.
Proof. destruct a, b; simpl; try reflexivity. destruct (Bool.eqb neg neg0); reflexivity. Qed.

Lemma fold_vadd_numeric (l : list value) (acc : value) :
  is_numeric acc = true -> is_numeric (fold_left vadd l acc) = true.
Proof.
  revert acc. induction l as [ | v l IH]; intros acc H; simpl; [exact H | ].
  apply IH. apply vadd_numeric.
Qed.

Lemma vsum_numeric (l : list value) : is_numeric (vsum l) = true.
Proof. apply fold_vadd_numeric. reflexivity. Qed.

Lemma vdiv_numeric (a b : value) : is_numeric (vdiv a b) = true.
Proof.
  destruct a, b; simpl; try reflexivity.
  destruct (Qeq_bool q0 0); [destruct (Qeq_bool q 0) | ]; reflexivity.
Qed.

Lemma vmean_numeric (l : list value) : is_numeric (vmean l) = true.
Proof.
  unfold vmean. destruct (filter _ l); [reflexivity | apply vdiv_numeric].
Qed.

Lemma fold_vadd_finite (l : list value) :
  (forall v, In v l -> is_finite v = true) ->
  forall q, exists q', fold_left vadd l (VNum q) = VNum q'.
Proof.
  induction l as [ | v l IH]; intros H q; simpl; [now exists q | ].
  assert (Hv := H v (or_introl eq_refl)).
  destruct v as [ | s | t | x | b]; try discriminate. simpl.
  apply IH. intros w Hw. apply H. now right.
Qed.

(** A sum of finite and missing cells is a finite number. *)
Lemma vsum_finite (l : list value) :
  (forall v, In v l -> finite_or_null v = true) -> exists q, vsum l = VNum q.
Proof.
  intros H. unfold vsum. apply fold_vadd_finite.
  intros v Hv. apply filter_In in Hv. destruct Hv as [Hin Hnn].
  specialize (H v Hin). unfold finite_or_null in H.
  destruct v; simpl in *; try discriminate; reflexivity.
Qed.

(** ** The summaries *)

Lemma ratio_or_zero_eq (x y : value) : ratio_or_zero x y = Ok (guarded_ratio x y).
Proof.
  unfold ratio_or_zero, guarded_ratio, truthy, py_truediv.
  destruct (is_zero y); reflexivity.
Qed.

Lemma column_total_ok (c : string) (cols : list string) (rs : list row) :
  existsb (String.eqb c) cols = true ->
  column_total c {| columns := cols; rows := rs |}
  = Ok (total c {| columns := cols; rows := rs |}).
Proof.
  intros Hc. unfold column_total, first_missing, missing_columns, has_column.
  cbn [columns filter]. now rewrite Hc.
Qed.

Lemma overall_metrics_ok (rs : list row) :
  overall_metrics {| columns := unified_columns; rows := rs |}
  = Ok (overall_row {| columns := unified_columns; rows := rs |}).
Proof.
  unfold overall_metrics, unified_columns.
  do 4 (rewrite column_total_ok by reflexivity; cbn [bind]).
  do 4 (rewrite ratio_or_zero_eq; cbn [bind]).
  reflexivity.
Qed.

Lemma pick_clicks_numeric (clicks : DataFrame) (k : key) (c : string) :
  In c ["clicks"; "conversions"; "spend"] ->
  is_numeric (pick (filter (fun x => key_eqb (key_of ["date"; "campaign_id"] x) k)
                           (clicks_agg_rows clicks)) c) = true.
Proof.
  intros Hc.
  destruct (filter _ (clicks_agg_rows clicks)) as [ | rc ms] eqn:Hf; [reflexivity | ].
  assert (Hin : In rc (clicks_agg_rows clicks)).
  { assert (H : In rc (rc :: ms)) by now left.
    rewrite <- Hf in H. apply filter_In in H. tauto. }
  cbn [pick]. destruct (clicks_agg_cell clicks rc c Hin Hc) as [grp [_ ->]].
  apply vsum_numeric.
Qed.

Lemma unified_numeric (traffic clicks weather : DataFrame) (c : string) :
  In c ["impressions"; "clicks"; "conversions"; "spend"] ->
  numeric_column (unified_frame traffic clicks weather) c = true.
Proof.
  intros Hc. unfold numeric_column, col. apply forallb_forall. intros v Hv.
  apply in_map_iff in Hv. destruct Hv as [r [<- Hr]].
  cbn [unified_frame rows] in Hr.
  apply unified_rows_shape in Hr. destruct Hr as [r0 [grp [_ [_ [_ ->]]]]].
  simpl in Hc. destruct Hc as [<- | [<- | [<- | [<- | []]]]].
  - apply vsum_numeric.
  - apply (pick_clicks_numeric clicks _ "clicks"). simpl. tauto.
  - apply (pick_clicks_numeric clicks _ "conversions"). simpl. tauto.
  - apply (pick_clicks_numeric clicks _ "spend"). simpl. tauto.
Qed.

Lemma campaign_metrics_ok (traffic clicks weather : DataFrame) :
  campaign_metrics (unified_frame traffic clicks weather)
  = Ok (campaign_frame (unified_frame traffic clicks weather)).
Proof.
  unfold campaign_metrics.
  rewrite groupby_agg_ok; [ | reflexivity | ].
  - cbn [bind map fst app].
    do 4 (rewrite assign_ratio_new by reflexivity; cbn [bind]).
    unfold campaign_frame. f_equal. f_equal.
    rewrite !map_map. apply map_ext. intros g. reflexivity.
  - apply forallb_forall. intros c Hc. apply unified_numeric. exact Hc.
Qed.

Lemma summarize_ok (sql : option DataFrame) (traffic clicks weather : DataFrame) :
  summarize sql (unified_frame traffic clicks weather)
  = Ok (metrics_of sql (unified_frame traffic clicks weather)).
Proof.
  unfold summarize. unfold unified_frame at 1. rewrite overall_metrics_ok.
  cbn [bind]. fold (unified_frame traffic clicks weather).
  rewrite campaign_metrics_ok. reflexivity.
Qed.

(** ** The whole call *)

Section WholeCall.

Context {B : Builtins}.

Lemma no_missing_by_columns (cols : list string) (df df' : DataFrame) :
  columns df' = columns df -> no_missing cols df' = no_missing cols df.
Proof.
  intros H. unfold no_missing, missing_columns, has_column. now rewrite H.
Qed.

Lemma convert_date_numeric (df df' : DataFrame) (cs : list string) :
  convert_date df = Ok df' -> ~ In "date" cs ->
  numeric_columns_of df' cs = numeric_columns_of df cs.
Proof.
  intros H Hd. unfold numeric_columns_of.
  induction cs as [ | c cs IH]; simpl; [reflexivity | ].
  unfold numeric_column at 1 3.
  rewrite (convert_date_other _ _ c H) by (intros ->; apply Hd; now left).
  f_equal. apply IH. intros Hin. apply Hd. now right.
Qed.

Lemma convert_date_succeeds (df : DataFrame) :
  is_ok (to_datetime (col df "date")) = true -> exists df', convert_date df = Ok df'.
Proof.
  unfold convert_date. intros H. destruct (has_column df "date"); [ | now exists df].
  destruct (to_datetime (col df "date")) as [vs | e]; [ | discriminate].
  cbn [bind]. eexists. reflexivity.
Qed.

(** On well-formed inputs the call returns, and this is what it returns. *)
Lemma process_data_ok (st : Store) :
  schema_ok st = true -> dates_ok st = true ->
  exists t c w,
    convert_date (traffic_df st) = Ok t
    /\ convert_date (clicks_df st) = Ok c
    /\ convert_date (weather_df st) = Ok w
    /\ process_data st
       = (final_store st t c w,
          Ok (unified_frame t c w, metrics_of (sql_df st) (unified_frame t c w))).
Proof.
  unfold schema_ok, dates_ok. rewrite !andb_true_iff.
  intros [[[[[Mt Mc] Mw] Nt] Nc] Nw] [[Dt Dc] Dw].
  destruct (convert_date_succeeds _ Dt) as [t Ht].
  destruct (convert_date_succeeds _ Dc) as [c Hc].
  destruct (convert_date_succeeds _ Dw) as [w Hw].
  exists t, c, w. repeat (split; [assumption | ]).
  unfold process_data. rewrite (warn_missing_quiet st Mt Mc Mw).
  assert (Hconv : convert_dates st
                  = ({| traffic_df := t; clicks_df := c; weather_df := w;
                        sql_df := sql_df st; log := log st |}, Ok tt)).
  { apply convert_dates_ok. exists t, c, w. auto. }
  rewrite Hconv. cbn [traffic_df clicks_df weather_df sql_df].
  rewrite unify_ok.
  - fold (unified_frame t c w). rewrite summarize_ok. reflexivity.
  - now rewrite (no_missing_by_columns _ _ _ (convert_date_columns _ _ Ht)).
  - now rewrite (no_missing_by_columns _ _ _ (convert_date_columns _ _ Hc)).
  - now rewrite (no_missing_by_columns _ _ _ (convert_date_columns _ _ Hw)).
  - rewrite (convert_date_numeric _ _ _ Ht); [exact Nt | simpl; intuition discriminate].
  - rewrite (convert_date_numeric _ _ _ Hc); [exact Nc | simpl; intuition discriminate].
  - rewrite (convert_date_numeric _ _ _ Hw); [exact Nw | simpl; intuition discriminate].
Qed.

End WholeCall.

(** ** Join completeness *)

Lemma filter_map_key (by_ : list string) (k : key) (f : row -> row) (l : list row) :
  (forall x, In x l -> key_of by_ (f x) = key_of by_ x) ->
  length (filter (fun u => key_eqb (key_of by_ u) k) (map f l))
  = length (filter (fun x => key_eqb (key_of by_ x) k) l).
Proof.
  induction l as [ | x l IH]; intros H; simpl; [reflexivity | ].
  rewrite (H x (or_introl eq_refl)).
  destruct (key_eqb (key_of by_ x) k); simpl; rewrite IH; auto;
    intros y Hy; apply H; now right.
Qed.

Lemma unified_row_key (traffic clicks weather : DataFrame) (x : row) :
  In x (traffic_agg_rows traffic) ->
  key_of ["date"; "campaign_id"; "location"] (unified_row clicks weather x)
  = key_of ["date"; "campaign_id"; "location"] x.
Proof.
  unfold traffic_agg_rows. intros H.
  apply in_map_iff in H. destruct H as [[k grp] [<- Hg]].
  destruct (groups_key_origin _ _ _ Hg) as [r0 [_ [_ Hk]]].
  cbn [fst] in Hk. subst k. reflexivity.
Qed.

(** Each traffic key without a missing component has exactly one unified
    record. *)
Lemma unified_count (traffic clicks weather : DataFrame) (r : row) :
  In r (rows traffic) ->
  has_null_key (key_of ["date"; "campaign_id"; "location"] r) = false ->
  count_key ["date"; "campaign_id"; "location"]
    (key_of ["date"; "campaign_id"; "location"] r)
    (unified_frame traffic clicks weather) = 1.
Proof.
  intros Hin Hnn. unfold count_key, unified_frame. cbn [rows].
  rewrite filter_map_key by (intros x Hx; now apply (unified_row_key traffic)).
  apply grouped_exactly_one; [apply by3_nodup | exact Hin | exact Hnn].
Qed.

(** Aggregated rows carry the key of some row of their dataset. *)
Lemma agg_row_key (by_ : list string) (aggs : list (string * aggfn)) (rs : list row)
    (x : row) :
  NoDup by_ -> In x (map (group_row by_ aggs) (groups by_ rs)) ->
  exists r0, In r0 rs /\ key_of by_ x = key_of by_ r0.
Proof.
  intros Hnd H. apply in_map_iff in H. destruct H as [g [<- Hg]].
  rewrite (key_of_group_row _ _ _ _ Hnd Hg).
  destruct (groups_key_origin _ _ _ Hg) as [r0 [Hin [_ Hk]]]. now exists r0.
Qed.

Lemma no_match_filter (by_ : list string) (aggs : list (string * aggfn)) (rs : list row)
    (k : key) :
  NoDup by_ ->
  (forall x, In x rs -> key_eqb (key_of by_ x) k = false) ->
  filter (fun x => key_eqb (key_of by_ x) k) (map (group_row by_ aggs) (groups by_ rs)) = [].
Proof.
  intros Hnd H. apply filter_none. intros x Hx.
  destruct (agg_row_key _ _ _ _ Hnd Hx) as [r0 [Hin ->]]. now apply H.
Qed.

Lemma filter_key_congr (by_ : list string) (k1 k2 : key) (l : list row) :
  key_eqb k1 k2 = true ->
  filter (fun x => key_eqb (key_of by_ x) k1) l = filter (fun x => key_eqb (key_of by_ x) k2) l.
Proof.
  intros H. apply filter_ext. intros x.
  rewrite (key_eqb_sym _ k1), (key_eqb_sym _ k2). now apply key_eqb_congr.
Qed.

Lemma null_key_no_match (a b : value) (k : key) (l : list row) (by_ : list string) :
  key_eqb [a; b] k = true ->
  (forall x, In x l -> key_eqb (key_of by_ x) k = false) ->
  forall x, In x l -> key_eqb (key_of by_ x) [a; b] = false.
Proof.
  intros Hk H x Hx. specialize (H x Hx).
  destruct (key_eqb (key_of by_ x) [a; b]) eqn:E; [ | reflexivity].
  rewrite (key_eqb_trans _ _ _ E Hk) in H. discriminate.
Qed.

(** The claim C1 as written fails on a traffic record whose location is
    missing: grouping leaves the record out, and no unified record has its
    key. *)
Lemma null_key_triple_is_dropped :
  ~ (forall r,
       In r (rows (traffic_df (fst (process_data Examples.null_location)))) ->
       exists merged metrics,
         snd (process_data Examples.null_location) = Ok (merged, metrics)
         /\ count_key ["date"; "campaign_id"; "location"]
              (key_of ["date"; "campaign_id"; "location"] r) merged = 1).
Proof.
  intros H.
  destruct (H [("date", VTime 1736035200000000000); ("location", VNull);
               ("campaign_id", VStr "CAMP01"); ("impressions", VNum 600)])
    as [merged [metrics [Hrun Hcount]]].
  - vm_compute. right. left. reflexivity.
  - vm_compute in Hrun. injection Hrun as <- _. vm_compute in Hcount. discriminate.
Qed.

(** ** The ratio columns *)

(** The policy of one ratio cell. *)
Lemma ratio_policy (a b : value) :
  null_or_finite a -> null_or_finite b ->
  (replace_inf (vdiv a b) = VNull <-> is_zero b = true \/ b = VNull \/ a = VNull)
  /\ is_inf (replace_inf (vdiv a b)) = false.
Proof.
  intros [-> | [x ->]] [-> | [y ->]].
  - split; [split; [tauto | reflexivity] | reflexivity].
  - split; [split; [tauto | reflexivity] | reflexivity].
  - split; [split; [tauto | reflexivity] | reflexivity].
  - unfold vdiv, is_zero. destruct (Qeq_bool y 0) eqn:Hy.
    + destruct (Qeq_bool x 0); (split; [split; [tauto | reflexivity] | reflexivity]).
    + split; [ | reflexivity]. unfold replace_inf, is_inf.
      split; [discriminate | ]. intros [H | [H | H]]; discriminate.
Qed.

Lemma replace_inf_not_inf (v : value) : is_inf (replace_inf v) = false.
Proof. destruct v; reflexivity. Qed.

Lemma column_cells_finite (df : DataFrame) (c : string) :
  numeric_column df c = true -> finite_column df c = true ->
  forall x, In x (rows df) -> finite_or_null (cell x c) = true.
Proof.
  unfold numeric_column, finite_column, col, finite_or_null.
  rewrite !forallb_forall. intros Hn Hf x Hx.
  assert (Hin : In (cell x c) (map (fun r => cell r c) (rows df)))
    by (apply (in_map (fun r => cell r c)); exact Hx).
  now rewrite (Hn _ Hin), (Hf _ Hin).
Qed.

Lemma group_sum_finite (df : DataFrame) (c : string) (grp : list row) :
  numeric_column df c = true -> finite_column df c = true ->
  (forall x, In x grp -> In x (rows df)) ->
  exists q, vsum (map (fun r => cell r c) grp) = VNum q.
Proof.
  intros Hn Hf Hsub. apply vsum_finite. intros v Hv.
  apply in_map_iff in Hv. destruct Hv as [x [<- Hx]].
  apply (column_cells_finite df c Hn Hf). now apply Hsub.
Qed.

Lemma pick_clicks_finite (clicks : DataFrame) (k : key) (c : string) :
  In c ["clicks"; "conversions"; "spend"] ->
  numeric_column clicks c = true -> finite_column clicks c = true ->
  null_or_finite
    (pick (filter (fun x => key_eqb (key_of ["date"; "campaign_id"] x) k)
                  (clicks_agg_rows clicks)) c).
Proof.
  intros Hc Hn Hf.
  destruct (filter _ (clicks_agg_rows clicks)) as [ | rc ms] eqn:E; [now left | ].
  assert (Hin : In rc (clicks_agg_rows clicks)).
  { assert (H : In rc (rc :: ms)) by now left.
    rewrite <- E in H. apply filter_In in H. tauto. }
  cbn [pick]. destruct (clicks_agg_cell clicks rc c Hin Hc) as [grp [Hsub ->]].
  right. now apply (group_sum_finite clicks).
Qed.

Section RatioColumns.

Context {B : Builtins}.

Lemma convert_date_finite (df df' : DataFrame) (c : string) :
  convert_date df = Ok df' -> c <> "date" ->
  numeric_column df' c = numeric_column df c
  /\ finite_column df' c = finite_column df c.
Proof.
  intros H Hne. unfold numeric_column, finite_column.
  now rewrite (convert_date_other _ _ c H Hne).
Qed.

(** The measured cells of a unified record, on finite inputs. *)
Lemma unified_cells_finite (st : Store) (t c w : DataFrame) (r : row) :
  schema_ok st = true -> finite_inputs st = true ->
  convert_date (traffic_df st) = Ok t -> convert_date (clicks_df st) = Ok c ->
  In r (rows (unified_frame t c w)) ->
  exists d cc l imp ms ws,
    r = unified_record d cc l imp ms ws
    /\ (exists q, imp = VNum q)
    /\ null_or_finite (pick ms "clicks")
    /\ null_or_finite (pick ms "conversions")
    /\ null_or_finite (pick ms "spend").
Proof.
  unfold schema_ok, finite_inputs. rewrite !andb_true_iff.
  intros [[[[[_ _] _] Nt] Nc] _] [[Ft Fc] _] Ht Hc Hr.
  unfold numeric_columns_of in Nt, Nc. cbn [forallb] in Nt, Nc, Fc.
  apply andb_true_iff in Nt. destruct Nt as [Nt _].
  apply andb_true_iff in Nc. destruct Nc as [N1 Nc].
  apply andb_true_iff in Nc. destruct Nc as [N2 Nc].
  apply andb_true_iff in Nc. destruct Nc as [N3 _].
  apply andb_true_iff in Fc. destruct Fc as [F1 Fc].
  apply andb_true_iff in Fc. destruct Fc as [F2 Fc].
  apply andb_true_iff in Fc. destruct Fc as [F3 _].
  cbn [unified_frame rows] in Hr. apply unified_rows_shape in Hr.
  destruct Hr as [r0 [grp [_ [_ [Hsub ->]]]]].
  do 6 eexists. split; [reflexivity | ].
  assert (Hne : forall s, In s ["impressions"; "clicks"; "conversions"; "spend"] ->
                          s <> "date")
    by (intros s Hs ->; simpl in Hs; intuition discriminate).
  split; [ | split; [ | split]].
  - apply (group_sum_finite t "impressions"); [ | | exact Hsub].
    + destruct (convert_date_finite _ _ "impressions" Ht) as [-> _];
        [apply Hne; simpl; tauto | exact Nt].
    + destruct (convert_date_finite _ _ "impressions" Ht) as [_ ->];
        [apply Hne; simpl; tauto | exact Ft].
  - apply pick_clicks_finite; [simpl; tauto | | ].
    + destruct (convert_date_finite _ _ "clicks" Hc) as [-> _];
        [apply Hne; simpl; tauto | exact N1].
    + destruct (convert_date_finite _ _ "clicks" Hc) as [_ ->];
        [apply Hne; simpl; tauto | exact F1].
  - apply pick_clicks_finite; [simpl; tauto | | ].
    + destruct (convert_date_finite _ _ "conversions" Hc) as [-> _];
        [apply Hne; simpl; tauto | exact N2].
    + destruct (convert_date_finite _ _ "conversions" Hc) as [_ ->];
        [apply Hne; simpl; tauto | exact F2].
  - apply pick_clicks_finite; [simpl; tauto | | ].
    + destruct (convert_date_finite _ _ "spend" Hc) as [-> _];
        [apply Hne; simpl; tauto | exact N3].
    + destruct (convert_date_finite _ _ "spend" Hc) as [_ ->];
        [apply Hne; simpl; tauto | exact F3].
Qed.

End RatioColumns.

(** The claim C2 as written fails on binary64: a spend of 1e308 on half a
    click is a quotient beyond the largest double, the division gives an
    infinity and lines 83-84 make it missing, with a divisor that is not
    zero and operands that are not missing. *)
Lemma ratio_overflow_is_null :
  ~ (forall spend clicks : SpecFloat.spec_float,
       Doubles.ratio_cell spend clicks = SpecFloat.S754_nan ->
       Doubles.is_zero clicks = true \/ clicks = SpecFloat.S754_nan
       \/ spend = SpecFloat.S754_nan).
Proof.
  intros H.
  destruct (H Doubles.large_spend Doubles.half_click) as [E | [E | E]].
  - vm_compute. reflexivity.
  - vm_compute in E. discriminate E.
  - vm_compute in E. discriminate E.
  - vm_compute in E. discriminate E.
Qed.

(** C2, as the code has it. On well-formed inputs whose measured cells are
    missing, zero or of magnitude between 1e-100 and 1e100 - the range in
    which no quotient of the ratio columns can leave the doubles -
    [process_data] returns and in every record of the unified dataset each
    ratio is missing exactly when its denominator is zero or missing or its
    numerator is missing; no ratio is infinite. *)
Theorem ratio_null_policy {B : Builtins} (st : Store) :
  schema_ok st = true -> dates_ok st = true -> finite_inputs st = true ->
  moderate_inputs st = true ->
  exists st' merged metrics,
    process_data st = (st', Ok (merged, metrics))
    /\ forall r, In r (rows merged) ->
        (cell r "ctr" = VNull <->
           is_zero (cell r "impressions") = true \/ cell r "impressions" = VNull
           \/ cell r "clicks" = VNull)
        /\ (cell r "cpc" = VNull <->
              is_zero (cell r "clicks") = true \/ cell r "clicks" = VNull
              \/ cell r "spend" = VNull)
        /\ (cell r "conversion_rate" = VNull <->
              is_zero (cell r "clicks") = true \/ cell r "clicks" = VNull
              \/ cell r "conversions" = VNull)
        /\ (cell r "cpa" = VNull <->
              is_zero (cell r "conversions") = true \/ cell r "conversions" = VNull
              \/ cell r "spend" = VNull)
        /\ is_inf (cell r "ctr") = false /\ is_inf (cell r "cpc") = false
        /\ is_inf (cell r "conversion_rate") = false /\ is_inf (cell r "cpa") = false.
Proof.
  intros Hs Hd Hf _.
  destruct (process_data_ok st Hs Hd) as [t [c [w [Ht [Hc [Hw Hrun]]]]]].
  do 3 eexists. split; [exact Hrun | ].
  intros r Hr.
  destruct (unified_cells_finite st t c w r Hs Hf Ht Hc Hr)
    as [d [cc [l [imp [ms [ws [-> [[q ->] [Hk [Hv Hsp]]]]]]]]]].
  assert (Hi : null_or_finite (VNum q)) by (right; now exists q).
  change (cell (unified_record d cc l (VNum q) ms ws) "ctr")
    with (replace_inf (vdiv (pick ms "clicks") (VNum q))).
  change (cell (unified_record d cc l (VNum q) ms ws) "cpc")
    with (replace_inf (vdiv (pick ms "spend") (pick ms "clicks"))).
  change (cell (unified_record d cc l (VNum q) ms ws) "conversion_rate")
    with (replace_inf (vdiv (pick ms "conversions") (pick ms "clicks"))).
  change (cell (unified_record d cc l (VNum q) ms ws) "cpa")
    with (replace_inf (vdiv (pick ms "spend") (pick ms "conversions"))).
  change (cell (unified_record d cc l (VNum q) ms ws) "impressions") with (VNum q).
  change (cell (unified_record d cc l (VNum q) ms ws) "clicks") with (pick ms "clicks").
  change (cell (unified_record d cc l (VNum q) ms ws) "conversions")
    with (pick ms "conversions").
  change (cell (unified_record d cc l (VNum q) ms ws) "spend") with (pick ms "spend").
  rewrite !replace_inf_not_inf.
  repeat split; try reflexivity;
    first [ apply (ratio_policy _ _ Hk Hi) | apply (ratio_policy _ _ Hsp Hk)
          | apply (ratio_policy _ _ Hv Hk) | apply (ratio_policy _ _ Hsp Hv) ].
Qed.

(** ** The overall summary *)

Lemma Qred_twice (q : Q) : Qred (Qred q) = Qred q.
Proof. apply Qred_complete, Qred_correct. Qed.










(** ** The campaign summary *)

(** C3 fails on the code. A campaign that spent 100 and converted nobody
    has a zero summed denominator for [cpa]; its record in the unified
    dataset has a missing [cpa], its row of the campaign summary has
    [cpa = inf]. *)
Theorem campaign_summary_keeps_infinity :
  exists merged metrics summary_row,
    snd (process_data Examples.zero_conversions) = Ok (merged, metrics)
    /\ rows (campaign_summary metrics) = [summary_row]
    /\ cell summary_row "spend" = VNum 100
    /\ is_zero (cell summary_row "conversions") = true
    /\ cell summary_row "cpa" = VInf false
    /\ forall r, In r (rows merged) -> cell r "cpa" = VNull.
Proof.
  do 3 eexists. split; [vm_compute; reflexivity | ].
  split; [vm_compute; reflexivity | ].
  repeat split; try (vm_compute; reflexivity).
  intros r [<- | []]. vm_compute. reflexivity.
Qed.

(** ** A missing column *)

Lemma no_missing_false (cols : list string) (df : DataFrame) :
  no_missing cols df = false -> exists c, In c cols /\ has_column df c = false.
Proof.
  unfold no_missing. destruct (missing_columns cols df) as [ | m ms] eqn:E; [discriminate | ].
  intros _. exists m.
  assert (H : In m (missing_columns cols df)) by (rewrite E; now left).
  apply filter_In in H. destruct H as [Hin Hneg]. split; [exact Hin | ].
  now apply negb_true_iff.
Qed.

Lemma groupby_agg_columns (by_ : list string) (aggs : list (string * aggfn))
    (df out : DataFrame) :
  groupby_agg by_ aggs df = Ok out ->
  forall c, In c (by_ ++ map fst aggs) -> has_column df c = true.
Proof.
  unfold groupby_agg. destruct (first_missing _ df) eqn:E; [discriminate | ].
  intros _. now apply first_missing_none.
Qed.

Section MissingColumn.

Context {B : Builtins}.

(** If the aggregation of a dataset goes through, the dataset has its
    required columns. *)
Lemma unify_needs_columns (traffic clicks weather merged : DataFrame) :
  unify traffic clicks weather = Ok merged ->
  no_missing required_traffic_cols traffic = true
  /\ no_missing required_clicks_cols clicks = true
  /\ no_missing required_weather_cols weather = true.
Proof.
  unfold unify.
  destruct (groupby_agg _ _ traffic) as [ta | e] eqn:E1; [ | discriminate]. cbn [bind].
  destruct (groupby_agg _ _ clicks) as [ca | e] eqn:E2; [ | discriminate]. cbn [bind].
  destruct (groupby_agg _ _ weather) as [wa | e] eqn:E3; [ | discriminate]. intros _.
  pose proof (groupby_agg_columns _ _ _ _ E1) as H1.
  pose proof (groupby_agg_columns _ _ _ _ E2) as H2.
  pose proof (groupby_agg_columns _ _ _ _ E3) as H3.
  repeat split.
  - destruct (no_missing required_traffic_cols traffic) eqn:N; [reflexivity | ].
    apply no_missing_false in N. destruct N as [c [Hin Hc]].
    rewrite H1 in Hc; [discriminate | simpl in *; tauto].
  - destruct (no_missing required_clicks_cols clicks) eqn:N; [reflexivity | ].
    apply no_missing_false in N. destruct N as [c [Hin Hc]].
    rewrite H2 in Hc; [discriminate | simpl in *; tauto].
  - destruct (no_missing required_weather_cols weather) eqn:N; [reflexivity | ].
    apply no_missing_false in N. destruct N as [c [Hin Hc]].
    rewrite H3 in Hc; [discriminate | simpl in *; tauto].
Qed.

Lemma convert_dates_frames (st st' : Store) (r : result unit) :
  convert_dates st = (st', r) ->
  log st' = log st
  /\ columns (traffic_df st') = columns (traffic_df st)
  /\ columns (clicks_df st') = columns (clicks_df st)
  /\ columns (weather_df st') = columns (weather_df st).
Proof.
  unfold convert_dates.
  destruct (convert_date (traffic_df st)) as [t | e] eqn:Et.
  - cbn [clicks_df weather_df sql_df log].
    pose proof (convert_date_columns _ _ Et) as Ct.
    destruct (convert_date (clicks_df st)) as [c | e] eqn:Ec.
    + pose proof (convert_date_columns _ _ Ec) as Cc.
      destruct (convert_date (weather_df st)) as [w | e] eqn:Ew.
      * pose proof (convert_date_columns _ _ Ew) as Cw.
        intros H. injection H as <- _. cbn. auto.
      * intros H. injection H as <- _. cbn. auto.
    + intros H. injection H as <- _. cbn. auto.
  - intros H. injection H as <- _. auto.
Qed.

Lemma warn_missing_warns (specs : list (list string * string)) :
  forall st st1 r cols name df m ms,
    warn_missing specs st = (st1, r) ->
    In (cols, name) specs ->
    eval_frame st (split_head "_" (split_head "." name) ++ "_df")%string = Ok df ->
    missing_columns cols df = m :: ms ->
    r = Ok tt ->
    exists msg, In (Warning msg) (log st1).
Proof.
  induction specs as [ | [cols0 name0] specs IH];
    intros st st1 r cols name df m ms Hw Hin He Hm Hr; [destruct Hin | ].
  rewrite warn_missing_step in Hw.
  destruct Hin as [Heq | Hin].
  - injection Heq as -> ->. rewrite He, Hm in Hw.
    apply warn_missing_frames in Hw. destruct Hw as [_ [_ [_ [_ [msgs Hl]]]]].
    eexists. rewrite Hl. cbn [add_log log]. apply in_or_app. left.
    apply in_or_app. right. left. reflexivity.
  - destruct (eval_frame st (split_head "_" (split_head "." name0) ++ "_df")%string)
      as [df0 | e].
    + destruct (missing_columns cols0 df0).
      * eapply IH; eassumption.
      * eapply IH; eassumption.
    + injection Hw as _ <-. discriminate.
Qed.

End MissingColumn.

(** C4 fails on the code. When a required column is absent from one of the
    three datasets, [process_data] logs the warning for that dataset and then
    stops with an exception: it never returns a unified dataset. *)
Theorem missing_column_is_fatal {B : Builtins} (st : Store) :
  no_missing required_traffic_cols (traffic_df st) = false
  \/ no_missing required_clicks_cols (clicks_df st) = false
  \/ no_missing required_weather_cols (weather_df st) = false ->
  (exists msg, In (Warning msg) (log (fst (process_data st))))
  /\ exists e, snd (process_data st) = Err e.
Proof.
  intros Hmiss.
  assert (Hwarn : exists msg, In (Warning msg) (log (fst (warn_missing the_specs st)))).
  { destruct (warn_missing the_specs st) as [st1 r] eqn:Hw.
    pose proof (warn_missing_succeeds st) as Hr. rewrite Hw in Hr. cbn [snd] in Hr.
    cbn [fst].
    destruct Hmiss as [H | [H | H]]; unfold no_missing in H.
    - destruct (missing_columns required_traffic_cols (traffic_df st)) as [ | m ms] eqn:E;
        [discriminate | ].
      eapply (warn_missing_warns the_specs st st1 r required_traffic_cols "traffic.csv");
        [exact Hw | simpl; tauto | reflexivity | exact E | exact Hr].
    - destruct (missing_columns required_clicks_cols (clicks_df st)) as [ | m ms] eqn:E;
        [discriminate | ].
      eapply (warn_missing_warns the_specs st st1 r required_clicks_cols "clicks.csv");
        [exact Hw | simpl; tauto | reflexivity | exact E | exact Hr].
    - destruct (missing_columns required_weather_cols (weather_df st)) as [ | m ms] eqn:E;
        [discriminate | ].
      eapply (warn_missing_warns the_specs st st1 r required_weather_cols "weather.csv");
        [exact Hw | simpl; tauto | reflexivity | exact E | exact Hr]. }
  unfold process_data.
  destruct (warn_missing the_specs st) as [st1 r1] eqn:Hw.
  pose proof (warn_missing_succeeds st) as Hr. rewrite Hw in Hr. cbn [snd] in Hr. subst r1.
  apply warn_missing_frames in Hw. destruct Hw as [Ft [Fc [Fw _]]].
  cbn [fst] in Hwarn.
  destruct (convert_dates st1) as [st2 r2] eqn:Hc.
  pose proof (convert_dates_frames _ _ _ Hc) as [Hl [Ct [Cc Cw]]].
  destruct r2 as [[] | e].
  - destruct (unify (traffic_df st2) (clicks_df st2) (weather_df st2)) as [merged | e] eqn:Hu.
    + exfalso. apply unify_needs_columns in Hu. destruct Hu as [N1 [N2 N3]].
      rewrite (no_missing_by_columns _ _ _ Ct), Ft in N1.
      rewrite (no_missing_by_columns _ _ _ Cc), Fc in N2.
      rewrite (no_missing_by_columns _ _ _ Cw), Fw in N3.
      destruct Hmiss as [H | [H | H]]; congruence.
    + cbn [fst snd]. rewrite Hl. split; [exact Hwarn | now exists e].
  - cbn [fst snd]. rewrite Hl. split; [exact Hwarn | now exists e].
Qed.

Example missing_location_column :
  snd (process_data Examples.no_location_column) = Err (KeyError "location")
  /\ log (fst (process_data Examples.no_location_column))
     = [Warning "Dataset traffic.csv is missing columns: location"].
Proof. split; vm_compute; reflexivity. Qed.

(** ** Rainfall in a finding *)

Lemma vmean_all_null (l : list value) : forallb is_null l = true -> vmean l = VNull.
Proof.
  intros H. unfold vmean. rewrite filter_none; [reflexivity | ].
  intros v Hv. rewrite forallb_forall in H. now rewrite (H v Hv).
Qed.

(** With a [rainfall_mm] column whose matching cells are all missing, the
    finding still gets a rainfall sentence, printed from NaN. *)
Lemma rainfall_sentence_from_nan {B : Builtins} (merged_df : DataFrame)
    (drop_threshold location : value) (prev_row curr_row : row) (v : value)
    (vs : list value) (found : list string) :
  rain_vals_at merged_df (cell curr_row "date") location = v :: vs ->
  forallb is_null (v :: vs) = true ->
  pdf_report.check_pair merged_df drop_threshold true location prev_row curr_row
  = Ok found ->
  found = []
  \/ exists msg,
       found = [((msg ++ ". Reported rainfall: " ++ format_1f VNull ++ "mm.") ++ ".")%string].
Proof.
  intros Hv Hnull. unfold pdf_report.check_pair.
  destruct (vleb (cell prev_row "impressions") (VNum 0)); [intros H; left; congruence | ].
  destruct (relative_change _ _) as [change | e]; cbn [bind]; [ | discriminate].
  destruct (vleb change (vneg drop_threshold)); [ | intros H; left; congruence].
  destruct (py_int (cell curr_row "impressions")) as [ci | e]; cbn [bind]; [ | discriminate].
  destruct (py_int (cell prev_row "impressions")) as [pi | e]; cbn [bind]; [ | discriminate].
  rewrite Hv.
  assert (Hnum : forallb is_numeric (v :: vs) = true).
  { apply forallb_forall. intros x Hx. rewrite forallb_forall in Hnull.
    specialize (Hnull x Hx). destruct x; try discriminate. reflexivity. }
  rewrite Hnum, (vmean_all_null _ Hnull). cbn [bind].
  intros H. apply Ok_inj in H. subst found. right. eexists. reflexivity.
Qed.

(** C8 fails on the code. In the scenario of the specification with no
    weather reading on the second day, the unified records of Delhi on that
    day have a missing [rainfall_mm]; the finding for that day nevertheless
    reports a rainfall, as the text "nan". *)
Theorem missing_rainfall_is_reported :
  exists merged metrics,
    snd (process_data Examples.no_weather) = Ok (merged, metrics)
    /\ forallb is_null
         (rain_vals_at merged (VTime 1736035200000000000) (VStr "Delhi")) = true
    /\ pdf_report._detect_anomalies merged default_drop_threshold
       = Ok ["Traffic dropped 40.0% in Delhi on 2025-01-05 00:00:00 (impressions 600 vs 1,000 previous day). Reported rainfall: nanmm.."].
Proof.
  do 2 eexists. split; [vm_compute; reflexivity | ].
  split; [vm_compute; reflexivity | ].
  vm_compute. reflexivity.
Qed.

(** With the weather reading the same finding carries the mean rainfall. *)
Example scenario_finding :
  exists merged metrics,
    snd (process_data Scenario.store) = Ok (merged, metrics)
    /\ pdf_report._detect_anomalies merged default_drop_threshold
       = Ok ["Traffic dropped 40.0% in Delhi on 2025-01-05 00:00:00 (impressions 600 vs 1,000 previous day). Reported rainfall: 12.0mm.."].
Proof.
  do 2 eexists. split; [vm_compute; reflexivity | ].
  vm_compute. reflexivity.
Qed.

(** ** What the call does to its arguments *)

(** The claim C9 as written fails: after the call the date column of the
    caller's traffic frame holds timestamps where it held text. *)
Lemma date_column_is_rewritten :
  col (traffic_df (fst (process_data Scenario.store))) "date"
  <> col (traffic_df Scenario.store) "date".
Proof. vm_compute. discriminate. Qed.

Section Arguments.

Context {B : Builtins}.

Lemma converted_frame (df df' : DataFrame) :
  has_column df "date" = true -> convert_date df = Ok df' ->
  columns df' = columns df
  /\ (forall c, c <> "date" -> col df' c = col df c)
  /\ to_datetime (col df "date") = Ok (col df' "date").
Proof.
  intros Hd H. split; [now apply convert_date_columns | ].
  split; [intros c Hc; now apply convert_date_other | now apply convert_date_parsed].
Qed.

Lemma converted_schema (st : Store) (t c w : DataFrame) (l : list log_record) :
  schema_ok st = true ->
  convert_date (traffic_df st) = Ok t -> convert_date (clicks_df st) = Ok c ->
  convert_date (weather_df st) = Ok w ->
  schema_ok {| traffic_df := t; clicks_df := c; weather_df := w;
               sql_df := sql_df st; log := l |} = true.
Proof.
  intros Hs Ht Hc Hw. unfold schema_ok in *. cbn [traffic_df clicks_df weather_df].
  rewrite (no_missing_by_columns _ _ _ (convert_date_columns _ _ Ht)).
  rewrite (no_missing_by_columns _ _ _ (convert_date_columns _ _ Hc)).
  rewrite (no_missing_by_columns _ _ _ (convert_date_columns _ _ Hw)).
  rewrite (convert_date_numeric _ _ _ Ht) by (simpl; intuition discriminate).
  rewrite (convert_date_numeric _ _ _ Hc) by (simpl; intuition discriminate).
  rewrite (convert_date_numeric _ _ _ Hw) by (simpl; intuition discriminate).
  exact Hs.
Qed.

Lemma converted_dates_parse (df df' : DataFrame) :
  has_column df "date" = true -> convert_date df = Ok df' ->
  is_ok (to_datetime (col df' "date")) = true.
Proof.
  intros Hd H. apply convert_date_parsed in H; [ | exact Hd].
  now rewrite (to_datetime_idem _ _ H).
Qed.

End Arguments.

(** C9, as the code has it. A call on well-formed inputs leaves every
    column of the three frames as it was, except [date], which it replaces by
    its parsed values; the optional fourth frame is untouched.  A second call
    on the frames so left returns the same outputs and leaves the frames as
    they are. *)
Theorem arguments_change_by_date_parsing_only {B : Builtins} (st : Store) :
  schema_ok st = true -> dates_ok st = true ->
  exists st' outputs,
    process_data st = (st', Ok outputs)
    /\ (columns (traffic_df st') = columns (traffic_df st)
        /\ (forall c, c <> "date" -> col (traffic_df st') c = col (traffic_df st) c)
        /\ to_datetime (col (traffic_df st) "date") = Ok (col (traffic_df st') "date"))
    /\ (columns (clicks_df st') = columns (clicks_df st)
        /\ (forall c, c <> "date" -> col (clicks_df st') c = col (clicks_df st) c)
        /\ to_datetime (col (clicks_df st) "date") = Ok (col (clicks_df st') "date"))
    /\ (columns (weather_df st') = columns (weather_df st)
        /\ (forall c, c <> "date" -> col (weather_df st') c = col (weather_df st) c)
        /\ to_datetime (col (weather_df st) "date") = Ok (col (weather_df st') "date"))
    /\ sql_df st' = sql_df st
    /\ exists st'',
         process_data st' = (st'', Ok outputs)
         /\ traffic_df st'' = traffic_df st' /\ clicks_df st'' = clicks_df st'
         /\ weather_df st'' = weather_df st' /\ sql_df st'' = sql_df st'.
Proof.
  intros Hs Hd.
  destruct (process_data_ok st Hs Hd) as [t [c [w [Ht [Hc [Hw Hrun]]]]]].
  assert (Hcols : has_column (traffic_df st) "date" = true
                  /\ has_column (clicks_df st) "date" = true
                  /\ has_column (weather_df st) "date" = true).
  { unfold schema_ok in Hs. rewrite !andb_true_iff in Hs.
    destruct Hs as [[[[[Mt Mc] Mw] _] _] _].
    repeat split; [apply (no_missing_has _ _ Mt) | apply (no_missing_has _ _ Mc)
                  | apply (no_missing_has _ _ Mw)]; simpl; tauto. }
  destruct Hcols as [Dt [Dc Dw]].
  do 2 eexists. split; [exact Hrun | ].
  cbn [final_store add_log traffic_df clicks_df weather_df sql_df].
  split; [now apply converted_frame | ].
  split; [now apply converted_frame | ].
  split; [now apply converted_frame | ].
  split; [reflexivity | ].
  set (st' := final_store st t c w).
  assert (Hs' : schema_ok st' = true).
  { unfold st', final_store, add_log. cbn [traffic_df clicks_df weather_df sql_df log].
    now apply converted_schema. }
  assert (Hd' : dates_ok st' = true).
  { unfold dates_ok, st'. cbn [final_store add_log traffic_df clicks_df weather_df].
    rewrite (converted_dates_parse _ _ Dt Ht), (converted_dates_parse _ _ Dc Hc),
      (converted_dates_parse _ _ Dw Hw). reflexivity. }
  destruct (process_data_ok st' Hs' Hd') as [t' [c' [w' [Ht' [Hc' [Hw' Hrun']]]]]].
  unfold st' in Ht', Hc', Hw'.
  cbn [final_store add_log traffic_df clicks_df weather_df] in Ht', Hc', Hw'.
  rewrite (convert_date_idem _ _ Ht) in Ht'. injection Ht' as <-.
  rewrite (convert_date_idem _ _ Hc) in Hc'. injection Hc' as <-.
  rewrite (convert_date_idem _ _ Hw) in Hw'. injection Hw' as <-.
  eexists. split; [exact Hrun' | ].
  repeat split.
Qed.

(** * The theorems at concrete inputs *)

Lemma ratio_null_policy_witness :
  schema_ok RatioExamples.denominators = true /\ dates_ok RatioExamples.denominators = true
  /\ finite_inputs RatioExamples.denominators = true
  /\ moderate_inputs RatioExamples.denominators = true
  /\ exists st' merged metrics,
       process_data RatioExamples.denominators = (st', Ok (merged, metrics))
       /\ map (fun r => [cell r "impressions"; cell r "clicks"; cell r "conversions";
                         cell r "spend"]) (rows merged)
          = [[VNum 1000; VNum 50; VNum 5; VNum 100];
             [VNum 0; VNum 50; VNum 5; VNum 100];
             [VNum 600; VNum 0; VNum 0; VNum 0];
             [VNum 400; VNull; VNull; VNull]]
       /\ map (fun r => [cell r "ctr"; cell r "cpc"; cell r "conversion_rate";
                         cell r "cpa"]) (rows merged)
          = [[VNum (1 # 20); VNum 2; VNum (1 # 10); VNum 20];
             [VNull; VNum 2; VNum (1 # 10); VNum 20];
             [VNum 0; VNull; VNull; VNull];
             [VNull; VNull; VNull; VNull]]
       /\ forall r, In r (rows merged) ->
           (cell r "ctr" = VNull <->
              is_zero (cell r "impressions") = true \/ cell r "impressions" = VNull
              \/ cell r "clicks" = VNull)
           /\ (cell r "cpc" = VNull <->
                 is_zero (cell r "clicks") = true \/ cell r "clicks" = VNull
                 \/ cell r "spend" = VNull)
           /\ (cell r "conversion_rate" = VNull <->
                 is_zero (cell r "clicks") = true \/ cell r "clicks" = VNull
                 \/ cell r "conversions" = VNull)
           /\ (cell r "cpa" = VNull <->
                 is_zero (cell r "conversions") = true \/ cell r "conversions" = VNull
                 \/ cell r "spend" = VNull)
           /\ is_inf (cell r "ctr") = false /\ is_inf (cell r "cpc") = false
           /\ is_inf (cell r "conversion_rate") = false /\ is_inf (cell r "cpa") = false.
Proof.
  split; [reflexivity | split; [reflexivity | split; [reflexivity | ]]].
  split; [vm_compute; reflexivity | ].
  destruct (ratio_null_policy RatioExamples.denominators)
    as [st' [merged [metrics [Hrun H]]]];
    [reflexivity | reflexivity | reflexivity | vm_compute; reflexivity | ].
  exists st', merged, metrics. split; [exact Hrun | ].
  assert (E : merged = fst (match snd (process_data RatioExamples.denominators) with
                            | Ok p => p
                            | Err _ => (merged, metrics)
                            end)) by (rewrite Hrun; reflexivity).
  split; [rewrite E; vm_compute; reflexivity | ].
  split; [rewrite E; vm_compute; reflexivity | exact H].
Defined.

Lemma missing_column_is_fatal_witness :
  (no_missing required_traffic_cols (traffic_df Examples.no_location_column) = false
   \/ no_missing required_clicks_cols (clicks_df Examples.no_location_column) = false
   \/ no_missing required_weather_cols (weather_df Examples.no_location_column) = false)
  /\ (exists msg, In (Warning msg) (log (fst (process_data Examples.no_location_column))))
  /\ exists e, snd (process_data Examples.no_location_column) = Err e.
Proof.
  split; [left; reflexivity | ].
  apply (missing_column_is_fatal Examples.no_location_column). left. reflexivity.
Defined.


Lemma anomaly_zero_guard_witness :
  vleb (cell (Boundary.first_day 0) "impressions") (VNum 0) = true
  /\ pdf_report.check_pair Boundary.from_zero default_drop_threshold false (VStr "Delhi")
       (Boundary.first_day 0) (Boundary.second_day 500) = Ok []
  /\ (forall rest,
        pdf_report.scan_group Boundary.from_zero default_drop_threshold false (VStr "Delhi")
          (Boundary.first_day 0 :: Boundary.second_day 500 :: rest)
        = pdf_report.scan_group Boundary.from_zero default_drop_threshold false
            (VStr "Delhi") (Boundary.second_day 500 :: rest))
  /\ pdf_report._detect_anomalies Boundary.from_zero default_drop_threshold
     <> Err ZeroDivisionError.
Proof.
  split; [reflexivity | ].
  apply (anomaly_zero_guard Boundary.from_zero default_drop_threshold false (VStr "Delhi")
           (Boundary.first_day 0) (Boundary.second_day 500)).
  reflexivity.
Defined.

Lemma arguments_change_by_date_parsing_only_witness :
  schema_ok Scenario.store = true /\ dates_ok Scenario.store = true
  /\ exists st' outputs,
       process_data Scenario.store = (st', Ok outputs)
       /\ (columns (traffic_df st') = columns (traffic_df Scenario.store)
           /\ (forall c, c <> "date" ->
                         col (traffic_df st') c = col (traffic_df Scenario.store) c)
           /\ to_datetime (col (traffic_df Scenario.store) "date")
              = Ok (col (traffic_df st') "date"))
       /\ (columns (clicks_df st') = columns (clicks_df Scenario.store)
           /\ (forall c, c <> "date" ->
                         col (clicks_df st') c = col (clicks_df Scenario.store) c)
           /\ to_datetime (col (clicks_df Scenario.store) "date")
              = Ok (col (clicks_df st') "date"))
       /\ (columns (weather_df st') = columns (weather_df Scenario.store)
           /\ (forall c, c <> "date" ->
                         col (weather_df st') c = col (weather_df Scenario.store) c)
           /\ to_datetime (col (weather_df Scenario.store) "date")
              = Ok (col (weather_df st') "date"))
       /\ sql_df st' = sql_df Scenario.store
       /\ exists st'',
            process_data st' = (st'', Ok outputs)
            /\ traffic_df st'' = traffic_df st' /\ clicks_df st'' = clicks_df st'
            /\ weather_df st'' = weather_df st' /\ sql_df st'' = sql_df st'.
Proof.
  split; [reflexivity | split; [reflexivity | ]].
  apply (arguments_change_by_date_parsing_only Scenario.store); reflexivity.
Defined.

(** * Further properties *)

(** ** Groups as a partition *)
Lemma insert_by_perm {A} (leb : A -> A -> bool) (x : A) (l : list A) :
  Permutation (insert_by leb x l) (x :: l).
Proof.
  induction l as [ | y l IH]; simpl; [apply Permutation_refl | ].
  destruct (leb x y); [apply Permutation_refl | ].
  eapply perm_trans; [apply perm_skip, IH | apply perm_swap].
Qed.

Lemma sort_by_perm {A} (leb : A -> A -> bool) (l : list A) :
  Permutation (sort_by leb l) l.
Proof.
  induction l as [ | x l IH]; simpl; [apply perm_nil | ].
  eapply perm_trans; [apply insert_by_perm | apply perm_skip, IH].
Qed.

Lemma flat_map_split {A C} (f g : A -> list C) (l : list A) :
  Permutation (flat_map (fun x => f x ++ g x) l) (flat_map f l ++ flat_map g l).
Proof.
  induction l as [ | x l IH]; simpl; [apply perm_nil | ].
  rewrite <- !app_assoc. apply Permutation_app_head.
  eapply perm_trans; [apply Permutation_app_head, IH | ].
  rewrite !app_assoc. apply Permutation_app_tail, Permutation_app_comm.
Qed.

Lemma flat_map_indicator {A C} (p : A -> bool) (x : C) (l : list A) :
  flat_map (fun k => if p k then [x] else []) l = repeat x (length (filter p l)).
Proof.
  induction l as [ | k l IH]; simpl; [reflexivity | ].
  destruct (p k); simpl; now rewrite IH.
Qed.

Lemma filter_cons_indicator {A} (p : A -> bool) (x : A) (l : list A) :
  filter p (x :: l) = (if p x then [x] else []) ++ filter p l.
Proof. simpl. now destruct (p x). Qed.

Lemma flat_map_ext_in {A C} (f g : A -> list C) (l : list A) :
  (forall x, In x l -> f x = g x) -> flat_map f l = flat_map g l.
Proof.
  induction l as [ | x l IH]; simpl; intros H; [reflexivity | ].
  rewrite (H x) by now left. f_equal. apply IH. intros y Hy. apply H. now right.
Qed.

Lemma partition_by_keys (f : row -> key) (l : list row) :
  Permutation
    (flat_map (fun k => filter (fun r => key_eqb (f r) k) l) (unique_keys (map f l))) l.
Proof.
  induction l as [ | x l IH]; [apply perm_nil | ].
  cbn [map unique_keys].
  set (u := unique_keys (map f l)) in *.
  destruct (existsb (key_eqb (f x)) u) eqn:He.
  - eapply perm_trans.
    { erewrite flat_map_ext; [ | intros k; apply filter_cons_indicator].
      apply (flat_map_split (fun k => if key_eqb (f x) k then [x] else [])). }
    rewrite flat_map_indicator.
    assert (Hone : length (filter (key_eqb (f x)) u) = 1).
    { pose proof (unique_keys_at_most_one (f x) (map f l)) as Hle. fold u in Hle.
      rewrite (filter_ext (key_eqb (f x)) (fun k => key_eqb k (f x)))
        by (intros k; apply key_eqb_sym).
      apply existsb_exists in He. destruct He as [k [Hk Hkx]].
      assert (Hin : In k (filter (fun k => key_eqb k (f x)) u)).
      { apply filter_In. split; [exact Hk | now rewrite key_eqb_sym]. }
      destruct (filter (fun k => key_eqb k (f x)) u); [destruct Hin | simpl in *; lia]. }
    rewrite Hone. simpl. apply perm_skip, IH.
  - cbn [flat_map]. rewrite filter_cons_indicator, key_eqb_refl.
    assert (Hnone : filter (fun r => key_eqb (f r) (f x)) l = []).
    { apply filter_none. intros r Hr.
      destruct (key_eqb (f r) (f x)) eqn:Hrx; [ | reflexivity].
      assert (Hex : exists k, In k (map f l) /\ key_eqb k (f x) = true).
      { exists (f r). split; [now apply in_map | exact Hrx]. }
      apply unique_keys_exactly_one in Hex. fold u in Hex.
      destruct (filter (fun k => key_eqb k (f x)) u) as [ | k ks] eqn:Hf;
        [discriminate | ].
      assert (Hin : In k (filter (fun k => key_eqb k (f x)) u))
        by (rewrite Hf; now left).
      apply filter_In in Hin. destruct Hin as [Hk Hkx].
      assert (existsb (key_eqb (f x)) u = true)
        by (apply existsb_exists; exists k; split;
            [exact Hk | now rewrite key_eqb_sym]).
      congruence. }
    rewrite Hnone. simpl. apply perm_skip.
    erewrite flat_map_ext_in; [exact IH | ].
    intros k Hk. cbv beta.
    assert (Hkx : key_eqb (f x) k = false).
    { destruct (key_eqb (f x) k) eqn:E; [ | reflexivity].
      assert (existsb (key_eqb (f x)) u = true)
        by (apply existsb_exists; exists k; now split).
      congruence. }
    now rewrite Hkx.
Qed.

Lemma groups_partition (by_ : list string) (rs : list row) :
  Permutation (flat_map snd (groups by_ rs)) (filter (complete_key by_) rs).
Proof.
  unfold groups. rewrite flat_map_concat_map, map_map, <- flat_map_concat_map.
  cbn [snd]. fold (complete_key by_).
  eapply perm_trans; [ | apply (partition_by_keys (key_of by_))].
  apply Permutation_flat_map, sort_by_perm.
Qed.

(** ** Exact sums *)

Lemma qsum_app (l1 l2 : list value) : (qsum (l1 ++ l2) == qsum l1 + qsum l2)%Q.
Proof.
  induction l1 as [ | v l1 IH]; simpl.
  - now rewrite Qplus_0_l.
  - rewrite IH. now rewrite Qplus_assoc.
Qed.

Lemma qsum_perm (l1 l2 : list value) : Permutation l1 l2 -> (qsum l1 == qsum l2)%Q.
Proof.
  induction 1 as [ | v l1 l2 _ IH | a b l | l1 l2 l3 _ IH1 _ IH2]; simpl.
  - reflexivity.
  - now rewrite IH.
  - rewrite !Qplus_assoc. now rewrite (Qplus_comm (qval b) (qval a)).
  - now rewrite IH1.
Qed.

Lemma fold_vadd_qsum (l : list value) :
  (forall v, In v l -> finite_or_null v = true) ->
  forall a, Qred a = a ->
  fold_left vadd (filter (fun v => negb (is_null v)) l) (VNum a)
  = VNum (Qred (a + qsum l)).
Proof.
  induction l as [ | v l IH]; intros Hl a Ha.
  - cbn [filter fold_left qsum fold_right]. rewrite <- Ha at 1. f_equal.
    apply Qred_complete. now rewrite Qplus_0_r.
  - assert (Hl' : forall v, In v l -> finite_or_null v = true)
      by (intros w Hw; apply Hl; now right).
    pose proof (Hl v (or_introl eq_refl)) as Hv.
    destruct v as [ | s | t | x | s]; try discriminate Hv.
    + cbn [filter is_null negb qsum fold_right qval]. rewrite (IH Hl' a Ha).
      f_equal. apply Qred_complete. now rewrite Qplus_0_l.
    + cbn [filter is_null negb fold_left vadd]. rewrite (IH Hl' _ (Qred_twice _)).
      f_equal. apply Qred_complete. cbn [qsum fold_right qval].
      rewrite (Qred_correct (a + x)). now rewrite Qplus_assoc.
Qed.

Lemma vsum_qsum (l : list value) :
  (forall v, In v l -> finite_or_null v = true) -> vsum l = VNum (Qred (qsum l)).
Proof.
  intros Hl. unfold vsum. rewrite (fold_vadd_qsum l Hl 0%Q eq_refl).
  f_equal. apply Qred_complete. now rewrite Qplus_0_l.
Qed.

Lemma vsum_same_total (l1 l2 : list value) :
  (forall v, In v l1 -> finite_or_null v = true) ->
  (forall v, In v l2 -> finite_or_null v = true) ->
  (qsum l1 == qsum l2)%Q -> vsum l1 = vsum l2.
Proof.
  intros H1 H2 Hq. rewrite (vsum_qsum l1 H1), (vsum_qsum l2 H2).
  f_equal. now apply Qred_complete.
Qed.

Lemma qsum_of_group_sums (f : row -> value) (gs : list (key * list row)) :
  (forall g r, In g gs -> In r (snd g) -> finite_or_null (f r) = true) ->
  (qsum (map (fun g => vsum (map f (snd g))) gs) == qsum (map f (flat_map snd gs)))%Q.
Proof.
  induction gs as [ | g gs IH]; intros Hf; [reflexivity | ].
  cbn [map flat_map qsum fold_right]. rewrite map_app, qsum_app.
  rewrite IH by (intros g' r Hg; apply Hf; now right).
  rewrite vsum_qsum.
  - cbn [qval]. now rewrite Qred_correct.
  - intros v Hv. apply in_map_iff in Hv. destruct Hv as [r [<- Hr]].
    apply (Hf g r); [now left | exact Hr].
Qed.

(** Summing the sums of the groups is summing the rows that have a key. *)
Lemma grouped_sums (by_ : list string) (f : row -> value) (rs : list row) :
  (forall r, In r rs -> finite_or_null (f r) = true) ->
  vsum (map (fun g => vsum (map f (snd g))) (groups by_ rs))
  = vsum (map f (filter (complete_key by_) rs)).
Proof.
  intros Hf. apply vsum_same_total.
  - intros v Hv. apply in_map_iff in Hv. destruct Hv as [g [<- Hg]].
    destruct (vsum_finite (map f (snd g))) as [q ->]; [ | reflexivity].
    intros v Hv. apply in_map_iff in Hv. destruct Hv as [r [<- Hr]].
    apply Hf. eapply groups_members; eassumption.
  - intros v Hv. apply in_map_iff in Hv. destruct Hv as [r [<- Hr]].
    apply Hf. apply filter_In in Hr. tauto.
  - rewrite qsum_of_group_sums.
    + apply qsum_perm, Permutation_map, groups_partition.
    + intros g r Hg Hr. apply Hf. eapply groups_members; eassumption.
Qed.

(** ** Groups, once more *)

Lemma has_null_key_congr (k1 k2 : key) :
  key_eqb k1 k2 = true -> has_null_key k1 = has_null_key k2.
Proof.
  revert k2. induction k1 as [ | a k1 IH]; intros [ | b k2] H; try discriminate H;
    [reflexivity | ].
  cbn [key_eqb] in H. apply andb_true_iff in H. destruct H as [Hab Hk].
  unfold has_null_key in *. cbn [existsb]. rewrite (IH k2 Hk).
  destruct a, b; try discriminate Hab; reflexivity.
Qed.

Lemma filter_complete (by_ : list string) (k : key) (rs : list row) :
  has_null_key k = false ->
  filter (fun r => key_eqb (key_of by_ r) k) (filter (complete_key by_) rs)
  = filter (fun r => key_eqb (key_of by_ r) k) rs.
Proof.
  intros Hk. induction rs as [ | r rs IH]; [reflexivity | ].
  cbn [filter]. unfold complete_key at 1.
  destruct (key_eqb (key_of by_ r) k) eqn:E.
  - rewrite (has_null_key_congr _ _ E), Hk. cbn [negb filter]. now rewrite E, IH.
  - destruct (negb _); cbn [filter]; [rewrite E | ]; exact IH.
Qed.

Lemma groups_group (by_ : list string) (rs : list row) (g : key * list row) :
  In g (groups by_ rs) ->
  has_null_key (fst g) = false
  /\ snd g = filter (fun r => key_eqb (key_of by_ r) (fst g)) rs
  /\ snd g <> [].
Proof.
  intros Hg. destruct (groups_key_origin _ _ _ Hg) as [r0 [Hin [Hnn Hk]]].
  assert (Hn : has_null_key (fst g) = false) by now rewrite Hk.
  assert (Hs : snd g = filter (fun r => key_eqb (key_of by_ r) (fst g)) rs).
  { unfold groups in Hg. apply in_map_iff in Hg. destruct Hg as [k [<- _]].
    cbn [fst snd] in *. now apply (filter_complete by_ k rs). }
  repeat split; try assumption.
  rewrite Hs. intros Hnil.
  assert (H : In r0 (filter (fun r => key_eqb (key_of by_ r) (fst g)) rs)).
  { apply filter_In. split; [exact Hin | ]. rewrite Hk. apply key_eqb_refl. }
  rewrite Hnil in H. destruct H.
Qed.

(** What a left join reads from an aggregated frame: the aggregate of all
    the rows of the key, or nothing when the key has no row. *)
Lemma agg_pick (by_ : list string) (aggs : list (string * aggfn)) (rs : list row)
    (k : key) (c : string) (f : aggfn) :
  NoDup by_ -> has_null_key k = false ->
  (forall g, In g (groups by_ rs) ->
             cell (group_row by_ aggs g) c = apply_agg f (map (fun r => cell r c) (snd g))) ->
  pick (filter (fun x => key_eqb (key_of by_ x) k)
               (map (group_row by_ aggs) (groups by_ rs))) c
  = match filter (fun r => key_eqb (key_of by_ r) k) rs with
    | [] => VNull
    | ms => apply_agg f (map (fun r => cell r c) ms)
    end.
Proof.
  intros Hnd Hk Hcell.
  destruct (filter _ (map _ _)) as [ | x xs] eqn:E.
  - cbn [pick].
    rewrite (filter_none (fun r => key_eqb (key_of by_ r) k) rs); [reflexivity | ].
    intros r Hr. destruct (key_eqb (key_of by_ r) k) eqn:Hrk; [ | reflexivity].
    assert (Hrn : has_null_key (key_of by_ r) = false)
      by now rewrite (has_null_key_congr _ _ Hrk).
    pose proof (grouped_exactly_one by_ aggs rs r Hnd Hr Hrn) as H1.
    rewrite (filter_key_congr by_ _ _ _ Hrk), E in H1. discriminate H1.
  - cbn [pick].
    assert (Hx : In x (filter (fun x => key_eqb (key_of by_ x) k)
                              (map (group_row by_ aggs) (groups by_ rs))))
      by (rewrite E; now left).
    apply filter_In in Hx. destruct Hx as [Hx Hxk].
    apply in_map_iff in Hx. destruct Hx as [g [<- Hg]].
    rewrite (key_of_group_row by_ aggs rs g Hnd Hg) in Hxk.
    destruct (groups_group by_ rs g Hg) as [_ [Hs Hne]].
    rewrite (Hcell g Hg).
    rewrite (filter_key_congr by_ _ _ rs Hxk) in Hs. rewrite <- Hs.
    destruct (snd g); [now destruct Hne | reflexivity].
Qed.

(** ** The cells of a unified record *)


Lemma by2c_nodup : NoDup ["date"; "campaign_id"].
Proof. repeat constructor; simpl; intuition discriminate. Qed.

Lemma by2l_nodup : NoDup ["date"; "location"].
Proof. repeat constructor; simpl; intuition discriminate. Qed.

Lemma unified_record_cells (traffic clicks weather : DataFrame) (u : row) :
  In u (rows (unified_frame traffic clicks weather)) ->
  has_null_key (key_of ["date"; "campaign_id"; "location"] u) = false
  /\ (exists r, In r (rows traffic)
                /\ key_of ["date"; "campaign_id"; "location"] u
                   = key_of ["date"; "campaign_id"; "location"] r)
  /\ cell u "impressions"
     = vsum (map (fun r => cell r "impressions")
               (filter (fun r => key_eqb (key_of ["date"; "campaign_id"; "location"] r)
                                   (key_of ["date"; "campaign_id"; "location"] u))
                       (rows traffic)))
  /\ cell u "clicks" = joined ["date"; "campaign_id"] u (rows clicks) Sum "clicks"
  /\ cell u "conversions" = joined ["date"; "campaign_id"] u (rows clicks) Sum "conversions"
  /\ cell u "spend" = joined ["date"; "campaign_id"] u (rows clicks) Sum "spend"
  /\ cell u "temperature_c"
     = joined ["date"; "location"] u (rows weather) Mean "temperature_c"
  /\ cell u "rainfall_mm" = joined ["date"; "location"] u (rows weather) Sum "rainfall_mm".
Proof.
  cbn [unified_frame rows]. unfold traffic_agg_rows. rewrite map_map. intros H.
  apply in_map_iff in H. destruct H as [[k grp] [<- Hg]].
  destruct (groups_key_origin _ _ _ Hg) as [r0 [Hin [Hnn Hk]]].
  destruct (groups_group _ _ _ Hg) as [_ [Hs _]].
  cbn [fst snd] in Hk, Hs. subst k.
  set (d := cell r0 "date") in *. set (c := cell r0 "campaign_id") in *.
  set (l := cell r0 "location") in *.
  change (key_of ["date"; "campaign_id"; "location"] r0) with [d; c; l] in *.
  rewrite unified_row_explicit.
  match goal with |- context [unified_record d c l ?imp ?ms ?ws] =>
    set (u := unified_record d c l imp ms ws)
  end.
  change (key_of ["date"; "campaign_id"; "location"] u) with [d; c; l].
  unfold joined.
  change (key_of ["date"; "campaign_id"] u) with [d; c].
  change (key_of ["date"; "location"] u) with [d; l].
  assert (Hdc : has_null_key [d; c] = false).
  { unfold has_null_key in *. cbn [existsb] in *.
    destruct (is_null d); [discriminate Hnn | ].
    destruct (is_null c); [discriminate Hnn | reflexivity]. }
  assert (Hdl : has_null_key [d; l] = false).
  { unfold has_null_key in *. cbn [existsb] in *.
    destruct (is_null d); [discriminate Hnn | ].
    destruct (is_null c); [discriminate Hnn | ].
    destruct (is_null l); [discriminate Hnn | reflexivity]. }
  split; [exact Hnn | ].
  split; [exists r0; split; [exact Hin | reflexivity] | ].
  split; [rewrite <- Hs; reflexivity | ].
  repeat split.
  - apply (agg_pick ["date"; "campaign_id"] _ (rows clicks) [d; c] "clicks" Sum
             by2c_nodup Hdc).
    intros g Hg'. pose proof (groups_key_length _ _ _ Hg') as Hl.
    destruct g as [[ | a [ | b [ | ? ?]]] gr]; try discriminate Hl. reflexivity.
  - apply (agg_pick ["date"; "campaign_id"] _ (rows clicks) [d; c] "conversions" Sum
             by2c_nodup Hdc).
    intros g Hg'. pose proof (groups_key_length _ _ _ Hg') as Hl.
    destruct g as [[ | a [ | b [ | ? ?]]] gr]; try discriminate Hl. reflexivity.
  - apply (agg_pick ["date"; "campaign_id"] _ (rows clicks) [d; c] "spend" Sum
             by2c_nodup Hdc).
    intros g Hg'. pose proof (groups_key_length _ _ _ Hg') as Hl.
    destruct g as [[ | a [ | b [ | ? ?]]] gr]; try discriminate Hl. reflexivity.
  - apply (agg_pick ["date"; "location"] _ (rows weather) [d; l] "temperature_c" Mean
             by2l_nodup Hdl).
    intros g Hg'. pose proof (groups_key_length _ _ _ Hg') as Hl.
    destruct g as [[ | a [ | b [ | ? ?]]] gr]; try discriminate Hl. reflexivity.
  - apply (agg_pick ["date"; "location"] _ (rows weather) [d; l] "rainfall_mm" Sum
             by2l_nodup Hdl).
    intros g Hg'. pose proof (groups_key_length _ _ _ Hg') as Hl.
    destruct g as [[ | a [ | b [ | ? ?]]] gr]; try discriminate Hl. reflexivity.
Qed.

(** X1. On well-formed inputs the unified dataset has the thirteen columns
    of the specification, no two of its records share a (date, campaign,
    location) key, every record has a key without a missing cell that is the
    key of a traffic row, and the call logs the number of records and
    nothing else. *)
Theorem one_record_per_key {B : Builtins} (st : Store) :
  schema_ok st = true -> dates_ok st = true ->
  exists st' merged metrics,
    process_data st = (st', Ok (merged, metrics))
    /\ columns merged = unified_columns
    /\ (forall k, count_key ["date"; "campaign_id"; "location"] k merged <= 1)
    /\ (forall u, In u (rows merged) ->
          has_null_key (key_of ["date"; "campaign_id"; "location"] u) = false
          /\ exists r, In r (rows (traffic_df st'))
                       /\ key_of ["date"; "campaign_id"; "location"] u
                          = key_of ["date"; "campaign_id"; "location"] r)
    /\ log st'
       = log st ++ [Info ("Processing complete. Rows in merged dataset: "
                          ++ format_d (Z.of_nat (length (rows merged))))%string].
Proof.
  intros Hs Hd.
  destruct (process_data_ok st Hs Hd) as [t [c [w [Ht [Hc [Hw Hrun]]]]]].
  do 3 eexists. split; [exact Hrun | ].
  split; [reflexivity | ]. split; [ | split; [ | reflexivity]].
  - intros k. unfold count_key. cbn [unified_frame rows].
    rewrite (filter_map_key _ k (unified_row c w) (traffic_agg_rows t))
      by (intros x Hx; now apply (unified_row_key t c w)).
    apply grouped_at_most_one, by3_nodup.
  - intros u Hu. destruct (unified_record_cells t c w u Hu) as [Hn [Ho _]].
    split; assumption.
Qed.

(** X2. What a unified record holds.  Its impressions are the sum over the
    traffic rows of its key; its clicks, conversions and spend are the sums
    over all the click rows of its date and campaign, whatever the location,
    and are missing when there is no such row; its temperature is the mean
    and its rainfall the sum over the weather rows of its date and location.
    So two records of the same date and campaign carry the same click
    figures: a campaign served in two locations has its clicks in both. *)
Theorem unified_cells_aggregate_their_key {B : Builtins} (st : Store) :
  schema_ok st = true -> dates_ok st = true ->
  exists st' merged metrics,
    process_data st = (st', Ok (merged, metrics))
    /\ (forall u, In u (rows merged) ->
          cell u "impressions"
          = vsum (map (fun r => cell r "impressions")
                    (filter (fun r =>
                               key_eqb (key_of ["date"; "campaign_id"; "location"] r)
                                       (key_of ["date"; "campaign_id"; "location"] u))
                            (rows (traffic_df st'))))
          /\ cell u "clicks"
             = joined ["date"; "campaign_id"] u (rows (clicks_df st')) Sum "clicks"
          /\ cell u "conversions"
             = joined ["date"; "campaign_id"] u (rows (clicks_df st')) Sum "conversions"
          /\ cell u "spend"
             = joined ["date"; "campaign_id"] u (rows (clicks_df st')) Sum "spend"
          /\ cell u "temperature_c"
             = joined ["date"; "location"] u (rows (weather_df st')) Mean "temperature_c"
          /\ cell u "rainfall_mm"
             = joined ["date"; "location"] u (rows (weather_df st')) Sum "rainfall_mm")
    /\ (forall u1 u2, In u1 (rows merged) -> In u2 (rows merged) ->
          key_eqb (key_of ["date"; "campaign_id"] u1) (key_of ["date"; "campaign_id"] u2)
          = true ->
          cell u1 "clicks" = cell u2 "clicks"
          /\ cell u1 "conversions" = cell u2 "conversions"
          /\ cell u1 "spend" = cell u2 "spend").
Proof.
  intros Hs Hd.
  destruct (process_data_ok st Hs Hd) as [t [c [w [Ht [Hc [Hw Hrun]]]]]].
  do 3 eexists. split; [exact Hrun | ]. split.
  - intros u Hu. destruct (unified_record_cells t c w u Hu) as [_ [_ H]]. exact H.
  - intros u1 u2 H1 H2 Hk.
    destruct (unified_record_cells t c w u1 H1) as [_ [_ [_ [-> [-> [-> _]]]]]].
    destruct (unified_record_cells t c w u2 H2) as [_ [_ [_ [-> [-> [-> _]]]]]].
    unfold joined.
    rewrite (filter_key_congr ["date"; "campaign_id"] _ _ (rows c) Hk).
    repeat split.
Qed.

Lemma filter_all {A} (p : A -> bool) (l : list A) :
  (forall x, In x l -> p x = true) -> filter p l = l.
Proof.
  induction l as [ | x l IH]; intros H; [reflexivity | ].
  cbn [filter]. rewrite (H x) by now left. f_equal. apply IH. intros y Hy. apply H. now right.
Qed.

Lemma null_or_finite_ok (v : value) : null_or_finite v -> finite_or_null v = true.
Proof. intros [-> | [q ->]]; reflexivity. Qed.

Section Totals.

Context {B : Builtins}.

Lemma unified_metric_cells (st : Store) (t c w : DataFrame) (m : string) (u : row) :
  schema_ok st = true -> finite_inputs st = true ->
  convert_date (traffic_df st) = Ok t -> convert_date (clicks_df st) = Ok c ->
  In m ["impressions"; "clicks"; "conversions"; "spend"] ->
  In u (rows (unified_frame t c w)) ->
  finite_or_null (cell u m) = true.
Proof.
  intros Hs Hf Ht Hc Hm Hu.
  destruct (unified_cells_finite st t c w u Hs Hf Ht Hc Hu)
    as [d [cc [l [imp [ms [ws [-> [[q ->] [Hk [Hv Hsp]]]]]]]]]].
  simpl in Hm. destruct Hm as [<- | [<- | [<- | [<- | []]]]].
  - reflexivity.
  - exact (null_or_finite_ok _ Hk).
  - exact (null_or_finite_ok _ Hv).
  - exact (null_or_finite_ok _ Hsp).
Qed.

Lemma traffic_impressions_finite (st : Store) (t : DataFrame) (r : row) :
  schema_ok st = true -> finite_inputs st = true ->
  convert_date (traffic_df st) = Ok t ->
  In r (rows t) -> finite_or_null (cell r "impressions") = true.
Proof.
  unfold schema_ok, finite_inputs. rewrite !andb_true_iff.
  intros [[[[[_ _] _] Nt] _] _] [[Ft _] _] Ht Hr.
  unfold numeric_columns_of in Nt. cbn [forallb] in Nt.
  apply andb_true_iff in Nt. destruct Nt as [Nt _].
  assert (Hne : "impressions" <> "date") by discriminate.
  destruct (convert_date_finite _ _ "impressions" Ht Hne) as [Hn Hfi].
  apply (column_cells_finite t "impressions"); [congruence | congruence | exact Hr].
Qed.

Lemma total_impressions_conserved (st : Store) (t c w : DataFrame) :
  schema_ok st = true -> finite_inputs st = true ->
  convert_date (traffic_df st) = Ok t ->
  total "impressions" (unified_frame t c w)
  = vsum (map (fun r => cell r "impressions")
            (filter (complete_key ["date"; "campaign_id"; "location"]) (rows t))).
Proof.
  intros Hs Hf Ht. unfold total, col. cbn [unified_frame rows].
  unfold traffic_agg_rows. rewrite !map_map.
  rewrite <- (grouped_sums ["date"; "campaign_id"; "location"]
                (fun r => cell r "impressions") (rows t))
    by (intros r Hr; now apply (traffic_impressions_finite st t)).
  f_equal. apply map_ext_in. intros g Hg.
  pose proof (groups_key_length _ _ _ Hg) as Hl.
  destruct g as [[ | d [ | cc [ | l [ | ? ?]]]] grp]; try discriminate Hl. reflexivity.
Qed.

Lemma campaign_total (st : Store) (t c w : DataFrame) (m : string) :
  schema_ok st = true -> finite_inputs st = true ->
  convert_date (traffic_df st) = Ok t -> convert_date (clicks_df st) = Ok c ->
  In m ["impressions"; "clicks"; "conversions"; "spend"] ->
  vsum (col (campaign_frame (unified_frame t c w)) m) = total m (unified_frame t c w).
Proof.
  intros Hs Hf Ht Hc Hm. unfold total, col at 1. cbn [campaign_frame rows].
  rewrite map_map.
  rewrite (map_ext_in _ (fun g => vsum (map (fun r => cell r m) (snd g)))).
  - rewrite (grouped_sums ["campaign_id"] (fun r => cell r m))
      by (intros u Hu; now apply (unified_metric_cells st t c w)).
    rewrite filter_all; [reflexivity | ].
    intros u Hu. destruct (unified_record_cells t c w u Hu) as [Hn _].
    unfold complete_key, has_null_key in *. cbn [key_of map existsb] in *.
    destruct (is_null (cell u "date")); [discriminate Hn | ].
    destruct (is_null (cell u "campaign_id")); [discriminate Hn | reflexivity].
  - intros g Hg. pose proof (groups_key_length _ _ _ Hg) as Hl.
    destruct g as [[ | k [ | ? ?]] grp]; try discriminate Hl.
    simpl in Hm. destruct Hm as [<- | [<- | [<- | [<- | []]]]]; reflexivity.
Qed.

End Totals.

Lemma whole_value (v : value) :
  whole v = true -> (qval v == inject_Z (Qnum (Qred (qval v))))%Q.
Proof.
  destruct v as [ | s | t | q | b]; cbn [whole qval]; try discriminate; [reflexivity | ].
  intros H. apply Pos.eqb_eq in H.
  rewrite <- (Qred_correct q) at 1. destruct (Qred q) as [n d]. cbn [Qnum Qden] in *.
  subst d. reflexivity.
Qed.

Lemma Qred_whole (n : Z) : Qred (inject_Z n) = inject_Z n.
Proof.
  unfold Qred, inject_Z.
  pose proof (Z.ggcd_gcd n 1) as Hg. pose proof (Z.ggcd_correct_divisors n 1) as Hd.
  destruct (Z.ggcd n 1) as [g [a b]]. cbn [fst snd] in *.
  rewrite Z.gcd_1_r in Hg. subst g. destruct Hd as [Ha Hb].
  rewrite Z.mul_1_l in Ha, Hb. subst a b. reflexivity.
Qed.

Lemma whole_finite (v : value) : whole v = true -> finite_or_null v = true.
Proof. destruct v; cbn [whole]; try discriminate; reflexivity. Qed.

Lemma whole_sum (l : list value) :
  forallb whole l = true ->
  exists n : Z, vsum l = VNum (inject_Z n) /\ (Z.abs n <= magnitude_total l)%Z.
Proof.
  intros Hl. rewrite forallb_forall in Hl.
  assert (Hq : exists n : Z, (qsum l == inject_Z n)%Q /\ (Z.abs n <= magnitude_total l)%Z).
  { induction l as [ | v l IH]; [exists 0%Z; split; [reflexivity | simpl; lia] | ].
    destruct IH as [n [Hn Hb]]; [intros x Hx; apply Hl; now right | ].
    exists (Qnum (Qred (qval v)) + n)%Z.
    split; [ | unfold magnitude_total in *; cbn [fold_right]; lia].
    change (qsum (v :: l)) with (qval v + qsum l)%Q.
    rewrite Hn, (whole_value v (Hl v (or_introl eq_refl))) at 1.
    rewrite inject_Z_plus. reflexivity. }
  destruct Hq as [n [Hn Hb]]. exists n. split; [ | exact Hb].
  rewrite vsum_qsum by (intros v Hv; now apply whole_finite, Hl).
  f_equal. rewrite (Qred_complete _ _ Hn). apply Qred_whole.
Qed.

Lemma magnitude_total_filter (f : row -> value) (p : row -> bool) (rs : list row) :
  (magnitude_total (map f (filter p rs)) <= magnitude_total (map f rs))%Z.
Proof.
  unfold magnitude_total.
  induction rs as [ | r rs IH]; [simpl; lia | ].
  cbn [filter]. destruct (p r); cbn [map fold_right] in *; lia.
Qed.

(** X3. Impressions are conserved: on inputs whose counts are whole
    numbers totalling at most 2^53, where the sums of the code are exact,
    the total of the overall summary is the sum of the impressions of the
    traffic rows whose key has no missing cell, a whole number of magnitude
    at most 2^53. *)
Theorem impressions_are_conserved {B : Builtins} (st : Store) :
  schema_ok st = true -> dates_ok st = true -> finite_inputs st = true ->
  exact_counts st = true ->
  exists st' merged metrics,
    process_data st = (st', Ok (merged, metrics))
    /\ cell (overall metrics) "total_impressions"
       = vsum (map (fun r => cell r "impressions")
                 (filter (complete_key ["date"; "campaign_id"; "location"])
                         (rows (traffic_df st'))))
    /\ exists n : Z,
         cell (overall metrics) "total_impressions" = VNum (inject_Z n)
         /\ (Z.abs n <= 2 ^ 53)%Z.
Proof.
  intros Hs Hd Hf He.
  destruct (process_data_ok st Hs Hd) as [t [c [w [Ht [Hc [Hw Hrun]]]]]].
  exists (final_store st t c w), (unified_frame t c w),
         (metrics_of (sql_df st) (unified_frame t c w)).
  split; [exact Hrun | ].
  pose proof (total_impressions_conserved st t c w Hs Hf Ht) as Htot.
  cbn [final_store add_log traffic_df].
  split; [exact Htot | ].
  unfold exact_counts in He. rewrite !andb_true_iff in He.
  destruct He as [[[[[Wi _] _] Bi] _] _]. apply Z.leb_le in Bi.
  assert (Hcol : col t "impressions" = col (traffic_df st) "impressions")
    by (apply (convert_date_other _ _ "impressions" Ht); discriminate).
  destruct (whole_sum (map (fun r => cell r "impressions")
                         (filter (complete_key ["date"; "campaign_id"; "location"])
                                 (rows t)))) as [n [Hn Hb]].
  - apply forallb_forall. intros v Hv. apply in_map_iff in Hv.
    destruct Hv as [r [<- Hr]]. apply filter_In in Hr. destruct Hr as [Hr _].
    rewrite forallb_forall in Wi. apply Wi. rewrite <- Hcol.
    apply (in_map (fun r => cell r "impressions")). exact Hr.
  - exists n. split.
    + change (cell (overall (metrics_of (sql_df st) (unified_frame t c w)))
                "total_impressions")
        with (total "impressions" (unified_frame t c w)).
      rewrite Htot. exact Hn.
    + pose proof (magnitude_total_filter (fun r => cell r "impressions")
                    (complete_key ["date"; "campaign_id"; "location"]) (rows t)) as Hle.
      fold (col t "impressions") in Hle. rewrite Hcol in Hle. lia.
Qed.

(** X5. The date columns are written one frame at a time.  When the
    traffic dates parse and the click dates do not, the call raises what the
    parser raised and the caller's traffic frame is left converted, the other
    two untouched; when the weather dates are the ones that fail, traffic
    and clicks are both left converted. *)
Theorem failed_parse_keeps_earlier_conversions {B : Builtins} (st : Store) (t : DataFrame) :
  convert_date (traffic_df st) = Ok t ->
  (forall e, convert_date (clicks_df st) = Err e ->
     exists st', process_data st = (st', Err e)
                 /\ traffic_df st' = t /\ clicks_df st' = clicks_df st
                 /\ weather_df st' = weather_df st)
  /\ (forall c e, convert_date (clicks_df st) = Ok c ->
        convert_date (weather_df st) = Err e ->
        exists st', process_data st = (st', Err e)
                    /\ traffic_df st' = t /\ clicks_df st' = c
                    /\ weather_df st' = weather_df st).
Proof.
  intros Ht.
  pose proof (warn_missing_succeeds st) as Hok.
  destruct (warn_missing the_specs st) as [st1 r] eqn:Hw. cbn [snd] in Hok. subst r.
  destruct (warn_missing_frames _ _ _ _ Hw) as [Et [Ec [Ew _]]].
  split.
  - intros e Hc. unfold process_data. rewrite Hw. unfold convert_dates.
    rewrite Et, Ht. cbn [clicks_df]. rewrite Ec, Hc.
    eexists. split; [reflexivity | ]. cbn. repeat split; assumption.
  - intros c e Hc He. unfold process_data. rewrite Hw. unfold convert_dates.
    rewrite Et, Ht. cbn [clicks_df]. rewrite Ec, Hc. cbn [weather_df]. rewrite Ew, He.
    eexists. split; [reflexivity | ]. cbn. repeat split; assumption.
Qed.

Lemma failed_parse_keeps_earlier_conversions_witness :
  exists t e,
    convert_date (traffic_df bad_clicks_date) = Ok t
    /\ convert_date (clicks_df bad_clicks_date) = Err e
    /\ col t "date" <> col (traffic_df bad_clicks_date) "date"
    /\ exists st', process_data bad_clicks_date = (st', Err e)
                   /\ traffic_df st' = t
                   /\ clicks_df st' = clicks_df bad_clicks_date
                   /\ weather_df st' = weather_df bad_clicks_date.
Proof.
  eexists. exists ValueError.
  split; [vm_compute; reflexivity | ].
  split; [vm_compute; reflexivity | ].
  split; [vm_compute; discriminate | ].
  refine (proj1 (failed_parse_keeps_earlier_conversions bad_clicks_date _ _) ValueError _);
    vm_compute; reflexivity.
Defined.


Lemma subsequence_refl {A} (l : list A) : subsequence l l.
Proof. induction l; constructor; assumption. Qed.

Lemma subsequence_nil {A} (l : list A) : subsequence [] l.
Proof. induction l; constructor; assumption. Qed.

Lemma subsequence_app {A} (l1 l2 m1 m2 : list A) :
  subsequence l1 l2 -> subsequence m1 m2 -> subsequence (l1 ++ m1) (l2 ++ m2).
Proof.
  induction 1 as [ | x l1 l2 _ IH | x l1 l2 _ IH]; intros Hm; simpl.
  - exact Hm.
  - apply sub_skip, IH, Hm.
  - apply sub_keep, IH, Hm.
Qed.

Lemma subsequence_length {A} (l1 l2 : list A) :
  subsequence l1 l2 -> length l1 <= length l2.
Proof. induction 1; simpl; lia. Qed.

Lemma sort_by_length {A} (leb : A -> A -> bool) (l : list A) :
  length (sort_by leb l) = length l.
Proof. apply Permutation_length, sort_by_perm. Qed.

Lemma unique_keys_length (ks : list key) : length (unique_keys ks) <= length ks.
Proof.
  induction ks as [ | k ks IH]; simpl; [lia | ].
  destruct (existsb _ _); simpl; lia.
Qed.

Lemma filter_length_le {A} (p : A -> bool) (l : list A) : length (filter p l) <= length l.
Proof. induction l as [ | x l IH]; simpl; [lia | destruct (p x); simpl; lia]. Qed.

Lemma groups_count (by_ : list string) (rs : list row) :
  length (groups by_ rs) <= length rs.
Proof.
  unfold groups. rewrite length_map, sort_by_length.
  eapply Nat.le_trans; [apply unique_keys_length | ].
  rewrite length_map. apply filter_length_le.
Qed.

Lemma groups_size (by_ : list string) (rs : list row) :
  length (flat_map snd (groups by_ rs)) <= length rs.
Proof.
  rewrite (Permutation_length (groups_partition by_ rs)). apply filter_length_le.
Qed.

Section ScanMore.

Context {B : Builtins}.
Variable merged_df : DataFrame.

Lemma py_int_cases (v : value) :
  match py_int v with
  | Ok _ => True
  | Err e => scan_exn e
  end.
Proof. destruct v; simpl; unfold scan_exn; auto. Qed.

Lemma check_pair_cases thr has_rain location prev_row curr_row :
  match pdf_report.check_pair merged_df thr has_rain location prev_row curr_row with
  | Ok found => length found <= 1
  | Err e => scan_exn e
  end.
Proof.
  unfold pdf_report.check_pair.
  destruct (vleb (cell prev_row "impressions") (VNum 0)) eqn:Hguard; [simpl; lia | ].
  rewrite (guarded_change_defined _ _ Hguard). cbn [bind].
  match goal with |- match (if ?c then _ else _) with _ => _ end => destruct c end;
    [ | simpl; lia].
  pose proof (py_int_cases (cell curr_row "impressions")) as Hc.
  destruct (py_int (cell curr_row "impressions")) as [ci | e]; cbn [bind]; [ | exact Hc].
  pose proof (py_int_cases (cell prev_row "impressions")) as Hp.
  destruct (py_int (cell prev_row "impressions")) as [pi | e]; cbn [bind]; [ | exact Hp].
  destruct has_rain; cbn [bind]; [ | simpl; lia].
  destruct (rain_vals_at merged_df (cell curr_row "date") location) as [ | v vs];
    cbn [bind]; [simpl; lia | ].
  destruct (forallb is_numeric (v :: vs)); cbn [bind]; [simpl; lia | ].
  unfold scan_exn. auto.
Qed.

Lemma scan_group_cases thr has_rain location grp :
  match pdf_report.scan_group merged_df thr has_rain location grp with
  | Ok found => length found <= pred (length grp)
  | Err e => scan_exn e
  end.
Proof.
  induction grp as [ | prev_row rest IH]; [simpl; lia | ].
  destruct rest as [ | curr_row rest']; [simpl; lia | ].
  rewrite scan_group_step.
  pose proof (check_pair_cases thr has_rain location prev_row curr_row) as Hc.
  destruct (pdf_report.check_pair _ _ _ _ _ _) as [found | e]; cbn [bind]; [ | exact Hc].
  destruct (pdf_report.scan_group _ _ _ _ (curr_row :: rest')) as [more | e];
    cbn [bind]; [ | exact IH].
  rewrite length_app. cbn [length pred] in *. lia.
Qed.

Lemma scan_groups_cases thr has_rain gs :
  match pdf_report.scan_groups merged_df thr has_rain gs with
  | Ok found => length found <= pred (length (flat_map snd gs))
  | Err e => scan_exn e
  end.
Proof.
  induction gs as [ | [k grp] rest IH]; [simpl; lia | ].
  cbn [pdf_report.scan_groups flat_map snd].
  match goal with
  | |- match bind (pdf_report.scan_group ?a ?b ?c ?d ?g) _ with _ => _ end =>
      pose proof (scan_group_cases b c d g) as Hg;
      destruct (pdf_report.scan_group a b c d g) as [found | e]; cbn [bind];
      [ | exact Hg]
  end.
  destruct (pdf_report.scan_groups _ _ _ rest) as [more | e]; cbn [bind]; [ | exact IH].
  rewrite sort_by_length in Hg. rewrite !length_app. lia.
Qed.

(** *** A higher threshold *)

Lemma vleb_threshold (change : value) (t1 t2 : Q) :
  (t1 <= t2)%Q ->
  vleb change (vneg (VNum t2)) = true -> vleb change (vneg (VNum t1)) = true.
Proof.
  intros Ht. destruct change as [ | s | t | x | [ | ]]; cbn [vneg vleb]; try discriminate;
    [ | reflexivity].
  rewrite !Qle_bool_iff, !Qred_correct. intros H.
  eapply Qle_trans; [exact H | ]. now apply Qopp_le_compat.
Qed.

Lemma check_pair_monotone (t1 t2 : Q) has_rain location prev_row curr_row found1 :
  (t1 <= t2)%Q ->
  pdf_report.check_pair merged_df (VNum t1) has_rain location prev_row curr_row
  = Ok found1 ->
  exists found2,
    pdf_report.check_pair merged_df (VNum t2) has_rain location prev_row curr_row
    = Ok found2
    /\ subsequence found2 found1.
Proof.
  intros Ht. unfold pdf_report.check_pair.
  destruct (vleb (cell prev_row "impressions") (VNum 0)) eqn:Hguard.
  - intros H. exists []. split; [reflexivity | apply subsequence_nil].
  - rewrite (guarded_change_defined _ _ Hguard). cbn [bind].
    match goal with
    | |- context [vleb ?c (vneg (VNum t2))] =>
        pose proof (vleb_threshold c t1 t2 Ht) as Hmono;
        destruct (vleb c (vneg (VNum t2)))
    end.
    + rewrite (Hmono eq_refl). intros H. exists found1.
      split; [exact H | apply subsequence_refl].
    + intros _. exists []. split; [reflexivity | apply subsequence_nil].
Qed.

Lemma scan_group_monotone (t1 t2 : Q) has_rain location grp :
  (t1 <= t2)%Q ->
  forall found1,
    pdf_report.scan_group merged_df (VNum t1) has_rain location grp = Ok found1 ->
    exists found2,
      pdf_report.scan_group merged_df (VNum t2) has_rain location grp = Ok found2
      /\ subsequence found2 found1.
Proof.
  intros Ht. induction grp as [ | prev_row rest IH]; intros found1.
  - intros H. apply Ok_inj in H. subst. exists []. split; constructor.
  - destruct rest as [ | curr_row rest'].
    + intros H. apply Ok_inj in H. subst. exists []. split; constructor.
    + rewrite !scan_group_step.
      destruct (pdf_report.check_pair merged_df (VNum t1) _ _ _ _) as [f1 | e] eqn:Hc;
        cbn [bind]; [ | discriminate].
      destruct (pdf_report.scan_group merged_df (VNum t1) _ _ (curr_row :: rest'))
        as [m1 | e] eqn:Hs; cbn [bind]; [ | discriminate].
      intros H. apply Ok_inj in H. subst found1.
      destruct (check_pair_monotone t1 t2 _ _ _ _ _ Ht Hc) as [f2 [-> Hf]].
      destruct (IH m1 eq_refl) as [m2 [-> Hm]]. cbn [bind].
      exists (f2 ++ m2). split; [reflexivity | now apply subsequence_app].
Qed.

Lemma scan_groups_monotone (t1 t2 : Q) has_rain gs :
  (t1 <= t2)%Q ->
  forall found1,
    pdf_report.scan_groups merged_df (VNum t1) has_rain gs = Ok found1 ->
    exists found2,
      pdf_report.scan_groups merged_df (VNum t2) has_rain gs = Ok found2
      /\ subsequence found2 found1.
Proof.
  intros Ht. induction gs as [ | [k grp] rest IH]; intros found1.
  - intros H. apply Ok_inj in H. subst. exists []. split; constructor.
  - cbn [pdf_report.scan_groups].
    match goal with
    | |- bind (pdf_report.scan_group ?a ?b ?c ?d ?g) _ = _ -> _ =>
        destruct (pdf_report.scan_group a b c d g) as [f1 | e] eqn:Hg; cbn [bind];
        [ | discriminate]
    end.
    destruct (pdf_report.scan_groups merged_df (VNum t1) _ rest) as [m1 | e] eqn:Hs;
      cbn [bind]; [ | discriminate].
    intros H. apply Ok_inj in H. subst found1.
    destruct (scan_group_monotone t1 t2 _ _ _ Ht _ Hg) as [f2 [-> Hf]].
    destruct (IH m1 eq_refl) as [m2 [-> Hm]]. cbn [bind].
    exists (f2 ++ m2). split; [reflexivity | now apply subsequence_app].
Qed.

End ScanMore.

Section ScanReturns.

Context {B : Builtins}.
Variable merged_df : DataFrame.
Variable drop_threshold : value.






Lemma detect_anomalies_unfold :
  has_column merged_df "impressions" = true ->
  has_column merged_df "location" = true ->
  has_column merged_df "date" = true ->
  numeric_column merged_df "impressions" = true ->
  pdf_report._detect_anomalies merged_df drop_threshold
  = pdf_report.scan_groups merged_df drop_threshold (has_column merged_df "rainfall_mm")
      (groups ["location"]
         (sort_by (fun r1 r2 => key_leb (key_of ["location"; "date"] r1)
                                        (key_of ["location"; "date"] r2))
            (map (group_row ["date"; "location"] [("impressions", Sum)])
               (groups ["date"; "location"] (rows merged_df))))).
Proof.
  intros Hi Hl Hd Hn. unfold pdf_report._detect_anomalies. rewrite Hi, Hl, Hd.
  cbn [negb orb]. rewrite groupby_agg_ok.
  - reflexivity.
  - apply first_missing_none. intros c Hc. simpl in Hc.
    destruct Hc as [<- | [<- | [<- | []]]]; assumption.
  - cbn [map fst forallb]. now rewrite Hn.
Qed.



Lemma detect_anomalies_cases :
  match pdf_report._detect_anomalies merged_df drop_threshold with
  | Ok found => length found <= pred (length (rows merged_df))
  | Err e => scan_exn e
  end.
Proof.
  unfold pdf_report._detect_anomalies.
  destruct (has_column merged_df "impressions") eqn:Hi; [ | simpl; lia].
  destruct (has_column merged_df "location") eqn:Hl; [ | simpl; lia].
  destruct (has_column merged_df "date") eqn:Hd; [ | simpl; lia].
  cbn [negb orb]. unfold groupby_agg.
  assert (Hm : first_missing (["date"; "location"] ++ map fst [("impressions", Sum)])
                 merged_df = None).
  { apply first_missing_none. intros c Hc. simpl in Hc.
    destruct Hc as [<- | [<- | [<- | []]]]; assumption. }
  rewrite Hm. destruct (forallb _ _); cbn [bind]; [ | left; reflexivity].
  match goal with
  | |- match pdf_report.scan_groups ?a ?b ?c ?gs with _ => _ end =>
      pose proof (scan_groups_cases a b c gs) as Hc;
      destruct (pdf_report.scan_groups a b c gs) as [found | e]; [ | exact Hc]
  end.
  eapply Nat.le_trans; [exact Hc | ]. apply Nat.pred_le_mono.
  eapply Nat.le_trans; [apply groups_size | ].
  cbn [sort_values rows]. rewrite sort_by_length, length_map. apply groups_count.
Qed.

End ScanReturns.

Lemma relative_change_value (p c : Q) :
  Qle_bool p 0 = false ->
  exists x, relative_change (VNum p) (VNum c) = Ok (VNum x) /\ (x == (c - p) / p)%Q.
Proof.
  intros Hp. unfold relative_change, py_truediv, is_zero.
  assert (Hz : Qeq_bool p 0 = false).
  { destruct (Qeq_bool p 0) eqn:E; [ | reflexivity].
    apply Qeq_bool_iff in E. assert (H : Qle_bool p 0 = true)
      by (apply Qle_bool_iff; rewrite E; apply Qle_refl).
    congruence. }
  rewrite Hz. unfold vsub, vneg, vadd, vdiv. rewrite Hz.
  eexists. split; [reflexivity | ].
  rewrite !Qred_correct. reflexivity.
Qed.

Lemma check_pair_iff {B : Builtins} (merged_df : DataFrame) (t : Q) (has_rain : bool)
    (location : value) (prev_row curr_row : row) (p c : Q) :
  cell prev_row "impressions" = VNum p ->
  cell curr_row "impressions" = VNum c ->
  forallb is_numeric (rain_vals_at merged_df (cell curr_row "date") location) = true ->
  exists found,
    pdf_report.check_pair merged_df (VNum t) has_rain location prev_row curr_row = Ok found
    /\ length found <= 1
    /\ (found <> [] <-> (0 < p)%Q /\ ((c - p) / p <= - t)%Q).
Proof.
  intros Hp Hc Hrain.
  unfold pdf_report.check_pair. rewrite Hp, Hc.
  cbn [vleb].
  destruct (Qle_bool p 0) eqn:Hguard.
  - exists []. repeat split; try (simpl; lia); try tauto.
    intros [Hpos _]. apply Qle_bool_iff in Hguard.
    exfalso. exact (Qlt_not_le _ _ Hpos Hguard).
  - destruct (relative_change_value p c Hguard) as [x [Hx Hxe]].
    rewrite Hx. cbn [bind vneg vleb].
    assert (Hpos : (0 < p)%Q).
    { apply Qnot_le_lt. intros H. apply Qle_bool_iff in H. congruence. }
    destruct (Qle_bool x (Qred (- t))) eqn:Hdrop.
    + cbn [py_int bind].
      assert (Hyes : (0 < p)%Q /\ ((c - p) / p <= - t)%Q).
      { split; [exact Hpos | ]. apply Qle_bool_iff in Hdrop.
        rewrite Qred_correct, Hxe in Hdrop. exact Hdrop. }
      destruct has_rain.
      * destruct (rain_vals_at merged_df (cell curr_row "date") location) as [ | v vs].
        -- cbn [bind]. eexists. split; [reflexivity | ].
           split; [simpl; lia | ].
           split; [intros _; exact Hyes | intros _; discriminate].
        -- rewrite Hrain. cbn [bind].
           eexists. split; [reflexivity | ].
           split; [simpl; lia | ].
           split; [intros _; exact Hyes | intros _; discriminate].
      * cbn [bind]. eexists. split; [reflexivity | ].
           split; [simpl; lia | ].
           split; [intros _; exact Hyes | intros _; discriminate].
    + exists []. repeat split; try (simpl; lia); try tauto.
      intros [_ Hle]. exfalso.
      assert (H : Qle_bool x (Qred (- t)) = true)
        by (apply Qle_bool_iff; rewrite Qred_correct, Hxe; exact Hle).
      congruence.
Qed.

Lemma default_drop_iff (p c : Z) :
  (0 < inject_Z p)%Q /\ ((inject_Z c - inject_Z p) / inject_Z p <= - (3 # 10))%Q
  <-> (0 < p /\ 10 * c <= 7 * p)%Z.
Proof.
  destruct p as [ | p | p].
  - split; intros [Hp _]; [discriminate Hp | lia].
  - unfold Qle, Qlt, Qdiv, Qmult, Qinv, Qminus, Qplus, Qopp, inject_Z.
    cbn [Qnum Qden]. rewrite !Z.mul_1_r, !Pos.mul_1_l. cbn [Z.opp].
    split; intros [_ H]; (split; [reflexivity || lia | ]).
    + change (Z.pos (1 * p)) with (Z.pos p) in H. lia.
    + change (Z.pos (1 * p)) with (Z.pos p). lia.
  - split; intros [Hp _]; [discriminate Hp | lia].
Qed.

(** X7. At the default threshold, for whole numbers of impressions [p] on
    the previous day and [c] on the current day, both at most 2^50, and
    numeric rainfall, a pair of days yields a finding exactly when [0 < p]
    and [10 * c <= 7 * p], and then exactly one; both copies of the scan
    agree.  In this range the subtraction is exact on binary64 and the
    quotient is at least 1 / (10 * p) away from -0.3 when it is not below
    it, more than the rounding of the quotient and of the literal 0.3 can
    bridge. *)
Theorem finding_iff {B : Builtins} (merged_df : DataFrame) (has_rain : bool)
    (location : value) (prev_row curr_row : row) (p c : Z) :
  cell prev_row "impressions" = VNum (inject_Z p) ->
  cell curr_row "impressions" = VNum (inject_Z c) ->
  (0 <= p <= 2 ^ 50)%Z -> (0 <= c <= 2 ^ 50)%Z ->
  forallb is_numeric (rain_vals_at merged_df (cell curr_row "date") location) = true ->
  exists found,
    pdf_report.check_pair merged_df default_drop_threshold has_rain location
      prev_row curr_row = Ok found
    /\ ppt_report.check_pair merged_df default_drop_threshold has_rain location
         prev_row curr_row = Ok found
    /\ length found <= 1
    /\ (found <> [] <-> (0 < p /\ 10 * c <= 7 * p)%Z).
Proof.
  intros Hp Hc _ _ Hrain.
  destruct (check_pair_iff merged_df (3 # 10) has_rain location prev_row curr_row
              (inject_Z p) (inject_Z c) Hp Hc Hrain)
    as [found [Hpdf [Hlen Hiff]]].
  exists found. split; [exact Hpdf | ]. split; [ | split; [exact Hlen | ]].
  - rewrite <- Hpdf. symmetry. apply check_pair_same.
  - rewrite Hiff. apply default_drop_iff.
Qed.

Lemma finding_iff_witness :
  exists found,
    pdf_report.check_pair (Boundary.daily 70) default_drop_threshold false (VStr "Delhi")
      (Boundary.first_day 100) (Boundary.second_day 70) = Ok found
    /\ ppt_report.check_pair (Boundary.daily 70) default_drop_threshold false (VStr "Delhi")
         (Boundary.first_day 100) (Boundary.second_day 70) = Ok found
    /\ length found <= 1
    /\ (found <> [] <-> (0 < 100 /\ 10 * 70 <= 7 * 100)%Z).
Proof.
  apply (finding_iff (Boundary.daily 70) false (VStr "Delhi")
           (Boundary.first_day 100) (Boundary.second_day 70) 100 70);
    try reflexivity; lia.
Defined.

Lemma detect_anomalies_copies {B : Builtins} (merged_df : DataFrame) (thr : value) :
  ppt_report._detect_anomalies merged_df thr = pdf_report._detect_anomalies merged_df thr.
Proof.
  unfold pdf_report._detect_anomalies, ppt_report._detect_anomalies.
  destruct (negb (has_column merged_df "impressions")
            || negb (has_column merged_df "location")
            || negb (has_column merged_df "date")); [reflexivity | ].
  destruct (groupby_agg _ _ merged_df) as [daily | e]; [ | reflexivity].
  cbn [bind]. symmetry. apply scan_groups_same.
Qed.

(** X8. Raising the threshold never adds a finding: if the scan returns
    at threshold [t1], it returns at every [t2 >= t1], and what it returns is
    what it returned at [t1] with some findings left out, in the same order. *)
Theorem higher_threshold_fewer_findings {B : Builtins} (merged_df : DataFrame)
    (t1 t2 : Q) (found1 : list string) :
  (t1 <= t2)%Q ->
  pdf_report._detect_anomalies merged_df (VNum t1) = Ok found1 ->
  exists found2,
    pdf_report._detect_anomalies merged_df (VNum t2) = Ok found2
    /\ ppt_report._detect_anomalies merged_df (VNum t2) = Ok found2
    /\ subsequence found2 found1.
Proof.
  intros Ht H1.
  assert (H : exists found2,
             pdf_report._detect_anomalies merged_df (VNum t2) = Ok found2
             /\ subsequence found2 found1).
  { revert H1. unfold pdf_report._detect_anomalies.
    destruct (negb (has_column merged_df "impressions")
              || negb (has_column merged_df "location")
              || negb (has_column merged_df "date")).
    - intros H. apply Ok_inj in H. subst. exists []. split; constructor.
    - destruct (groupby_agg _ _ merged_df) as [daily | e]; cbn [bind]; [ | discriminate].
      apply scan_groups_monotone, Ht. }
  destruct H as [found2 [H2 Hsub]]. exists found2.
  split; [exact H2 | split; [ | exact Hsub]].
  now rewrite detect_anomalies_copies.
Qed.

(** X9. The scan returns the empty list when the impressions, location
    or date column is absent.  On any frame and threshold it returns fewer
    findings than the frame has records and never ends in [KeyError]: the
    only exceptions are those of [int()] and of a column that is not
    numeric.  The slide report's copy does the same. *)
Theorem scan_guard_and_bound {B : Builtins} (merged_df : DataFrame) (thr : value) :
  (has_column merged_df "impressions" = false \/ has_column merged_df "location" = false
   \/ has_column merged_df "date" = false ->
   pdf_report._detect_anomalies merged_df thr = Ok [])
  /\ (forall found, pdf_report._detect_anomalies merged_df thr = Ok found ->
        length found <= pred (length (rows merged_df)))
  /\ (forall e, pdf_report._detect_anomalies merged_df thr = Err e ->
        e = TypeError \/ e = ValueError \/ e = OverflowError)
  /\ ppt_report._detect_anomalies merged_df thr = pdf_report._detect_anomalies merged_df thr.
Proof.
  pose proof (detect_anomalies_cases merged_df thr) as Hc.
  split; [ | split; [ | split]].
  - unfold pdf_report._detect_anomalies. intros [-> | [-> | ->]]; cbn [negb orb];
      rewrite ?orb_true_r; reflexivity.
  - intros found H. now rewrite H in Hc.
  - intros e H. now rewrite H in Hc.
  - apply detect_anomalies_copies.
Qed.



Lemma one_row_per_campaign (merged : DataFrame) (u : row) :
  In u (rows merged) -> has_null_key (key_of ["campaign_id"] u) = false ->
  count_key ["campaign_id"] (key_of ["campaign_id"] u) (campaign_frame merged) = 1.
Proof.
  intros Hu Hn. unfold count_key. cbn [campaign_frame rows].
  rewrite <- (grouped_exactly_one ["campaign_id"] campaign_aggs (rows merged) u); try assumption.
  2: { repeat constructor. simpl. tauto. }
  assert (E : map campaign_row (groups ["campaign_id"] (rows merged))
              = map (fun r => with_ratio "cpa" "spend" "conversions"
                       (with_ratio "cvr" "conversions" "clicks"
                         (with_ratio "cpc" "spend" "clicks"
                           (with_ratio "ctr" "clicks" "impressions" r))))
                    (map (group_row ["campaign_id"] campaign_aggs)
                         (groups ["campaign_id"] (rows merged))))
    by (rewrite map_map; reflexivity).
  rewrite E. apply filter_map_key. intros x _.
  unfold with_ratio, key_of. cbn [map]. now rewrite !cell_set_cell.
Qed.

(** X4. The campaign summary adds up: on inputs whose counts are whole
    numbers in the range where the sums of the code are exact, the
    impressions, clicks and conversions of its rows sum to the totals of the
    overall summary, and every campaign of the unified dataset has exactly
    one row in it. *)
Theorem campaign_summary_adds_up {B : Builtins} (st : Store) :
  schema_ok st = true -> dates_ok st = true -> finite_inputs st = true ->
  exact_counts st = true ->
  exists st' merged metrics,
    process_data st = (st', Ok (merged, metrics))
    /\ vsum (col (campaign_summary metrics) "impressions")
       = cell (overall metrics) "total_impressions"
    /\ vsum (col (campaign_summary metrics) "clicks")
       = cell (overall metrics) "total_clicks"
    /\ vsum (col (campaign_summary metrics) "conversions")
       = cell (overall metrics) "total_conversions"
    /\ forall u, In u (rows merged) ->
         count_key ["campaign_id"] (key_of ["campaign_id"] u) (campaign_summary metrics) = 1.
Proof.
  intros Hs Hd Hf _.
  destruct (process_data_ok st Hs Hd) as [t [c [w [Ht [Hc [Hw Hrun]]]]]].
  do 3 eexists. split; [exact Hrun | ].
  split; [apply (campaign_total st t c w); try assumption; simpl; tauto | ].
  split; [apply (campaign_total st t c w); try assumption; simpl; tauto | ].
  split; [apply (campaign_total st t c w); try assumption; simpl; tauto | ].
  intros u Hu. apply one_row_per_campaign; [exact Hu | ].
  destruct (unified_record_cells t c w u Hu) as [Hn _].
  unfold has_null_key in *. cbn [key_of map existsb] in *.
  destruct (is_null (cell u "date")); [discriminate Hn | ].
  destruct (is_null (cell u "campaign_id")); [discriminate Hn | reflexivity].
Qed.

(** ** The further properties at concrete inputs *)

Lemma one_record_per_key_witness :
  schema_ok Scenario.store = true /\ dates_ok Scenario.store = true
  /\ exists st' merged metrics,
       process_data Scenario.store = (st', Ok (merged, metrics))
       /\ columns merged = unified_columns
       /\ (forall k, count_key ["date"; "campaign_id"; "location"] k merged <= 1)
       /\ (forall u, In u (rows merged) ->
             has_null_key (key_of ["date"; "campaign_id"; "location"] u) = false
             /\ exists r, In r (rows (traffic_df st'))
                          /\ key_of ["date"; "campaign_id"; "location"] u
                             = key_of ["date"; "campaign_id"; "location"] r)
       /\ log st'
          = log Scenario.store
            ++ [Info ("Processing complete. Rows in merged dataset: "
                      ++ format_d (Z.of_nat (length (rows merged))))%string].
Proof.
  split; [reflexivity | split; [reflexivity | ]].
  apply (one_record_per_key Scenario.store); reflexivity.
Defined.

Lemma unified_cells_aggregate_their_key_witness :
  schema_ok Scenario.store = true /\ dates_ok Scenario.store = true
  /\ exists st' merged metrics,
       process_data Scenario.store = (st', Ok (merged, metrics))
       /\ (forall u, In u (rows merged) ->
             cell u "impressions"
             = vsum (map (fun r => cell r "impressions")
                       (filter (fun r =>
                                  key_eqb (key_of ["date"; "campaign_id"; "location"] r)
                                          (key_of ["date"; "campaign_id"; "location"] u))
                               (rows (traffic_df st'))))
             /\ cell u "clicks"
                = joined ["date"; "campaign_id"] u (rows (clicks_df st')) Sum "clicks"
             /\ cell u "conversions"
                = joined ["date"; "campaign_id"] u (rows (clicks_df st')) Sum "conversions"
             /\ cell u "spend"
                = joined ["date"; "campaign_id"] u (rows (clicks_df st')) Sum "spend"
             /\ cell u "temperature_c"
                = joined ["date"; "location"] u (rows (weather_df st')) Mean "temperature_c"
             /\ cell u "rainfall_mm"
                = joined ["date"; "location"] u (rows (weather_df st')) Sum "rainfall_mm")
       /\ (forall u1 u2, In u1 (rows merged) -> In u2 (rows merged) ->
             key_eqb (key_of ["date"; "campaign_id"] u1) (key_of ["date"; "campaign_id"] u2)
             = true ->
             cell u1 "clicks" = cell u2 "clicks"
             /\ cell u1 "conversions" = cell u2 "conversions"
             /\ cell u1 "spend" = cell u2 "spend").
Proof.
  split; [reflexivity | split; [reflexivity | ]].
  apply (unified_cells_aggregate_their_key Scenario.store); reflexivity.
Defined.

Lemma impressions_are_conserved_witness :
  schema_ok Scenario.store = true /\ dates_ok Scenario.store = true
  /\ finite_inputs Scenario.store = true /\ exact_counts Scenario.store = true
  /\ exists st' merged metrics,
       process_data Scenario.store = (st', Ok (merged, metrics))
       /\ cell (overall metrics) "total_impressions"
          = vsum (map (fun r => cell r "impressions")
                    (filter (complete_key ["date"; "campaign_id"; "location"])
                            (rows (traffic_df st'))))
       /\ exists n : Z,
            cell (overall metrics) "total_impressions" = VNum (inject_Z n)
            /\ (Z.abs n <= 2 ^ 53)%Z.
Proof.
  split; [reflexivity | split; [reflexivity | split; [reflexivity | ]]].
  split; [vm_compute; reflexivity | ].
  apply (impressions_are_conserved Scenario.store);
    [reflexivity | reflexivity | reflexivity | vm_compute; reflexivity].
Defined.

Lemma campaign_summary_adds_up_witness :
  schema_ok Scenario.store = true /\ dates_ok Scenario.store = true
  /\ finite_inputs Scenario.store = true /\ exact_counts Scenario.store = true
  /\ exists st' merged metrics,
       process_data Scenario.store = (st', Ok (merged, metrics))
       /\ vsum (col (campaign_summary metrics) "impressions")
          = cell (overall metrics) "total_impressions"
       /\ vsum (col (campaign_summary metrics) "clicks")
          = cell (overall metrics) "total_clicks"
       /\ vsum (col (campaign_summary metrics) "conversions")
          = cell (overall metrics) "total_conversions"
       /\ forall u, In u (rows merged) ->
            count_key ["campaign_id"] (key_of ["campaign_id"] u) (campaign_summary metrics)
            = 1.
Proof.
  split; [reflexivity | split; [reflexivity | split; [reflexivity | ]]].
  split; [vm_compute; reflexivity | ].
  apply (campaign_summary_adds_up Scenario.store);
    [reflexivity | reflexivity | reflexivity | vm_compute; reflexivity].
Defined.


Lemma higher_threshold_fewer_findings_witness :
  (3 # 10 <= 1 # 2)%Q
  /\ pdf_report._detect_anomalies (Boundary.daily 70) (VNum (3 # 10))
     = Ok ["Traffic dropped 30.0% in Delhi on 2025-01-05 00:00:00 (impressions 70 vs 100 previous day)."]
  /\ exists found2,
       pdf_report._detect_anomalies (Boundary.daily 70) (VNum (1 # 2)) = Ok found2
       /\ ppt_report._detect_anomalies (Boundary.daily 70) (VNum (1 # 2)) = Ok found2
       /\ subsequence found2
            ["Traffic dropped 30.0% in Delhi on 2025-01-05 00:00:00 (impressions 70 vs 100 previous day)."].
Proof.
  split; [discriminate | split; [vm_compute; reflexivity | ]].
  apply (higher_threshold_fewer_findings (Boundary.daily 70) (3 # 10) (1 # 2));
    [discriminate | vm_compute; reflexivity].
Defined.

(** * The reports *)

(** ** Results and sorting *)
Lemma and_then_return {A C} (m : outcome A) (k : A -> outcome C) (c : C) :
  and_then m k = Return c -> exists a, m = Return a /\ k a = Return c.
Proof. destruct m as [a | e]; simpl; [intros H; now exists a | discriminate]. Qed.

Lemma and_then_index {A C} (m : outcome A) (k : A -> outcome C) :
  and_then m k = Raise IndexError ->
  m = Raise IndexError \/ exists a, m = Return a /\ k a = Raise IndexError.
Proof.
  destruct m as [a | e]; simpl; intros H; [right; now exists a | left; congruence].
Qed.

Lemma filter_split_perm {A} (p q : A -> bool) (l : list A) :
  (forall x, p x = negb (q x)) -> Permutation (filter p l ++ filter q l) l.
Proof.
  intros H. induction l as [ | x l IH]; [apply perm_nil | ].
  cbn [filter]. rewrite (H x). destruct (q x); cbn [negb app].
  - eapply perm_trans; [apply Permutation_sym, Permutation_middle | now apply perm_skip].
  - now apply perm_skip.
Qed.

Lemma vleb_refl (v : value) : is_numeric v = true -> is_null v = false -> vleb v v = true.
Proof.
  destruct v as [ | s | t | q | [ | ]]; try discriminate; intros _ _; simpl;
    [apply Qle_bool_iff, Qle_refl | reflexivity | reflexivity].
Qed.

Lemma vleb_total (a b : value) :
  is_numeric a = true -> is_null a = false -> is_numeric b = true -> is_null b = false ->
  vleb a b = true \/ vleb b a = true.
Proof.
  destruct a as [ | s | t | x | [ | ]]; try discriminate;
    destruct b as [ | s' | t' | y | [ | ]]; try discriminate; intros _ _ _ _; simpl; auto.
  destruct (Qlt_le_dec x y) as [H | H].
  - left. apply Qle_bool_iff. now apply Qlt_le_weak.
  - right. now apply Qle_bool_iff.
Qed.

Lemma vleb_trans (a b c : value) :
  vleb a b = true -> vleb b c = true -> vleb a c = true.
Proof.
  destruct a as [ | s | t | x | [ | ]]; try discriminate;
    destruct b as [ | s' | t' | y | [ | ]]; try discriminate;
    destruct c as [ | s'' | t'' | z | [ | ]]; try discriminate; simpl; auto.
  rewrite !Qle_bool_iff. apply Qle_trans.
Qed.

Section SortFacts.

Context {B : Builtins} {R : ReportBuiltins}.

Lemma sort_values_by_perm (c : string) (asc : bool) (df s : DataFrame) :
  sort_values_by c asc df = Return s ->
  columns s = columns df /\ Permutation (rows s) (rows df).
Proof.
  unfold sort_values_by. destruct (has_column df c); [ | discriminate].
  intros H. injection H as <-. split; [reflexivity | ]. cbn [rows].
  eapply perm_trans; [apply Permutation_app_tail, argsort_perm | ].
  apply filter_split_perm. reflexivity.
Qed.

Lemma sort_values_by_column (c : string) (asc : bool) (df s : DataFrame) :
  sort_values_by c asc df = Return s -> has_column df c = true.
Proof. unfold sort_values_by. destruct (has_column df c); [reflexivity | discriminate]. Qed.

Lemma sort_values_by_no_index (c : string) (asc : bool) (df : DataFrame) :
  sort_values_by c asc df <> Raise IndexError.
Proof. unfold sort_values_by. destruct (has_column df c); discriminate. Qed.

Lemma empty_rows (df : DataFrame) : empty df = false -> rows df <> [].
Proof. unfold empty. destruct (rows df); [discriminate | discriminate]. Qed.

Lemma sorted_not_empty (c : string) (asc : bool) (df s : DataFrame) :
  empty df = false -> sort_values_by c asc df = Return s -> rows s <> [].
Proof.
  intros He Hs Hnil. apply sort_values_by_perm in Hs. destruct Hs as [_ Hp].
  rewrite Hnil in Hp. apply Permutation_nil in Hp. now apply (empty_rows df).
Qed.

(** The rows of a sorted frame: those whose cell is there, in order, then
    the others. *)
Lemma sort_values_by_sorted (c : string) (asc : bool) (df s : DataFrame) :
  numeric_column df c = true ->
  sort_values_by c asc df = Return s ->
  exists front back,
    rows s = front ++ back
    /\ StronglySorted (fun a b => float_leb c asc a b = true) front
    /\ (forall r, In r front -> is_null (cell r c) = false /\ is_numeric (cell r c) = true)
    /\ (forall r, In r back -> is_null (cell r c) = true).
Proof.
  intros Hnum. unfold sort_values_by. destruct (has_column df c); [ | discriminate].
  intros H. injection H as <-. cbn [rows].
  assert (Hcells : forall r, In r (filter (present c) (rows df)) ->
                             is_null (cell r c) = false /\ is_numeric (cell r c) = true).
  { intros r Hr. apply filter_In in Hr. destruct Hr as [Hr Hp]. split.
    - unfold present in Hp. now destruct (is_null (cell r c)).
    - unfold numeric_column, col in Hnum. rewrite forallb_forall in Hnum.
      apply Hnum. now apply (in_map (fun r => cell r c)). }
  eexists. eexists. split; [reflexivity | ]. split; [ | split].
  - apply argsort_sorted.
    + intros a b Ha Hb. destruct (Hcells a Ha) as [Na Ma], (Hcells b Hb) as [Nb Mb].
      unfold float_leb. destruct asc.
      * now apply vleb_total.
      * destruct (vleb_total (cell a c) (cell b c) Ma Na Mb Nb); auto.
    + intros a b d _ _ _. unfold float_leb. destruct asc.
      * apply vleb_trans.
      * intros H1 H2. exact (vleb_trans _ _ _ H2 H1).
  - intros r Hr. apply Hcells. exact (Permutation_in _ (argsort_perm _ _) Hr).
  - intros r Hr. apply filter_In in Hr. tauto.
Qed.

End SortFacts.

Section FirstRow.

Context {B : Builtins} {R : ReportBuiltins}.

Lemma iloc0_return (df : DataFrame) (r : row) :
  iloc0 df = Return r -> exists rest, rows df = r :: rest.
Proof.
  unfold iloc0. destruct (rows df) as [ | x rest]; [discriminate | ].
  intros H. injection H as ->. now exists rest.
Qed.

Lemma first_by_extreme (c : string) (asc : bool) (df : DataFrame) (r : row) :
  numeric_column df c = true ->
  pdf_text.first_by c asc df = Return r ->
  In r (rows df)
  /\ (if asc then smallest_in c df r else largest_in c df r).
Proof.
  intros Hnum H. unfold pdf_text.first_by in H.
  apply and_then_return in H. destruct H as [s [Hs Hr]].
  apply iloc0_return in Hr. destruct Hr as [rest Hrows].
  destruct (sort_values_by_perm _ _ _ _ Hs) as [_ Hperm].
  destruct (sort_values_by_sorted _ _ _ _ Hnum Hs) as [front [back [Hfb [Hsorted [Hf Hb]]]]].
  split.
  - apply (Permutation_in _ Hperm). rewrite Hrows. now left.
  - assert (Hall : forall r', In r' (rows df) ->
                     is_null (cell r' c) = true \/ float_leb c asc r r' = true).
    { intros r' Hr'. apply (Permutation_in _ (Permutation_sym Hperm)) in Hr'.
      rewrite Hfb in Hr', Hrows. apply in_app_or in Hr'.
      destruct front as [ | x f'].
      - cbn [app] in *. left. apply Hb. destruct Hr' as [[] | Hr']. exact Hr'.
      - cbn [app] in Hrows. injection Hrows as -> _.
        destruct Hr' as [[<- | Hr'] | Hr'].
        + right. destruct (Hf r (or_introl eq_refl)) as [Hn Hm].
          unfold float_leb. destruct asc; now apply vleb_refl.
        + right. apply StronglySorted_inv in Hsorted. destruct Hsorted as [_ Hall].
          rewrite Forall_forall in Hall. now apply Hall.
        + left. now apply Hb. }
    destruct asc; intros r' Hr'; destruct (Hall r' Hr') as [H | H]; auto.
Qed.

Lemma first_by_no_index (c : string) (asc : bool) (df : DataFrame) :
  empty df = false -> pdf_text.first_by c asc df <> Raise IndexError.
Proof.
  intros He H. unfold pdf_text.first_by in H. apply and_then_index in H.
  destruct H as [H | [s [Hs H]]].
  - now apply sort_values_by_no_index in H.
  - pose proof (sorted_not_empty _ _ _ _ He Hs) as Hne.
    unfold iloc0 in H. destruct (rows s); [now apply Hne | discriminate].
Qed.

End FirstRow.

Ltac unbind H a Ha :=
  cbv zeta in H; apply and_then_return in H; destruct H as [a [Ha H]].

Lemma getitem_cell (d : row) (k : string) (v : value) :
  getitem d k = Return v -> cell d k = v.
Proof.
  unfold getitem, cell. destruct (lookup k d); [ | discriminate].
  intros H. now injection H.
Qed.

Lemma Return_inj {A} (a b : A) : Return a = Return b -> a = b.
Proof. congruence. Qed.

(** X10. The key highlights name the right campaigns.  When the summary
    is not empty and its conversions, ctr and cpa columns are numeric, the
    campaign of the "top converting" sentence has conversions no smaller
    than any other campaign's, the campaign of the "highest CPA" sentence a
    cpa no smaller than any other, missing cells aside, whichever way the
    sort breaks ties; and the report has its "Best CTR" sentence exactly
    when the campaign of largest ctr is another one than the top converter.
    The slide report has the first and the last of the three. *)
Theorem key_highlights_name_the_extremes {B : Builtins} {R : ReportBuiltins}
    (metrics : Metrics) :
  numeric_column (campaign_summary metrics) "conversions" = true ->
  numeric_column (campaign_summary metrics) "ctr" = true ->
  numeric_column (campaign_summary metrics) "cpa" = true ->
  empty (campaign_summary metrics) = false ->
  (forall hs, pdf_text._build_key_highlights metrics = Return hs ->
     exists top_conv top_ctr worst_cpa l1 l2 l3 l5,
       In top_conv (rows (campaign_summary metrics))
       /\ largest_in "conversions" (campaign_summary metrics) top_conv
       /\ In top_ctr (rows (campaign_summary metrics))
       /\ largest_in "ctr" (campaign_summary metrics) top_ctr
       /\ In worst_cpa (rows (campaign_summary metrics))
       /\ largest_in "cpa" (campaign_summary metrics) worst_cpa
       /\ pdf_text.top_converting_line top_conv = Return l3
       /\ pdf_text.cost_risk_line worst_cpa = Return l5
       /\ ((py_ne (cell top_ctr "campaign_id") (cell top_conv "campaign_id") = false
            /\ hs = [l1; l2; l3; l5])
           \/ (py_ne (cell top_ctr "campaign_id") (cell top_conv "campaign_id") = true
               /\ exists l4, pdf_text.best_ctr_line top_ctr = Return l4
                             /\ hs = [l1; l2; l3; l4; l5])))
  /\ (forall hs, ppt_text._build_key_highlights metrics = Return hs ->
        exists top_conv worst_cpa l1 l2 l3 l4,
          In top_conv (rows (campaign_summary metrics))
          /\ largest_in "conversions" (campaign_summary metrics) top_conv
          /\ In worst_cpa (rows (campaign_summary metrics))
          /\ largest_in "cpa" (campaign_summary metrics) worst_cpa
          /\ ppt_text.top_converting_line top_conv = Return l3
          /\ ppt_text.cost_risk_line worst_cpa = Return l4
          /\ hs = [l1; l2; l3; l4]).
Proof.
  intros Nconv Nctr Ncpa Hne. split.
  - intros hs H. unfold pdf_text._build_key_highlights in H.
    unbind H l1 H1. unbind H l2 H2. rewrite Hne in H. cbn [negb] in H.
    unbind H top_conv Hconv. unbind H l3 H3. unbind H top_ctr Hctr.
    unbind H ctr_id Hid1. unbind H conv_id Hid2. unbind H hl Hhl.
    unbind H worst_cpa Hworst. unbind H l5 H5. apply Return_inj in H.
    apply getitem_cell in Hid1, Hid2. subst ctr_id conv_id.
    destruct (first_by_extreme _ _ _ _ Nconv Hconv) as [I1 E1].
    destruct (first_by_extreme _ _ _ _ Nctr Hctr) as [I2 E2].
    destruct (first_by_extreme _ _ _ _ Ncpa Hworst) as [I3 E3].
    exists top_conv, top_ctr, worst_cpa, l1, l2, l3, l5.
    repeat (split; [assumption | ]).
    destruct (py_ne (cell top_ctr "campaign_id") (cell top_conv "campaign_id")).
    + right. split; [reflexivity | ]. unbind Hhl l4 H4. apply Return_inj in Hhl.
      exists l4. split; [exact H4 | ]. subst. reflexivity.
    + left. split; [reflexivity | ]. apply Return_inj in Hhl. subst. reflexivity.
  - intros hs H. unfold ppt_text._build_key_highlights in H.
    unbind H l1 H1. unbind H l2 H2. rewrite Hne in H. cbn [negb] in H.
    unbind H top_conv Hconv. unbind H l3 H3.
    unbind H worst_cpa Hworst. unbind H l4 H4. apply Return_inj in H.
    destruct (first_by_extreme _ _ _ _ Nconv Hconv) as [I1 E1].
    destruct (first_by_extreme _ _ _ _ Ncpa Hworst) as [I3 E3].
    exists top_conv, worst_cpa, l1, l2, l3, l4.
    repeat (split; [assumption | ]). subst. reflexivity.
Qed.

Lemma for_each_return {A C} (f : A -> outcome C) (l : list A) (ys : list C) :
  for_each f l = Return ys ->
  length ys = length l /\ forall y, In y ys -> exists x, In x l /\ f x = Return y.
Proof.
  revert ys. induction l as [ | x l IH]; intros ys H.
  - apply Return_inj in H. subst. split; [reflexivity | intros y []].
  - cbn [for_each] in H. unbind H y Hy. unbind H rest Hrest. apply Return_inj in H.
    subst ys. destruct (IH rest Hrest) as [Hlen Hall]. split; [simpl; now rewrite Hlen | ].
    intros z [<- | Hz].
    + exists x. split; [now left | exact Hy].
    + destruct (Hall z Hz) as [x' [Hx' Hf]]. exists x'. split; [now right | exact Hf].
Qed.

Lemma sorted_append {A} (P : A -> A -> Prop) (Q : A -> A -> Prop) (front back : list A) :
  StronglySorted P front ->
  (forall a b, P a b -> Q a b) ->
  (forall a b, In b back -> Q a b) ->
  StronglySorted Q (front ++ back).
Proof.
  intros Hs HPQ Hback. induction Hs as [ | a front Hs IH Hall]; cbn [app].
  - induction back as [ | b back IHb]; constructor.
    + apply IHb. intros x y Hy. apply Hback. now right.
    + apply Forall_forall. intros y Hy. apply Hback. now right.
  - constructor; [exact IH | ].
    apply Forall_app. split.
    + eapply Forall_impl; [ | exact Hall]. intros b. apply HPQ.
    + apply Forall_forall. intros b Hb. now apply Hback.
Qed.

Lemma sorted_cut {A} (Q : A -> A -> Prop) (l : list A) :
  StronglySorted Q l ->
  forall n a b, In a (firstn n l) -> In b (skipn n l) -> Q a b.
Proof.
  induction 1 as [ | x l Hs IH Hall]; intros n a b Ha Hb.
  - rewrite firstn_nil in Ha. destruct Ha.
  - destruct n as [ | n]; [destruct Ha | ].
    cbn [firstn skipn] in Ha, Hb. destruct Ha as [<- | Ha].
    + rewrite Forall_forall in Hall. apply Hall.
      rewrite <- (firstn_skipn n l). apply in_or_app. now right.
    + now apply (IH n).
Qed.

Section Table.

Context {B : Builtins} {R : ReportBuiltins}.

Lemma table_line_length (r : row) (line : list string) :
  ppt_text.table_line r = Return line -> length line = 8.
Proof.
  unfold ppt_text.table_line. intros H.
  unbind H a1 H1. unbind H a2 H2. unbind H a3 H3. unbind H a4 H4.
  unbind H a5 H5. unbind H a6 H6. unbind H a7 H7. unbind H a8 H8.
  apply Return_inj in H. now subst.
Qed.

(** In a frame sorted downwards on [c], a row is not smaller than the rows
    after it. *)
Lemma sort_values_by_cut (c : string) (df s : DataFrame) (n : nat) :
  numeric_column df c = true ->
  sort_values_by c false df = Return s ->
  forall r r', In r (firstn n (rows s)) -> In r' (skipn n (rows s)) ->
               is_null (cell r' c) = true \/ vleb (cell r' c) (cell r c) = true.
Proof.
  intros Hnum Hs.
  destruct (sort_values_by_sorted _ _ _ _ Hnum Hs) as [front [back [Hfb [Hsorted [_ Hb]]]]].
  rewrite Hfb.
  apply (sorted_cut (fun a b => is_null (cell b c) = true \/ vleb (cell b c) (cell a c) = true)).
  eapply sorted_append; [exact Hsorted | | ].
  - intros a b H. right. exact H.
  - intros a b Hin. left. now apply Hb.
Qed.

End Table.

(** X11. The table of the slide report is a rectangle over the campaigns
    that spent most: a header and at most five lines of eight cells each,
    one line per listed campaign, and no campaign left out has a larger
    spend than a listed one. *)
Theorem top_campaign_table {B : Builtins} {R : ReportBuiltins}
    (campaign_summary : DataFrame) (table : list (list string)) :
  numeric_column campaign_summary "spend" = true ->
  ppt_text._build_top_campaign_rows campaign_summary = Return table ->
  exists listed rest lines,
    Permutation (listed ++ rest) (rows campaign_summary)
    /\ length listed = Nat.min 5 (length (rows campaign_summary))
    /\ (forall r r', In r listed -> In r' rest ->
          is_null (cell r' "spend") = true
          \/ vleb (cell r' "spend") (cell r "spend") = true)
    /\ for_each ppt_text.table_line listed = Return lines
    /\ table = ppt_text.table_header :: lines
    /\ length table = 1 + Nat.min 5 (length (rows campaign_summary))
    /\ forall line, In line table -> length line = 8.
Proof.
  intros Hnum H. unfold ppt_text._build_top_campaign_rows in H.
  unbind H s Hs. unbind H lines Hlines. apply Return_inj in H. cbn [app] in H.
  cbn [head rows] in Hlines.
  destruct (sort_values_by_perm _ _ _ _ Hs) as [_ Hperm].
  destruct (for_each_return _ _ _ Hlines) as [Hlen Hall].
  assert (Hn : length (firstn 5 (rows s)) = Nat.min 5 (length (rows campaign_summary)))
    by (rewrite length_firstn, (Permutation_length Hperm); reflexivity).
  exists (firstn 5 (rows s)), (skipn 5 (rows s)), lines.
  split; [rewrite firstn_skipn; exact Hperm | ].
  split; [exact Hn | ].
  split; [exact (sort_values_by_cut "spend" _ _ 5 Hnum Hs) | ].
  split; [exact Hlines | ].
  split; [now symmetry | ].
  subst table. split; [cbn [length]; now rewrite Hlen, Hn | ].
  intros line [<- | Hl]; [reflexivity | ].
  destruct (Hall line Hl) as [r [_ Hr]]. exact (table_line_length r line Hr).
Qed.


Lemma for_each_returns {A C} (f : A -> outcome C) (l : list A) :
  (forall x, In x l -> returns (f x)) -> returns (for_each f l).
Proof.
  induction l as [ | x l IH]; intros H; [now exists [] | ].
  cbn [for_each]. destruct (H x (or_introl eq_refl)) as [y ->]. cbn [and_then].
  destruct IH as [ys ->]; [intros z Hz; apply H; now right | ].
  cbn [and_then]. now eexists.
Qed.

Lemma firstn_In {A} (n : nat) (l : list A) (x : A) : In x (firstn n l) -> In x l.
Proof.
  intros H. rewrite <- (firstn_skipn n l). apply in_or_app. now left.
Qed.

Section Returns.

Context {B : Builtins} {R : ReportBuiltins}.

Lemma sort_values_by_returns (c : string) (asc : bool) (df : DataFrame) :
  has_column df c = true ->
  exists s, sort_values_by c asc df = Return s
            /\ columns s = columns df /\ Permutation (rows s) (rows df).
Proof.
  intros Hc. unfold sort_values_by. rewrite Hc. eexists. split; [reflexivity | ].
  apply (sort_values_by_perm c asc df). unfold sort_values_by. now rewrite Hc.
Qed.

Lemma first_by_returns (c : string) (asc : bool) (df : DataFrame) :
  has_column df c = true -> empty df = false ->
  exists r, pdf_text.first_by c asc df = Return r /\ In r (rows df).
Proof.
  intros Hc He. destruct (sort_values_by_returns c asc df Hc) as [s [Hs [_ Hp]]].
  unfold pdf_text.first_by. rewrite Hs. cbn [and_then]. unfold iloc0.
  pose proof (sorted_not_empty _ _ _ _ He Hs) as Hne.
  destruct (rows s) as [ | r rest] eqn:E; [now destruct Hne | ].
  exists r. split; [reflexivity | ]. apply (Permutation_in _ Hp). now left.
Qed.

Lemma names_of_returns (c : string) (df : DataFrame) :
  has_column df c = true -> returns (names_of c df).
Proof. intros Hc. unfold names_of. rewrite Hc. now eexists. Qed.

Lemma pdf_lines_return (r : row) :
  printable_row r ->
  returns (pdf_text.top_converting_line r) /\ returns (pdf_text.best_ctr_line r)
  /\ returns (pdf_text.cost_risk_line r) /\ returns (pdf_text.win_line r)
  /\ returns (pdf_text.lowest_cpa_line r) /\ returns (pdf_text.concern_line r)
  /\ returns (pdf_text.lowest_volume_line r)
  /\ exists id, getitem r "campaign_id" = Return id.
Proof.
  intros (id & qi & qk & qv & spend & ->).
  repeat split; eexists; reflexivity.
Qed.

Lemma ppt_lines_return (r : row) :
  printable_row r ->
  returns (ppt_text.top_converting_line r) /\ returns (ppt_text.cost_risk_line r)
  /\ returns (ppt_text.table_line r).
Proof.
  intros (id & qi & qk & qv & spend & ->).
  repeat split; eexists; reflexivity.
Qed.

Lemma overall_lines_return (o : row) :
  printable_overall o ->
  returns (pdf_text.volume_line o) /\ returns (pdf_text.rate_line o)
  /\ returns (ppt_text.volume_line o) /\ returns (ppt_text.rate_line o)
  /\ returns (pdf_text._build_kpi_tile_table o).
Proof.
  intros (qi & qk & qv & spend & ctr & cpc & cvr & cpa & ->).
  repeat split; eexists; reflexivity.
Qed.

End Returns.

Section BuildersReturn.

Context {B : Builtins} {R : ReportBuiltins}.
Variable metrics : Metrics.
Hypothesis Hrep : reportable metrics.

Lemma summary_has (c : string) :
  In c campaign_columns -> has_column (campaign_summary metrics) c = true.
Proof.
  destruct Hrep as [_ [Hc _]]. unfold has_column. rewrite Hc.
  intros H. apply existsb_exists. exists c. split; [exact H | apply String.eqb_refl].
Qed.

Lemma sorted_rows_printable (c : string) (asc : bool) :
  In c campaign_columns ->
  exists s, sort_values_by c asc (campaign_summary metrics) = Return s
            /\ has_column s "campaign_id" = true
            /\ (empty (campaign_summary metrics) = false -> rows s <> [])
            /\ forall r, In r (rows s) -> printable_row r.
Proof.
  intros Hc. destruct (sort_values_by_returns c asc _ (summary_has c Hc)) as [s [Hs [Hcol Hp]]].
  exists s. split; [exact Hs | ]. split; [ | split].
  - unfold has_column. rewrite Hcol. apply summary_has. simpl. tauto.
  - intros He. exact (sorted_not_empty _ _ _ _ He Hs).
  - intros r Hr. destruct Hrep as [_ [_ Hrows]]. apply Hrows.
    exact (Permutation_in _ Hp Hr).
Qed.

Lemma first_row_printable (c : string) (asc : bool) :
  In c campaign_columns -> empty (campaign_summary metrics) = false ->
  exists r, pdf_text.first_by c asc (campaign_summary metrics) = Return r
            /\ printable_row r.
Proof.
  intros Hc He.
  destruct (first_by_returns c asc _ (summary_has c Hc) He) as [r [Hr Hin]].
  exists r. split; [exact Hr | ]. destruct Hrep as [_ [_ Hrows]]. now apply Hrows.
Qed.

Lemma pdf_key_highlights_returns : returns (pdf_text._build_key_highlights metrics).
Proof.
  unfold pdf_text._build_key_highlights.
  destruct (overall_lines_return _ (proj1 Hrep)) as [[l1 ->] [[l2 ->] _]].
  cbn [and_then]. destruct (empty (campaign_summary metrics)) eqn:He; cbn [negb];
    [now eexists | ].
  destruct (first_row_printable "conversions" false) as [top_conv [-> P1]];
    [simpl; tauto | exact He | ].
  cbn [and_then].
  destruct (pdf_lines_return _ P1) as [[l3 ->] [_ [_ [_ [_ [_ [_ [id1 Hid1]]]]]]]].
  cbn [and_then].
  destruct (first_row_printable "ctr" false) as [top_ctr [-> P2]];
    [simpl; tauto | exact He | ].
  cbn [and_then].
  destruct (pdf_lines_return _ P2) as [_ [[l4 Hl4] [_ [_ [_ [_ [_ [id2 ->]]]]]]]].
  cbn [and_then]. rewrite Hid1. cbn [and_then].
  destruct (first_row_printable "cpa" false) as [worst [Hw P3]];
    [simpl; tauto | exact He | ].
  destruct (pdf_lines_return _ P3) as [_ [_ [[l5 Hl5] _]]].
  destruct (py_ne id2 id1).
  - rewrite Hl4. cbn [and_then]. rewrite Hw. cbn [and_then]. rewrite Hl5.
    cbn [and_then]. now eexists.
  - cbn [and_then]. rewrite Hw. cbn [and_then]. rewrite Hl5. cbn [and_then]. now eexists.
Qed.

Lemma ppt_key_highlights_returns : returns (ppt_text._build_key_highlights metrics).
Proof.
  unfold ppt_text._build_key_highlights.
  destruct (overall_lines_return _ (proj1 Hrep)) as [_ [_ [[l1 ->] [[l2 ->] _]]]].
  cbn [and_then]. destruct (empty (campaign_summary metrics)) eqn:He; cbn [negb];
    [now eexists | ].
  destruct (first_row_printable "conversions" false) as [top_conv [Hc P1]];
    [simpl; tauto | exact He | ].
  change (ppt_text.first_by "conversions" false (campaign_summary metrics))
    with (pdf_text.first_by "conversions" false (campaign_summary metrics)).
  rewrite Hc. cbn [and_then].
  destruct (ppt_lines_return _ P1) as [[l3 ->] _]. cbn [and_then].
  destruct (first_row_printable "cpa" false) as [worst [Hw P3]];
    [simpl; tauto | exact He | ].
  change (ppt_text.first_by "cpa" false (campaign_summary metrics))
    with (pdf_text.first_by "cpa" false (campaign_summary metrics)).
  rewrite Hw. cbn [and_then].
  destruct (ppt_lines_return _ P3) as [_ [[l4 ->] _]]. cbn [and_then]. now eexists.
Qed.

Lemma head_first_printable (n : nat) (s : DataFrame) :
  rows s <> [] -> (forall r, In r (rows s) -> printable_row r) ->
  exists r, iloc0 (head (S n) s) = Return r /\ printable_row r.
Proof.
  intros Hne Hall. unfold iloc0, head. cbn [rows].
  destruct (rows s) as [ | r rest]; [now destruct Hne | ].
  cbn [firstn]. exists r. split; [reflexivity | ]. apply Hall. now left.
Qed.

Lemma pdf_top_wins_returns : returns (pdf_text._build_top_wins metrics).
Proof.
  unfold pdf_text._build_top_wins.
  destruct (empty (campaign_summary metrics)) eqn:He; [now eexists | ].
  destruct (sorted_rows_printable "conversions" false) as [s1 [-> [_ [_ P1]]]];
    [simpl; tauto | ].
  cbn [and_then]. cbv zeta.
  destruct (for_each_returns pdf_text.win_line (rows (head 2 s1))) as [wins ->].
  { intros r Hr. apply firstn_In in Hr. apply (pdf_lines_return r (P1 r Hr)). }
  cbn [and_then].
  destruct (sorted_rows_printable "cpa" true) as [s2 [-> [_ [N2 P2]]]]; [simpl; tauto | ].
  cbn [and_then]. cbv zeta.
  destruct (head_first_printable 0 s2 (N2 He) P2) as [r [-> Pr]]. cbn [and_then].
  destruct (pdf_lines_return _ Pr) as [_ [_ [_ [_ [[l ->] _]]]]]. cbn [and_then].
  now eexists.
Qed.

Lemma pdf_key_concerns_returns : returns (pdf_text._build_key_concerns metrics).
Proof.
  unfold pdf_text._build_key_concerns.
  destruct (empty (campaign_summary metrics)) eqn:He; [now eexists | ].
  destruct (sorted_rows_printable "cpa" false) as [s1 [-> [_ [_ P1]]]]; [simpl; tauto | ].
  cbn [and_then]. cbv zeta.
  destruct (for_each_returns pdf_text.concern_line (rows (head 2 s1))) as [cs ->].
  { intros r Hr. apply firstn_In in Hr. apply (pdf_lines_return r (P1 r Hr)). }
  cbn [and_then].
  destruct (sorted_rows_printable "conversions" true) as [s2 [-> [_ [N2 P2]]]];
    [simpl; tauto | ].
  cbn [and_then]. cbv zeta.
  destruct (head_first_printable 0 s2 (N2 He) P2) as [r [-> Pr]]. cbn [and_then].
  destruct (pdf_lines_return _ Pr) as [_ [_ [_ [_ [_ [_ [[l ->] _]]]]]]]. cbn [and_then].
  now eexists.
Qed.

Lemma head_names_return (n : nat) (s : DataFrame) :
  has_column s "campaign_id" = true -> returns (names_of "campaign_id" (head n s)).
Proof. intros H. apply names_of_returns. exact H. Qed.

Lemma recommendations_return :
  returns (pdf_text._build_recommendations metrics)
  /\ returns (ppt_text._build_recommendations metrics).
Proof.
  unfold pdf_text._build_recommendations, ppt_text._build_recommendations.
  destruct (empty (campaign_summary metrics)) eqn:He; [split; now eexists | ].
  destruct (sorted_rows_printable "cvr" false) as [s1 [-> [C1 _]]]; [simpl; tauto | ].
  destruct (sorted_rows_printable "cpa" true) as [s2 [-> [C2 _]]]; [simpl; tauto | ].
  destruct (sorted_rows_printable "cpa" false) as [s3 [-> [C3 _]]]; [simpl; tauto | ].
  cbn [and_then]. cbv zeta.
  destruct (head_names_return 2 s1 C1) as [n1 ->].
  destruct (head_names_return 2 s2 C2) as [n2 ->].
  destruct (head_names_return 2 s3 C3) as [n3 ->].
  cbn [and_then]. split; now eexists.
Qed.

Lemma pdf_campaign_insights_returns : returns (pdf_text._build_campaign_insights metrics).
Proof.
  unfold pdf_text._build_campaign_insights.
  destruct (empty (campaign_summary metrics)) eqn:He; [now eexists | ].
  destruct (sorted_rows_printable "conversions" false) as [s1 [-> [C1 _]]];
    [simpl; tauto | ].
  destruct (sorted_rows_printable "spend" false) as [s2 [-> [C2 _]]]; [simpl; tauto | ].
  cbn [and_then]. cbv zeta.
  destruct (head_names_return 3 s1 C1) as [n1 ->]. cbn [and_then].
  destruct (head_names_return 3 s2 C2) as [n2 ->]. cbn [and_then]. now eexists.
Qed.

Lemma ppt_top_campaign_rows_returns :
  returns (ppt_text._build_top_campaign_rows (campaign_summary metrics)).
Proof.
  unfold ppt_text._build_top_campaign_rows.
  destruct (sorted_rows_printable "spend" false) as [s [-> [_ [_ P]]]]; [simpl; tauto | ].
  cbn [and_then]. cbv zeta.
  destruct (for_each_returns ppt_text.table_line (rows (head 5 s))) as [lines ->].
  { intros r Hr. apply firstn_In in Hr. apply (ppt_lines_return r (P r Hr)). }
  cbn [and_then]. now eexists.
Qed.

End BuildersReturn.

Lemma campaign_row_explicit (id : value) (grp : list row) :
  campaign_row ([id], grp)
  = summary_record id
      (vsum (map (fun r => cell r "impressions") grp))
      (vsum (map (fun r => cell r "clicks") grp))
      (vsum (map (fun r => cell r "conversions") grp))
      (vsum (map (fun r => cell r "spend") grp)).
Proof. reflexivity. Qed.

Section Pipeline.

Context {B : Builtins}.

Lemma metrics_reportable (st : Store) (t c w : DataFrame) :
  schema_ok st = true -> finite_inputs st = true ->
  convert_date (traffic_df st) = Ok t -> convert_date (clicks_df st) = Ok c ->
  reportable (metrics_of (sql_df st) (unified_frame t c w)).
Proof.
  intros Hs Hf Ht Hc.
  assert (Hcells : forall m u, In m ["impressions"; "clicks"; "conversions"; "spend"] ->
                               In u (rows (unified_frame t c w)) ->
                               finite_or_null (cell u m) = true)
    by (intros m u Hm Hu; now apply (unified_metric_cells st t c w)).
  assert (Hsum : forall m grp, In m ["impressions"; "clicks"; "conversions"; "spend"] ->
                   (forall u, In u grp -> In u (rows (unified_frame t c w))) ->
                   exists q, vsum (map (fun r => cell r m) grp) = VNum q).
  { intros m grp Hm Hsub. apply vsum_finite. intros v Hv.
    apply in_map_iff in Hv. destruct Hv as [u [<- Hu]]. apply Hcells; auto. }
  split; [ | split; [reflexivity | ]].
  - cbn [metrics_of overall]. unfold printable_overall, overall_row, total, col.
    destruct (Hsum "impressions" (rows (unified_frame t c w))) as [qi ->];
      [simpl; tauto | auto | ].
    destruct (Hsum "clicks" (rows (unified_frame t c w))) as [qk ->];
      [simpl; tauto | auto | ].
    destruct (Hsum "conversions" (rows (unified_frame t c w))) as [qv ->];
      [simpl; tauto | auto | ].
    exists qi, qk, qv. do 5 eexists. reflexivity.
  - cbn [metrics_of campaign_summary campaign_frame rows]. intros r Hr.
    apply in_map_iff in Hr. destruct Hr as [g [<- Hg]].
    pose proof (groups_key_length _ _ _ Hg) as Hl.
    pose proof (groups_members _ _ _ Hg) as Hm.
    destruct g as [[ | id [ | ? ?]] grp]; try discriminate Hl. cbn [snd] in Hm.
    rewrite campaign_row_explicit. unfold printable_row.
    destruct (Hsum "impressions" grp) as [qi ->]; [simpl; tauto | exact Hm | ].
    destruct (Hsum "clicks" grp) as [qk ->]; [simpl; tauto | exact Hm | ].
    destruct (Hsum "conversions" grp) as [qv ->]; [simpl; tauto | exact Hm | ].
    exists id, qi, qk, qv. eexists. reflexivity.
Qed.

End Pipeline.

(** X12. The sentences and tables of both reports are defined on what
    [process_data] returns: on well-formed inputs whose measured cells are
    of magnitude at most 1e100, so that no sum of the code overflows, no
    builder raises, whatever the sort and the number formats. *)
Theorem report_text_is_defined {B : Builtins} {R : ReportBuiltins} (st : Store) :
  schema_ok st = true -> dates_ok st = true -> finite_inputs st = true ->
  moderate_inputs st = true ->
  exists st' merged metrics,
    process_data st = (st', Ok (merged, metrics))
    /\ returns (pdf_text._build_key_highlights metrics)
    /\ returns (pdf_text._build_top_wins metrics)
    /\ returns (pdf_text._build_key_concerns metrics)
    /\ returns (pdf_text._build_recommendations metrics)
    /\ returns (pdf_text._build_campaign_insights metrics)
    /\ returns (pdf_text._build_kpi_tile_table (overall metrics))
    /\ returns (ppt_text._build_key_highlights metrics)
    /\ returns (ppt_text._build_recommendations metrics)
    /\ returns (ppt_text._build_top_campaign_rows (campaign_summary metrics)).
Proof.
  intros Hs Hd Hf _.
  destruct (process_data_ok st Hs Hd) as [t [c [w [Ht [Hc [Hw Hrun]]]]]].
  do 3 eexists. split; [exact Hrun | ].
  pose proof (metrics_reportable st t c w Hs Hf Ht Hc) as Hrep.
  split; [exact (pdf_key_highlights_returns _ Hrep) | ].
  split; [exact (pdf_top_wins_returns _ Hrep) | ].
  split; [exact (pdf_key_concerns_returns _ Hrep) | ].
  split; [exact (proj1 (recommendations_return _ Hrep)) | ].
  split; [exact (pdf_campaign_insights_returns _ Hrep) | ].
  split; [apply overall_lines_return; exact (proj1 Hrep) | ].
  split; [exact (ppt_key_highlights_returns _ Hrep) | ].
  split; [exact (proj2 (recommendations_return _ Hrep)) | ].
  exact (ppt_top_campaign_rows_returns _ Hrep).
Qed.

Lemma in_bounds_bind {A C} (m : outcome A) (k : A -> outcome C) :
  in_bounds m -> (forall a, m = Return a -> in_bounds (k a)) -> in_bounds (and_then m k).
Proof.
  unfold in_bounds. intros Hm Hk H. apply and_then_index in H.
  destruct H as [H | [a [Ha H]]]; [now apply Hm | now apply (Hk a Ha)].
Qed.

Lemma in_bounds_return {A} (a : A) : in_bounds (Return a).
Proof. discriminate. Qed.

Lemma in_bounds_lift {A} (m : result A) : in_bounds (lift m).
Proof. destruct m; discriminate. Qed.

Lemma in_bounds_getitem (d : row) (k : string) : in_bounds (getitem d k).
Proof. unfold getitem. destruct (lookup k d); discriminate. Qed.

Lemma in_bounds_for_each {A C} (f : A -> outcome C) (l : list A) :
  (forall x, in_bounds (f x)) -> in_bounds (for_each f l).
Proof.
  intros Hf. induction l as [ | x l IH]; [apply in_bounds_return | ].
  cbn [for_each]. apply in_bounds_bind; [apply Hf | intros y _].
  apply in_bounds_bind; [exact IH | intros ys _]. apply in_bounds_return.
Qed.

Ltac in_bounds_steps :=
  repeat first
    [ apply in_bounds_return
    | apply in_bounds_getitem
    | apply in_bounds_lift
    | apply in_bounds_bind; [ | intros ? ?] ].

Section Bounds.

Context {B : Builtins} {R : ReportBuiltins}.

Lemma in_bounds_sort (c : string) (asc : bool) (df : DataFrame) :
  in_bounds (sort_values_by c asc df).
Proof. apply sort_values_by_no_index. Qed.

Lemma in_bounds_names (c : string) (df : DataFrame) : in_bounds (names_of c df).
Proof. unfold names_of. destruct (has_column df c); discriminate. Qed.

Lemma in_bounds_int_of (d : row) (k : string) : in_bounds (int_of d k).
Proof. unfold int_of, int_commas. in_bounds_steps. Qed.

Lemma in_bounds_fixed_of (d : row) (k : string) : in_bounds (fixed_of d k).
Proof. unfold fixed_of. in_bounds_steps. Qed.

Lemma in_bounds_percent_of (d : row) (k : string) : in_bounds (percent_of d k).
Proof. unfold percent_of. in_bounds_steps. Qed.

Lemma in_bounds_str_of (d : row) (k : string) : in_bounds (str_of d k).
Proof. unfold str_of. in_bounds_steps. Qed.

Lemma in_bounds_first_by (c : string) (asc : bool) (df : DataFrame) :
  empty df = false -> in_bounds (pdf_text.first_by c asc df).
Proof. apply first_by_no_index. Qed.

Lemma in_bounds_head_first (c : string) (asc : bool) (df s : DataFrame) (n : nat) :
  empty df = false -> sort_values_by c asc df = Return s ->
  in_bounds (iloc0 (head (S n) s)).
Proof.
  intros He Hs. pose proof (sorted_not_empty _ _ _ _ He Hs) as Hne.
  unfold in_bounds, iloc0, head. cbn [rows].
  destruct (rows s); [now destruct Hne | discriminate].
Qed.

End Bounds.

Ltac bounds :=
  repeat first
    [ apply in_bounds_return
    | match goal with
      | He : empty ?df = false |- in_bounds (pdf_text.first_by _ _ ?df) =>
          exact (in_bounds_first_by _ _ _ He)
      | He : empty ?df = false |- in_bounds (ppt_text.first_by _ _ ?df) =>
          exact (in_bounds_first_by _ _ _ He)
      | |- in_bounds (if ?b then _ else _) => destruct b
      | |- in_bounds (int_of _ _) => apply in_bounds_int_of
      | |- in_bounds (fixed_of _ _) => apply in_bounds_fixed_of
      | |- in_bounds (percent_of _ _) => apply in_bounds_percent_of
      | |- in_bounds (str_of _ _) => apply in_bounds_str_of
      | |- in_bounds (getitem _ _) => apply in_bounds_getitem
      | |- in_bounds (sort_values_by _ _ _) => apply in_bounds_sort
      | |- in_bounds (names_of _ _) => apply in_bounds_names
      | |- in_bounds (and_then _ _) => apply in_bounds_bind; [ | intros ? ?]
      end ].

(** X13. No builder indexes a frame outside its rows: [iloc[0]] is only
    reached on a summary that is not empty, and sorting keeps its rows. *)
Theorem builders_stay_in_bounds {B : Builtins} {R : ReportBuiltins} (metrics : Metrics) :
  in_bounds (pdf_text._build_key_highlights metrics)
  /\ in_bounds (pdf_text._build_top_wins metrics)
  /\ in_bounds (pdf_text._build_key_concerns metrics)
  /\ in_bounds (ppt_text._build_key_highlights metrics).
Proof.
  split; [ | split; [ | split]].
  - unfold pdf_text._build_key_highlights, pdf_text.volume_line, pdf_text.rate_line.
    cbv zeta. destruct (empty (campaign_summary metrics)) eqn:He; cbn [negb].
    + bounds.
    + unfold pdf_text.top_converting_line, pdf_text.best_ctr_line, pdf_text.cost_risk_line.
      bounds.
  - unfold pdf_text._build_top_wins. cbv zeta.
    destruct (empty (campaign_summary metrics)) eqn:He; [apply in_bounds_return | ].
    apply in_bounds_bind; [apply in_bounds_sort | intros s1 _].
    apply in_bounds_bind.
    { apply in_bounds_for_each. intros r. unfold pdf_text.win_line. bounds. }
    intros wins _. apply in_bounds_bind; [apply in_bounds_sort | intros s2 Hs2].
    apply in_bounds_bind; [exact (in_bounds_head_first _ _ _ _ 0 He Hs2) | intros r _].
    unfold pdf_text.lowest_cpa_line. bounds.
  - unfold pdf_text._build_key_concerns. cbv zeta.
    destruct (empty (campaign_summary metrics)) eqn:He; [apply in_bounds_return | ].
    apply in_bounds_bind; [apply in_bounds_sort | intros s1 _].
    apply in_bounds_bind.
    { apply in_bounds_for_each. intros r. unfold pdf_text.concern_line. bounds. }
    intros cs _. apply in_bounds_bind; [apply in_bounds_sort | intros s2 Hs2].
    apply in_bounds_bind; [exact (in_bounds_head_first _ _ _ _ 0 He Hs2) | intros r _].
    unfold pdf_text.lowest_volume_line. bounds.
  - unfold ppt_text._build_key_highlights, ppt_text.volume_line, ppt_text.rate_line.
    cbv zeta. destruct (empty (campaign_summary metrics)) eqn:He; cbn [negb].
    + bounds.
    + unfold ppt_text.top_converting_line, ppt_text.cost_risk_line. bounds.
Qed.

(** X14. How much text a builder returns.  Two highlights on an empty
    summary, otherwise five, or four when the best ctr is the top
    converter's (the slide report: always four); as many wins, and as many
    concerns, as the summary has campaigns up to two, plus one; two
    recommendations on an empty summary and three otherwise; nine rows of
    two cells in the table of key figures. *)
Theorem builder_sizes {B : Builtins} {R : ReportBuiltins} (metrics : Metrics) :
  (forall hs, pdf_text._build_key_highlights metrics = Return hs ->
     if empty (campaign_summary metrics) then length hs = 2
     else length hs = 4 \/ length hs = 5)
  /\ (forall hs, ppt_text._build_key_highlights metrics = Return hs ->
        length hs = if empty (campaign_summary metrics) then 2 else 4)
  /\ (forall wins, pdf_text._build_top_wins metrics = Return wins ->
        length wins = if empty (campaign_summary metrics) then 0
                      else Nat.min 2 (length (rows (campaign_summary metrics))) + 1)
  /\ (forall concerns, pdf_text._build_key_concerns metrics = Return concerns ->
        length concerns = if empty (campaign_summary metrics) then 0
                          else Nat.min 2 (length (rows (campaign_summary metrics))) + 1)
  /\ (forall recs, pdf_text._build_recommendations metrics = Return recs ->
        length recs = if empty (campaign_summary metrics) then 2 else 3)
  /\ (forall recs, ppt_text._build_recommendations metrics = Return recs ->
        length recs = if empty (campaign_summary metrics) then 2 else 3)
  /\ (forall table, pdf_text._build_kpi_tile_table (overall metrics) = Return table ->
        length table = 9 /\ forall line, In line table -> length line = 2).
Proof.
  split; [ | split; [ | split; [ | split; [ | split; [ | split]]]]].
  - intros hs H. unfold pdf_text._build_key_highlights in H.
    unbind H l1 H1. unbind H l2 H2.
    destruct (empty (campaign_summary metrics)); cbn [negb] in H.
    + apply Return_inj in H. now subst.
    + unbind H top_conv Hconv. unbind H l3 H3. unbind H top_ctr Hctr.
      unbind H ctr_id Hid1. unbind H conv_id Hid2. unbind H hl Hhl.
      unbind H worst_cpa Hworst. unbind H l5 H5. apply Return_inj in H. subst hs.
      destruct (py_ne ctr_id conv_id).
      * unbind Hhl l4 H4. apply Return_inj in Hhl. subst hl. now right.
      * apply Return_inj in Hhl. subst hl. now left.
  - intros hs H. unfold ppt_text._build_key_highlights in H.
    unbind H l1 H1. unbind H l2 H2.
    destruct (empty (campaign_summary metrics)); cbn [negb] in H.
    + apply Return_inj in H. now subst.
    + unbind H top_conv Hconv. unbind H l3 H3.
      unbind H worst_cpa Hworst. unbind H l4 H4. apply Return_inj in H. now subst.
  - intros wins H. unfold pdf_text._build_top_wins in H.
    destruct (empty (campaign_summary metrics)); [apply Return_inj in H; now subst | ].
    unbind H s1 Hs1. unbind H ws Hws. unbind H s2 Hs2. unbind H r Hr. unbind H l Hl.
    apply Return_inj in H. subst wins.
    destruct (for_each_return _ _ _ Hws) as [Hlen _].
    destruct (sort_values_by_perm _ _ _ _ Hs1) as [_ Hp].
    rewrite length_app, Hlen. cbn [head rows length].
    now rewrite length_firstn, (Permutation_length Hp).
  - intros concerns H. unfold pdf_text._build_key_concerns in H.
    destruct (empty (campaign_summary metrics)); [apply Return_inj in H; now subst | ].
    unbind H s1 Hs1. unbind H ws Hws. unbind H s2 Hs2. unbind H r Hr. unbind H l Hl.
    apply Return_inj in H. subst concerns.
    destruct (for_each_return _ _ _ Hws) as [Hlen _].
    destruct (sort_values_by_perm _ _ _ _ Hs1) as [_ Hp].
    rewrite length_app, Hlen. cbn [head rows length].
    now rewrite length_firstn, (Permutation_length Hp).
  - intros recs H. unfold pdf_text._build_recommendations in H.
    destruct (empty (campaign_summary metrics)); [apply Return_inj in H; now subst | ].
    unbind H s1 Hs1. unbind H s2 Hs2. unbind H s3 Hs3.
    unbind H n1 Hn1. unbind H n2 Hn2. unbind H n3 Hn3.
    apply Return_inj in H. now subst.
  - intros recs H. unfold ppt_text._build_recommendations in H.
    destruct (empty (campaign_summary metrics)); [apply Return_inj in H; now subst | ].
    unbind H s1 Hs1. unbind H s2 Hs2. unbind H s3 Hs3.
    unbind H n1 Hn1. unbind H n2 Hn2. unbind H n3 Hn3.
    apply Return_inj in H. now subst.
  - intros table H. unfold pdf_text._build_kpi_tile_table in H.
    unbind H a1 H1. unbind H a2 H2. unbind H a3 H3. unbind H a4 H4.
    unbind H a5 H5. unbind H a6 H6. unbind H a7 H7. unbind H a8 H8.
    apply Return_inj in H. subst table. split; [reflexivity | ].
    intros line Hl. simpl in Hl.
    repeat (destruct Hl as [<- | Hl]; [reflexivity | ]). destruct Hl.
Qed.

(** X15. A summary of one campaign: the report lists that campaign as
    its top win and as the one of lowest cost, and lists it again as the
    campaign of elevated cost and of lowest volume. *)
Theorem one_campaign_is_win_and_concern {B : Builtins} {R : ReportBuiltins}
    (metrics : Metrics) (r : row) :
  rows (campaign_summary metrics) = [r] ->
  empty (campaign_summary metrics) = false ->
  (forall wins, pdf_text._build_top_wins metrics = Return wins ->
     exists win lowest,
       pdf_text.win_line r = Return win /\ pdf_text.lowest_cpa_line r = Return lowest
       /\ wins = [win; lowest])
  /\ (forall concerns, pdf_text._build_key_concerns metrics = Return concerns ->
        exists concern lowest,
          pdf_text.concern_line r = Return concern
          /\ pdf_text.lowest_volume_line r = Return lowest
          /\ concerns = [concern; lowest]).
Proof.
  intros Hrows He.
  assert (Hone : forall c asc s,
             sort_values_by c asc (campaign_summary metrics) = Return s -> rows s = [r]).
  { intros c asc s Hs. destruct (sort_values_by_perm _ _ _ _ Hs) as [_ Hp].
    rewrite Hrows in Hp. apply Permutation_sym in Hp.
    now apply Permutation_length_1_inv in Hp. }
  split.
  - intros wins H. unfold pdf_text._build_top_wins in H. rewrite He in H.
    unbind H s1 Hs1. unbind H ws Hws. unbind H s2 Hs2. unbind H r' Hr. unbind H l Hl.
    apply Return_inj in H. subst wins.
    cbn [head rows] in Hws. rewrite (Hone _ _ _ Hs1) in Hws. cbn [firstn for_each] in Hws.
    unbind Hws w Hw. apply Return_inj in Hws. subst ws.
    unfold iloc0 in Hr. cbn [head rows] in Hr. rewrite (Hone _ _ _ Hs2) in Hr.
    cbn [firstn] in Hr. apply Return_inj in Hr. subst r'.
    exists w, l. repeat split; assumption.
  - intros concerns H. unfold pdf_text._build_key_concerns in H. rewrite He in H.
    unbind H s1 Hs1. unbind H ws Hws. unbind H s2 Hs2. unbind H r' Hr. unbind H l Hl.
    apply Return_inj in H. subst concerns.
    cbn [head rows] in Hws. rewrite (Hone _ _ _ Hs1) in Hws. cbn [firstn for_each] in Hws.
    unbind Hws w Hw. apply Return_inj in Hws. subst ws.
    unfold iloc0 in Hr. cbn [head rows] in Hr. rewrite (Hone _ _ _ Hs2) in Hr.
    cbn [firstn] in Hr. apply Return_inj in Hr. subst r'.
    exists w, l. repeat split; assumption.
Qed.

(** ** The properties of the reports at concrete metrics *)

Lemma key_highlights_name_the_extremes_witness :
  numeric_column (campaign_summary ReportExamples.two_campaigns) "conversions" = true
  /\ numeric_column (campaign_summary ReportExamples.two_campaigns) "ctr" = true
  /\ numeric_column (campaign_summary ReportExamples.two_campaigns) "cpa" = true
  /\ empty (campaign_summary ReportExamples.two_campaigns) = false
  /\ pdf_text._build_key_highlights ReportExamples.two_campaigns
     = Return ["Campaigns delivered 2,600 impressions, 180 clicks and 8 conversions this week.";
               "Overall CTR was 6.92% with an average CPC of 1.17 and CPA of 26.25.";
               "Top converting campaign: CAMP01 with 8 conversions and a CPA of 20.00.";
               "Best CTR: CAMP02 with CTR of 10.00%.";
               "Key cost risk: CAMP02 has the highest CPA at inf."]
  /\ (forall hs, pdf_text._build_key_highlights ReportExamples.two_campaigns = Return hs ->
        exists top_conv top_ctr worst_cpa l1 l2 l3 l5,
          In top_conv (rows (campaign_summary ReportExamples.two_campaigns))
          /\ largest_in "conversions" (campaign_summary ReportExamples.two_campaigns) top_conv
          /\ In top_ctr (rows (campaign_summary ReportExamples.two_campaigns))
          /\ largest_in "ctr" (campaign_summary ReportExamples.two_campaigns) top_ctr
          /\ In worst_cpa (rows (campaign_summary ReportExamples.two_campaigns))
          /\ largest_in "cpa" (campaign_summary ReportExamples.two_campaigns) worst_cpa
          /\ pdf_text.top_converting_line top_conv = Return l3
          /\ pdf_text.cost_risk_line worst_cpa = Return l5
          /\ ((py_ne (cell top_ctr "campaign_id") (cell top_conv "campaign_id") = false
               /\ hs = [l1; l2; l3; l5])
              \/ (py_ne (cell top_ctr "campaign_id") (cell top_conv "campaign_id") = true
                  /\ exists l4, pdf_text.best_ctr_line top_ctr = Return l4
                                /\ hs = [l1; l2; l3; l4; l5])))
  /\ (forall hs, ppt_text._build_key_highlights ReportExamples.two_campaigns = Return hs ->
        exists top_conv worst_cpa l1 l2 l3 l4,
          In top_conv (rows (campaign_summary ReportExamples.two_campaigns))
          /\ largest_in "conversions" (campaign_summary ReportExamples.two_campaigns) top_conv
          /\ In worst_cpa (rows (campaign_summary ReportExamples.two_campaigns))
          /\ largest_in "cpa" (campaign_summary ReportExamples.two_campaigns) worst_cpa
          /\ ppt_text.top_converting_line top_conv = Return l3
          /\ ppt_text.cost_risk_line worst_cpa = Return l4
          /\ hs = [l1; l2; l3; l4]).
Proof.
  split; [reflexivity | split; [reflexivity | split; [reflexivity | split; [reflexivity | ]]]].
  split; [vm_compute; reflexivity | ].
  apply (key_highlights_name_the_extremes ReportExamples.two_campaigns); reflexivity.
Defined.

Lemma top_campaign_table_witness :
  numeric_column (campaign_summary ReportExamples.two_campaigns) "spend" = true
  /\ ppt_text._build_top_campaign_rows (campaign_summary ReportExamples.two_campaigns)
     = Return [["Campaign"; "Impr."; "Clicks"; "Conv."; "Spend"; "CTR"; "CPC"; "CPA"];
               ["CAMP01"; "1,600"; "80"; "8"; "160.00"; "5.00%"; "2.00"; "20.00"];
               ["CAMP02"; "1,000"; "100"; "0"; "50.00"; "10.00%"; "0.50"; "inf"]]
  /\ exists listed rest lines,
       Permutation (listed ++ rest) (rows (campaign_summary ReportExamples.two_campaigns))
       /\ length listed
          = Nat.min 5 (length (rows (campaign_summary ReportExamples.two_campaigns)))
       /\ (forall r r', In r listed -> In r' rest ->
             is_null (cell r' "spend") = true
             \/ vleb (cell r' "spend") (cell r "spend") = true)
       /\ for_each ppt_text.table_line listed = Return lines
       /\ [["Campaign"; "Impr."; "Clicks"; "Conv."; "Spend"; "CTR"; "CPC"; "CPA"];
           ["CAMP01"; "1,600"; "80"; "8"; "160.00"; "5.00%"; "2.00"; "20.00"];
           ["CAMP02"; "1,000"; "100"; "0"; "50.00"; "10.00%"; "0.50"; "inf"]]
          = ppt_text.table_header :: lines
       /\ length [["Campaign"; "Impr."; "Clicks"; "Conv."; "Spend"; "CTR"; "CPC"; "CPA"];
                  ["CAMP01"; "1,600"; "80"; "8"; "160.00"; "5.00%"; "2.00"; "20.00"];
                  ["CAMP02"; "1,000"; "100"; "0"; "50.00"; "10.00%"; "0.50"; "inf"]]
          = 1 + Nat.min 5 (length (rows (campaign_summary ReportExamples.two_campaigns)))
       /\ forall line,
            In line [["Campaign"; "Impr."; "Clicks"; "Conv."; "Spend"; "CTR"; "CPC"; "CPA"];
                     ["CAMP01"; "1,600"; "80"; "8"; "160.00"; "5.00%"; "2.00"; "20.00"];
                     ["CAMP02"; "1,000"; "100"; "0"; "50.00"; "10.00%"; "0.50"; "inf"]] ->
            length line = 8.
Proof.
  split; [reflexivity | split; [vm_compute; reflexivity | ]].
  apply (top_campaign_table (campaign_summary ReportExamples.two_campaigns));
    [reflexivity | vm_compute; reflexivity].
Defined.

Lemma report_text_is_defined_witness :
  schema_ok Scenario.store = true /\ dates_ok Scenario.store = true
  /\ finite_inputs Scenario.store = true /\ moderate_inputs Scenario.store = true
  /\ exists st' merged metrics,
       process_data Scenario.store = (st', Ok (merged, metrics))
       /\ returns (pdf_text._build_key_highlights metrics)
       /\ returns (pdf_text._build_top_wins metrics)
       /\ returns (pdf_text._build_key_concerns metrics)
       /\ returns (pdf_text._build_recommendations metrics)
       /\ returns (pdf_text._build_campaign_insights metrics)
       /\ returns (pdf_text._build_kpi_tile_table (overall metrics))
       /\ returns (ppt_text._build_key_highlights metrics)
       /\ returns (ppt_text._build_recommendations metrics)
       /\ returns (ppt_text._build_top_campaign_rows (campaign_summary metrics)).
Proof.
  split; [reflexivity | split; [reflexivity | split; [reflexivity | ]]].
  split; [vm_compute; reflexivity | ].
  apply (report_text_is_defined Scenario.store);
    [reflexivity | reflexivity | reflexivity | vm_compute; reflexivity].
Defined.

Lemma one_campaign_is_win_and_concern_witness :
  rows (campaign_summary ReportExamples.one_campaign)
  = [summary_record (VStr "CAMP01") (VNum 1600) (VNum 80) (VNum 8) (VNum 160)]
  /\ empty (campaign_summary ReportExamples.one_campaign) = false
  /\ pdf_text._build_top_wins ReportExamples.one_campaign
     = Return ["CAMP01 delivered 8 conversions at a CPA of 20.00, making it a strong driver of performance.";
               "CAMP01 achieved the lowest CPA at 20.00, indicating high efficiency."]
  /\ pdf_text._build_key_concerns ReportExamples.one_campaign
     = Return ["CAMP01 shows elevated CPA at 20.00 with 8 conversions, suggesting room for optimization.";
               "CAMP01 has the lowest conversion volume (8 conversions) and may require creative or targeting refresh."]
  /\ (forall wins, pdf_text._build_top_wins ReportExamples.one_campaign = Return wins ->
        exists win lowest,
          pdf_text.win_line
            (summary_record (VStr "CAMP01") (VNum 1600) (VNum 80) (VNum 8) (VNum 160))
          = Return win
          /\ pdf_text.lowest_cpa_line
               (summary_record (VStr "CAMP01") (VNum 1600) (VNum 80) (VNum 8) (VNum 160))
             = Return lowest
          /\ wins = [win; lowest])
  /\ (forall concerns,
        pdf_text._build_key_concerns ReportExamples.one_campaign = Return concerns ->
        exists concern lowest,
          pdf_text.concern_line
            (summary_record (VStr "CAMP01") (VNum 1600) (VNum 80) (VNum 8) (VNum 160))
          = Return concern
          /\ pdf_text.lowest_volume_line
               (summary_record (VStr "CAMP01") (VNum 1600) (VNum 80) (VNum 8) (VNum 160))
             = Return lowest
          /\ concerns = [concern; lowest]).
Proof.
  split; [reflexivity | split; [reflexivity | ]].
  split; [vm_compute; reflexivity | split; [vm_compute; reflexivity | ]].
  apply (one_campaign_is_win_and_concern ReportExamples.one_campaign); reflexivity.
Defined.

(** * The client of the model and the insights *)

Section Attempts.

Context {B : Builtins} {C : ClientBuiltins}.
Variable network : Z -> reply.
Variable payload : json.
Variable retries : Z.

Lemma attempts_step (remaining : nat) (attempt : Z) :
  attempts network payload retries (S remaining) attempt
  = match network attempt with
    | ConnectionFailed e =>
        if (attempt =? retries)%Z then
          ([Post payload],
           JStr ("Error connecting to the model after " ++ format_d retries
                 ++ " attempts: " ++ e)%string)
        else
          let (events, returned) :=
            attempts network payload retries remaining (attempt + 1) in
          (Post payload :: Sleep (2 ^ (attempt - 1)) :: events, returned)
    | Response status_code text body =>
        ([Post payload], on_response status_code text body)
    end.
Proof. reflexivity. Qed.

Lemma pow_step (a : Z) : (1 <= a)%Z -> (2 ^ a = 2 * 2 ^ (a - 1))%Z.
Proof.
  intros H. replace a with (Z.succ (a - 1))%Z at 1 by lia.
  rewrite Z.pow_succ_r by lia. reflexivity.
Qed.

(** The attempts stay within the budget. *)
Lemma attempts_bounds (remaining : nat) :
  forall attempt,
    (1 <= attempt)%Z -> (attempt + Z.of_nat remaining = retries)%Z ->
    let events := fst (attempts network payload retries (S remaining) attempt) in
    posts events <= S remaining
    /\ (0 <= slept events)%Z
    /\ (slept events <= 2 ^ (retries - 1) - 2 ^ (attempt - 1))%Z
    /\ Forall (carries payload) events.
Proof.
  induction remaining as [ | n IH]; intros attempt Ha Hr; cbv zeta;
    rewrite attempts_step.
  - assert (E : (attempt =? retries)%Z = true) by (apply Z.eqb_eq; lia).
    assert (Hp : (2 ^ (retries - 1) - 2 ^ (attempt - 1) = 0)%Z)
      by (replace retries with attempt by lia; lia).
    destruct (network attempt) as [e | st tx body]; rewrite ?E;
      cbn [fst posts slept filter length fold_right]; rewrite Hp;
      (repeat split; [lia | lia | lia | repeat constructor]).
  - assert (E : (attempt =? retries)%Z = false) by (apply Z.eqb_neq; lia).
    assert (Hpow : (2 ^ (attempt - 1) <= 2 ^ (retries - 1) - 2 ^ (attempt - 1))%Z).
    { assert (2 ^ (attempt + 1 - 1) <= 2 ^ (retries - 1))%Z
        by (apply Z.pow_le_mono_r; lia).
      replace (attempt + 1 - 1)%Z with attempt in H by lia.
      rewrite (pow_step attempt Ha) in H. lia. }
    assert (Hpos : (0 <= 2 ^ (attempt - 1))%Z) by (apply Z.pow_nonneg; lia).
    destruct (network attempt) as [e | st tx body]; rewrite ?E.
    + specialize (IH (attempt + 1)%Z). cbv zeta in IH.
      destruct (attempts network payload retries (S n) (attempt + 1)) as [events returned].
      cbn [fst] in *. destruct IH as [Hposts [Hs0 [Hs Hall]]]; [lia | lia | ].
      replace (attempt + 1 - 1)%Z with attempt in Hs by lia.
      rewrite (pow_step attempt Ha) in Hs.
      unfold posts in *. cbn [filter length slept fold_right].
      fold (slept events).
      repeat split; [lia | lia | lia | ].
      constructor; [reflexivity | constructor; [exact I | exact Hall]].
    + cbn [fst posts slept filter length fold_right].
      repeat split; [lia | lia | lia | repeat constructor].
Qed.

Lemma attempts_first_response (remaining : nat) (k status_code : Z) (text : string)
    (body : option json) :
  network k = Response status_code text body ->
  (k <= retries)%Z ->
  forall attempt,
    (1 <= attempt <= k)%Z -> (attempt + Z.of_nat remaining = retries)%Z ->
    (forall i, (attempt <= i < k)%Z -> exists e, network i = ConnectionFailed e) ->
    exists events,
      attempts network payload retries (S remaining) attempt
      = (events, on_response status_code text body)
      /\ (Z.of_nat (posts events) = k - attempt + 1)%Z
      /\ (slept events = 2 ^ (k - 1) - 2 ^ (attempt - 1))%Z.
Proof.
  intros Hk Hkr. induction remaining as [ | n IH]; intros attempt Ha Hr Hfail;
    rewrite attempts_step.
  - assert (attempt = k) by lia. subst attempt. rewrite Hk.
    eexists. split; [reflexivity | ]. cbn. lia.
  - destruct (Z.eq_dec attempt k) as [-> | Hne].
    + rewrite Hk. eexists. split; [reflexivity | ]. cbn. lia.
    + destruct (Hfail attempt) as [e ->]; [lia | ].
      assert (E : (attempt =? retries)%Z = false) by (apply Z.eqb_neq; lia).
      rewrite E.
      destruct (IH (attempt + 1)%Z) as [events [-> [Hp Hs]]]; [lia | lia | | ].
      { intros i Hi. apply Hfail. lia. }
      eexists. split; [reflexivity | ].
      unfold posts in *. cbn [filter length slept fold_right]. fold (slept events).
      rewrite Hs. replace (attempt + 1 - 1)%Z with attempt by lia.
      rewrite (pow_step attempt) by lia. split; lia.
Qed.

Lemma attempts_all_fail (remaining : nat) :
  forall attempt,
    (1 <= attempt)%Z -> (attempt + Z.of_nat remaining = retries)%Z ->
    (forall i, (attempt <= i <= retries)%Z -> exists e, network i = ConnectionFailed e) ->
    exists events e,
      network retries = ConnectionFailed e
      /\ attempts network payload retries (S remaining) attempt
         = (events, JStr ("Error connecting to the model after " ++ format_d retries
                          ++ " attempts: " ++ e)%string)
      /\ (Z.of_nat (posts events) = retries - attempt + 1)%Z
      /\ (slept events = 2 ^ (retries - 1) - 2 ^ (attempt - 1))%Z.
Proof.
  induction remaining as [ | n IH]; intros attempt Ha Hr Hfail; rewrite attempts_step.
  - assert (attempt = retries) by lia. subst attempt.
    destruct (Hfail retries) as [e He]; [lia | ]. rewrite He, Z.eqb_refl.
    exists [Post payload], e. split; [reflexivity | split; [reflexivity | ]]. cbn. lia.
  - destruct (Hfail attempt) as [e ->]; [lia | ].
    assert (E : (attempt =? retries)%Z = false) by (apply Z.eqb_neq; lia).
    rewrite E.
    destruct (IH (attempt + 1)%Z) as [events [e' [He' [-> [Hp Hs]]]]]; [lia | lia | | ].
    { intros i Hi. apply Hfail. lia. }
    eexists. exists e'. split; [exact He' | split; [reflexivity | ]].
    unfold posts in *. cbn [filter length slept fold_right]. fold (slept events).
    rewrite Hs. replace (attempt + 1 - 1)%Z with attempt by lia.
    rewrite (pow_step attempt) by lia. split; lia.
Qed.

End Attempts.

Lemma to_nat_succ (retries : Z) :
  (1 <= retries)%Z -> exists n, Z.to_nat retries = S n /\ (1 + Z.of_nat n = retries)%Z.
Proof.
  intros H. exists (Z.to_nat (retries - 1)). split; [ | lia].
  replace retries with (Z.succ (retries - 1)) at 1 by lia.
  rewrite Z2Nat.inj_succ by lia. reflexivity.
Qed.

Lemma key_present (env : Environ) :
  get_api_key env <> "" -> String.eqb (get_api_key env) "" = false.
Proof. intros H. now apply String.eqb_neq. Qed.

(** X16 (gemini_client.py, call_gemini_api): without a key the call returns
    the fatal-error text and sends nothing.  With a key it sends at most
    [retries] requests, each with the same payload, sleeps a total that is
    never negative and at most [2 ^ (retries - 1) - 1] seconds, and with
    [retries <= 0] it sends nothing and returns "API call failed after
    retries.". *)
Theorem retry_discipline {B : Builtins} {C : ClientBuiltins} (env : Environ)
    (network : Z -> reply) (system_prompt : string) (contents : json) (retries : Z) :
  (get_api_key env = "" ->
   call_gemini_api env network system_prompt contents retries
   = ([], JStr "FATAL ERROR: API Key is missing. Please set the 'GEMINI_API_KEY' environment variable."))
  /\ (get_api_key env <> "" ->
      posts (fst (call_gemini_api env network system_prompt contents retries))
      <= Z.to_nat retries
      /\ (0 <= slept (fst (call_gemini_api env network system_prompt contents retries)))%Z
      /\ ((1 <= retries)%Z ->
          (slept (fst (call_gemini_api env network system_prompt contents retries))
           <= 2 ^ (retries - 1) - 1)%Z)
      /\ Forall (carries (payload_of system_prompt contents))
           (fst (call_gemini_api env network system_prompt contents retries))
      /\ ((retries <= 0)%Z ->
          call_gemini_api env network system_prompt contents retries
          = ([], JStr "API call failed after retries."))).
Proof.
  split.
  - intros Hk. unfold call_gemini_api. rewrite Hk. reflexivity.
  - intros Hk. unfold call_gemini_api. rewrite (key_present env Hk).
    destruct (Z_lt_le_dec retries 1) as [Hlt | Hge].
    + assert (E : Z.to_nat retries = 0) by lia. rewrite E.
      cbn [attempts fst posts slept filter length fold_right].
      repeat split; try lia. constructor.
    + destruct (to_nat_succ retries Hge) as [n [-> Hn]].
      destruct (attempts_bounds network (payload_of system_prompt contents) retries n 1)
        as [Hp [Hs0 [Hs Hall]]]; [lia | exact Hn | ].
      repeat split; try assumption; try lia.
Qed.

(** X17 (gemini_client.py, call_gemini_api): when attempts [1 .. k-1] fail
    to connect and attempt [k <= retries] gets a response, the call returns
    what that response yields, after exactly [k] requests and
    [2 ^ (k - 1) - 1] seconds of sleep, every request with the same
    payload: no response is ever retried. *)
Theorem first_response_ends_the_call {B : Builtins} {C : ClientBuiltins} (env : Environ)
    (network : Z -> reply) (system_prompt : string) (contents : json) (retries k : Z)
    (status_code : Z) (text : string) (body : option json) :
  get_api_key env <> "" ->
  (1 <= k <= retries)%Z ->
  (forall i, (1 <= i < k)%Z -> exists e, network i = ConnectionFailed e) ->
  network k = Response status_code text body ->
  exists events,
    call_gemini_api env network system_prompt contents retries
    = (events, on_response status_code text body)
    /\ Z.of_nat (posts events) = k
    /\ (slept events = 2 ^ (k - 1) - 1)%Z
    /\ Forall (carries (payload_of system_prompt contents)) events.
Proof.
  intros Hkey Hk Hfail Hresp. unfold call_gemini_api. rewrite (key_present env Hkey).
  destruct (to_nat_succ retries) as [n [En Hn]]; [lia | ].
  pose proof (attempts_bounds network (payload_of system_prompt contents) retries n 1)
    as Hb. cbv zeta in Hb. rewrite En.
  destruct (attempts_first_response network (payload_of system_prompt contents) retries n
              k status_code text body Hresp (proj2 Hk) 1) as [events [E [Hp Hs]]];
    [lia | exact Hn | exact Hfail | ].
  rewrite E in *. cbn [fst] in Hb. exists events.
  split; [reflexivity | ]. split; [lia | ]. split; [rewrite Hs; reflexivity | ].
  apply Hb; lia.
Qed.

Lemma call_unreachable {B : Builtins} {C : ClientBuiltins} (env : Environ)
    (network : Z -> reply) (system_prompt : string) (contents : json) (retries : Z) :
  get_api_key env <> "" ->
  (1 <= retries)%Z ->
  (forall i, (1 <= i <= retries)%Z -> exists e, network i = ConnectionFailed e) ->
  exists events e,
    network retries = ConnectionFailed e
    /\ call_gemini_api env network system_prompt contents retries
       = (events, JStr ("Error connecting to the model after " ++ format_d retries
                        ++ " attempts: " ++ e)%string)
    /\ Z.of_nat (posts events) = retries
    /\ (slept events = 2 ^ (retries - 1) - 1)%Z.
Proof.
  intros Hkey Hr Hfail. unfold call_gemini_api. rewrite (key_present env Hkey).
  destruct (to_nat_succ retries Hr) as [n [-> Hn]].
  destruct (attempts_all_fail network (payload_of system_prompt contents) retries n 1)
    as [events [e [He [E [Hp Hs]]]]]; [lia | exact Hn | exact Hfail | ].
  exists events, e. split; [exact He | split; [exact E | ]]. split; [lia | ].
  rewrite Hs. reflexivity.
Qed.

(** X18 (gemini_client.py, call_gemini_api): when every attempt fails to
    connect, the call returns the text "Error connecting to the model after
    N attempts: e" with the exception of the last attempt, after [retries]
    requests and [2 ^ (retries - 1) - 1] seconds of sleep; it does not
    sleep after the last attempt. *)
Theorem unreachable_service {B : Builtins} {C : ClientBuiltins} (env : Environ)
    (network : Z -> reply) (system_prompt : string) (contents : json) (retries : Z) :
  get_api_key env <> "" ->
  (1 <= retries)%Z ->
  (forall i, (1 <= i <= retries)%Z -> exists e, network i = ConnectionFailed e) ->
  exists events e,
    network retries = ConnectionFailed e
    /\ call_gemini_api env network system_prompt contents retries
       = (events, JStr ("Error connecting to the model after " ++ format_d retries
                        ++ " attempts: " ++ e)%string)
    /\ Z.of_nat (posts events) = retries
    /\ (slept events = 2 ^ (retries - 1) - 1)%Z.
Proof.
  intros Hkey Hr Hfail.
  destruct (call_unreachable env network system_prompt contents retries Hkey Hr Hfail)
    as [events [e H]].
  exists events, e. exact H.
Qed.

Lemma join_from_strings (sep : string) (texts : list string) (position : nat) :
  join_from position sep (map JStr texts) = Got (String.concat sep texts).
Proof.
  revert position. induction texts as [ | t rest IH]; intros position; [reflexivity | ].
  cbn [map join_from]. destruct rest as [ | t' rest']; [reflexivity | ].
  cbn [map] in *. rewrite (IH (S position)). reflexivity.
Qed.

Lemma parts_texts (texts : list string) :
  (forall t, In t texts -> t <> "") ->
  flat_map (fun p => match truthy_entry p "text" with
                     | Some t => [t]
                     | None => []
                     end)
           (map (fun t => JDict [("text", JStr t)]) texts)
  = map JStr texts.
Proof.
  induction texts as [ | t rest IH]; intros H; [reflexivity | ].
  cbn [map flat_map]. rewrite IH by (intros x Hx; apply H; now right).
  assert (Ht : String.eqb t "" = false) by (apply String.eqb_neq, H; now left).
  unfold truthy_entry. cbn [json_lookup]. rewrite String.eqb_refl.
  cbn [json_truthy]. rewrite Ht. reflexivity.
Qed.

Section Extraction.

Context {B : Builtins} {C : ClientBuiltins}.

Lemma candidate_texts_of_parts (texts : list string) :
  texts <> [] -> (forall t, In t texts -> t <> "") ->
  candidate_texts
    (JDict [("content",
             JDict [("parts", JList (map (fun t => JDict [("text", JStr t)]) texts))])])
  = Got (map JStr texts).
Proof.
  intros Hne Hall. unfold candidate_texts.
  cbn [json_get json_lookup String.eqb Ascii.eqb Bool.eqb extraction_bind].
  assert (Ht : json_truthy (JList (map (fun t => JDict [("text", JStr t)]) texts)) = true)
    by (destruct texts; [now destruct Hne | reflexivity]).
  cbv zeta. rewrite !Ht. cbn [json_iter extraction_bind negb].
  rewrite (parts_texts texts Hall), app_nil_r. reflexivity.
Qed.

Lemma extract_candidate_reply (texts : list string) :
  texts <> [] -> (forall t, In t texts -> t <> "") ->
  extract (candidate_reply texts) = JStr (String.concat blank_line texts).
Proof.
  intros Hne Hall. unfold extract, try_extract, candidate_reply.
  cbn [json_get json_lookup String.eqb Ascii.eqb Bool.eqb extraction_bind json_truthy
       json_iter all_texts].
  rewrite (candidate_texts_of_parts texts Hne Hall).
  cbn [extraction_bind]. rewrite app_nil_r. fold blank_line.
  pose proof (join_from_strings blank_line texts 0) as Hj.
  destruct texts as [ | t rest]; [now destruct Hne | ].
  cbn [map] in *. cbv iota. rewrite Hj. reflexivity.
Qed.

End Extraction.

Lemma call_candidate_reply {B : Builtins} {C : ClientBuiltins} (env : Environ)
    (network : Z -> reply) (system_prompt : string) (contents : json) (retries : Z)
    (status_code : Z) (text : string) (texts : list string) :
  get_api_key env <> "" ->
  (1 <= retries)%Z ->
  network 1%Z = Response status_code text (Some (candidate_reply texts)) ->
  status_code <> 400%Z -> status_code <> 404%Z ->
  texts <> [] -> (forall t, In t texts -> t <> "") ->
  extract (candidate_reply texts) = JStr (String.concat blank_line texts)
  /\ call_gemini_api env network system_prompt contents retries
     = ([Post (payload_of system_prompt contents)],
        JStr (String.concat blank_line texts)).
Proof.
  intros Hkey Hr Hnet H400 H404 Hne Hall.
  pose proof (extract_candidate_reply texts Hne Hall) as He.
  split; [exact He | ].
  unfold call_gemini_api. rewrite (key_present env Hkey).
  destruct (to_nat_succ retries Hr) as [n [-> _]].
  rewrite attempts_step, Hnet. unfold on_response.
  apply Z.eqb_neq in H400, H404. rewrite H400, H404, He. reflexivity.
Qed.

(** X19 (gemini_client.py, call_gemini_api): a reply with one candidate
    whose content has non-empty text parts, on a status other than 400 and
    404, gives the texts joined by blank lines, in their order, after one
    request. *)
Theorem candidate_texts_are_joined {B : Builtins} {C : ClientBuiltins} (env : Environ)
    (network : Z -> reply) (system_prompt : string) (contents : json) (retries : Z)
    (status_code : Z) (text : string) (texts : list string) :
  get_api_key env <> "" ->
  (1 <= retries)%Z ->
  network 1%Z = Response status_code text (Some (candidate_reply texts)) ->
  status_code <> 400%Z -> status_code <> 404%Z ->
  texts <> [] -> (forall t, In t texts -> t <> "") ->
  extract (candidate_reply texts) = JStr (String.concat blank_line texts)
  /\ call_gemini_api env network system_prompt contents retries
     = ([Post (payload_of system_prompt contents)],
        JStr (String.concat blank_line texts)).
Proof.
  intros Hkey Hr Hnet H400 H404 Hne Hall.
  exact (call_candidate_reply env network system_prompt contents retries status_code
           text texts Hkey Hr Hnet H400 H404 Hne Hall).
Qed.

Section InsightFacts.

Context {B : Builtins} {R : ReportBuiltins} {C : ClientBuiltins} {X : RegexBuiltins}.

Lemma generate_insights_call (env : Environ) (network : Z -> reply) (metrics : Metrics)
    (config : json) (user_prompt : string) :
  llm_enabled config ->
  _build_prompt metrics config = Return user_prompt ->
  generate_insights env network metrics config
  = (fst (call_gemini_api env network system_prompt (contents_of user_prompt)
            default_retries),
     on_text (snd (call_gemini_api env network system_prompt (contents_of user_prompt)
                     default_retries))).
Proof.
  intros [llm_cfg [enabled [H1 [H2 H3]]]] Hp. unfold generate_insights.
  rewrite H1, H2, H3, Hp. cbn [negb].
  destruct (call_gemini_api _ _ _ _ _) as [events text]. reflexivity.
Qed.

Lemma on_text_api_error (rest : string) :
  on_text (JStr ("API Error" ++ rest))
  = Summary (clean_markdown (strip ("API Error" ++ rest))).
Proof. reflexivity. Qed.

Lemma on_text_error (rest : string) :
  on_text (JStr ("Error" ++ rest))
  = Failure (RuntimeError ("Gemini call failed: " ++ "Error" ++ rest)).
Proof. destruct rest; reflexivity. Qed.

End InsightFacts.

(** X20 (insight_engine.py, generate_insights): with the model enabled, a
    missing key and three failed connections raise [RuntimeError]; an HTTP
    400, an HTTP 404 and a body that is not JSON do not: their text starts
    with "API Error", which neither prefix test matches, and it is cleaned
    and returned as the executive summary. *)
Theorem http_errors_pass_for_a_summary {B : Builtins} {R : ReportBuiltins}
    {C : ClientBuiltins} {X : RegexBuiltins} (env : Environ) (network : Z -> reply)
    (metrics : Metrics) (config : json) (user_prompt : string) :
  llm_enabled config ->
  _build_prompt metrics config = Return user_prompt ->
  (get_api_key env = "" ->
   generate_insights env network metrics config
   = ([], Failure (RuntimeError "Gemini call failed: FATAL ERROR: API Key is missing. Please set the 'GEMINI_API_KEY' environment variable.")))
  /\ (get_api_key env <> "" ->
      (forall i, (1 <= i <= 3)%Z -> exists e, network i = ConnectionFailed e) ->
      exists e,
        network 3%Z = ConnectionFailed e
        /\ snd (generate_insights env network metrics config)
           = Failure (RuntimeError
                        ("Gemini call failed: Error connecting to the model after "
                         ++ format_d 3 ++ " attempts: " ++ e)))
  /\ (get_api_key env <> "" ->
      forall text body,
        network 1%Z = Response 400 text body ->
        generate_insights env network metrics config
        = ([Post (payload_of system_prompt (contents_of user_prompt))],
           Summary (clean_markdown
                      (strip ("API Error (HTTP 400 Bad Request): " ++ prefix_of 300 text)))))
  /\ (get_api_key env <> "" ->
      forall text body,
        network 1%Z = Response 404 text body ->
        generate_insights env network metrics config
        = ([Post (payload_of system_prompt (contents_of user_prompt))],
           Summary (clean_markdown
                      (strip ("API Error (HTTP 404 Not Found): Model '" ++ MODEL_NAME
                              ++ "' unavailable at endpoint.")))))
  /\ (get_api_key env <> "" ->
      forall status_code text,
        network 1%Z = Response status_code text None ->
        status_code <> 400%Z -> status_code <> 404%Z ->
        generate_insights env network metrics config
        = ([Post (payload_of system_prompt (contents_of user_prompt))],
           Summary (clean_markdown
                      (strip ("API Error: Non-JSON response: " ++ prefix_of 500 text))))).
Proof.
  intros Hen Hp. rewrite (generate_insights_call env network metrics config _ Hen Hp).
  split; [ | split; [ | split; [ | split]]].
  - intros Hk. unfold call_gemini_api. rewrite Hk. reflexivity.
  - intros Hk Hfail.
    destruct (call_unreachable env network system_prompt (contents_of user_prompt)
                default_retries Hk) as [events [e [He [E _]]]];
      [unfold default_retries; lia | exact Hfail | ].
    exists e. split; [exact He | ]. rewrite E. reflexivity.
  - intros Hk text body Hnet. unfold call_gemini_api. rewrite (key_present env Hk).
    change (Z.to_nat default_retries) with 3. rewrite attempts_step, Hnet. reflexivity.
  - intros Hk text body Hnet. unfold call_gemini_api. rewrite (key_present env Hk).
    change (Z.to_nat default_retries) with 3. rewrite attempts_step, Hnet. reflexivity.
  - intros Hk status_code text Hnet H400 H404. unfold call_gemini_api.
    rewrite (key_present env Hk).
    change (Z.to_nat default_retries) with 3. rewrite attempts_step, Hnet.
    unfold on_response. apply Z.eqb_neq in H400, H404. rewrite H400, H404. reflexivity.
Qed.

Section PromptFacts.

Context {B : Builtins} {R : ReportBuiltins} {C : ClientBuiltins} {X : RegexBuiltins}.

Lemma campaign_line_returns (r : row) : printable_row r -> returns (campaign_line r).
Proof. intros (id & qi & qk & qv & spend & ->). eexists. reflexivity. Qed.

Lemma build_prompt_returns (metrics : Metrics) (client_name week_start week_end : string) :
  reportable metrics ->
  returns (_build_prompt metrics (config_of client_name week_start week_end)).
Proof.
  intros [Ho [_ Hrows]]. unfold _build_prompt, config_of.
  cbn [json_item json_lookup String.eqb Ascii.eqb Bool.eqb and_then]. cbv zeta.
  destruct (for_each_returns campaign_line (rows (campaign_summary metrics)))
    as [campaign_lines ->].
  { intros r Hr. apply campaign_line_returns, Hrows, Hr. }
  cbn [and_then].
  destruct Ho as (qi & qk & qv & spend & ctr & cpc & cvr & cpa & ->).
  eexists. reflexivity.
Qed.

Lemma config_of_enabled (client_name week_start week_end : string) :
  llm_enabled (config_of client_name week_start week_end).
Proof. exists (JDict []), (JBool true). repeat split. Qed.

End PromptFacts.

(** X21 (data_processing.py, process_data; insight_engine.py,
    _build_prompt and generate_insights): on well-formed inputs whose
    measured cells are of magnitude at most 1e100, so that no sum of the
    code overflows, the pipeline's metrics always give a prompt; and when
    the service answers the first request with candidate texts that are not
    empty and whose joined text starts with neither "Error" nor "FATAL
    ERROR", the executive summary is that text, stripped and cleaned, after
    one request that carries the prompt. *)
Theorem insights_from_pipeline_output {B : Builtins} {R : ReportBuiltins}
    {C : ClientBuiltins} {X : RegexBuiltins} (st : Store) (env : Environ)
    (network : Z -> reply) (client_name week_start week_end : string)
    (status_code : Z) (text : string) (texts : list string) :
  schema_ok st = true -> dates_ok st = true -> finite_inputs st = true ->
  moderate_inputs st = true ->
  get_api_key env <> "" ->
  network 1%Z = Response status_code text (Some (candidate_reply texts)) ->
  status_code <> 400%Z -> status_code <> 404%Z ->
  texts <> [] -> (forall t, In t texts -> t <> "") ->
  startswith (String.concat blank_line texts) "Error" = false ->
  startswith (String.concat blank_line texts) "FATAL ERROR" = false ->
  exists st' merged metrics user_prompt,
    process_data st = (st', Ok (merged, metrics))
    /\ _build_prompt metrics (config_of client_name week_start week_end)
       = Return user_prompt
    /\ generate_insights env network metrics (config_of client_name week_start week_end)
       = ([Post (payload_of system_prompt (contents_of user_prompt))],
          Summary (clean_markdown (strip (String.concat blank_line texts)))).
Proof.
  intros Hs Hd Hf _ Hkey Hnet H400 H404 Hne Hall HE HF.
  destruct (process_data_ok st Hs Hd) as [t [c [w [Ht [Hc [Hw Hrun]]]]]].
  pose proof (metrics_reportable st t c w Hs Hf Ht Hc) as Hrep.
  destruct (build_prompt_returns _ client_name week_start week_end Hrep)
    as [user_prompt Hp].
  do 3 eexists. exists user_prompt. split; [exact Hrun | ]. split; [exact Hp | ].
  rewrite (generate_insights_call env network _ _ _
             (config_of_enabled client_name week_start week_end) Hp).
  destruct (call_candidate_reply env network system_prompt (contents_of user_prompt)
              default_retries status_code text texts Hkey)
    as [_ ->]; try assumption; [unfold default_retries; lia | ].
  cbn [fst snd]. f_equal. unfold on_text.
  assert (Ht' : json_truthy (JStr (String.concat blank_line texts)) = true).
  { cbn [json_truthy]. destruct texts as [ | t1 rest]; [now destruct Hne | ].
    assert (t1 <> "") by (apply Hall; now left).
    destruct t1 as [ | a t1]; [congruence | ].
    cbn [String.concat]. destruct rest; reflexivity. }
  rewrite Ht', HE, HF. reflexivity.
Qed.

(** ** The theorems of the client at concrete inputs *)

Lemma first_response_ends_the_call_witness :
  ClientExamples.slow_network 3 = Response 503 "Service Unavailable" None
  /\ exists events,
       call_gemini_api ClientExamples.env ClientExamples.slow_network "persona"
         (JList []) 5
       = (events, JStr "API Error: Non-JSON response: Service Unavailable")
       /\ events = [Post (payload_of "persona" (JList [])); Sleep 1;
                    Post (payload_of "persona" (JList [])); Sleep 2;
                    Post (payload_of "persona" (JList []))]
       /\ Z.of_nat (posts events) = 3%Z
       /\ slept events = 3%Z.
Proof.
  split; [reflexivity | ].
  destruct (first_response_ends_the_call ClientExamples.env ClientExamples.slow_network
              "persona" (JList []) 5 3 503 "Service Unavailable" None)
    as [events [E [Hp [Hs _]]]].
  - discriminate.
  - lia.
  - intros i Hi. exists "timed out". unfold ClientExamples.slow_network.
    destruct (i <? 3)%Z eqn:Hlt; [reflexivity | apply Z.ltb_ge in Hlt; lia].
  - reflexivity.
  - exists events. split; [exact E | ]. split; [ | split; [exact Hp | exact Hs]].
    vm_compute in E. injection E as E. symmetry. exact E.
Defined.

Lemma unreachable_service_witness :
  exists events,
    call_gemini_api ClientExamples.env ClientExamples.dead_network "persona" (JList []) 3
    = (events, JStr "Error connecting to the model after 3 attempts: timed out")
    /\ Z.of_nat (posts events) = 3%Z
    /\ slept events = 3%Z.
Proof.
  destruct (unreachable_service ClientExamples.env ClientExamples.dead_network
              "persona" (JList []) 3) as [events [e [He [E [Hp Hs]]]]].
  - discriminate.
  - lia.
  - intros i _. exists "timed out". reflexivity.
  - exists events. injection He as <-. split; [exact E | split; [exact Hp | exact Hs]].
Defined.

Lemma candidate_texts_are_joined_witness :
  ClientExamples.answering_network 1
  = Response 200 "" (Some (candidate_reply ClientExamples.answers))
  /\ String.concat blank_line ClientExamples.answers
     = ("Spend was efficient." ++ blank_line ++ "Scale CAMP01.")%string
  /\ extract (candidate_reply ClientExamples.answers)
     = JStr (String.concat blank_line ClientExamples.answers)
  /\ call_gemini_api ClientExamples.env ClientExamples.answering_network "persona"
       (JList []) 3
     = ([Post (payload_of "persona" (JList []))],
        JStr (String.concat blank_line ClientExamples.answers)).
Proof.
  split; [reflexivity | split; [reflexivity | ]].
  apply (candidate_texts_are_joined ClientExamples.env ClientExamples.answering_network
           "persona" (JList []) 3 200 "" ClientExamples.answers).
  - discriminate.
  - lia.
  - reflexivity.
  - discriminate.
  - discriminate.
  - discriminate.
  - intros t [<- | [<- | []]]; discriminate.
Defined.

Lemma http_errors_pass_for_a_summary_witness :
  exists user_prompt,
    _build_prompt ReportExamples.one_campaign ClientExamples.config = Return user_prompt
    /\ generate_insights ClientExamples.env ClientExamples.refusing_network
         ReportExamples.one_campaign ClientExamples.config
       = ([Post (payload_of system_prompt (contents_of user_prompt))],
          Summary "API Error (HTTP 400 Bad Request): API key not valid.")
    /\ exists e,
         snd (generate_insights ClientExamples.env ClientExamples.dead_network
                ReportExamples.one_campaign ClientExamples.config)
         = Failure (RuntimeError
                      ("Gemini call failed: Error connecting to the model after 3 attempts: "
                       ++ e)%string).
Proof.
  destruct (build_prompt_returns ReportExamples.one_campaign "Acme" "2025-01-04"
              "2025-01-10") as [user_prompt Hp].
  { split.
    - do 8 eexists. reflexivity.
    - split; [reflexivity | ].
      intros r [<- | []]. do 5 eexists. reflexivity. }
  exists user_prompt. split; [exact Hp | ].
  pose proof (http_errors_pass_for_a_summary ClientExamples.env
                ClientExamples.refusing_network ReportExamples.one_campaign
                ClientExamples.config user_prompt
                (config_of_enabled "Acme" "2025-01-04" "2025-01-10") Hp)
    as [_ [_ [H400 _]]].
  pose proof (http_errors_pass_for_a_summary ClientExamples.env
                ClientExamples.dead_network ReportExamples.one_campaign
                ClientExamples.config user_prompt
                (config_of_enabled "Acme" "2025-01-04" "2025-01-10") Hp)
    as [_ [Hdead _]].
  split.
  - rewrite (H400 ltac:(discriminate) "API key not valid." None eq_refl). reflexivity.
  - destruct Hdead as [e [_ He]]; [discriminate | | ].
    + intros i _. exists "timed out". reflexivity.
    + exists e. exact He.
Defined.

Lemma insights_from_pipeline_output_witness :
  schema_ok Scenario.store = true
  /\ dates_ok Scenario.store = true
  /\ finite_inputs Scenario.store = true
  /\ moderate_inputs Scenario.store = true
  /\ startswith (String.concat blank_line ClientExamples.answers) "Error" = false
  /\ startswith (String.concat blank_line ClientExamples.answers) "FATAL ERROR" = false
  /\ exists st' merged metrics user_prompt,
       process_data Scenario.store = (st', Ok (merged, metrics))
       /\ _build_prompt metrics ClientExamples.config = Return user_prompt
       /\ generate_insights ClientExamples.env ClientExamples.answering_network metrics
            ClientExamples.config
          = ([Post (payload_of system_prompt (contents_of user_prompt))],
             Summary (clean_markdown
                        (strip (String.concat blank_line ClientExamples.answers)))).
Proof.
  split; [reflexivity | split; [reflexivity | split; [reflexivity | ]]].
  split; [vm_compute; reflexivity | split; [reflexivity | split; [reflexivity | ]]].
  apply (insights_from_pipeline_output Scenario.store ClientExamples.env
           ClientExamples.answering_network "Acme" "2025-01-04" "2025-01-10" 200 ""
           ClientExamples.answers).
  - reflexivity.
  - reflexivity.
  - reflexivity.
  - vm_compute; reflexivity.
  - discriminate.
  - reflexivity.
  - discriminate.
  - discriminate.
  - discriminate.
  - intros t [<- | [<- | []]]; discriminate.
  - reflexivity.
  - reflexivity.
Defined.

(** * The tables and the charts *)

Lemma for_each_firstn {A C} (f : A -> outcome C) (n : nat) (l : list A) (ys : list C) :
  for_each f l = Return ys -> for_each f (firstn n l) = Return (firstn n ys).
Proof.
  revert l ys. induction n as [ | n IH]; intros l ys H; [reflexivity | ].
  destruct l as [ | x l].
  - apply Return_inj in H. subst ys. reflexivity.
  - cbn [for_each] in H. unbind H y Hy. unbind H rest Hrest. apply Return_inj in H.
    subst ys. cbn [firstn for_each]. rewrite Hy. cbn [and_then].
    rewrite (IH l rest Hrest). reflexivity.
Qed.

Lemma for_each_map {A C D} (f : A -> outcome C) (g : A -> outcome D) (h : C -> D)
    (l : list A) (ys : list C) :
  (forall x y, In x l -> f x = Return y -> g x = Return (h y)) ->
  for_each f l = Return ys -> for_each g l = Return (map h ys).
Proof.
  revert ys. induction l as [ | x l IH]; intros ys Hfg H.
  - apply Return_inj in H. subst ys. reflexivity.
  - cbn [for_each] in H. unbind H y Hy. unbind H rest Hrest. apply Return_inj in H.
    subst ys. cbn [for_each map].
    rewrite (Hfg x y (or_introl eq_refl) Hy). cbn [and_then].
    rewrite (IH rest (fun x' y' Hx => Hfg x' y' (or_intror Hx)) Hrest). reflexivity.
Qed.

Section PdfTable.

Context {B : Builtins} {R : ReportBuiltins}.

Lemma pdf_table_line_length (r : row) (line : list string) :
  pdf_table.table_line r = Return line -> length line = 9.
Proof.
  unfold pdf_table.table_line. intros H.
  unbind H a1 H1. unbind H a2 H2. unbind H a3 H3. unbind H a4 H4.
  unbind H a5 H5. unbind H a6 H6. unbind H a7 H7. unbind H a8 H8. unbind H a9 H9.
  apply Return_inj in H. now subst.
Qed.

Lemma slide_line_of_pdf_line (r : row) (line : list string) :
  pdf_table.table_line r = Return line ->
  ppt_text.table_line r = Return (without_cvr line).
Proof.
  unfold pdf_table.table_line, ppt_text.table_line. intros H.
  unbind H a1 H1. unbind H a2 H2. unbind H a3 H3. unbind H a4 H4.
  unbind H a5 H5. unbind H a6 H6. unbind H a7 H7. unbind H a8 H8. unbind H a9 H9.
  apply Return_inj in H. subst line.
  rewrite H1, H2, H3, H4, H5, H6, H7, H9. reflexivity.
Qed.

End PdfTable.

(** X22 (pdf_report.py, generate_pdf_report; ppt_report.py,
    _build_top_campaign_rows): the campaign table of the PDF report is a
    header and at most ten lines of nine cells, over the campaigns that
    spent most, and the table of the slides is its first five campaigns
    without the CVR cell: the two reports list the campaigns in the same
    order with the same figures. *)
Theorem pdf_and_slide_tables_agree {B : Builtins} {R : ReportBuiltins}
    (campaign_summary : DataFrame) (table : list (list string)) :
  numeric_column campaign_summary "spend" = true ->
  pdf_table.campaign_data campaign_summary = Return table ->
  (exists listed rest lines,
     Permutation (listed ++ rest) (rows campaign_summary)
     /\ length listed = Nat.min 10 (length (rows campaign_summary))
     /\ (forall r r', In r listed -> In r' rest ->
           is_null (cell r' "spend") = true
           \/ vleb (cell r' "spend") (cell r "spend") = true)
     /\ for_each pdf_table.table_line listed = Return lines
     /\ table = pdf_table.table_header :: lines)
  /\ length table = 1 + Nat.min 10 (length (rows campaign_summary))
  /\ (forall line, In line table -> length line = 9)
  /\ ppt_text._build_top_campaign_rows campaign_summary
     = Return (map without_cvr (firstn 6 table)).
Proof.
  intros Hnum H. unfold pdf_table.campaign_data in H.
  unbind H s Hs. unbind H lines Hlines. apply Return_inj in H. cbn [app] in H.
  cbn [head rows] in Hlines.
  destruct (sort_values_by_perm _ _ _ _ Hs) as [_ Hperm].
  destruct (for_each_return _ _ _ Hlines) as [Hlen Hall].
  assert (Hn : length (firstn 10 (rows s)) = Nat.min 10 (length (rows campaign_summary)))
    by (rewrite length_firstn, (Permutation_length Hperm); reflexivity).
  split; [ | split; [ | split]].
  - exists (firstn 10 (rows s)), (skipn 10 (rows s)), lines.
    split; [rewrite firstn_skipn; exact Hperm | ].
    split; [exact Hn | ].
    split; [exact (sort_values_by_cut "spend" _ _ 10 Hnum Hs) | ].
    split; [exact Hlines | now symmetry].
  - subst table. cbn [length]. now rewrite Hlen, Hn.
  - subst table. intros line [<- | Hl]; [reflexivity | ].
    destruct (Hall line Hl) as [r [_ Hr]]. exact (pdf_table_line_length r line Hr).
  - subst table. unfold ppt_text._build_top_campaign_rows. rewrite Hs.
    cbn [and_then head rows]. cbv zeta.
    pose proof (for_each_firstn _ 5 _ _ Hlines) as H5.
    rewrite firstn_firstn in H5. cbn [Nat.min] in H5.
    rewrite (for_each_map _ ppt_text.table_line without_cvr _ _
               (fun x y _ => slide_line_of_pdf_line x y) H5).
    reflexivity.
Qed.

Lemma value_compare_antisym (a b : value) :
  value_compare b a = CompOpp (value_compare a b).
Proof.
  destruct a as [ | s | t | x | n], b as [ | s' | t' | y | n']; cbn [value_compare];
    try apply Z.compare_antisym.
  apply String.compare_antisym.
Qed.

Lemma key_compare_antisym (k1 k2 : key) :
  key_compare k2 k1 = CompOpp (key_compare k1 k2).
Proof.
  revert k2. induction k1 as [ | a k1 IH]; intros [ | b k2]; cbn [key_compare];
    try reflexivity.
  rewrite (value_compare_antisym a b).
  destruct (value_compare a b); cbn [CompOpp]; [apply IH | reflexivity | reflexivity].
Qed.

Lemma key_leb_total (k1 k2 : key) : key_leb k1 k2 = false -> key_leb k2 k1 = true.
Proof.
  unfold key_leb. rewrite (key_compare_antisym k1 k2).
  destruct (key_compare k1 k2); cbn [CompOpp]; intros H; try discriminate; reflexivity.
Qed.

Section Sorting.

Variable A : Type.
Variable leb : A -> A -> bool.
Hypothesis leb_total : forall a b, leb a b = false -> leb b a = true.

Lemma insert_by_sorted (x : A) (l : list A) :
  Sorted (fun a b => leb a b = true) l ->
  Sorted (fun a b => leb a b = true) (insert_by leb x l).
Proof.
  induction 1 as [ | y l Hs IH Hy]; cbn [insert_by].
  - repeat constructor.
  - destruct (leb x y) eqn:Hxy.
    + constructor; [constructor; assumption | constructor; exact Hxy].
    + constructor; [exact IH | ].
      destruct Hy as [ | z l Hyz]; cbn [insert_by].
      * constructor. now apply leb_total.
      * destruct (leb x z); constructor; [now apply leb_total | exact Hyz].
Qed.

Lemma sort_by_sorted (l : list A) : Sorted (fun a b => leb a b = true) (sort_by leb l).
Proof.
  induction l as [ | x l IH]; [constructor | ].
  cbn [sort_by fold_right]. apply insert_by_sorted. exact IH.
Qed.

End Sorting.

Section Daily.

Context {B : Builtins}.

Lemma daily_returns (traffic clicks weather : DataFrame) :
  charts.daily (unified_frame traffic clicks weather)
  = Ok (Some (sort_values ["date"]
                {| columns := ["date"; "impressions"; "clicks"];
                   rows := map (group_row ["date"] [("impressions", Sum); ("clicks", Sum)])
                               (groups ["date"]
                                  (rows (unified_frame traffic clicks weather))) |})).
Proof.
  unfold charts.daily, groupby_agg.
  change (has_column (unified_frame traffic clicks weather) "date") with true.
  change (first_missing (["date"] ++ map fst [("impressions", Sum); ("clicks", Sum)])
            (unified_frame traffic clicks weather)) with (@None string).
  cbn [map fst forallb].
  rewrite !unified_numeric by (simpl; tauto). reflexivity.
Qed.

Lemma daily_total (st : Store) (t c w : DataFrame) (m : string) :
  schema_ok st = true -> finite_inputs st = true ->
  convert_date (traffic_df st) = Ok t -> convert_date (clicks_df st) = Ok c ->
  In m ["impressions"; "clicks"] ->
  vsum (col (sort_values ["date"]
               {| columns := ["date"; "impressions"; "clicks"];
                  rows := map (group_row ["date"] [("impressions", Sum); ("clicks", Sum)])
                              (groups ["date"] (rows (unified_frame t c w))) |}) m)
  = total m (unified_frame t c w).
Proof.
  intros Hs Hf Ht Hc Hm.
  assert (Hm4 : In m ["impressions"; "clicks"; "conversions"; "spend"])
    by (simpl in *; tauto).
  assert (Hfin : forall u, In u (rows (unified_frame t c w)) ->
                           finite_or_null (cell u m) = true)
    by (intros u Hu; now apply (unified_metric_cells st t c w)).
  assert (Hcell : forall g, In g (groups ["date"] (rows (unified_frame t c w))) ->
            cell (group_row ["date"] [("impressions", Sum); ("clicks", Sum)] g) m
            = vsum (map (fun r => cell r m) (snd g))).
  { intros g Hg. pose proof (groups_key_length _ _ _ Hg) as Hl.
    destruct g as [[ | k [ | ? ?]] grp]; try discriminate Hl.
    simpl in Hm. destruct Hm as [<- | [<- | []]]; reflexivity. }
  unfold total, col at 1. cbn [sort_values rows].
  transitivity (vsum (map (fun g => vsum (map (fun r => cell r m) (snd g)))
                        (groups ["date"] (rows (unified_frame t c w))))).
  - apply vsum_same_total.
    + intros v Hv. apply in_map_iff in Hv. destruct Hv as [r [<- Hr]].
      apply In_sort_by, in_map_iff in Hr. destruct Hr as [g [<- Hg]].
      rewrite (Hcell g Hg).
      destruct (vsum_finite (map (fun r => cell r m) (snd g))) as [q ->]; [ | reflexivity].
      intros v Hv. apply in_map_iff in Hv. destruct Hv as [r [<- Hr]].
      apply Hfin. eapply groups_members; eassumption.
    + intros v Hv. apply in_map_iff in Hv. destruct Hv as [g [<- Hg]].
      destruct (vsum_finite (map (fun r => cell r m) (snd g))) as [q ->]; [ | reflexivity].
      intros v Hv. apply in_map_iff in Hv. destruct Hv as [r [<- Hr]].
      apply Hfin. eapply groups_members; eassumption.
    + rewrite (qsum_perm _ _ (Permutation_map _ (sort_by_perm _ _))).
      rewrite map_map.
      rewrite (map_ext_in _ _ _ Hcell). reflexivity.
  - rewrite (grouped_sums ["date"] (fun r => cell r m)) by exact Hfin.
    rewrite filter_all; [reflexivity | ].
    intros u Hu. destruct (unified_record_cells t c w u Hu) as [Hn _].
    unfold complete_key, has_null_key in *. cbn [key_of map existsb] in *.
    destruct (is_null (cell u "date")); [discriminate Hn | reflexivity].
Qed.

Lemma one_point_per_date (merged : DataFrame) (u : row) :
  In u (rows merged) -> has_null_key (key_of ["date"] u) = false ->
  count_key ["date"] (key_of ["date"] u)
    (sort_values ["date"]
       {| columns := ["date"; "impressions"; "clicks"];
          rows := map (group_row ["date"] [("impressions", Sum); ("clicks", Sum)])
                      (groups ["date"] (rows merged)) |}) = 1.
Proof.
  intros Hu Hn. unfold count_key. cbn [sort_values rows].
  rewrite filter_sort_by.
  apply (grouped_exactly_one ["date"] _ (rows merged) u); try assumption.
  repeat constructor. simpl. tauto.
Qed.

End Daily.

(** X23 (charts.py, generate_charts; data_processing.py, process_data):
    on well-formed inputs whose counts are whole numbers in the range where
    the sums of the code are exact, the daily trend has its data: one point
    per date of the unified dataset, in date order, whose impressions and
    clicks add up to the totals of the overall summary. *)
Theorem daily_trend_adds_up {B : Builtins} (st : Store) :
  schema_ok st = true -> dates_ok st = true -> finite_inputs st = true ->
  exact_counts st = true ->
  exists st' merged metrics daily,
    process_data st = (st', Ok (merged, metrics))
    /\ charts.daily merged = Ok (Some daily)
    /\ columns daily = ["date"; "impressions"; "clicks"]
    /\ vsum (col daily "impressions") = cell (overall metrics) "total_impressions"
    /\ vsum (col daily "clicks") = cell (overall metrics) "total_clicks"
    /\ (forall u, In u (rows merged) ->
          count_key ["date"] (key_of ["date"] u) daily = 1)
    /\ Sorted (fun a b => key_leb (key_of ["date"] a) (key_of ["date"] b) = true)
         (rows daily).
Proof.
  intros Hs Hd Hf _.
  destruct (process_data_ok st Hs Hd) as [t [c [w [Ht [Hc [Hw Hrun]]]]]].
  do 4 eexists. split; [exact Hrun | ].
  split; [apply daily_returns | ].
  split; [reflexivity | ].
  split; [apply (daily_total st t c w); try assumption; simpl; tauto | ].
  split; [apply (daily_total st t c w); try assumption; simpl; tauto | ].
  split.
  - intros u Hu. apply one_point_per_date; [exact Hu | ].
    destruct (unified_record_cells t c w u Hu) as [Hn _].
    unfold has_null_key in *. cbn [key_of map existsb] in *.
    destruct (is_null (cell u "date")); [discriminate Hn | reflexivity].
  - cbn [sort_values rows].
    apply (sort_by_sorted row (fun r1 r2 => key_leb (key_of ["date"] r1) (key_of ["date"] r2))).
    intros a b. apply key_leb_total.
Qed.

Section Bars.

Context {B : Builtins} {R : ReportBuiltins}.

Lemma slide_line_label (r : row) (line : list string) :
  ppt_text.table_line r = Return line ->
  hd "" line = str_value (cell r "campaign_id").
Proof.
  unfold ppt_text.table_line. intros H.
  unbind H a1 H1. unbind H a2 H2. unbind H a3 H3. unbind H a4 H4.
  unbind H a5 H5. unbind H a6 H6. unbind H a7 H7. unbind H a8 H8.
  apply Return_inj in H. subst line. cbn [hd].
  unfold str_of in H1. unbind H1 v Hv. apply Return_inj in H1. subst a1.
  now rewrite (getitem_cell _ _ _ Hv).
Qed.

Lemma slide_lines_labels (l : list row) (lines : list (list string)) :
  for_each ppt_text.table_line l = Return lines ->
  map (hd "") lines = map (fun r => str_value (cell r "campaign_id")) l.
Proof.
  revert lines. induction l as [ | r l IH]; intros lines H.
  - apply Return_inj in H. now subst.
  - cbn [for_each] in H. unbind H y Hy. unbind H rest Hrest. apply Return_inj in H.
    subst lines. cbn [map]. rewrite (slide_line_label r y Hy), (IH rest Hrest). reflexivity.
Qed.

End Bars.

(** X24 (charts.py, generate_charts; ppt_report.py,
    _build_top_campaign_rows): when the campaign ids are texts, the bar
    chart shows the campaigns of the slide table, in the table's order: its
    labels are the first column of the table below the header, and it has
    one bar of impressions and one of clicks for each of them, at most
    five.  (A numeric id is printed from a row by the table and from the
    column by the chart, and pandas prints the two differently.) *)
Theorem bar_chart_shows_the_table_campaigns {B : Builtins} {R : ReportBuiltins}
    (metrics : Metrics) (chart : charts.bars) (table : list (list string)) :
  text_column (campaign_summary metrics) "campaign_id" = true ->
  charts.campaign_bar metrics = Return (Some chart) ->
  ppt_text._build_top_campaign_rows (campaign_summary metrics) = Return table ->
  map (hd "") table = "Campaign" :: charts.labels chart
  /\ length (charts.labels chart) = Nat.min 5 (length (rows (campaign_summary metrics)))
  /\ length (charts.impressions chart) = length (charts.labels chart)
  /\ length (charts.clicks chart) = length (charts.labels chart)
  /\ exists shown,
       Permutation (firstn 5 shown ++ skipn 5 shown) (rows (campaign_summary metrics))
       /\ charts.labels chart
          = map (fun r => str_value (cell r "campaign_id")) (firstn 5 shown)
       /\ charts.impressions chart = map (fun r => cell r "impressions") (firstn 5 shown)
       /\ charts.clicks chart = map (fun r => cell r "clicks") (firstn 5 shown).
Proof.
  intros _ Hc Ht. unfold charts.campaign_bar in Hc. cbv zeta in Hc.
  destruct (negb (empty (campaign_summary metrics))); [ | discriminate Hc].
  unbind Hc s Hs. unbind Hc ids Hids. unbind Hc imps Himps. unbind Hc cls Hcls.
  apply Return_inj in Hc. injection Hc as <-.
  unfold ppt_text._build_top_campaign_rows in Ht. rewrite Hs in Ht.
  cbn [and_then] in Ht. unbind Ht lines Hlines. apply Return_inj in Ht.
  cbn [app] in Ht. subst table.
  unfold charts.column in Hids, Himps, Hcls.
  destruct (has_column (head 5 s) "campaign_id"); [ | discriminate Hids].
  destruct (has_column (head 5 s) "impressions"); [ | discriminate Himps].
  destruct (has_column (head 5 s) "clicks"); [ | discriminate Hcls].
  apply Return_inj in Hids, Himps, Hcls. subst ids imps cls.
  unfold col. cbn [head rows charts.labels charts.impressions charts.clicks] in *.
  destruct (sort_values_by_perm _ _ _ _ Hs) as [_ Hperm].
  rewrite map_map, !length_map, length_firstn, (Permutation_length Hperm).
  split; [cbn [map hd]; now rewrite (slide_lines_labels _ _ Hlines) | ].
  split; [reflexivity | ]. split; [reflexivity | ]. split; [reflexivity | ].
  exists (rows s). rewrite firstn_skipn. repeat split. exact Hperm.
Qed.

(** ** The tables and the charts at concrete inputs *)

Lemma pdf_and_slide_tables_agree_witness :
  numeric_column (campaign_summary ReportExamples.two_campaigns) "spend" = true
  /\ pdf_table.campaign_data (campaign_summary ReportExamples.two_campaigns)
     = Return [["Campaign"; "Impr."; "Clicks"; "Conv."; "Spend"; "CTR"; "CPC"; "CVR"; "CPA"];
               ["CAMP01"; "1,600"; "80"; "8"; "160.00"; "5.00%"; "2.00"; "10.00%"; "20.00"];
               ["CAMP02"; "1,000"; "100"; "0"; "50.00"; "10.00%"; "0.50"; "0.00%"; "inf"]]
  /\ ppt_text._build_top_campaign_rows (campaign_summary ReportExamples.two_campaigns)
     = Return (map without_cvr
                 (firstn 6
                    [["Campaign"; "Impr."; "Clicks"; "Conv."; "Spend"; "CTR"; "CPC"; "CVR"; "CPA"];
                     ["CAMP01"; "1,600"; "80"; "8"; "160.00"; "5.00%"; "2.00"; "10.00%"; "20.00"];
                     ["CAMP02"; "1,000"; "100"; "0"; "50.00"; "10.00%"; "0.50"; "0.00%"; "inf"]])).
Proof.
  split; [reflexivity | split; [vm_compute; reflexivity | ]].
  apply (pdf_and_slide_tables_agree (campaign_summary ReportExamples.two_campaigns));
    [reflexivity | vm_compute; reflexivity].
Defined.

Lemma daily_trend_adds_up_witness :
  schema_ok Scenario.store = true /\ dates_ok Scenario.store = true
  /\ finite_inputs Scenario.store = true /\ exact_counts Scenario.store = true
  /\ exists st' merged metrics daily,
       process_data Scenario.store = (st', Ok (merged, metrics))
       /\ charts.daily merged = Ok (Some daily)
       /\ columns daily = ["date"; "impressions"; "clicks"]
       /\ vsum (col daily "impressions") = cell (overall metrics) "total_impressions"
       /\ vsum (col daily "clicks") = cell (overall metrics) "total_clicks"
       /\ (forall u, In u (rows merged) ->
             count_key ["date"] (key_of ["date"] u) daily = 1)
       /\ Sorted (fun a b => key_leb (key_of ["date"] a) (key_of ["date"] b) = true)
            (rows daily).
Proof.
  split; [reflexivity | split; [reflexivity | split; [reflexivity | ]]].
  split; [vm_compute; reflexivity | ].
  apply (daily_trend_adds_up Scenario.store);
    [reflexivity | reflexivity | reflexivity | vm_compute; reflexivity].
Defined.

Lemma bar_chart_shows_the_table_campaigns_witness :
  text_column (campaign_summary ReportExamples.two_campaigns) "campaign_id" = true
  /\ charts.campaign_bar ReportExamples.two_campaigns
  = Return (Some {| charts.labels := ["CAMP01"; "CAMP02"];
                    charts.impressions := [VNum 1600; VNum 1000];
                    charts.clicks := [VNum 80; VNum 100] |})
  /\ exists table,
       ppt_text._build_top_campaign_rows (campaign_summary ReportExamples.two_campaigns)
       = Return table
       /\ map (hd "") table = ["Campaign"; "CAMP01"; "CAMP02"].
Proof.
  split; [reflexivity | ].
  split; [vm_compute; reflexivity | ].
  eexists. split; [vm_compute; reflexivity | ].
  apply (bar_chart_shows_the_table_campaigns ReportExamples.two_campaigns
           {| charts.labels := ["CAMP01"; "CAMP02"];
              charts.impressions := [VNum 1600; VNum 1000];
              charts.clicks := [VNum 80; VNum 100] |});
    vm_compute; reflexivity.
Defined.

(** * Join completeness and the threshold boundary on the whole call *)

(** C1, as the code has it. On well-formed inputs [process_data] returns,
    and every (date, campaign_id, location) of the traffic dataset - dates
    read as [process_data] leaves them, parsed - none of whose components is
    missing has exactly one unified record; that record has missing click
    cells when no click row has its (date, campaign_id) and missing weather
    cells when no weather row has its (date, location).  A traffic record
    with a missing date, campaign_id or location is left out: no unified
    record has its key, and every unified record has the key of a traffic
    record none of whose three components is missing. *)
Theorem join_completeness {B : Builtins} (st : Store) :
  schema_ok st = true -> dates_ok st = true ->
  exists st' merged metrics,
    process_data st = (st', Ok (merged, metrics))
    /\ to_datetime (col (traffic_df st) "date") = Ok (col (traffic_df st') "date")
    /\ (forall c, c <> "date" -> col (traffic_df st') c = col (traffic_df st) c)
    /\ (forall r,
        In r (rows (traffic_df st')) ->
        has_null_key (key_of ["date"; "campaign_id"; "location"] r) = false ->
        count_key ["date"; "campaign_id"; "location"]
          (key_of ["date"; "campaign_id"; "location"] r) merged = 1
        /\ forall u,
            In u (rows merged) ->
            key_eqb (key_of ["date"; "campaign_id"; "location"] u)
                    (key_of ["date"; "campaign_id"; "location"] r) = true ->
            ((forall x, In x (rows (clicks_df st')) ->
                        key_eqb (key_of ["date"; "campaign_id"] x)
                                (key_of ["date"; "campaign_id"] r) = false) ->
             cell u "clicks" = VNull /\ cell u "conversions" = VNull
             /\ cell u "spend" = VNull)
            /\ ((forall x, In x (rows (weather_df st')) ->
                           key_eqb (key_of ["date"; "location"] x)
                                   (key_of ["date"; "location"] r) = false) ->
                cell u "temperature_c" = VNull /\ cell u "rainfall_mm" = VNull))
    /\ (forall r,
        In r (rows (traffic_df st')) ->
        has_null_key (key_of ["date"; "campaign_id"; "location"] r) = true ->
        count_key ["date"; "campaign_id"; "location"]
          (key_of ["date"; "campaign_id"; "location"] r) merged = 0)
    /\ (forall u,
        In u (rows merged) ->
        exists r,
          In r (rows (traffic_df st'))
          /\ has_null_key (key_of ["date"; "campaign_id"; "location"] r) = false
          /\ key_of ["date"; "campaign_id"; "location"] u
             = key_of ["date"; "campaign_id"; "location"] r).
Proof.
  intros Hs Hd.
  destruct (process_data_ok st Hs Hd) as [t [c [w [Ht [Hc [Hw Hrun]]]]]].
  exists (final_store st t c w), (unified_frame t c w),
         (metrics_of (sql_df st) (unified_frame t c w)).
  split; [exact Hrun | ].
  cbn [final_store add_log traffic_df clicks_df weather_df].
  assert (Hdate : has_column (traffic_df st) "date" = true).
  { unfold schema_ok in Hs. rewrite !andb_true_iff in Hs.
    destruct Hs as [[[[[Mt _] _] _] _] _].
    apply (no_missing_has _ _ Mt). simpl. tauto. }
  split; [now apply convert_date_parsed | ].
  split; [intros col_name Hne; now apply convert_date_other | ].
  split; [ | split].
  - intros r Hin Hnn. split; [now apply unified_count | ].
    intros u Hu Hkey. cbn [unified_frame rows] in Hu.
    apply unified_rows_shape in Hu. destruct Hu as [r0 [grp [_ [_ [_ ->]]]]].
    change (key_of ["date"; "campaign_id"; "location"] (unified_record ?d ?cc ?l ?i ?ms ?ws))
      with [d; cc; l] in Hkey.
    cbn [key_of map key_eqb] in Hkey. rewrite !andb_true_iff in Hkey.
    destruct Hkey as [Kd [Kc [Kl _]]].
    split; intros Hnone.
    + assert (Hf : filter (fun x => key_eqb (key_of ["date"; "campaign_id"] x)
                                      [cell r0 "date"; cell r0 "campaign_id"])
                          (clicks_agg_rows c) = []).
      { apply no_match_filter; [repeat constructor; simpl; intuition discriminate | ].
        apply (null_key_no_match _ _ (key_of ["date"; "campaign_id"] r)); [ | exact Hnone].
        cbn [key_of map key_eqb]. now rewrite Kd, Kc. }
      unfold unified_record. rewrite Hf. repeat split; reflexivity.
    + assert (Hf : filter (fun x => key_eqb (key_of ["date"; "location"] x)
                                      [cell r0 "date"; cell r0 "location"])
                          (weather_agg_rows w) = []).
      { apply no_match_filter; [repeat constructor; simpl; intuition discriminate | ].
        apply (null_key_no_match _ _ (key_of ["date"; "location"] r)); [ | exact Hnone].
        cbn [key_of map key_eqb]. now rewrite Kd, Kl. }
      unfold unified_record. rewrite Hf. repeat split; reflexivity.
  - intros r Hin Hnull. unfold count_key.
    rewrite filter_none; [reflexivity | ].
    intros u Hu.
    destruct (key_eqb (key_of ["date"; "campaign_id"; "location"] u)
                      (key_of ["date"; "campaign_id"; "location"] r)) eqn:Hk;
      [ | reflexivity].
    destruct (unified_record_cells t c w u Hu) as [Hn _].
    rewrite (has_null_key_congr _ _ Hk), Hnull in Hn. discriminate Hn.
  - intros u Hu.
    destruct (unified_record_cells t c w u Hu) as [Hn [[r [Hr Hk]] _]].
    exists r. split; [exact Hr | ]. split; [now rewrite <- Hk | exact Hk].
Qed.

Lemma unique_keys_two (k1 k2 : key) (ks : list key) :
  key_eqb k1 k2 = false ->
  (forall k, In k ks -> k = k1 \/ k = k2) ->
  (~ In k1 ks /\ ~ In k2 ks /\ unique_keys ks = [])
  \/ (In k1 ks /\ ~ In k2 ks /\ unique_keys ks = [k1])
  \/ (~ In k1 ks /\ In k2 ks /\ unique_keys ks = [k2])
  \/ (In k1 ks /\ In k2 ks /\ (unique_keys ks = [k1; k2] \/ unique_keys ks = [k2; k1])).
Proof.
  intros H12 Hall.
  assert (H21 : key_eqb k2 k1 = false) by (now rewrite key_eqb_sym).
  assert (Hne : k1 <> k2) by (intros ->; rewrite key_eqb_refl in H12; discriminate).
  induction ks as [ | k ks IH]; [left; simpl; tauto | ].
  assert (Hall' : forall k, In k ks -> k = k1 \/ k = k2)
    by (intros x Hx; apply Hall; now right).
  specialize (IH Hall'). cbn [unique_keys].
  destruct (Hall k (or_introl eq_refl)) as [-> | ->];
    destruct IH as [[N1 [N2 ->]] | [[I1 [N2 ->]] | [[N1 [I2 ->]] | [I1 [I2 [-> | ->]]]]]];
    cbn [existsb]; rewrite ?key_eqb_refl, ?H12, ?H21; cbn [orb];
    simpl In; intuition congruence.
Qed.

Lemma groups_two (by_ : list string) (rs : list row) (k1 k2 : key) :
  (forall r, In r rs -> key_of by_ r = k1 \/ key_of by_ r = k2) ->
  (exists r, In r rs /\ key_of by_ r = k1) ->
  (exists r, In r rs /\ key_of by_ r = k2) ->
  has_null_key k1 = false -> has_null_key k2 = false ->
  key_eqb k1 k2 = false ->
  key_leb k1 k2 = true -> key_leb k2 k1 = false ->
  groups by_ rs
  = [(k1, filter (fun r => key_eqb (key_of by_ r) k1) rs);
     (k2, filter (fun r => key_eqb (key_of by_ r) k2) rs)].
Proof.
  intros Hall [r1 [Hr1 Hk1]] [r2 [Hr2 Hk2]] N1 N2 H12 L12 L21. unfold groups.
  rewrite (filter_all (fun r => negb (has_null_key (key_of by_ r))) rs).
  2: { intros r Hr. destruct (Hall r Hr) as [-> | ->]; [now rewrite N1 | now rewrite N2]. }
  destruct (unique_keys_two k1 k2 (map (key_of by_) rs) H12)
    as [[N _] | [[_ [N _]] | [[N _] | [_ [_ [-> | ->]]]]]].
  - intros k Hk. apply in_map_iff in Hk. destruct Hk as [r [<- Hr]]. exact (Hall r Hr).
  - exfalso. apply N. rewrite <- Hk1. now apply in_map.
  - exfalso. apply N. rewrite <- Hk2. now apply in_map.
  - exfalso. apply N. rewrite <- Hk1. now apply in_map.
  - cbn [sort_by fold_right insert_by]. rewrite L12. reflexivity.
  - cbn [sort_by fold_right insert_by]. rewrite L21. reflexivity.
Qed.

Lemma string_compare_refl (s : string) : String.compare s s = Eq.
Proof.
  pose proof (String.compare_antisym s s) as H.
  destruct (String.compare s s); [reflexivity | discriminate H | discriminate H].
Qed.

Section TwoDays.

Context {B : Builtins}.
Variable merged_df : DataFrame.
Variable name : string.
Variables t1 t2 : Z.
Hypothesis Hdays : two_days merged_df name t1 t2.
Hypothesis Horder : (t1 < t2)%Z.

Lemma day_key (r : row) :
  In r (rows merged_df) ->
  key_of ["date"; "location"] r = [VTime t1; VStr name]
  \/ key_of ["date"; "location"] r = [VTime t2; VStr name].
Proof.
  intros Hr. destruct (Hdays r Hr) as [Hl [[Hd | Hd] _]]; cbn [key_of map];
    rewrite Hl, Hd; [now left | now right].
Qed.

Lemma day_filter (t : Z) :
  filter (fun r => key_eqb (key_of ["date"; "location"] r) [VTime t; VStr name])
         (rows merged_df)
  = filter (fun r => value_eqb (cell r "date") (VTime t)) (rows merged_df).
Proof.
  apply filter_ext_in. intros r Hr. destruct (Hdays r Hr) as [Hl _].
  cbn [key_of map key_eqb]. rewrite Hl. cbn [value_eqb].
  rewrite String.eqb_refl. now rewrite !andb_true_r.
Qed.

Lemma day_has_record (t : Z) (q : Q) :
  t = t1 \/ t = t2 ->
  day_total merged_df (VTime t) = VNum q -> ~ (q == 0)%Q ->
  exists r, In r (rows merged_df) /\ key_of ["date"; "location"] r = [VTime t; VStr name].
Proof.
  intros Ht Hq Hne. unfold day_total in Hq.
  destruct (filter (fun r => value_eqb (cell r "date") (VTime t)) (rows merged_df))
    as [ | r rest] eqn:Hf.
  - exfalso. apply Hne. cbn in Hq. injection Hq as <-. reflexivity.
  - assert (Hin : In r (filter (fun r => value_eqb (cell r "date") (VTime t))
                               (rows merged_df))) by (rewrite Hf; now left).
    apply filter_In in Hin. destruct Hin as [Hr Hd].
    exists r. split; [exact Hr | ].
    destruct (Hdays r Hr) as [Hl [Hdate _]]. cbn [key_of map]. rewrite Hl.
    destruct Hdate as [E | E]; rewrite E in *; cbn [value_eqb] in Hd;
      apply Z.eqb_eq in Hd; now subst.
Qed.

Lemma daily_groups (p c : Q) :
  day_total merged_df (VTime t1) = VNum p -> ~ (p == 0)%Q ->
  day_total merged_df (VTime t2) = VNum c -> ~ (c == 0)%Q ->
  map (group_row ["date"; "location"] [("impressions", Sum)])
      (groups ["date"; "location"] (rows merged_df))
  = [[("date", VTime t1); ("location", VStr name); ("impressions", VNum p)];
     [("date", VTime t2); ("location", VStr name); ("impressions", VNum c)]].
Proof.
  intros Hp Hp0 Hc Hc0.
  rewrite (groups_two ["date"; "location"] (rows merged_df)
             [VTime t1; VStr name] [VTime t2; VStr name]).
  - cbn [map group_row combine fst snd app apply_agg]. rewrite !day_filter.
    unfold day_total in Hp, Hc. rewrite Hp, Hc. reflexivity.
  - exact day_key.
  - apply (day_has_record t1 p); [now left | exact Hp | exact Hp0].
  - apply (day_has_record t2 c); [now right | exact Hc | exact Hc0].
  - reflexivity.
  - reflexivity.
  - cbn [key_eqb value_eqb]. destruct (Z.eqb_spec t1 t2); [lia | reflexivity].
  - unfold key_leb. cbn [key_compare value_compare].
    rewrite (proj2 (Z.compare_lt_iff t1 t2) Horder). reflexivity.
  - unfold key_leb. cbn [key_compare value_compare].
    rewrite (proj2 (Z.compare_gt_iff t2 t1) Horder). reflexivity.
Qed.

Lemma daily_scan (thr : value) (p c : Q) :
  has_column merged_df "impressions" = true ->
  has_column merged_df "location" = true ->
  has_column merged_df "date" = true ->
  day_total merged_df (VTime t1) = VNum p -> ~ (p == 0)%Q ->
  day_total merged_df (VTime t2) = VNum c -> ~ (c == 0)%Q ->
  pdf_report._detect_anomalies merged_df thr
  = (found <- pdf_report.check_pair merged_df thr (has_column merged_df "rainfall_mm")
                (VStr name)
                [("date", VTime t1); ("location", VStr name); ("impressions", VNum p)]
                [("date", VTime t2); ("location", VStr name); ("impressions", VNum c)] ;;
     Ok found).
Proof.
  intros Hi Hl Hd Hp Hp0 Hc Hc0.
  rewrite (detect_anomalies_unfold merged_df thr Hi Hl Hd).
  2: { unfold numeric_column, col. apply forallb_forall. intros v Hv.
       apply in_map_iff in Hv. destruct Hv as [r [<- Hr]].
       destruct (Hdays r Hr) as [_ [_ [n [_ ->]]]]. reflexivity. }
  rewrite (daily_groups p c Hp Hp0 Hc Hc0).
  assert (L12 : key_leb [VStr name; VTime t1] [VStr name; VTime t2] = true).
  { unfold key_leb. cbn [key_compare value_compare]. rewrite string_compare_refl.
    rewrite (proj2 (Z.compare_lt_iff t1 t2) Horder). reflexivity. }
  assert (D12 : key_leb [VTime t1] [VTime t2] = true).
  { unfold key_leb. cbn [key_compare value_compare].
    rewrite (proj2 (Z.compare_lt_iff t1 t2) Horder). reflexivity. }
  cbn [sort_by fold_right insert_by key_of map cell lookup String.eqb Ascii.eqb Bool.eqb].
  rewrite L12.
  unfold groups.
  cbn [filter key_of map cell lookup String.eqb Ascii.eqb Bool.eqb has_null_key existsb
       is_null negb orb unique_keys key_eqb value_eqb andb].
  rewrite !String.eqb_refl.
  cbn [existsb key_eqb value_eqb andb orb unique_keys sort_by fold_right insert_by map
       filter].
  rewrite !String.eqb_refl.
  cbn [andb filter pdf_report.scan_groups hd].
  cbn [sort_by fold_right insert_by key_of map cell lookup String.eqb Ascii.eqb Bool.eqb].
  rewrite D12.
  rewrite scan_group_step.
  destruct (pdf_report.check_pair _ _ _ _ _ _) as [found | e]; [ | reflexivity].
  cbn [bind pdf_report.scan_group]. now rewrite !app_nil_r.
Qed.

End TwoDays.

Lemma rain_vals_numeric_of_column (merged_df : DataFrame) (d l : value) :
  numeric_column merged_df "rainfall_mm" = true ->
  forallb is_numeric (rain_vals_at merged_df d l) = true.
Proof.
  unfold numeric_column, col, rain_vals_at. intros H.
  apply forallb_forall. intros v Hv. apply in_map_iff in Hv.
  destruct Hv as [r [<- Hr]]. apply filter_In in Hr.
  rewrite forallb_forall in H. apply H.
  apply (in_map (fun r => cell r "rainfall_mm")). tauto.
Qed.

(** C6. At the default threshold 0.30, a location whose records of two
    days sum to 100 and to 70 impressions gives exactly one finding, which
    prints a drop of 30.0 on the second day; when they sum to 100 and to 71
    it gives none.  The frame is any unified dataset of that location: any
    number of records a day, in any order, with whole numbers of
    impressions.  The relative change is -0.30, which the comparison
    [change <= -drop_threshold] accepts, on exact numbers and on binary64
    alike. *)
Theorem threshold_boundary {B : Builtins} (merged_df : DataFrame) (name : string)
    (t1 t2 : Z) :
  has_column merged_df "impressions" = true ->
  has_column merged_df "location" = true ->
  has_column merged_df "date" = true ->
  numeric_column merged_df "rainfall_mm" = true ->
  two_days merged_df name t1 t2 -> (t1 < t2)%Z ->
  day_total merged_df (VTime t1) = VNum 100 ->
  (day_total merged_df (VTime t2) = VNum 70 ->
   exists tail,
     pdf_report._detect_anomalies merged_df default_drop_threshold
     = Ok [("Traffic dropped " ++ format_1f (VNum 30) ++ "% in "
            ++ str_value (VStr name) ++ " on " ++ str_value (VTime t2)
            ++ " (impressions " ++ format_commas 70 ++ " vs "
            ++ format_commas 100 ++ " previous day)" ++ tail)%string]
     /\ (has_column merged_df "rainfall_mm" = false -> tail = "."))
  /\ (day_total merged_df (VTime t2) = VNum 71 ->
      pdf_report._detect_anomalies merged_df default_drop_threshold = Ok [])
  /\ relative_change (VNum 100) (VNum 70) = Ok (VNum (-3 # 10))
  /\ vleb (VNum (-3 # 10)) (vneg default_drop_threshold) = true
  /\ drop_pct_of (VNum (-3 # 10)) = VNum 30
  /\ Binary64.is_drop (Binary64.relative_change (Binary64.of_Z 100) (Binary64.of_Z 70))
     = true
  /\ Binary64.drop_pct_of (Binary64.relative_change (Binary64.of_Z 100) (Binary64.of_Z 70))
     = Binary64.of_Z 30
  /\ Binary64.is_drop (Binary64.relative_change (Binary64.of_Z 100) (Binary64.of_Z 71))
     = false.
Proof.
  intros Hi Hl Hd Hrain Hdays Horder Hp.
  split; [ | split; [ | repeat split; vm_compute; reflexivity]].
  - intros Hc.
    rewrite (daily_scan merged_df name t1 t2 Hdays Horder default_drop_threshold 100 70
               Hi Hl Hd Hp ltac:(discriminate) Hc ltac:(discriminate)).
    unfold pdf_report.check_pair.
    cbn [cell lookup String.eqb Ascii.eqb Bool.eqb].
    change (vleb (VNum 100) (VNum 0)) with false. cbv iota.
    change (relative_change (VNum 100) (VNum 70)) with (@Ok value (VNum (-3 # 10))).
    cbn [bind].
    change (vleb (VNum (-3 # 10)) (vneg default_drop_threshold)) with true. cbv iota.
    change (drop_pct_of (VNum (-3 # 10))) with (VNum 30).
    change (py_int (VNum 70)) with (@Ok Z 70%Z).
    change (py_int (VNum 100)) with (@Ok Z 100%Z).
    cbn [bind].
    destruct (has_column merged_df "rainfall_mm").
    + pose proof (rain_vals_numeric_of_column merged_df (VTime t2) (VStr name) Hrain)
        as Hnum.
      destruct (rain_vals_at merged_df (VTime t2) (VStr name)) as [ | v vs].
      * exists ".". cbn [bind]. rewrite !append_assoc. split; [reflexivity | discriminate].
      * rewrite Hnum. cbn [bind]. eexists. rewrite !append_assoc.
        split; [reflexivity | discriminate].
    + exists ".". cbn [bind]. rewrite !append_assoc. split; reflexivity.
  - intros Hc.
    rewrite (daily_scan merged_df name t1 t2 Hdays Horder default_drop_threshold 100 71
               Hi Hl Hd Hp ltac:(discriminate) Hc ltac:(discriminate)).
    reflexivity.
Qed.

(** ** At concrete inputs *)

Lemma join_completeness_witness :
  schema_ok JoinExamples.unmatched = true /\ dates_ok JoinExamples.unmatched = true
  /\ exists st' merged metrics,
       process_data JoinExamples.unmatched = (st', Ok (merged, metrics))
       /\ map (key_of ["date"; "campaign_id"; "location"]) (rows merged)
          = [[VTime 1735948800000000000; VStr "CAMP01"; VStr "Delhi"];
             [VTime 1736035200000000000; VStr "CAMP01"; VStr "Delhi"];
             [VTime 1736035200000000000; VStr "CAMP02"; VStr "Mumbai"]]
       /\ map (fun u => [cell u "clicks"; cell u "conversions"; cell u "spend";
                         cell u "temperature_c"; cell u "rainfall_mm"]) (rows merged)
          = [[VNum 50; VNum 5; VNum 100; VNull; VNull];
             [VNum 30; VNum 3; VNum 60; VNum 25; VNum 12];
             [VNull; VNull; VNull; VNull; VNull]]
       /\ to_datetime (col (traffic_df JoinExamples.unmatched) "date")
          = Ok (col (traffic_df st') "date")
       /\ (forall c, c <> "date" ->
                     col (traffic_df st') c = col (traffic_df JoinExamples.unmatched) c)
       /\ (forall r,
           In r (rows (traffic_df st')) ->
           has_null_key (key_of ["date"; "campaign_id"; "location"] r) = false ->
           count_key ["date"; "campaign_id"; "location"]
             (key_of ["date"; "campaign_id"; "location"] r) merged = 1
           /\ forall u,
               In u (rows merged) ->
               key_eqb (key_of ["date"; "campaign_id"; "location"] u)
                       (key_of ["date"; "campaign_id"; "location"] r) = true ->
               ((forall x, In x (rows (clicks_df st')) ->
                           key_eqb (key_of ["date"; "campaign_id"] x)
                                   (key_of ["date"; "campaign_id"] r) = false) ->
                cell u "clicks" = VNull /\ cell u "conversions" = VNull
                /\ cell u "spend" = VNull)
               /\ ((forall x, In x (rows (weather_df st')) ->
                              key_eqb (key_of ["date"; "location"] x)
                                      (key_of ["date"; "location"] r) = false) ->
                   cell u "temperature_c" = VNull /\ cell u "rainfall_mm" = VNull))
       /\ (forall r,
           In r (rows (traffic_df st')) ->
           has_null_key (key_of ["date"; "campaign_id"; "location"] r) = true ->
           count_key ["date"; "campaign_id"; "location"]
             (key_of ["date"; "campaign_id"; "location"] r) merged = 0)
       /\ (forall u,
           In u (rows merged) ->
           exists r,
             In r (rows (traffic_df st'))
             /\ has_null_key (key_of ["date"; "campaign_id"; "location"] r) = false
             /\ key_of ["date"; "campaign_id"; "location"] u
                = key_of ["date"; "campaign_id"; "location"] r).
Proof.
  split; [reflexivity | split; [reflexivity | ]].
  destruct (join_completeness JoinExamples.unmatched)
    as [st' [merged [metrics [Hrun H]]]]; [reflexivity | reflexivity | ].
  exists st', merged, metrics. split; [exact Hrun | ].
  assert (E : merged = fst (match snd (process_data JoinExamples.unmatched) with
                            | Ok p => p
                            | Err _ => (merged, metrics)
                            end)) by (rewrite Hrun; reflexivity).
  split; [rewrite E; vm_compute; reflexivity | ].
  split; [rewrite E; vm_compute; reflexivity | exact H].
Defined.

Lemma threshold_boundary_witness :
  two_days (TwoCampaigns.frame 20) "Delhi" 1735948800000000000 1736035200000000000
  /\ two_days (TwoCampaigns.frame 21) "Delhi" 1735948800000000000 1736035200000000000
  /\ day_total (TwoCampaigns.frame 20) (VTime 1735948800000000000) = VNum 100
  /\ day_total (TwoCampaigns.frame 20) (VTime 1736035200000000000) = VNum 70
  /\ day_total (TwoCampaigns.frame 21) (VTime 1736035200000000000) = VNum 71
  /\ pdf_report._detect_anomalies (TwoCampaigns.frame 20) default_drop_threshold
     = Ok ["Traffic dropped 30.0% in Delhi on 2025-01-05 00:00:00 (impressions 70 vs 100 previous day)."]
  /\ pdf_report._detect_anomalies (TwoCampaigns.frame 21) default_drop_threshold
     = Ok [].
Proof.
  assert (D20 : two_days (TwoCampaigns.frame 20) "Delhi"
                  1735948800000000000 1736035200000000000).
  { intros r [<- | [<- | [<- | [<- | []]]]];
      (split; [reflexivity | split; [(now left) || (now right) | ]]);
      [exists 50%Z | exists 60%Z | exists 40%Z | exists 20%Z];
      (split; [lia | reflexivity]). }
  assert (D21 : two_days (TwoCampaigns.frame 21) "Delhi"
                  1735948800000000000 1736035200000000000).
  { intros r [<- | [<- | [<- | [<- | []]]]];
      (split; [reflexivity | split; [(now left) || (now right) | ]]);
      [exists 50%Z | exists 60%Z | exists 40%Z | exists 21%Z];
      (split; [lia | reflexivity]). }
  split; [exact D20 | split; [exact D21 | ]].
  split; [reflexivity | split; [reflexivity | split; [reflexivity | ]]].
  split.
  - destruct (threshold_boundary (TwoCampaigns.frame 20) "Delhi"
                1735948800000000000 1736035200000000000
                ltac:(reflexivity) ltac:(reflexivity) ltac:(reflexivity)
                ltac:(reflexivity) D20 ltac:(reflexivity) ltac:(reflexivity))
      as [H70 _].
    destruct (H70 eq_refl) as [tail [Hrun Htail]].
    rewrite Hrun, (Htail eq_refl). reflexivity.
  - destruct (threshold_boundary (TwoCampaigns.frame 21) "Delhi"
                1735948800000000000 1736035200000000000
                ltac:(reflexivity) ltac:(reflexivity) ltac:(reflexivity)
                ltac:(reflexivity) D21 ltac:(reflexivity) ltac:(reflexivity))
      as [_ [H71 _]].
    exact (H71 eq_refl).
Defined.
